(** * Secure FTP client with virus scanning: a shallow embedding

    The development follows the Python sources:
    - [network_utils.py]: [FTPResponse], [NetworkUtils.parse_pasv_response],
      [NetworkUtils.create_port_command], [NetworkUtils.send_file_to_clamav],
      [NetworkUtils.receive_data_with_timeout], the two file-transfer helpers;
    - [clamav_agent.py]: [ClamAVAgent.test_clamav], [ClamAVAgent.scan_file],
      [ClamAVAgent.handle_client];
    - [ftp_client.py]: [SecureFTPClient.connect], [login], [disconnect],
      [send_command], [receive_response], the data-connection openers,
      [interactive_mode];
    - [ftp_commands.py]: [FTPCommands.execute_command] and the commands it
      dispatches to, [cmd_get] and [cmd_put] among them;
    - [config_manager.py]: [ConfigManager.get], [set], [validate_config].

    Conventions.  A Python [str] is a [string] whose characters are the code
    points below 256; [str.isspace], [str.isdigit] and [int] are given their
    Python meaning on that range; [Unicode] has the text of every code point
    for the greeting that [connect] reads.  A [bytes] object is a [string] of
    octets.
    Integers are [Z]; [int] reads and [str] writes at most 4300 digits, as
    Python does.  Sockets, the clock, the scanner subprocess and the
    operator's keyboard are an environment the code talks to: every answer of
    the environment is read from a tape, every call is appended to a trace.
    Console output and logging are not modelled. *)

From Stdlib Require Import ZArith NArith String Ascii List Bool Lia.
From Stdlib Require Import DecimalString DecimalN DecimalZ.
From stdpp Require Import gmap strings.
Import ListNotations.

Local Open Scope string_scope.
Local Open Scope Z_scope.

(* Appending to a string literal computes. *)
#[local] Arguments String.append !s1 s2 : simpl nomatch.

(** ** Python exceptions *)

Inductive exn_kind :=
| SocketTimeout        (* socket.timeout *)
| TimeoutExpired       (* subprocess.TimeoutExpired *)
| ValueError
| OverflowError
| KeyError
| TypeError
| AttributeError
| FileNotFoundError
| EOFError
| OSError              (* any other failure reported by the system *)
| PlainException.      (* raise Exception(...) *)

(** An exception object: its class and [str(e)]. *)
Record exn := Exn { exn_kind_of : exn_kind; exn_msg : string }.

Inductive result (A : Type) :=
| Ok (a : A)
| Raise (e : exn).
Arguments Ok {A} a.
Arguments Raise {A} e.

(** ** Strings as Python sees them *)

Module PyStr.

Definition code_point (c : ascii) : N := N_of_ascii c.

(** [c.isspace()] for a code point below 256. *)
Definition isspace_char (c : ascii) : bool :=
  let n := code_point c in
  ((9 <=? n) && (n <=? 13) || (28 <=? n) && (n <=? 32)
   || (n =? 133) || (n =? 160))%N.

(** Code points '0'..'9': the decimal digits, the only ones [int] and the
    regular expression class [\d] accept below 256. *)
Definition isdecimal_char (c : ascii) : bool :=
  let n := code_point c in ((48 <=? n) && (n <=? 57))%N.

(** [c.isdigit()]: the decimal digits and the superscripts two, three and
    one (U+00B2, U+00B3, U+00B9). *)
Definition isdigit_char (c : ascii) : bool :=
  let n := code_point c in
  (isdecimal_char c || (n =? 178) || (n =? 179) || (n =? 185))%N.

Fixpoint all_chars (p : ascii -> bool) (s : string) : bool :=
  match s with
  | EmptyString => true
  | String c s' => p c && all_chars p s'
  end.

Definition nonempty (s : string) : bool :=
  match s with EmptyString => false | _ => true end.

(** [s.isdigit()] *)
Definition isdigit (s : string) : bool := nonempty s && all_chars isdigit_char s.

(** [s[:n]] and [s[n:]] for [n >= 0]. *)
Fixpoint take (n : nat) (s : string) : string :=
  match n, s with
  | S n', String c s' => String c (take n' s')
  | _, _ => EmptyString
  end.

Fixpoint drop (n : nat) (s : string) : string :=
  match n, s with
  | S n', String _ s' => drop n' s'
  | _, _ => s
  end.

Fixpoint lstrip (s : string) : string :=
  match s with
  | String c s' => if isspace_char c then lstrip s' else s
  | EmptyString => EmptyString
  end.

Fixpoint rstrip (s : string) : string :=
  match s with
  | String c s' =>
      match rstrip s' with
      | EmptyString => if isspace_char c then EmptyString else String c EmptyString
      | r => String c r
      end
  | EmptyString => EmptyString
  end.

(** [s.strip()] *)
Definition strip (s : string) : string := rstrip (lstrip s).

(** [s.split(sep)] for a one-character separator. *)
Fixpoint split (sep : ascii) (s : string) : list string :=
  match s with
  | EmptyString => [EmptyString]
  | String c s' =>
      if Ascii.eqb c sep then EmptyString :: split sep s'
      else match split sep s' with
           | h :: t => String c h :: t
           | [] => [String c EmptyString]
           end
  end.

(** [sep.join(parts)] *)
Fixpoint join (sep : string) (parts : list string) : string :=
  match parts with
  | [] => EmptyString
  | [p] => p
  | p :: rest => p ++ sep ++ join sep rest
  end.

(** [s.startswith(p)] *)
Definition startswith (p s : string) : bool := String.prefix p s.

(** The digits of an [int] literal with its underscores removed; an
    underscore is allowed only between two digits. *)
Fixpoint int_digits (prev_digit : bool) (s : string) : option string :=
  match s with
  | EmptyString => if prev_digit then Some EmptyString else None
  | String c s' =>
      if isdecimal_char c then
        option_map (String c) (int_digits true s')
      else if Ascii.eqb c "_" && prev_digit then int_digits false s'
      else None
  end.

Definition digits_value (ds : string) : option Z :=
  option_map (fun d => Z.of_N (N.of_uint d)) (NilEmpty.uint_of_string ds).

(** The white space [int] skips at both ends of a [str]: the characters of
    [str.isspace] without the separators U+001C to U+001F, which [int]
    refuses. *)
Definition int_space_char (c : ascii) : bool :=
  let n := code_point c in
  (isspace_char c && negb ((28 <=? n) && (n <=? 31)))%N.

Fixpoint int_lstrip (s : string) : string :=
  match s with
  | String c s' => if int_space_char c then int_lstrip s' else s
  | EmptyString => EmptyString
  end.

Fixpoint int_rstrip (s : string) : string :=
  match s with
  | String c s' =>
      match int_rstrip s' with
      | EmptyString => if int_space_char c then EmptyString else String c EmptyString
      | r => String c r
      end
  | EmptyString => EmptyString
  end.

(** [sys.int_info.default_max_str_digits]: the interpreter converts no
    more digits than these between [str] and [int], in either direction. *)
Definition max_str_digits : Z := 4300.

(** [int(s)]: surrounding white space, an optional sign, decimal digits
    with single underscores between them.  [None] stands for [ValueError],
    which is also raised when there are more than [max_str_digits] digits. *)
Definition int (s : string) : option Z :=
  let t := int_rstrip (int_lstrip s) in
  let '(negative, body) :=
    match t with
    | String "-" r => (true, r)
    | String "+" r => (false, r)
    | _ => (false, t)
    end in
  match int_digits false body with
  | Some ds =>
      if max_str_digits <? Z.of_nat (String.length ds) then None
      else option_map (fun v => if negative then - v else v) (digits_value ds)
  | None => None
  end.

(** The decimal digits of an integer, with its sign.  This is [str(n)] and
    [f"{n}"] when [n] has at most [max_str_digits] digits. *)
Definition of_int (z : Z) : string := NilEmpty.string_of_int (Z.to_int z).

(** How many decimal digits [z] has. *)
Definition digits (z : Z) : Z := Z.of_nat (String.length (of_int (Z.abs z))).

(** [str(n)] and [f"{n}"] for an integer: [None] stands for the
    [ValueError] raised when [n] has more than [max_str_digits] digits. *)
Definition str (z : Z) : option string :=
  if max_str_digits <? digits z then None else Some (of_int z).

(** What that [ValueError] says. *)
Definition digit_limit_message : string :=
  "Exceeds the limit (4300 digits) for integer string conversion; use sys.set_int_max_str_digits() to increase the limit".

(** [c.lower()] for a code point below 256: the capital letters A to Z and
    U+00C0 to U+00DE, the multiplication sign U+00D7 apart, move up by 32. *)
Definition lower_char (c : ascii) : ascii :=
  let n := code_point c in
  if ((65 <=? n) && (n <=? 90) || (192 <=? n) && (n <=? 222) && negb (n =? 215))%N
  then ascii_of_N (n + 32) else c.

(** [s.lower()] *)
Fixpoint lower (s : string) : string :=
  match s with
  | String c s' => String (lower_char c) (lower s')
  | EmptyString => EmptyString
  end.

(** [s.split()]: the words between runs of white space. *)
Fixpoint split_ws (s : string) : list string :=
  match s with
  | EmptyString => []
  | String c s' =>
      if isspace_char c then split_ws s'
      else
        let word_ends :=
          match s' with
          | String c' _ => isspace_char c'
          | EmptyString => true
          end in
        match split_ws s' with
        | w :: ws =>
            if word_ends then String c EmptyString :: w :: ws
            else String c w :: ws
        | [] => [String c EmptyString]
        end
  end.


(** [needle in s] for two strings. *)
Fixpoint contains (needle s : string) : bool :=
  String.prefix needle s
  || match s with
     | String _ s' => contains needle s'
     | EmptyString => false
     end.

End PyStr.

(** ** [class FTPResponse] *)

Module FTPResponse.

Record t := mk {
  raw : string;
  lines : list string;
  code : option Z;
  message : string
}.

Definition newline : ascii := ascii_of_nat 10.

(** [FTPResponse.__init__]; [int] raises [ValueError] on a digit that is
    not decimal. *)
Definition __init__ (response_text : string) : result t :=
  let lines := PyStr.split newline (PyStr.strip response_text) in
  match lines with
  | first_line :: _ =>
      if (3 <=? String.length first_line)%nat && PyStr.isdigit (PyStr.take 3 first_line) then
        match PyStr.int (PyStr.take 3 first_line) with
        | Some n =>
            Ok (mk response_text lines (Some n)
                  (if (3 <? String.length first_line)%nat then PyStr.drop 4 first_line
                   else EmptyString))
        | None => Raise (Exn ValueError "invalid literal for int() with base 10")
        end
      else Ok (mk response_text lines None EmptyString)
  | [] => Ok (mk response_text lines None EmptyString)
  end.

(** Truth value of [self.code and lo <= self.code < hi]. *)
Definition code_in (r : t) (lo hi : Z) : bool :=
  match code r with
  | Some c => negb (c =? 0) && (lo <=? c) && (c <? hi)
  | None => false
  end.

Definition is_positive (r : t) : bool := code_in r 200 300.
Definition is_positive_preliminary (r : t) : bool := code_in r 100 200.
Definition is_positive_intermediate (r : t) : bool := code_in r 300 400.

(** Truth value of [self.code and self.code >= 400]. *)
Definition is_error (r : t) : bool :=
  match code r with
  | Some c => negb (c =? 0) && (400 <=? c)
  | None => false
  end.

Definition classifications (r : t) : list bool :=
  [is_positive_preliminary r; is_positive r; is_positive_intermediate r; is_error r].

End FTPResponse.

(** ** The regular expression of [parse_pasv_response] *)

Module Regex.

(** The six groups of a match of
    [\((\d+),(\d+),(\d+),(\d+),(\d+),(\d+)\)]. *)
Record groups := Groups {
  g1 : string; g2 : string; g3 : string; g4 : string; g5 : string; g6 : string
}.

(** The longest run of decimal digits at the head of [s], and the rest.
    [\d+] is greedy, and giving a digit back never helps here: what
    follows [\d+] in the pattern is a character that is not a digit. *)
Fixpoint span_digits (s : string) : string * string :=
  match s with
  | String c s' =>
      if PyStr.isdecimal_char c then
        let '(d, r) := span_digits s' in (String c d, r)
      else (EmptyString, s)
  | EmptyString => (EmptyString, EmptyString)
  end.

(** [(\d+)] followed by the literal character [stop]. *)
Definition digits_then (stop : ascii) (s : string) : option (string * string) :=
  match span_digits s with
  | (String c d, String c' r) =>
      if Ascii.eqb c' stop then Some (String c d, r) else None
  | _ => None
  end.

(** The pattern matched at the head of [s]. *)
Definition match_here (s : string) : option groups :=
  match s with
  | String "(" s0 =>
      match digits_then "," s0 with
      | Some (d1, s1) =>
      match digits_then "," s1 with
      | Some (d2, s2) =>
      match digits_then "," s2 with
      | Some (d3, s3) =>
      match digits_then "," s3 with
      | Some (d4, s4) =>
      match digits_then "," s4 with
      | Some (d5, s5) =>
      match digits_then ")" s5 with
      | Some (d6, _) => Some (Groups d1 d2 d3 d4 d5 d6)
      | None => None end
      | None => None end
      | None => None end
      | None => None end
      | None => None end
      | None => None end
  | _ => None
  end.

(** [re.search]: the match at the leftmost position that has one. *)
Fixpoint search (s : string) : option groups :=
  match match_here s with
  | Some g => Some g
  | None =>
      match s with
      | String _ s' => search s'
      | EmptyString => None
      end
  end.

End Regex.

(** ** Python values ([json] results, the scan-result dictionaries) *)

#[local] Set Warnings "-register-all".

Inductive pyvalue :=
| PyNone
| PyBool (b : bool)
| PyInt (z : Z)
| PyFloat (literal : string)
| PyStr (s : string)
| PyList (items : list pyvalue)
| PyDict (items : list (string * pyvalue)).

Module Py.

Fixpoint assoc (key : string) (items : list (string * pyvalue)) : option pyvalue :=
  match items with
  | (k, v) :: rest => if String.eqb k key then Some v else assoc key rest
  | [] => None
  end.

(** [v[key]] for a [str] key: [KeyError] on a dictionary without the key,
    [TypeError] on anything that is not a dictionary. *)
Definition getitem (v : pyvalue) (key : string) : result pyvalue :=
  match v with
  | PyDict items =>
      match assoc key items with
      | Some x => Ok x
      | None => Raise (Exn KeyError key)
      end
  | _ => Raise (Exn TypeError "indices must be integers")
  end.

(** [v == s] for a [str] literal [s]. *)
Definition eq_str (v : pyvalue) (s : string) : bool :=
  match v with
  | PyStr s' => String.eqb s' s
  | _ => false
  end.

(** The dictionary literal [{'status': .., 'message': .., 'details': ..}]. *)
Definition scan_dict (status message details : string) : pyvalue :=
  PyDict [("status", PyStr status); ("message", PyStr message); ("details", PyStr details)].

(** [v['status'] == s], false when the lookup raises. *)
Definition has_status (v : pyvalue) (s : string) : bool :=
  match getitem v "status" with
  | Ok x => eq_str x s
  | Raise _ => false
  end.

End Py.

(** The interpreter's codecs, which the sources use and do not define:
    [bytes.decode('utf-8')] ([None] for [UnicodeDecodeError]),
    [str.encode('utf-8')], [json.loads] ([None] for [JSONDecodeError]),
    [json.dumps] and the rendering of [bytes] in an f-string. *)
Class Codecs := {
  utf8_decode : string -> option string;
  utf8_encode : string -> string;
  json_loads : string -> option pyvalue;
  json_dumps : pyvalue -> string;
  bytes_repr : string -> string
}.

(** ** The environment *)

(** The sockets of the system.  [Control], [Data] and [Agent] belong to the
    FTP client (control connection, data connection, connection to the scan
    agent); [Peer] is the accepted connection inside the agent's handler. *)
Inductive chan := Control | Data | Agent | Peer.

Inductive event :=
| EvSocket (c : chan)                             (* socket.socket() *)
| EvConnect (c : chan) (host : string) (port : Z)
| EvBind (c : chan)
| EvListen (c : chan)
| EvAccept (c : chan)
| EvSend (c : chan) (data : string)
| EvRecv (c : chan) (data : string)               (* recv returned [data] *)
| EvClose (c : chan)
| EvRaised (c : chan) (e : exn)                   (* a call on [c] raised [e] *)
| EvRun (cmd : list string)                       (* subprocess.run *)
| EvInput (prompt : string)                       (* input(prompt) *)
| EvGlob (pattern : string).                      (* glob.glob(pattern) *)

Definition chan_of (e : event) : option chan :=
  match e with
  | EvSocket c | EvConnect c _ _ | EvBind c | EvListen c | EvAccept c
  | EvSend c _ | EvRecv c _ | EvClose c | EvRaised c _ => Some c
  | EvRun _ | EvInput _ | EvGlob _ => None
  end.

(** What the environment answers to a call. *)
Inductive answer :=
| AOk                                             (* the call succeeds *)
| ABytes (data : string)                          (* bytes available to recv *)
| AAddr (host : string) (port : Z)                (* getsockname() *)
| AExit (returncode : Z) (stdout stderr : string) (* the subprocess exits *)
| AExpired (stdout stderr : string)               (* killed at the timeout; output so far *)
| ANames (paths : list string)                    (* glob.glob(pattern) *)
| ATimeout                                        (* socket.timeout *)
| AFail (msg : string).                           (* any other error *)

Record World := mkWorld {
  tape : list answer;            (* the answers to come *)
  fs : gmap string string;       (* files: path to contents *)
  keyboard : list string;        (* the operator's answers to input() *)
  now : Z;                       (* int(time.time()) *)
  trace : list event             (* the calls made so far, oldest first *)
}.

Definition set_tape (t : list answer) (w : World) : World :=
  mkWorld t (fs w) (keyboard w) (now w) (trace w).
Definition set_fs (f : gmap string string) (w : World) : World :=
  mkWorld (tape w) f (keyboard w) (now w) (trace w).
Definition set_keyboard (k : list string) (w : World) : World :=
  mkWorld (tape w) (fs w) k (now w) (trace w).
Definition log (e : event) (w : World) : World :=
  mkWorld (tape w) (fs w) (keyboard w) (now w) (trace w ++ [e]).

(** ** State and exceptions *)

Definition M (S A : Type) : Type := S -> result A * S.

Definition ret {S A} (a : A) : M S A := fun s => (Ok a, s).

Definition bind {S A B} (m : M S A) (k : A -> M S B) : M S B :=
  fun s =>
    match m s with
    | (Ok a, s') => k a s'
    | (Raise e, s') => (Raise e, s')
    end.

Definition raise {S A} (e : exn) : M S A := fun s => (Raise e, s).

(** [try: body / except Exception as e: handler e] *)
Definition try_except {S A} (body : M S A) (handler : exn -> M S A) : M S A :=
  fun s =>
    match body s with
    | (Ok a, s') => (Ok a, s')
    | (Raise e, s') => handler e s'
    end.

(** [try: body / except K as e: handler e] for the exceptions [catches] accepts. *)
Definition try_except_if {S A} (catches : exn -> bool) (body : M S A)
    (handler : exn -> M S A) : M S A :=
  fun s =>
    match body s with
    | (Ok a, s') => (Ok a, s')
    | (Raise e, s') => if catches e then handler e s' else (Raise e, s')
    end.

(** [try: body / finally: final] *)
Definition try_finally {S A} (body : M S A) (final : M S unit) : M S A :=
  fun s =>
    let '(r, s') := body s in
    match final s' with
    | (Ok _, s'') => (r, s'')
    | (Raise e, s'') => (Raise e, s'')
    end.

(** [try: body / except: pass] *)
Definition swallow {S} (body : M S unit) : M S unit :=
  try_except body (fun _ => ret tt).

Definition of_result {S A} (r : result A) : M S A := fun s => (r, s).

Declare Scope monad_scope.
Delimit Scope monad_scope with monad.
Notation "x <- c1 ;; c2" := (bind c1 (fun x => c2))
  (at level 100, c1 at next level, right associativity) : monad_scope.
Notation "c1 ;; c2" := (bind c1 (fun _ => c2))
  (at level 100, right associativity) : monad_scope.
Local Open Scope monad_scope.

Definition is_kind (k : exn_kind) (e : exn) : bool :=
  match k, exn_kind_of e with
  | SocketTimeout, SocketTimeout | TimeoutExpired, TimeoutExpired => true
  | _, _ => false
  end.

(** ** Calls to the environment *)

Module Env.

(** The next answer; a tape that ran out answers with a lost connection. *)
Definition next (w : World) : answer * World :=
  match tape w with
  | a :: rest => (a, set_tape rest w)
  | [] => (AFail "connection lost", w)
  end.

Definition failure {A} (c : chan) (e : exn) (w : World) : result A * World :=
  (Raise e, log (EvRaised c e) w).

Definition exn_of_answer (a : answer) : exn :=
  match a with
  | ATimeout => Exn SocketTimeout "timed out"
  | AFail msg => Exn OSError msg
  | _ => Exn OSError "unexpected state of the connection"
  end.

Definition socket (c : chan) : M World unit :=
  fun w => (Ok tt, log (EvSocket c) w).

Definition connect (c : chan) (host : string) (port : Z) : M World unit :=
  fun w =>
    match next w with
    | (AOk, w') => (Ok tt, log (EvConnect c host port) w')
    | (a, w') => failure c (exn_of_answer a) w'
    end.

Definition bind_any (c : chan) : M World unit :=
  fun w => (Ok tt, log (EvBind c) w).

Definition listen (c : chan) : M World unit :=
  fun w => (Ok tt, log (EvListen c) w).

Definition getsockname (c : chan) : M World (string * Z) :=
  fun w =>
    match next w with
    | (AAddr host port, w') => (Ok (host, port), w')
    | (a, w') => failure c (exn_of_answer a) w'
    end.

Definition accept (c : chan) : M World unit :=
  fun w =>
    match next w with
    | (AOk, w') => (Ok tt, log (EvAccept c) w')
    | (a, w') => failure c (exn_of_answer a) w'
    end.

Definition send (c : chan) (data : string) : M World unit :=
  fun w =>
    match next w with
    | (AOk, w') => (Ok tt, log (EvSend c data) w')
    | (a, w') => failure c (exn_of_answer a) w'
    end.



(** [recv(bufsize)]: at most [bufsize] bytes of what is available; the
    rest stays available.  No bytes available means the peer closed. *)
Definition recv (c : chan) (bufsize : Z) : M World string :=
  fun w =>
    match next w with
    | (ABytes data, w') =>
        if Z.of_nat (String.length data) <=? bufsize then
          (Ok data, log (EvRecv c data) w')
        else
          let n := Z.to_nat bufsize in
          (Ok (PyStr.take n data),
           log (EvRecv c (PyStr.take n data))
             (set_tape (ABytes (PyStr.drop n data) :: tape w') w'))
    | (a, w') => failure c (exn_of_answer a) w'
    end.

Definition close (c : chan) : M World unit :=
  fun w => (Ok tt, log (EvClose c) w).

(** [subprocess.run(cmd, capture_output=True, text=True, timeout=..)] *)
Definition run (cmd : list string) : M World (Z * string * string) :=
  fun w =>
    match next (log (EvRun cmd) w) with
    | (AExit rc out err, w') => (Ok (rc, out, err), w')
    | (AExpired _ _, w') => (Raise (Exn TimeoutExpired "timed out"), w')
    | (AFail msg, w') => (Raise (Exn OSError msg), w')
    | (_, w') => (Raise (Exn OSError "cannot run the command"), w')
    end.

(** [input(prompt)] *)
Definition input (prompt : string) : M World string :=
  fun w =>
    match keyboard w with
    | line :: rest => (Ok line, log (EvInput prompt) (set_keyboard rest w))
    | [] => (Raise (Exn EOFError "EOF when reading a line"), log (EvInput prompt) w)
    end.

(** [glob.glob(pattern)]: the paths the environment finds. *)
Definition glob (pattern : string) : M World (list string) :=
  fun w =>
    match next (log (EvGlob pattern) w) with
    | (ANames paths, w') => (Ok paths, w')
    | (AFail msg, w') => (Raise (Exn OSError msg), w')
    | (_, w') => (Ok [], w')
    end.

Definition time : M World Z := fun w => (Ok (now w), w).

(** Files fail only by being missing; faults of the disk are not modelled. *)
Definition exists_ (path : string) : M World bool :=
  fun w => (Ok (match fs w !! path with Some _ => true | None => false end), w).

Definition read_all (path : string) : M World string :=
  fun w =>
    match fs w !! path with
    | Some content => (Ok content, w)
    | None => (Raise (Exn FileNotFoundError path), w)
    end.

(** [Path.stat().st_size], [os.path.getsize] *)
Definition stat_size (path : string) : M World Z :=
  fun w =>
    match fs w !! path with
    | Some content => (Ok (Z.of_nat (String.length content)), w)
    | None => (Raise (Exn FileNotFoundError path), w)
    end.

(** [open(path, 'wb')] in the directory that the agent has made for its
    temporary files: the file exists and is empty from here on. *)
Definition open_wb (path : string) : M World unit :=
  fun w => (Ok tt, set_fs (<[path := EmptyString]> (fs w)) w).

(** [open(path, 'wb')] on a path that the caller chose: the system answers
    whether the file can be created there (the directory may be missing, or
    closed to the program).  When it can, the file is there and empty. *)
Definition open_wb_or_fail (path : string) : M World unit :=
  fun w =>
    match next w with
    | (AOk, w') => open_wb path w'
    | (AFail msg, w') => (Raise (Exn OSError msg), w')
    | (_, w') => (Raise (Exn OSError "cannot open the file"), w')
    end.

(** [f.write(chunk)] on a file opened with [open_wb]. *)
Definition write (path chunk : string) : M World unit :=
  fun w =>
    (Ok tt, set_fs (<[path := default EmptyString (fs w !! path) ++ chunk]> (fs w)) w).

(** [os.remove(path)], [Path.unlink()] *)
Definition remove (path : string) : M World unit :=
  fun w =>
    match fs w !! path with
    | Some _ => (Ok tt, set_fs (delete path (fs w)) w)
    | None => (Raise (Exn FileNotFoundError path), w)
    end.

End Env.

(** The events a run appended to the trace. *)
Definition new_events (before after : World) : list event :=
  skipn (length (trace before)) (trace after).

Definition on_chan (c : chan) (e : event) : bool :=
  match chan_of e, c with
  | Some Control, Control | Some Data, Data | Some Agent, Agent | Some Peer, Peer => true
  | _, _ => false
  end.

(** What was received on [c], in order. *)
Fixpoint received_on (c : chan) (evs : list event) : list string :=
  match evs with
  | EvRecv c' data :: rest =>
      if on_chan c (EvRecv c' data) then data :: received_on c rest
      else received_on c rest
  | _ :: rest => received_on c rest
  | [] => []
  end.

Definition is_raised (e : event) : bool :=
  match e with EvRaised _ _ => true | _ => false end.

(** ** [class NetworkUtils] *)

Module NetworkUtils.

(** [f"{h1}.{h2}.{h3}.{h4}"] for the numbers [parse_pasv_response] has read:
    each was read by [int] from at most [PyStr.max_str_digits] digits, so
    writing it does not raise. *)
Definition dotted (h1 h2 h3 h4 : Z) : string :=
  PyStr.of_int h1 ++ "." ++ PyStr.of_int h2 ++ "." ++ PyStr.of_int h3
    ++ "." ++ PyStr.of_int h4.

(** [parse_pasv_response]: [None] when nothing matches, and also when the
    body raises, which the [except Exception: pass] swallows: [int] raises
    on a group of more than [PyStr.max_str_digits] digits. *)
Definition parse_pasv_response (response : string) : option (string * Z) :=
  match Regex.search response with
  | Some g =>
      match PyStr.int (Regex.g1 g), PyStr.int (Regex.g2 g), PyStr.int (Regex.g3 g),
            PyStr.int (Regex.g4 g), PyStr.int (Regex.g5 g), PyStr.int (Regex.g6 g) with
      | Some h1, Some h2, Some h3, Some h4, Some p1, Some p2 =>
          let ip := dotted h1 h2 h3 h4 in
          let port := p1 * 256 + p2 in
          Some (ip, port)
      | _, _, _, _, _, _ => None
      end
  | None => None
  end.

(** [create_port_command]: [//] and [%] are floor division and its
    remainder, as [Z.div] and [Z.modulo] are for a positive divisor.  The
    f-string raises [ValueError] on a number of more than
    [PyStr.max_str_digits] digits, which the [except] wraps like the
    [ValueError] of the address. *)
Definition create_port_command (host : string) (port : Z) : result string :=
  let ip_parts := PyStr.split "." host in
  if negb (length ip_parts =? 4)%nat then
    Raise (Exn ValueError "Failed to create PORT command: Invalid IP address")
  else
    let p1 := port / 256 in
    let p2 := port mod 256 in
    match PyStr.str p1, PyStr.str p2 with
    | Some d1, Some d2 =>
        Ok ("PORT " ++ PyStr.join "," ip_parts ++ "," ++ d1 ++ "," ++ d2)
    | _, _ =>
        Raise (Exn ValueError
                 ("Failed to create PORT command: " ++ PyStr.digit_limit_message))
    end.

(** The chunk size of [f.read(8192)] and [sock.recv(8192)]. *)
Definition chunk_size : Z := 8192.

Definition len (s : string) : Z := Z.of_nat (String.length s).

(** [Path(p).name]: the last component of the path. *)
Definition path_name (p : string) : string :=
  List.last (PyStr.split "/" p) EmptyString.

(** [bytes.decode('utf-8')] and [json.loads] as calls that may raise. *)
Definition decode `{Codecs} {S} (data : string) : M S string :=
  match utf8_decode data with
  | Some text => ret text
  | None => raise (Exn ValueError "'utf-8' codec can't decode bytes")
  end.

Definition loads `{Codecs} {S} (text : string) : M S pyvalue :=
  match json_loads text with
  | Some v => ret v
  | None => raise (Exn ValueError "Expecting value")
  end.

(** The loop [while sent < size: chunk = f.read(8192); if not chunk: break;
    sock.send(chunk); sent += len(chunk)] over what is left to read of the
    file.  Every turn that goes on reads at least one byte, so a fuel of
    one more than the bytes left is never used up. *)
Fixpoint send_chunks (fuel : nat) (c : chan) (unread : string) (sent size : Z)
    : M World unit :=
  match fuel with
  | O => ret tt
  | S fuel' =>
      if sent <? size then
        let chunk := PyStr.take (Z.to_nat chunk_size) unread in
        if PyStr.nonempty chunk then
          Env.send c chunk ;;
          send_chunks fuel' c (PyStr.drop (Z.to_nat chunk_size) unread)
            (sent + len chunk) size
        else ret tt
      else ret tt
  end.

Definition send_file (c : chan) (content : string) (size : Z) : M World unit :=
  send_chunks (S (String.length content)) c content 0 size.

(** The [try] block of [send_file_to_clamav]: the exchange with the agent. *)
Definition scan_exchange `{Codecs} (file_path agent_host : string) (agent_port : Z)
    : M World pyvalue :=
  Env.socket Agent ;;
  Env.connect Agent agent_host agent_port ;;
  let filename := path_name file_path in
  file_size <- Env.stat_size file_path ;;
  Env.send Agent (utf8_encode ("FILENAME:" ++ filename)) ;;
  response <- Env.recv Agent 1024 ;;
  if negb (String.eqb response "READY") then
    raise (Exn PlainException ("Unexpected response: " ++ bytes_repr response))
  else
  Env.send Agent (utf8_encode ("SIZE:" ++ PyStr.of_int file_size)) ;;
  response <- Env.recv Agent 1024 ;;
  if negb (String.eqb response "READY") then
    raise (Exn PlainException ("Unexpected response: " ++ bytes_repr response))
  else
  content <- Env.read_all file_path ;;
  send_file Agent content file_size ;;
  result_data <- Env.recv Agent 4096 ;;
  result_text <- decode result_data ;;
  result <- loads result_text ;;
  Env.close Agent ;;
  ret result.

(** [send_file_to_clamav].  [Path.resolve] is taken as the identity. *)
Definition send_file_to_clamav `{Codecs} (file_path agent_host : string)
    (agent_port : Z) : M World pyvalue :=
  found <- Env.exists_ file_path ;;
  if negb found then
    ret (Py.scan_dict "ERROR" "File not found" ("File does not exist: " ++ file_path))
  else
    try_except
      (scan_exchange file_path agent_host agent_port)
      (fun e => ret (Py.scan_dict "ERROR" "Failed to scan file" (exn_msg e))).

(** [send_file_via_socket]; the progress callback only prints. *)
Definition send_file_via_socket (sock : chan) (file_path : string) : M World bool :=
  try_except
    ( total_size <- Env.stat_size file_path ;;
      content <- Env.read_all file_path ;;
      send_file sock content total_size ;;
      ret true )
    (fun _ => ret false).

(** What the answers to come can still deliver: a bound on the number of
    [recv] calls that return data. *)
Fixpoint tape_weight (t : list answer) : nat :=
  match t with
  | ABytes data :: rest => S (String.length data + tape_weight rest)
  | _ :: rest => S (tape_weight rest)
  | [] => O
  end.

(** The loop [while True: chunk = sock.recv(8192); if not chunk: break;
    f.write(chunk)]. *)
Fixpoint recv_chunks (fuel : nat) (sock : chan) (file_path : string) : M World unit :=
  match fuel with
  | O => ret tt
  | S fuel' =>
      chunk <- Env.recv sock chunk_size ;;
      if PyStr.nonempty chunk then
        Env.write file_path chunk ;;
        recv_chunks fuel' sock file_path
      else ret tt
  end.

(** [receive_file_via_socket]: the file is opened inside the [try], so a
    file that cannot be opened gives [False] like an error of the transfer;
    the progress callback only prints. *)
Definition receive_file_via_socket (sock : chan) (file_path : string) : M World bool :=
  try_except
    ( Env.open_wb_or_fail file_path ;;
      (fun w => recv_chunks (S (tape_weight (tape w))) sock file_path w) ;;
      ret true )
    (fun _ => ret false).




End NetworkUtils.

(** ** [class ClamAVAgent] *)

Module ClamAVAgent.

(** [self.config['clamav']] *)
Record config := mkConfig {
  command : string;
  temp_dir : string;
  timeout : Z
}.

(** [scan_file]: the outcome of the scanner as a scan-result dictionary. *)
Definition scan_file (cfg : config) (file_path : string) : M World pyvalue :=
  try_except
    ( let cmd := [command cfg; "--no-summary"; "--infected"; file_path] in
      completed <- Env.run cmd ;;
      let '(returncode, stdout, stderr) := completed in
      if returncode =? 0 then
        ret (Py.scan_dict "OK" "File is clean" (PyStr.strip stdout))
      else if returncode =? 1 then
        ret (Py.scan_dict "INFECTED" "Virus detected" (PyStr.strip stdout))
      else
        ret (Py.scan_dict "ERROR" "Scan failed" (PyStr.strip stderr)) )
    (fun e =>
       if is_kind TimeoutExpired e then
         ret (Py.scan_dict "ERROR" "Scan timeout" "Scan took too long")
       else
         ret (Py.scan_dict "ERROR" "Scan failed" (exn_msg e))).

(** [self.temp_dir / f"scan_{int(time.time())}_{filename}"] *)
Definition temp_path (cfg : config) (time : Z) (filename : string) : string :=
  temp_dir cfg ++ "/" ++ "scan_" ++ PyStr.of_int time ++ "_" ++ filename.

(** The loop [while received < file_size: chunk = recv(min(8192, file_size -
    received)); if not chunk: break; f.write(chunk); received += len(chunk)];
    its value is [received]. *)
Fixpoint recv_payload (fuel : nat) (temp_file_path : string) (received file_size : Z)
    : M World Z :=
  match fuel with
  | O => ret received
  | S fuel' =>
      if received <? file_size then
        chunk <- Env.recv Peer (Z.min NetworkUtils.chunk_size (file_size - received)) ;;
        if PyStr.nonempty chunk then
          Env.write temp_file_path chunk ;;
          recv_payload fuel' temp_file_path (received + NetworkUtils.len chunk) file_size
        else ret received
      else ret received
  end.

(** [handle_client], on the accepted connection [Peer]. *)
Definition handle_client `{Codecs} (cfg : config) : M World unit :=
  try_finally
    (try_except
       ( filename_data <- Env.recv Peer 1024 ;;
         filename_msg <- NetworkUtils.decode filename_data ;;
         if negb (PyStr.startswith "FILENAME:" filename_msg) then
           raise (Exn ValueError "Invalid protocol: expected FILENAME")
         else
         let filename := PyStr.drop 9 filename_msg in
         Env.send Peer "READY" ;;
         size_data <- Env.recv Peer 1024 ;;
         size_msg <- NetworkUtils.decode size_data ;;
         if negb (PyStr.startswith "SIZE:" size_msg) then
           raise (Exn ValueError "Invalid protocol: expected SIZE")
         else
         match PyStr.int (PyStr.drop 5 size_msg) with
         | None => raise (Exn ValueError "invalid literal for int() with base 10")
         | Some file_size =>
             Env.send Peer "READY" ;;
             time <- Env.time ;;
             let temp_file_path := temp_path cfg time filename in
             Env.open_wb temp_file_path ;;
             received <- (fun w =>
               recv_payload (S (NetworkUtils.tape_weight (tape w)))
                 temp_file_path 0 file_size w) ;;
             scan_result <- scan_file cfg temp_file_path ;;
             let response := json_dumps scan_result in
             Env.send Peer (utf8_encode response) ;;
             status <- of_result (Py.getitem scan_result "status") ;;
             swallow (Env.remove temp_file_path)
         end )
       (fun e =>
          swallow
            (Env.send Peer
               (utf8_encode
                  (json_dumps (Py.scan_dict "ERROR" "Server error" (exn_msg e)))))))
    (swallow (Env.close Peer)).

(** [test_clamav].  With the exit code 0 the method logs
    [result.stdout.strip().split()[0]]; on an output without a word the
    subscript raises [IndexError], which [except Exception] turns into
    [False] like every other exception. *)
Definition test_clamav (cfg : config) : M World bool :=
  try_except
    ( completed <- Env.run [command cfg; "--version"] ;;
      let '(returncode, stdout, stderr) := completed in
      if returncode =? 0 then
        match PyStr.split_ws (PyStr.strip stdout) with
        | version :: _ => ret true
        | [] => ret false
        end
      else ret false )
    (fun _ => ret false).

End ClamAVAgent.

(** ** [class SecureFTPClient] *)

Module SecureFTPClient.

(** [self.config]: the [ftp_server] and [clamav_agent] entries, and the
    [passive_mode] of the [client] entry. *)
Record config := mkConfig {
  ftp_host : string;
  ftp_port : Z;
  username : string;
  password : string;
  clamav_host : string;
  clamav_port : Z;
  client_passive_mode : bool
}.

(** The attributes of the client object.  [control_socket] tells whether
    the attribute holds a socket ([true]) or [None] ([false]). *)
Record t := mk {
  cfg : config;
  control_socket : bool;
  connected : bool;
  logged_in : bool;
  passive_mode : bool;
  current_dir : string;
  transfer_mode : string;
  prompt_mode : bool
}.

(** [__init__] *)
Definition __init__ (c : config) : t :=
  mk c false false false (client_passive_mode c) "/" "binary" true.

Definition set_control_socket (b : bool) (c : t) : t :=
  mk (cfg c) b (connected c) (logged_in c) (passive_mode c) (current_dir c)
    (transfer_mode c) (prompt_mode c).
Definition set_connected (b : bool) (c : t) : t :=
  mk (cfg c) (control_socket c) b (logged_in c) (passive_mode c) (current_dir c)
    (transfer_mode c) (prompt_mode c).
Definition set_logged_in (b : bool) (c : t) : t :=
  mk (cfg c) (control_socket c) (connected c) b (passive_mode c) (current_dir c)
    (transfer_mode c) (prompt_mode c).
Definition set_passive_mode (b : bool) (c : t) : t :=
  mk (cfg c) (control_socket c) (connected c) (logged_in c) b (current_dir c)
    (transfer_mode c) (prompt_mode c).
Definition set_transfer (m : string) (c : t) : t :=
  mk (cfg c) (control_socket c) (connected c) (logged_in c) (passive_mode c)
    (current_dir c) m (prompt_mode c).

Definition set_current_dir (d : string) (c : t) : t :=
  mk (cfg c) (control_socket c) (connected c) (logged_in c) (passive_mode c) d
    (transfer_mode c) (prompt_mode c).
Definition set_prompt_mode (b : bool) (c : t) : t :=
  mk (cfg c) (control_socket c) (connected c) (logged_in c) (passive_mode c)
    (current_dir c) (transfer_mode c) b.

(** The client object together with the environment. *)
Record Session := mkSession { client : t; world : World }.

Definition self : M Session t := fun s => (Ok (client s), s).

Definition update (f : t -> t) : M Session unit :=
  fun s => (Ok tt, mkSession (f (client s)) (world s)).

(** A call to the environment from a method of the client. *)
Definition env {A} (m : M World A) : M Session A :=
  fun s => let '(r, w) := m (world s) in (r, mkSession (client s) w).

Definition crlf : string := String (ascii_of_nat 13) (String (ascii_of_nat 10) EmptyString).

(** [connect] *)
Definition connect `{Codecs} (host : option string) (port : option Z) : M Session bool :=
  c <- self ;;
  let host := default (ftp_host (cfg c)) host in
  let port := default (ftp_port (cfg c)) port in
  try_except
    ( env (Env.socket Control) ;;
      update (set_control_socket true) ;;
      env (Env.connect Control host port) ;;
      try_except_if (is_kind SocketTimeout)
        ( welcome_data <- env (Env.recv Control 1024) ;;
          decoded <- NetworkUtils.decode welcome_data ;;
          let welcome_text := PyStr.strip decoded in
          if PyStr.startswith "220" welcome_text then
            update (set_connected true) ;;
            ret true
          else ret false )
        (fun _ => ret false) )
    (fun _ => ret false).

(** [send_command] *)
Definition send_command `{Codecs} (command : string) : M Session unit :=
  c <- self ;;
  if negb (connected c) then raise (Exn PlainException "Not connected to server")
  else if negb (control_socket c) then
    raise (Exn AttributeError "'NoneType' object has no attribute 'send'")
  else env (Env.send Control (utf8_encode (command ++ crlf))).

(** [receive_response] *)
Definition receive_response `{Codecs} : M Session FTPResponse.t :=
  try_except
    ( c <- self ;;
      if negb (control_socket c) then
        raise (Exn AttributeError "'NoneType' object has no attribute 'recv'")
      else
        response_data <- env (Env.recv Control 1024) ;;
        decoded <- NetworkUtils.decode response_data ;;
        let response_text := PyStr.strip decoded in
        of_result (FTPResponse.__init__ response_text) )
    (fun e => raise (Exn PlainException ("Failed to receive response: " ++ exn_msg e))).

Definition code_is (r : FTPResponse.t) (n : Z) : bool :=
  match FTPResponse.code r with
  | Some c => c =? n
  | None => false
  end.

(** [login] *)
Definition login `{Codecs} (user pass : option string) : M Session bool :=
  c <- self ;;
  if negb (connected c) then ret false
  else
    let user := default (username (cfg c)) user in
    let pass := default (password (cfg c)) pass in
    try_except
      ( swallow
          ( send_command "AUTH TLS" ;;
            auth_response <- receive_response ;;
            ret tt ) ;;
        send_command ("USER " ++ user) ;;
        response <- receive_response ;;
        response <-
          (if code_is response 331 then
             send_command ("PASS " ++ pass) ;;
             receive_response
           else if code_is response 503 then
             send_command ("USER " ++ user) ;;
             response <- receive_response ;;
             if code_is response 331 then
               send_command ("PASS " ++ pass) ;;
               receive_response
             else ret response
           else ret response) ;;
        if FTPResponse.is_positive response then
          update (set_logged_in true) ;;
          ret true
        else ret false )
      (fun _ => ret false).

(** [disconnect] *)
Definition disconnect `{Codecs} : M Session unit :=
  c <- self ;;
  if connected c then
    try_finally
      (swallow
         ( (if logged_in c then
              send_command "QUIT" ;;
              quit_response <- receive_response ;;
              ret tt
            else ret tt) ;;
           c' <- self ;;
           if control_socket c' then env (Env.close Control)
           else raise (Exn AttributeError "'NoneType' object has no attribute 'close'") ))
      (update (fun c => set_control_socket false (set_logged_in false (set_connected false c))))
  else ret tt.

(** [_open_passive_data_connection] *)
Definition _open_passive_data_connection `{Codecs} : M Session unit :=
  send_command "PASV" ;;
  response <- receive_response ;;
  if negb (FTPResponse.is_positive response) then
    raise (Exn PlainException ("PASV failed: " ++ FTPResponse.message response))
  else
    match NetworkUtils.parse_pasv_response (FTPResponse.message response) with
    | None =>
        raise (Exn PlainException
                 ("Failed to parse PASV response: " ++ FTPResponse.message response))
    | Some (host, port) =>
        env (Env.socket Data) ;;
        env (Env.connect Data host port)
    end.

(** [_open_active_data_connection] *)
Definition _open_active_data_connection `{Codecs} : M Session unit :=
  env (Env.socket Data) ;;
  env (Env.bind_any Data) ;;
  env (Env.listen Data) ;;
  bound <- env (Env.getsockname Data) ;;
  let port := snd bound in
  c <- self ;;
  (if control_socket c then ret tt
   else raise (Exn AttributeError "'NoneType' object has no attribute 'getsockname'")) ;;
  local <- env (Env.getsockname Control) ;;
  let client_host := fst local in
  port_command <- of_result (NetworkUtils.create_port_command client_host port) ;;
  send_command port_command ;;
  response <- receive_response ;;
  if negb (FTPResponse.is_positive response) then
    env (Env.close Data) ;;
    raise (Exn PlainException ("PORT failed: " ++ FTPResponse.message response))
  else ret tt.

(** [open_data_connection]; the data socket it returns is [Data]. *)
Definition open_data_connection `{Codecs} : M Session unit :=
  c <- self ;;
  if passive_mode c then _open_passive_data_connection
  else _open_active_data_connection.

(** [scan_file_for_virus] *)
Definition scan_file_for_virus `{Codecs} (file_path : string) : M Session pyvalue :=
  c <- self ;;
  env (NetworkUtils.send_file_to_clamav file_path (clamav_host (cfg c))
         (clamav_port (cfg c))).

(** [mode.lower() == 'ascii']: the five letters in either case. *)
Definition lower_is_ascii (mode : string) : bool :=
  match mode with
  | String a (String s (String c (String i (String j EmptyString)))) =>
      (Ascii.eqb a "a" || Ascii.eqb a "A") && (Ascii.eqb s "s" || Ascii.eqb s "S")
      && (Ascii.eqb c "c" || Ascii.eqb c "C") && (Ascii.eqb i "i" || Ascii.eqb i "I")
      && (Ascii.eqb j "i" || Ascii.eqb j "I")
  | _ => false
  end.

(** [set_transfer_mode] *)
Definition set_transfer_mode `{Codecs} (mode : string) : M Session unit :=
  (if lower_is_ascii mode then
     send_command "TYPE A" ;;
     update (set_transfer "ascii")
   else
     send_command "TYPE I" ;;
     update (set_transfer "binary")) ;;
  response <- receive_response ;;
  ret tt.

(** [toggle_passive_mode] *)
Definition toggle_passive_mode : M Session unit :=
  c <- self ;;
  update (set_passive_mode (negb (passive_mode c))).

End SecureFTPClient.

(** ** [class FTPCommands] *)

Module FTPCommands.
Import SecureFTPClient.

(** [_check_connection] *)
Definition _check_connection : M Session bool :=
  c <- self ;;
  if negb (connected c) then ret false
  else if negb (logged_in c) then ret false
  else ret true.

(** [os.path.basename(p)]: what follows the last slash. *)
Definition basename (p : string) : string :=
  List.last (PyStr.split "/" p) EmptyString.

(** [confirm.lower() != 'y'] *)
Definition lower_is_y (confirm : string) : bool :=
  String.eqb confirm "y" || String.eqb confirm "Y".

(** [cmd_get] *)
Definition cmd_get `{Codecs} (args : list string) : M Session unit :=
  ready <- _check_connection ;;
  if negb ready then ret tt
  else
    match args with
    | [] => ret tt
    | remote_file :: more =>
        let local_file := match more with l :: _ => l | [] => remote_file end in
        try_except
          ( open_data_connection ;;
            send_command ("RETR " ++ remote_file) ;;
            response <- receive_response ;;
            if FTPResponse.is_positive_preliminary response then
              c <- self ;;
              (if negb (passive_mode c) then env (Env.accept Data) else ret tt) ;;
              success <- env (NetworkUtils.receive_file_via_socket Data local_file) ;;
              env (Env.close Data) ;;
              response <- receive_response ;;
              if success && FTPResponse.is_positive response then ret tt
              else swallow (env (Env.remove local_file))
            else env (Env.close Data) )
          (fun _ => ret tt)
    end.

(** [cmd_put] *)
Definition cmd_put `{Codecs} (args : list string) : M Session unit :=
  ready <- _check_connection ;;
  if negb ready then ret tt
  else
    match args with
    | [] => ret tt
    | local_file :: more =>
        let remote_file := match more with r :: _ => r | [] => basename local_file end in
        found <- env (Env.exists_ local_file) ;;
        if negb found then ret tt
        else
          try_except
            ( scan_result <- scan_file_for_virus local_file ;;
              status <- of_result (Py.getitem scan_result "status") ;;
              if Py.eq_str status "INFECTED" then
                message <- of_result (Py.getitem scan_result "message") ;;
                details <- of_result (Py.getitem scan_result "details") ;;
                ret tt
              else
                status <- of_result (Py.getitem scan_result "status") ;;
                proceed <-
                  (if Py.eq_str status "ERROR" then
                     message <- of_result (Py.getitem scan_result "message") ;;
                     confirm <- env (Env.input "Continue upload without scan? (y/N): ") ;;
                     ret (lower_is_y confirm)
                   else ret true) ;;
                if negb proceed then ret tt
                else
                  open_data_connection ;;
                  send_command ("STOR " ++ remote_file) ;;
                  response <- receive_response ;;
                  if FTPResponse.is_positive_preliminary response then
                    c <- self ;;
                    (if negb (passive_mode c) then env (Env.accept Data) else ret tt) ;;
                    file_size <- env (Env.stat_size local_file) ;;
                    success <- env (NetworkUtils.send_file_via_socket Data local_file) ;;
                    env (Env.close Data) ;;
                    response <- receive_response ;;
                    ret tt
                  else env (Env.close Data) )
            (fun _ => ret tt)
    end.

(** [cmd_open]: [int(args[1])] guards the port; the keyboard gives the
    host, the user name and, through [getpass], the password. *)
Definition cmd_open `{Codecs} (args : list string) : M Session unit :=
  host <- (match args with
           | [] => env (Env.input "Host: ")
           | h :: _ => ret h
           end) ;;
  match (match args with
         | _ :: p :: _ => PyStr.int p
         | _ => Some 21
         end) with
  | None => ret tt
  | Some port =>
      ok <- connect (Some host) (Some port) ;;
      if ok then
        typed <- env (Env.input "Username: ") ;;
        let user := if PyStr.nonempty typed then typed else "anonymous" in
        pass <- (if String.eqb user "anonymous" then ret "anonymous@example.com"
                 else env (Env.input "Password: ")) ;;
        logged <- login (Some user) (Some pass) ;;
        ret tt
      else ret tt
  end.

(** [cmd_close] *)
Definition cmd_close `{Codecs} (args : list string) : M Session unit := disconnect.

(** The loop [while True: chunk = recv(8192); if not chunk: break;
    listing_data += chunk] inside [try: ... except: pass]: what was received
    when the loop ended or raised. *)
Fixpoint recv_listing (fuel : nat) (listing_data : string) : M World string :=
  match fuel with
  | O => ret listing_data
  | S fuel' =>
      received <- try_except
                    (chunk <- Env.recv Data NetworkUtils.chunk_size ;; ret (Some chunk))
                    (fun _ => ret None) ;;
      match received with
      | Some chunk =>
          if PyStr.nonempty chunk then recv_listing fuel' (listing_data ++ chunk)
          else ret listing_data
      | None => ret listing_data
      end
  end.

(** [int(g)] for a group of the match; [ValueError] when it fails. *)
Definition int_of_group {S} (g : string) : M S Z :=
  match PyStr.int g with
  | Some z => ret z
  | None => raise (Exn ValueError "invalid literal for int() with base 10")
  end.

(** [cmd_ls]; it parses the PASV reply by itself and refuses active mode. *)
Definition cmd_ls `{Codecs} (args : list string) : M Session unit :=
  ready <- _check_connection ;;
  if negb ready then ret tt
  else
    try_except
      ( c <- self ;;
        if passive_mode c then
          send_command "PASV" ;;
          response <- receive_response ;;
          if FTPResponse.is_positive response then
            match Regex.search (FTPResponse.message response) with
            | Some g =>
                h1 <- int_of_group (Regex.g1 g) ;;
                h2 <- int_of_group (Regex.g2 g) ;;
                h3 <- int_of_group (Regex.g3 g) ;;
                h4 <- int_of_group (Regex.g4 g) ;;
                p1 <- int_of_group (Regex.g5 g) ;;
                p2 <- int_of_group (Regex.g6 g) ;;
                let host := NetworkUtils.dotted h1 h2 h3 h4 in
                let port := p1 * 256 + p2 in
                env (Env.socket Data) ;;
                env (Env.connect Data host port) ;;
                let path := match args with a :: _ => a | [] => EmptyString end in
                send_command ("LIST " ++ path) ;;
                response <- receive_response ;;
                if FTPResponse.is_positive_preliminary response then
                  listing_data <-
                    env (fun w =>
                           recv_listing (S (NetworkUtils.tape_weight (tape w)))
                             EmptyString w) ;;
                  env (Env.close Data) ;;
                  response <- receive_response ;;
                  if FTPResponse.is_positive response then
                    listing <- NetworkUtils.decode listing_data ;;
                    ret tt
                  else ret tt
                else ret tt
            | None => ret tt
            end
          else ret tt
        else ret tt )
      (fun _ => ret tt).

(** ["/".join(cur.split("/")[:-1]) or "/"] *)
Definition parent_dir (cur : string) : string :=
  let joined := PyStr.join "/" (removelast (PyStr.split "/" cur)) in
  if PyStr.nonempty joined then joined else "/".

(** [s.replace("//", "/")]: the occurrences are taken from the left and do
    not overlap. *)
Fixpoint replace_double_slash (s : string) : string :=
  match s with
  | String "/" (String "/" rest) => String "/" (replace_double_slash rest)
  | String c rest => String c (replace_double_slash rest)
  | EmptyString => EmptyString
  end.

(** [cmd_cd] *)
Definition cmd_cd `{Codecs} (args : list string) : M Session unit :=
  ready <- _check_connection ;;
  if negb ready then ret tt
  else
    match args with
    | [] => ret tt
    | directory :: _ =>
        try_except
          ( send_command ("CWD " ++ directory) ;;
            response <- receive_response ;;
            if FTPResponse.is_positive response then
              c <- self ;;
              if String.eqb directory ".." then
                update (set_current_dir (parent_dir (current_dir c)))
              else if PyStr.startswith "/" directory then
                update (set_current_dir directory)
              else
                update (set_current_dir
                          (replace_double_slash (current_dir c ++ "/" ++ directory)))
            else ret tt )
          (fun _ => ret tt)
    end.

Definition double_quote : ascii := ascii_of_nat 34.

(** [cmd_pwd]: the text between the first two double quotes of the reply,
    when there are two, becomes the current directory. *)
Definition cmd_pwd `{Codecs} (args : list string) : M Session unit :=
  ready <- _check_connection ;;
  if negb ready then ret tt
  else
    try_except
      ( send_command "PWD" ;;
        response <- receive_response ;;
        if FTPResponse.is_positive response then
          match PyStr.split double_quote (FTPResponse.message response) with
          | _ :: quoted :: _ :: _ => update (set_current_dir quoted)
          | _ => ret tt
          end
        else ret tt )
      (fun _ => ret tt).

(** [cmd_mkdir], [cmd_rmdir] and [cmd_delete]: one command with one
    argument, and its reply. *)
Definition one_argument_command `{Codecs} (verb : string) (args : list string)
    : M Session unit :=
  ready <- _check_connection ;;
  if negb ready then ret tt
  else
    match args with
    | [] => ret tt
    | name :: _ =>
        try_except
          ( send_command (verb ++ " " ++ name) ;;
            response <- receive_response ;;
            ret tt )
          (fun _ => ret tt)
    end.

Definition cmd_mkdir `{Codecs} (args : list string) : M Session unit :=
  one_argument_command "MKD" args.
Definition cmd_rmdir `{Codecs} (args : list string) : M Session unit :=
  one_argument_command "RMD" args.
Definition cmd_delete `{Codecs} (args : list string) : M Session unit :=
  one_argument_command "DELE" args.

(** [cmd_rename] *)
Definition cmd_rename `{Codecs} (args : list string) : M Session unit :=
  ready <- _check_connection ;;
  if negb ready then ret tt
  else
    match args with
    | [old_name; new_name] =>
        try_except
          ( send_command ("RNFR " ++ old_name) ;;
            response <- receive_response ;;
            if FTPResponse.is_positive_intermediate response then
              send_command ("RNTO " ++ new_name) ;;
              response <- receive_response ;;
              ret tt
            else ret tt )
          (fun _ => ret tt)
    | _ => ret tt
    end.

(** ['*' in pattern] *)
Fixpoint has_star (pattern : string) : bool :=
  match pattern with
  | String c rest => Ascii.eqb c "*" || has_star rest
  | EmptyString => false
  end.

(** The loop [for pattern in args] of [cmd_mget]. *)
Fixpoint mget_each `{Codecs} (patterns : list string) : M Session unit :=
  match patterns with
  | pattern :: rest =>
      (if has_star pattern then ret tt else cmd_get [pattern]) ;;
      mget_each rest
  | [] => ret tt
  end.

(** [cmd_mget] *)
Definition cmd_mget `{Codecs} (args : list string) : M Session unit :=
  ready <- _check_connection ;;
  if negb ready then ret tt
  else
    match args with
    | [] => ret tt
    | _ =>
        try_except
          ( send_command "LIST" ;;
            response <- receive_response ;;
            (if FTPResponse.is_positive_preliminary response then cmd_ls [] else ret tt) ;;
            mget_each args )
          (fun _ => ret tt)
    end.

(** The loop [for file_path in files] of [cmd_mput]. *)
Fixpoint mput_each `{Codecs} (files : list string) : M Session unit :=
  match files with
  | file_path :: rest =>
      is_file <- env (Env.exists_ file_path) ;;
      (if is_file then
         c <- self ;;
         go <- (if prompt_mode c then
                  confirm <- env (Env.input ("Upload " ++ file_path ++ "? (y/n): ")) ;;
                  ret (lower_is_y confirm)
                else ret true) ;;
         if go then cmd_put [file_path] else ret tt
       else ret tt) ;;
      mput_each rest
  | [] => ret tt
  end.

(** The loop [for pattern in args] of [cmd_mput], each turn in its [try]. *)
Fixpoint mput_patterns `{Codecs} (patterns : list string) : M Session unit :=
  match patterns with
  | pattern :: rest =>
      try_except
        ( files <- env (Env.glob pattern) ;;
          mput_each files )
        (fun _ => ret tt) ;;
      mput_patterns rest
  | [] => ret tt
  end.

(** [cmd_mput] *)
Definition cmd_mput `{Codecs} (args : list string) : M Session unit :=
  ready <- _check_connection ;;
  if negb ready then ret tt
  else mput_patterns args.

(** [cmd_ascii], [cmd_binary], [cmd_passive] *)
Definition cmd_ascii `{Codecs} (args : list string) : M Session unit :=
  set_transfer_mode "ascii".
Definition cmd_binary `{Codecs} (args : list string) : M Session unit :=
  set_transfer_mode "binary".
Definition cmd_passive (args : list string) : M Session unit := toggle_passive_mode.

(** [cmd_status] and [cmd_help] only print. *)
Definition cmd_status (args : list string) : M Session unit := ret tt.
Definition cmd_help (args : list string) : M Session unit := ret tt.

(** [cmd_prompt] *)
Definition cmd_prompt (args : list string) : M Session unit :=
  c <- self ;;
  update (set_prompt_mode (negb (prompt_mode c))).

(** The [command_map] of [execute_command]. *)
Definition command_map `{Codecs} : list (string * (list string -> M Session unit)) :=
  [("ls", cmd_ls); ("dir", cmd_ls); ("cd", cmd_cd); ("cwd", cmd_cd); ("pwd", cmd_pwd);
   ("mkdir", cmd_mkdir); ("rmdir", cmd_rmdir); ("delete", cmd_delete);
   ("del", cmd_delete); ("rename", cmd_rename);
   ("get", cmd_get); ("recv", cmd_get); ("put", cmd_put); ("send", cmd_put);
   ("mget", cmd_mget); ("mput", cmd_mput);
   ("open", cmd_open); ("close", cmd_close); ("ascii", cmd_ascii);
   ("binary", cmd_binary); ("passive", cmd_passive); ("status", cmd_status);
   ("prompt", cmd_prompt);
   ("help", cmd_help); ("?", cmd_help)].

Fixpoint lookup_command {A} (command : string) (table : list (string * A)) : option A :=
  match table with
  | (name, handler) :: rest =>
      if String.eqb name command then Some handler else lookup_command command rest
  | [] => None
  end.

(** [execute_command] *)
Definition execute_command `{Codecs} (command : string) (args : list string)
    : M Session unit :=
  match lookup_command command command_map with
  | Some handler => try_except (handler args) (fun _ => ret tt)
  | None => ret tt
  end.

End FTPCommands.

(** ** [SecureFTPClient.interactive_mode]

    The method stands here, after the commands it dispatches to.  The
    operator's interrupt key is not part of the environment. *)

Definition is_eof (e : exn) : bool :=
  match exn_kind_of e with
  | EOFError => true
  | _ => false
  end.

(** [command in ['quit', 'bye', 'exit']] *)
Definition is_quit (command : string) : bool :=
  String.eqb command "quit" || String.eqb command "bye" || String.eqb command "exit".

(** One turn of the loop [while True]: [false] after a [break], [true]
    when the loop goes on.  [parts[0]] of a line without a word would raise
    [IndexError], which [except Exception] reports before the next turn. *)
Definition interactive_turn `{Codecs} : M SecureFTPClient.Session bool :=
  try_except
    ( line <- SecureFTPClient.env (Env.input EmptyString) ;;
      let command_line := PyStr.strip line in
      if negb (PyStr.nonempty command_line) then ret true
      else
        match PyStr.split_ws command_line with
        | first :: args =>
            let command := PyStr.lower first in
            if is_quit command then ret false
            else
              FTPCommands.execute_command command args ;;
              ret true
        | [] => ret true
        end )
    (fun e => if is_eof e then ret false else ret true).

Fixpoint interactive_loop `{Codecs} (fuel : nat) : M SecureFTPClient.Session unit :=
  match fuel with
  | O => ret tt
  | S fuel' =>
      go_on <- interactive_turn ;;
      if go_on then interactive_loop fuel' else ret tt
  end.

(** [interactive_mode]: every turn that goes on has read a line, so one
    more turn than there are lines to read ends the loop. *)
Definition interactive_mode `{Codecs} : M SecureFTPClient.Session unit :=
  c <- SecureFTPClient.self ;;
  (if PyStr.nonempty (SecureFTPClient.ftp_host (SecureFTPClient.cfg c)) then
     ok <- SecureFTPClient.connect None None ;;
     if ok then
       logged <- SecureFTPClient.login None None ;;
       ret tt
     else ret tt
   else ret tt) ;;
  try_finally
    (fun s =>
       interactive_loop (S (length (keyboard (SecureFTPClient.world s)))) s)
    SecureFTPClient.disconnect.

(** ** [class ConfigManager] ([config_manager.py])

    The state of the object is [self.config], a value read from JSON. *)

Module ConfigManager.

(** [self.config] *)
Definition config : M pyvalue pyvalue := fun c => (Ok c, c).

(** [key in v] for a [str] key: membership in a dictionary's keys, in a
    list, substring of a string; [TypeError] on the values that cannot be
    iterated. *)
Definition contains (v : pyvalue) (key : string) : result bool :=
  match v with
  | PyDict items => Ok (match Py.assoc key items with Some _ => true | None => false end)
  | PyList items => Ok (existsb (fun x => Py.eq_str x key) items)
  | PyStr s => Ok (PyStr.contains key s)
  | _ => Raise (Exn TypeError "argument is not iterable")
  end.

(** The items of a dictionary after [d[key] = value]: the value of a key
    that is there is replaced where it stands, a new key goes last. *)
Fixpoint assoc_set (key : string) (value : pyvalue) (items : list (string * pyvalue))
    : list (string * pyvalue) :=
  match items with
  | (k, x) :: rest =>
      if String.eqb k key then (k, value) :: rest
      else (k, x) :: assoc_set key value rest
  | [] => [(key, value)]
  end.

(** [v[key] = value] for a [str] key. *)
Definition setitem (v : pyvalue) (key : string) (value : pyvalue) : result pyvalue :=
  match v with
  | PyDict items => Ok (PyDict (assoc_set key value items))
  | _ => Raise (Exn TypeError "object does not support item assignment")
  end.

(** The loop [for key in keys: value = value[key]] of [get]. *)
Fixpoint get_keys (keys : list string) (value : pyvalue) : result pyvalue :=
  match keys with
  | key :: rest =>
      match Py.getitem value key with
      | Ok v => get_keys rest v
      | Raise e => Raise e
      end
  | [] => Ok value
  end.

Definition is_key_or_type_error (e : exn) : bool :=
  match exn_kind_of e with
  | KeyError | TypeError => true
  | _ => false
  end.

(** [get] *)
Definition get (key_path : string) (default : pyvalue) : M pyvalue pyvalue :=
  let keys := PyStr.split "." key_path in
  value <- config ;;
  try_except_if is_key_or_type_error
    (of_result (get_keys keys value))
    (fun _ => ret default).

(** [set] on the dictionary [config]: the walk [for key in keys[:-1]] and
    the assignment [config[keys[-1]] = value].  The dictionaries on the
    path are changed in place, so the value is the tree after the call. *)
Fixpoint set_keys (parents : list string) (last : string) (value config : pyvalue)
    : result pyvalue :=
  match parents with
  | key :: rest =>
      match contains config key with
      | Raise e => Raise e
      | Ok present =>
          match (if present then Ok config else setitem config key (PyDict [])) with
          | Raise e => Raise e
          | Ok config1 =>
              match Py.getitem config1 key with
              | Raise e => Raise e
              | Ok child =>
                  match set_keys rest last value child with
                  | Raise e => Raise e
                  | Ok child' => setitem config1 key child'
                  end
              end
          end
      end
  | [] => setitem config last value
  end.

(** [set].  A walk that raises has created no dictionary: the ones it
    creates are empty dictionaries, on which it cannot fail. *)
Definition set (key_path : string) (value : pyvalue) : M pyvalue unit :=
  fun c =>
    let keys := PyStr.split "." key_path in
    match set_keys (removelast keys) (List.last keys EmptyString) value c with
    | Ok c' => (Ok tt, c')
    | Raise e => (Raise e, c)
    end.

(** [required_sections] of [validate_config] *)
Definition required_sections : list (string * list string) :=
  [("ftp_server", ["host"; "port"; "username"; "password"]);
   ("clamav_agent", ["host"; "port"]);
   ("client", ["passive_mode"; "timeout"; "buffer_size"])].

(** The loop [for key in required_keys]. *)
Fixpoint check_keys (section : string) (required_keys : list string) : M pyvalue unit :=
  match required_keys with
  | key :: rest =>
      c <- config ;;
      entries <- of_result (Py.getitem c section) ;;
      present <- of_result (contains entries key) ;;
      if negb present then
        raise (Exn ValueError ("Missing config key: " ++ section ++ "." ++ key))
      else check_keys section rest
  | [] => ret tt
  end.

(** The loop [for section, required_keys in required_sections.items()]. *)
Fixpoint check_sections (sections : list (string * list string)) : M pyvalue unit :=
  match sections with
  | (section, required_keys) :: rest =>
      c <- config ;;
      present <- of_result (contains c section) ;;
      if negb present then raise (Exn ValueError ("Missing config section: " ++ section))
      else
        check_keys section required_keys ;;
        check_sections rest
  | [] => ret tt
  end.

(** [isinstance(v, int)], which holds of the booleans too, and
    [isinstance(v, bool)]. *)
Definition isinstance_int (v : pyvalue) : bool :=
  match v with
  | PyInt _ | PyBool _ => true
  | _ => false
  end.

Definition isinstance_bool (v : pyvalue) : bool :=
  match v with
  | PyBool _ => true
  | _ => false
  end.

(** [if not isinstance(self.config[section][key], ..): raise ValueError(..)] *)
Definition check_type (section key : string) (isinstance : pyvalue -> bool)
    (message : string) : M pyvalue unit :=
  c <- config ;;
  entries <- of_result (Py.getitem c section) ;;
  v <- of_result (Py.getitem entries key) ;;
  if negb (isinstance v) then raise (Exn ValueError message) else ret tt.

(** [validate_config] *)
Definition validate_config : M pyvalue unit :=
  check_sections required_sections ;;
  check_type "ftp_server" "port" isinstance_int "ftp_server.port must be integer" ;;
  check_type "clamav_agent" "port" isinstance_int "clamav_agent.port must be integer" ;;
  check_type "client" "passive_mode" isinstance_bool "client.passive_mode must be boolean" ;;
  check_type "client" "timeout" isinstance_int "client.timeout must be integer" ;;
  check_type "client" "buffer_size" isinstance_int "client.buffer_size must be integer".

End ConfigManager.
(** ** Text with every code point

    A Python [str] holds code points up to U+10FFFF.  The rest of the
    development keeps to the code points below U+0100; here the decoding of
    UTF-8, the constructor of [FTPResponse] and [connect], which reads the
    greeting of a server the client does not know yet, are written for text
    of every code point, with the classes of characters of Unicode 14.0
    (Python 3.11). *)

Module Unicode.

Local Open Scope N_scope.

Definition text : Type := list N.

(** The text of a string whose characters are code points below U+0100. *)
Definition of_string (s : string) : text := map N_of_ascii (list_ascii_of_string s).

Definition in_ranges (ranges : list (N * N)) (c : N) : bool :=
  existsb (fun r => (fst r <=? c) && (c <=? snd r)) ranges.

(** [c.isspace()] *)
Definition space_ranges : list (N * N) :=
  [(9, 13); (28, 32); (133, 133); (160, 160); (5760, 5760); (8192, 8202); (8232, 8233);
   (8239, 8239); (8287, 8287); (12288, 12288)].

Definition isspace_char (c : N) : bool := in_ranges space_ranges c.

(** The zeros of the decimal digits (category Nd): each is followed by its
    digits one to nine. *)
Definition decimal_zeros : list N :=
  [48; 1632; 1776; 1984; 2406; 2534; 2662; 2790; 2918; 3046; 3174; 3302; 3430; 3558;
   3664; 3792; 3872; 4160; 4240; 6112; 6160; 6470; 6608; 6784; 6800; 6992; 7088; 7232;
   7248; 42528; 43216; 43264; 43472; 43504; 43600; 44016; 65296; 66720; 68912; 69734;
   69872; 69942; 70096; 70384; 70736; 70864; 71248; 71360; 71472; 71904; 72016; 72784;
   73040; 73120; 92768; 92864; 93008; 120782; 120792; 120802; 120812; 120822; 123200;
   123632; 125264; 130032].

(** The digit that [c] stands for, when [c.isdecimal()]. *)
Definition decimal_of (c : N) : option N :=
  match find (fun zero => (zero <=? c) && (c <=? zero + 9)) decimal_zeros with
  | Some zero => Some (c - zero)
  | None => None
  end.

Definition isdecimal_char (c : N) : bool :=
  match decimal_of c with Some _ => true | None => false end.

(** [c.isdigit()]: the decimal digits and the other characters that stand
    for a digit, superscripts and circled digits among them. *)
Definition digit_ranges : list (N * N) :=
  [(48, 57); (178, 179); (185, 185); (1632, 1641); (1776, 1785); (1984, 1993);
   (2406, 2415); (2534, 2543); (2662, 2671); (2790, 2799); (2918, 2927); (3046, 3055);
   (3174, 3183); (3302, 3311); (3430, 3439); (3558, 3567); (3664, 3673); (3792, 3801);
   (3872, 3881); (4160, 4169); (4240, 4249); (4969, 4977); (6112, 6121); (6160, 6169);
   (6470, 6479); (6608, 6618); (6784, 6793); (6800, 6809); (6992, 7001); (7088, 7097);
   (7232, 7241); (7248, 7257); (8304, 8304); (8308, 8313); (8320, 8329); (9312, 9320);
   (9332, 9340); (9352, 9360); (9450, 9450); (9461, 9469); (9471, 9471);
   (10102, 10110); (10112, 10120); (10122, 10130); (42528, 42537); (43216, 43225);
   (43264, 43273); (43472, 43481); (43504, 43513); (43600, 43609); (44016, 44025);
   (65296, 65305); (66720, 66729); (68160, 68163); (68912, 68921); (69216, 69224);
   (69714, 69722); (69734, 69743); (69872, 69881); (69942, 69951); (70096, 70105);
   (70384, 70393); (70736, 70745); (70864, 70873); (71248, 71257); (71360, 71369);
   (71472, 71481); (71904, 71913); (72016, 72025); (72784, 72793); (73040, 73049);
   (73120, 73129); (92768, 92777); (92864, 92873); (93008, 93017); (120782, 120831);
   (123200, 123209); (123632, 123641); (125264, 125273); (127232, 127242);
   (130032, 130041)].

Definition isdigit_char (c : N) : bool := in_ranges digit_ranges c.

(** [bytes.decode('utf-8')]: [None] stands for [UnicodeDecodeError].  A
    code point takes one to four bytes; longer forms than needed, the
    surrogates and the code points above U+10FFFF are refused. *)
Definition continuation (b : N) : bool := (128 <=? b) && (b <=? 191).

Fixpoint decode_bytes (bytes : list N) : option text :=
  match bytes with
  | [] => Some []
  | b0 :: rest =>
      if b0 <? 128 then option_map (cons b0) (decode_bytes rest)
      else if (194 <=? b0) && (b0 <=? 223) then
        match rest with
        | b1 :: rest1 =>
            if continuation b1 then
              option_map (cons ((b0 - 192) * 64 + (b1 - 128))) (decode_bytes rest1)
            else None
        | _ => None
        end
      else if (224 <=? b0) && (b0 <=? 239) then
        match rest with
        | b1 :: b2 :: rest2 =>
            let c := (b0 - 224) * 4096 + (b1 - 128) * 64 + (b2 - 128) in
            if continuation b1 && continuation b2 && (2048 <=? c)
               && negb ((55296 <=? c) && (c <=? 57343)) then
              option_map (cons c) (decode_bytes rest2)
            else None
        | _ => None
        end
      else if (240 <=? b0) && (b0 <=? 244) then
        match rest with
        | b1 :: b2 :: b3 :: rest3 =>
            let c := (b0 - 240) * 262144 + (b1 - 128) * 4096 + (b2 - 128) * 64 + (b3 - 128) in
            if continuation b1 && continuation b2 && continuation b3
               && (65536 <=? c) && (c <=? 1114111) then
              option_map (cons c) (decode_bytes rest3)
            else None
        | _ => None
        end
      else None
  end.

Definition utf8_decode (data : string) : option text := decode_bytes (of_string data).

(** [s.strip()] *)
Fixpoint lstrip (s : text) : text :=
  match s with
  | c :: s' => if isspace_char c then lstrip s' else s
  | [] => []
  end.

Fixpoint rstrip (s : text) : text :=
  match s with
  | c :: s' =>
      match rstrip s' with
      | [] => if isspace_char c then [] else [c]
      | r => c :: r
      end
  | [] => []
  end.

Definition strip (s : text) : text := rstrip (lstrip s).

(** [s.split(sep)] for a one-character separator. *)
Fixpoint split (sep : N) (s : text) : list text :=
  match s with
  | [] => [[]]
  | c :: s' =>
      if c =? sep then [] :: split sep s'
      else match split sep s' with
           | h :: t => (c :: h) :: t
           | [] => [[c]]
           end
  end.

(** [s.startswith(p)] *)
Fixpoint startswith (p s : text) : bool :=
  match p, s with
  | [], _ => true
  | a :: p', b :: s' => (a =? b) && startswith p' s'
  | _ :: _, [] => false
  end.

(** [s.isdigit()] *)
Definition isdigit (s : text) : bool :=
  match s with [] => false | _ => forallb isdigit_char s end.

(** The white space [int] skips at both ends: the ASCII white space of C,
    and beyond ASCII the characters of [str.isspace]. *)
Definition int_space_char (c : N) : bool :=
  if c <? 127 then (9 <=? c) && (c <=? 13) || (c =? 32) else isspace_char c.

Fixpoint int_lstrip (s : text) : text :=
  match s with
  | c :: s' => if int_space_char c then int_lstrip s' else s
  | [] => []
  end.

Fixpoint int_rstrip (s : text) : text :=
  match s with
  | c :: s' =>
      match int_rstrip s' with
      | [] => if int_space_char c then [] else [c]
      | r => c :: r
      end
  | [] => []
  end.

(** The digits of an [int] literal, as numbers, with its underscores
    removed; an underscore is allowed only between two digits. *)
Fixpoint int_digits (prev_digit : bool) (s : text) : option (list N) :=
  match s with
  | [] => if prev_digit then Some [] else None
  | c :: s' =>
      match decimal_of c with
      | Some d => option_map (cons d) (int_digits true s')
      | None => if (c =? 95) && prev_digit then int_digits false s' else None
      end
  end.

Definition digits_value (ds : list N) : N := fold_left (fun acc d => 10 * acc + d) ds 0.

(** [int(s)]; [None] stands for [ValueError]. *)
Definition int (s : text) : option Z :=
  let t := int_rstrip (int_lstrip s) in
  let '(negative, body) :=
    match t with
    | c :: r => if c =? 45 then (true, r) else if c =? 43 then (false, r) else (false, t)
    | [] => (false, t)
    end in
  match int_digits false body with
  | Some ds =>
      if (PyStr.max_str_digits <? Z.of_nat (length ds))%Z then None
      else Some (let v := Z.of_N (digits_value ds) in if negative then (- v)%Z else v)
  | None => None
  end.

(** [class FTPResponse] *)
Module FTPResponse.

Record t := mk {
  raw : text;
  lines : list text;
  code : option Z;
  message : text
}.

(** [FTPResponse.__init__] *)
Definition __init__ (response_text : text) : result t :=
  let lines := split 10 (strip response_text) in
  match lines with
  | first_line :: _ =>
      if (3 <=? length first_line)%nat && isdigit (firstn 3 first_line) then
        match int (firstn 3 first_line) with
        | Some n =>
            Ok (mk response_text lines (Some n)
                  (if (3 <? length first_line)%nat then skipn 4 first_line else []))
        | None => Raise (Exn ValueError "invalid literal for int() with base 10")
        end
      else Ok (mk response_text lines None [])
  | [] => Ok (mk response_text lines None [])
  end.

(** Truth value of [self.code and 200 <= self.code < 300]. *)
Definition is_positive (r : t) : bool :=
  match code r with
  | Some c => (negb (c =? 0) && (200 <=? c) && (c <? 300))%Z
  | None => false
  end.

End FTPResponse.

(** [bytes.decode('utf-8')] as a call that may raise. *)
Definition decode {S} (data : string) : M S text :=
  match utf8_decode data with
  | Some decoded => ret decoded
  | None => raise (Exn ValueError "'utf-8' codec can't decode bytes")
  end.

(** [SecureFTPClient.connect], with the greeting as the text that the bytes
    read decode to, of any code points. *)
Definition connect (host : option string) (port : option Z)
    : M SecureFTPClient.Session bool :=
  c <- SecureFTPClient.self ;;
  let host := default (SecureFTPClient.ftp_host (SecureFTPClient.cfg c)) host in
  let port := default (SecureFTPClient.ftp_port (SecureFTPClient.cfg c)) port in
  try_except
    ( SecureFTPClient.env (Env.socket Control) ;;
      SecureFTPClient.update (SecureFTPClient.set_control_socket true) ;;
      SecureFTPClient.env (Env.connect Control host port) ;;
      try_except_if (is_kind SocketTimeout)
        ( welcome_data <- SecureFTPClient.env (Env.recv Control 1024%Z) ;;
          decoded <- decode welcome_data ;;
          let welcome_text := strip decoded in
          if startswith (of_string "220") welcome_text then
            SecureFTPClient.update (SecureFTPClient.set_connected true) ;;
            ret true
          else ret false )
        (fun _ => ret false) )
    (fun _ => ret false).

End Unicode.

(** * Vocabulary of the properties *)

(** ** Reply lines *)

Definition digit_value (c : ascii) : Z := Z.of_N (N_of_ascii c) - 48.

(** The code three decimal digits spell. *)
Definition code_of_digits (d1 d2 d3 : ascii) : Z :=
  100 * digit_value d1 + 10 * digit_value d2 + digit_value d3.

(** The first three characters of the line are decimal digits. *)
Definition has_leading_code (line : string) : bool :=
  (3 <=? String.length line)%nat
  && PyStr.all_chars PyStr.isdecimal_char (PyStr.take 3 line).

(** The first three characters are digits in the sense of [str.isdigit]. *)
Definition begins_with_digits (line : string) : bool :=
  (3 <=? String.length line)%nat && PyStr.isdigit (PyStr.take 3 line).

Fixpoint count_true (l : list bool) : nat :=
  match l with
  | b :: rest => ((if b then 1 else 0) + count_true rest)%nat
  | [] => 0%nat
  end.

(** ** Sextuples *)

(** A non-empty run of decimal digits, and the number it spells. *)
Definition is_digits (s : string) : bool :=
  PyStr.nonempty s && PyStr.all_chars PyStr.isdecimal_char s.

Fixpoint decimal_acc (acc : Z) (s : string) : Z :=
  match s with
  | String c s' => decimal_acc (10 * acc + digit_value c) s'
  | EmptyString => acc
  end.

Definition decimal_value (s : string) : Z := decimal_acc 0 s.

(** The text [(g1,g2,g3,g4,g5,g6)]. *)
Definition sextuple_text (g : Regex.groups) : string :=
  "(" ++ Regex.g1 g ++ "," ++ Regex.g2 g ++ "," ++ Regex.g3 g ++ ","
      ++ Regex.g4 g ++ "," ++ Regex.g5 g ++ "," ++ Regex.g6 g ++ ")".

Definition all_digits (g : Regex.groups) : bool :=
  is_digits (Regex.g1 g) && is_digits (Regex.g2 g) && is_digits (Regex.g3 g)
  && is_digits (Regex.g4 g) && is_digits (Regex.g5 g) && is_digits (Regex.g6 g).

(** None of the six numbers has more digits than [int] converts. *)
Definition within_limit (g : Regex.groups) : bool :=
  forallb (fun d => Z.of_nat (String.length d) <=? PyStr.max_str_digits)
    [Regex.g1 g; Regex.g2 g; Regex.g3 g; Regex.g4 g; Regex.g5 g; Regex.g6 g].

(** A parenthesized group of six integers stands in [s] right after [pre]. *)
Definition group_at (pre : string) (g : Regex.groups) (s : string) : Prop :=
  all_digits g = true /\ exists post, s = pre ++ sextuple_text g ++ post.

(** It is the first one of [s]: no other starts earlier. *)
Definition first_group_at (pre : string) (g : Regex.groups) (s : string) : Prop :=
  group_at pre g s
  /\ forall pre' g', group_at pre' g' s -> (String.length pre <= String.length pre')%nat.

(** What the sextuple denotes, with no bound on any of the six numbers. *)
Definition address_of (g : Regex.groups) : string * Z :=
  (NetworkUtils.dotted (decimal_value (Regex.g1 g)) (decimal_value (Regex.g2 g))
     (decimal_value (Regex.g3 g)) (decimal_value (Regex.g4 g)),
   decimal_value (Regex.g5 g) * 256 + decimal_value (Regex.g6 g)).

(** The sextuple [create_port_command] writes for an address and a port. *)
Definition sextuple_of (a b c d port : Z) : string :=
  PyStr.of_int a ++ "," ++ PyStr.of_int b ++ "," ++ PyStr.of_int c ++ ","
    ++ PyStr.of_int d ++ "," ++ PyStr.of_int (port / 256) ++ ","
    ++ PyStr.of_int (port mod 256).

(** The groups of the sextuple written for an address and a port. *)
Definition groups_of (a b c d port : Z) : Regex.groups :=
  Regex.Groups (PyStr.of_int a) (PyStr.of_int b) (PyStr.of_int c) (PyStr.of_int d)
    (PyStr.of_int (port / 256)) (PyStr.of_int (port mod 256)).

Definition octet (z : Z) : Prop := 0 <= z <= 255.

(** ** Traces *)

(** All the events are calls on the socket [c]. *)
Definition only_on (c : chan) (evs : list event) : Prop :=
  Forall (fun e => chan_of e = Some c) evs.

Definition is_send (e : event) : bool :=
  match e with EvSend _ _ => true | _ => false end.

(** A scan result that reports an error. *)
Definition is_error_result (r : pyvalue) : Prop :=
  exists message details, r = Py.scan_dict "ERROR" message details.

(** The text is not a JSON document the client can read. *)
Definition unparseable `{Codecs} (reply : string) : Prop :=
  match utf8_decode reply with
  | Some text => json_loads text = None
  | None => True
  end.

(** Every event a run appends to the trace satisfies [P]. *)
Definition emits {A} (P : event -> Prop) (m : M World A) : Prop :=
  forall w, exists evs, trace (snd (m w)) = (trace w ++ evs)%list /\ Forall P evs.

(** ** Sessions *)

(** The greeting: the bytes of the one read on the control connection,
    when they decode. *)
Definition greeting (evs : list event) (text : Unicode.text) : Prop :=
  exists data,
    received_on Control evs = [data] /\ Unicode.utf8_decode data = Some text.

(** The greeting was read and, without the white space around it, begins
    with the three characters [220]. *)
Definition greeting_starts_220 (evs : list event) : Prop :=
  exists text,
    greeting evs text
    /\ Unicode.startswith (Unicode.of_string "220") (Unicode.strip text) = true.

(** The greeting was read and is a reply with code 220, which is a
    positive one.  The reply is made of the text without the white space
    around it, as [receive_response] makes every reply. *)
Definition greeting_220 (evs : list event) : Prop :=
  exists text r,
    greeting evs text
    /\ Unicode.FTPResponse.__init__ (Unicode.strip text) = Ok r
    /\ Unicode.FTPResponse.code r = Some 220
    /\ Unicode.FTPResponse.is_positive r = true.

(** [logged_in] implies [connected]. *)
Definition session_invariant (c : SecureFTPClient.t) : Prop :=
  SecureFTPClient.logged_in c = true -> SecureFTPClient.connected c = true.

(** The operations of the client: the methods of [SecureFTPClient] that
    act on the session, and the commands of the shell, by name. *)
Inductive operation :=
| OpConnect (host : option string) (port : option Z)
| OpLogin (user pass : option string)
| OpDisconnect
| OpSendCommand (command : string)
| OpReceiveResponse
| OpOpenDataConnection
| OpScanFile (file_path : string)
| OpSetTransferMode (mode : string)
| OpTogglePassiveMode
| OpExecute (command : string) (args : list string).

(** The session after an operation, whether it returned or raised. *)
Definition perform `{Codecs} (op : operation) (s : SecureFTPClient.Session)
    : SecureFTPClient.Session :=
  match op with
  | OpConnect host port => snd (SecureFTPClient.connect host port s)
  | OpLogin user pass => snd (SecureFTPClient.login user pass s)
  | OpDisconnect => snd (SecureFTPClient.disconnect s)
  | OpSendCommand command => snd (SecureFTPClient.send_command command s)
  | OpReceiveResponse => snd (SecureFTPClient.receive_response s)
  | OpOpenDataConnection => snd (SecureFTPClient.open_data_connection s)
  | OpScanFile file_path => snd (SecureFTPClient.scan_file_for_virus file_path s)
  | OpSetTransferMode mode => snd (SecureFTPClient.set_transfer_mode mode s)
  | OpTogglePassiveMode => snd (SecureFTPClient.toggle_passive_mode s)
  | OpExecute command args => snd (FTPCommands.execute_command command args s)
  end.

Fixpoint perform_all `{Codecs} (ops : list operation) (s : SecureFTPClient.Session)
    : SecureFTPClient.Session :=
  match ops with
  | op :: rest => perform_all rest (perform op s)
  | [] => s
  end.

(** A property of the client object that a run keeps, however it ends. *)
Definition stable {A} (P : SecureFTPClient.t -> Prop) (m : M SecureFTPClient.Session A)
    : Prop :=
  forall s, P (SecureFTPClient.client s) -> P (SecureFTPClient.client (snd (m s))).

(** ** Texts *)

(** How many times [c] stands in [s]. *)
Fixpoint count_char (c : ascii) (s : string) : nat :=
  match s with
  | String c' s' => ((if Ascii.eqb c' c then 1 else 0) + count_char c s')%nat
  | EmptyString => 0%nat
  end.

(** [s] with every [old] turned into [new]. *)
Fixpoint replace_char (old new : ascii) (s : string) : string :=
  match s with
  | String c s' => String (if Ascii.eqb c old then new else c) (replace_char old new s')
  | EmptyString => EmptyString
  end.

(** The first line of a reply as [FTPResponse] reads it. *)
Definition first_line (text : string) : string :=
  hd EmptyString (PyStr.split FTPResponse.newline (PyStr.strip text)).

(** ** Transfers *)

(** The texts of a list, one after the other. *)
Definition concat_all (l : list string) : string :=
  fold_right String.append EmptyString l.

(** The pieces a file is read in, [f.read(8192)] after [f.read(8192)],
    until nothing is left. *)
Fixpoint chunks (fuel : nat) (content : string) : list string :=
  match fuel with
  | O => []
  | S fuel' =>
      if PyStr.nonempty content then
        PyStr.take (Z.to_nat NetworkUtils.chunk_size) content
          :: chunks fuel' (PyStr.drop (Z.to_nat NetworkUtils.chunk_size) content)
      else []
  end.

Definition chunks_of (content : string) : list string :=
  chunks (String.length content) content.

(** The data went out on [sock], piece by piece. *)
Definition sends_on (sock : chan) (pieces : list string) : list event :=
  map (EvSend sock) pieces.

(** ** The scan agent *)

Definition is_run (e : event) : bool :=
  match e with EvRun _ => true | _ => false end.

(** A call on the accepted connection, or a run of the scanner. *)
Definition peer_or_scanner (e : event) : Prop :=
  chan_of e = Some Peer \/ is_run e = true.

(** The reply [handle_client] sends when it fails. *)
Definition server_error `{Codecs} (details : string) : string :=
  utf8_encode (json_dumps (Py.scan_dict "ERROR" "Server error" details)).

(** Every file of [after] was a file of [before], with the same contents. *)
Definition no_new_file (before after : World) : Prop :=
  forall path content, fs after !! path = Some content -> fs before !! path = Some content.

(** The two worlds hold the same files, the one at [path] apart. *)
Definition same_files_but (path : string) (before after : World) : Prop :=
  forall other, other <> path -> fs after !! other = fs before !! other.

(** ** The shell *)

(** The commands that need a session: connected and logged in. *)
Definition session_commands : list string :=
  ["ls"; "dir"; "cd"; "cwd"; "pwd"; "mkdir"; "rmdir"; "delete"; "del"; "rename";
   "get"; "recv"; "put"; "send"; "mget"; "mput"].

(** The names [execute_command] knows. *)
Definition known_commands : list string :=
  session_commands
    ++ ["open"; "close"; "ascii"; "binary"; "passive"; "status"; "prompt"; "help"; "?"].

(** The client is connected and logged in. *)
Definition ready (c : SecureFTPClient.t) : bool :=
  SecureFTPClient.connected c && SecureFTPClient.logged_in c.

(** How a run of [login] on the client [before] can end: with the result
    and the client [after]. *)
Definition login_outcome (before : SecureFTPClient.t) (r : result bool)
    (after : SecureFTPClient.t) : Prop :=
  (r = Ok true /\ after = SecureFTPClient.set_logged_in true before)
  \/ (r = Ok false /\ after = before)
  \/ (exists e, r = Raise e /\ after = before).

(** No event of the list is a [send]. *)
Definition sends_nothing (evs : list event) : Prop :=
  Forall (fun e => is_send e = false) evs.

(** ** Directories *)

(** A name of a directory entry: not empty, and without a slash. *)
Definition simple_name (name : string) : Prop :=
  PyStr.nonempty name = true /\ count_char "/" name = 0%nat.

(** The absolute path made of the names: [/] for none, [/a/b] for [a; b]. *)
Definition dir_of (names : list string) : string :=
  "/" ++ PyStr.join "/" names.

(** What [cmd_cd] records after a positive reply. *)
Definition directory_after_cd (directory current : string) : string :=
  if String.eqb directory ".." then FTPCommands.parent_dir current
  else if PyStr.startswith "/" directory then directory
  else FTPCommands.replace_double_slash (current ++ "/" ++ directory).

(** ** What a run does to the files and to the input *)

(** [R] holds between the world before a run and the world after it,
    however the run ends. *)
Definition relates {A} (R : World -> World -> Prop) (m : M World A) : Prop :=
  forall w, R w (snd (m w)).

Definition relates_session {A} (R : World -> World -> Prop)
    (m : M SecureFTPClient.Session A) : Prop :=
  forall s, R (SecureFTPClient.world s) (SecureFTPClient.world (snd (m s))).

(** The files are what they were. *)
Definition same_files (before after : World) : Prop := fs after = fs before.

(** No line was added to what the operator has typed ahead. *)
Definition no_more_input (before after : World) : Prop :=
  (length (keyboard after) <= length (keyboard before))%nat.

(** [R] allows to create, to extend and to remove the file at [path]. *)
Definition writable (R : World -> World -> Prop) (path : string) : Prop :=
  (forall w, R w (snd (Env.open_wb path w)))
  /\ (forall chunk w, R w (snd (Env.write path chunk w)))
  /\ (forall w, R w (snd (Env.remove path w))).

(** The commands that write local files. *)
Definition download_commands : list string := ["get"; "recv"; "mget"].

(** The local file of [get remote [local]]. *)
Definition local_file_of (remote : string) (more : list string) : string :=
  match more with
  | l :: _ => l
  | [] => remote
  end.

(** The first word of the line is [quit], [bye] or [exit], in any case. *)
Definition quits (line : string) : bool :=
  is_quit (PyStr.lower (hd EmptyString (PyStr.split_ws (PyStr.strip line)))).

(** ** The order of the requests *)

(** The reply that [data] holds, when it holds one. *)
Definition reply_of `{Codecs} (data : string) : option FTPResponse.t :=
  match utf8_decode data with
  | Some text =>
      match FTPResponse.__init__ (PyStr.strip text) with
      | Ok r => Some r
      | Raise _ => None
      end
  | None => None
  end.

(** The request [command] as [send_command] puts it on the control
    connection. *)
Definition request `{Codecs} (command : string) : event :=
  EvSend Control (utf8_encode (command ++ SecureFTPClient.crlf)).

(** In [evs] the request [command] goes out only right after a reply has
    been read that [accepted] holds of. *)
Definition only_after `{Codecs} (accepted : FTPResponse.t -> bool) (command : string)
    (evs : list event) : Prop :=
  forall before after,
    evs = (before ++ request command :: after)%list ->
    exists earlier data r,
      before = (earlier ++ [EvRecv Control data])%list
      /\ reply_of data = Some r /\ accepted r = true.

(** Since the trace [t0] the request went out in that order only. *)
Definition in_order `{Codecs} (accepted : FTPResponse.t -> bool) (command : string)
    (t0 : list event) (s : SecureFTPClient.Session) : Prop :=
  exists evs,
    trace (SecureFTPClient.world s) = (t0 ++ evs)%list /\ only_after accepted command evs.

(** The same, and the last event is the reply [r]. *)
Definition just_replied `{Codecs} (accepted : FTPResponse.t -> bool) (command : string)
    (t0 : list event) (r : FTPResponse.t) (s : SecureFTPClient.Session) : Prop :=
  exists evs data,
    trace (SecureFTPClient.world s) = (t0 ++ evs ++ [EvRecv Control data])%list
    /\ only_after accepted command (evs ++ [EvRecv Control data])%list
    /\ reply_of data = Some r.

(** A run from a state where [P] holds ends in a state where [Q] holds,
    returning or raising. *)
Definition keeps {A} (P Q : SecureFTPClient.Session -> Prop)
    (m : M SecureFTPClient.Session A) : Prop :=
  forall s, P s -> Q (snd (m s)).

(** ** A codec for the examples *)

(** ASCII text, which UTF-8 encodes as itself, and the flat dictionaries of
    strings that the agent sends, written the way [json.dumps] writes them
    when no character needs an escape. *)
Module AsciiCodecs.

Definition is_ascii (s : string) : bool :=
  PyStr.all_chars (fun c => (N_of_ascii c <? 128)%N) s.

Definition decode (data : string) : option string :=
  if is_ascii data then Some data else None.

Definition quote_char : ascii := ascii_of_nat 34.

Definition quoted (s : string) : string :=
  String quote_char (s ++ String quote_char EmptyString).

Definition dumps_atom (v : pyvalue) : string :=
  match v with
  | PyStr s => quoted s
  | PyInt z => PyStr.of_int z
  | PyBool true => "true"
  | PyBool false => "false"
  | _ => "null"
  end.

Definition dumps (v : pyvalue) : string :=
  match v with
  | PyDict items =>
      "{" ++ PyStr.join ", "
               (map (fun kv => quoted (fst kv) ++ ": " ++ dumps_atom (snd kv)) items)
          ++ "}"
  | _ => dumps_atom v
  end.

(** The text between the quotes of [{"k": "v", ...}]: key, colon, value,
    then a comma or the closing brace. *)
Fixpoint loads_items (pieces : list string) : option (list (string * pyvalue)) :=
  match pieces with
  | key :: colon :: value :: sep :: rest =>
      if negb (String.eqb colon ": ") then None
      else if String.eqb sep "}" then
        match rest with
        | [] => Some [(key, PyStr value)]
        | _ => None
        end
      else if String.eqb sep ", " then
        option_map (cons (key, PyStr value)) (loads_items rest)
      else None
  | _ => None
  end.

Definition loads (text : string) : option pyvalue :=
  match PyStr.split quote_char text with
  | "{" :: pieces => option_map PyDict (loads_items pieces)
  | _ => None
  end.

Definition repr (data : string) : string := "b'" ++ data ++ "'".

Definition codecs : Codecs :=
  {| utf8_decode := decode;
     utf8_encode := fun s => s;
     json_loads := loads;
     json_dumps := dumps;
     bytes_repr := repr |}.

End AsciiCodecs.

(** ** Worlds for the examples *)

Definition world_of (answers : list answer) (files : list (string * string))
    (typed : list string) : World :=
  mkWorld answers (list_to_map files) typed 1700000000 [].

Definition agent_config : ClamAVAgent.config :=
  ClamAVAgent.mkConfig "clamscan" "./temp_files" 60.

Definition client_config : SecureFTPClient.config :=
  SecureFTPClient.mkConfig "127.0.0.1" 21 "testuser" "testpass" "127.0.0.1" 9999 true.

(** A session that is connected and logged in, in passive mode. *)
Definition logged_in_client : SecureFTPClient.t :=
  SecureFTPClient.set_logged_in true
    (SecureFTPClient.set_connected true
       (SecureFTPClient.set_control_socket true
          (SecureFTPClient.__init__ client_config))).

(** The agent's peer announces ten bytes, sends five, and resets the
    connection. *)
Definition payload_reset_world : World :=
  world_of [ABytes "FILENAME:a.txt"; AOk; ABytes "SIZE:10"; AOk;
            ABytes "hello"; AFail "Connection reset by peer"; AOk] [] [].

(** The peer sends the whole file and is gone when the result is sent. *)
Definition result_send_fails_world : World :=
  world_of [ABytes "FILENAME:a.txt"; AOk; ABytes "SIZE:5"; AOk;
            ABytes "hello"; AExit 0 EmptyString EmptyString; AFail "Broken pipe";
            AFail "Broken pipe"] [] [].

(** The peer sends the whole file and reads the result. *)
Definition clean_scan_world : World :=
  world_of [ABytes "FILENAME:a.txt"; AOk; ABytes "SIZE:5"; AOk;
            ABytes "hello"; AExit 0 EmptyString EmptyString; AOk] [] [].

(** The same, with a scanner that fails. *)
Definition failed_scan_world : World :=
  world_of [ABytes "FILENAME:a.txt"; AOk; ABytes "SIZE:5"; AOk;
            ABytes "hello"; AExit 2 EmptyString "ERROR: Can't access file"; AOk] [] [].

Definition temp_of_a_txt : string := "./temp_files/scan_1700000000_a.txt".

(** A download in passive mode: the local file is opened, the data
    connection breaks after twelve bytes, and then the control connection
    times out. *)
Definition download_then_timeout_world : World :=
  world_of [AOk; ABytes "227 Entering Passive Mode (127,0,0,1,195,80)"; AOk;
            AOk; ABytes "150 Opening data connection"; AOk;
            ABytes "partial cont"; AFail "Connection reset by peer";
            ATimeout] [] [].

(** The same download, with a reply 426 on the control connection. *)
Definition download_then_426_world : World :=
  world_of [AOk; ABytes "227 Entering Passive Mode (127,0,0,1,195,80)"; AOk;
            AOk; ABytes "150 Opening data connection"; AOk;
            ABytes "partial cont"; AFail "Connection reset by peer";
            ABytes "426 Connection closed; transfer aborted"] [] [].

(** The scanner finds the test signature. *)
Definition scanner_found_world : World :=
  world_of [AExit 1 "eicar.txt: Eicar-Signature FOUND " EmptyString] [] [].

(** The scanner is killed at the timeout after it wrote a warning. *)
Definition scanner_expired_world : World :=
  world_of [AExpired EmptyString "LibClamAV Warning: database is older than 7 days"] [] [].

(** What the agent answers for a file that holds the test signature. *)
Definition infected_result : pyvalue :=
  Py.scan_dict "INFECTED" "Virus detected" "eicar.txt: Eicar-Signature FOUND".

Definition eicar_files : list (string * string) :=
  [("eicar.txt", "X5O!P%@AP[4\PZX54(P^)7CC)7}$EICAR-STANDARD-ANTIVIRUS-TEST-FILE!$H+H*")].

(** The agent takes the file and reports the signature. *)
Definition infected_scan_world : World :=
  world_of [AOk; AOk; ABytes "READY"; AOk; ABytes "READY"; AOk;
            ABytes (AsciiCodecs.dumps infected_result)] eicar_files [].

(** The agent answers the FILENAME message with something else. *)
Definition busy_agent_world : World :=
  world_of [AOk; AOk; ABytes "BUSY"] eicar_files [].

(** Nobody listens on the agent's port. *)
Definition no_agent_world : World :=
  world_of [AFail "Connection refused"] eicar_files [].

(** The agent's last reply is not JSON. *)
Definition garbled_reply_world : World :=
  world_of [AOk; AOk; ABytes "READY"; AOk; ABytes "READY"; AOk;
            ABytes "<html>502 Bad Gateway</html>"] eicar_files [].

(** An upload of that file, with a server that would accept it. *)
Definition infected_upload_session : SecureFTPClient.Session :=
  SecureFTPClient.mkSession logged_in_client
    (world_of [AOk; AOk; ABytes "READY"; AOk; ABytes "READY"; AOk;
               ABytes (AsciiCodecs.dumps infected_result);
               AOk; ABytes "227 Entering Passive Mode (127,0,0,1,195,80)"; AOk;
               AOk; ABytes "150 Ok to send data"; AOk;
               ABytes "226 Transfer complete"] eicar_files []).

(** A new client and a server that greets it with 220. *)
Definition greeted_session : SecureFTPClient.Session :=
  SecureFTPClient.mkSession (SecureFTPClient.__init__ client_config)
    (world_of [AOk; ABytes "220 FTP server ready"] [] []).

(** A new client and a server that turns it away with 421. *)
Definition refused_session : SecureFTPClient.Session :=
  SecureFTPClient.mkSession (SecureFTPClient.__init__ client_config)
    (world_of [AOk; ABytes "421 Too many connections"] [] []).

(** A connected client and a server that accepts AUTH TLS, asks for the
    password and accepts it. *)
Definition login_session : SecureFTPClient.Session :=
  SecureFTPClient.mkSession
    (SecureFTPClient.set_connected true
       (SecureFTPClient.set_control_socket true
          (SecureFTPClient.__init__ client_config)))
    (world_of [AOk; ABytes "234 AUTH TLS ok"; AOk; ABytes "331 Password required";
               AOk; ABytes "230 Logged in"] [] []).

(** A logged-in client and a server that answers QUIT. *)
Definition quit_session : SecureFTPClient.Session :=
  SecureFTPClient.mkSession logged_in_client (world_of [AOk; ABytes "221 Goodbye"] [] []).

(** A reply whose code begins with a superscript two. *)
Definition superscript_reply : string := String (ascii_of_nat 178) "20 Service ready".



(** The agent's peer speaks another protocol. *)
Definition other_protocol_world : World :=
  world_of [ABytes "HELO scanner"; AOk] [] [].

(** The peer names the file and then sends no size. *)
Definition no_size_world : World :=
  world_of [ABytes "FILENAME:a.txt"; AOk; ABytes "LENGTH:5"; AOk] [] [].

(** A logged-in client that asks for the transfer mode. *)
Definition type_session : SecureFTPClient.Session :=
  SecureFTPClient.mkSession logged_in_client
    (world_of [AOk; ABytes "200 Type set to A"] [] []).

(** A logged-in client and a server that opens a passive data port. *)
Definition passive_session : SecureFTPClient.Session :=
  SecureFTPClient.mkSession logged_in_client
    (world_of [AOk; ABytes "227 Entering Passive Mode (127,0,0,1,195,80)"; AOk] [] []).

(** A logged-in client in the root directory and a server that accepts two
    changes of directory. *)
Definition cd_session : SecureFTPClient.Session :=
  SecureFTPClient.mkSession logged_in_client
    (world_of [AOk; ABytes "250 Directory changed"; AOk; ABytes "250 Directory changed"]
       [] []).

(** What a server answers to [PWD] in the directory [/pub]. *)
Definition pwd_reply : string :=
  "257 " ++ String FTPCommands.double_quote
              ("/pub" ++ String FTPCommands.double_quote " is the current directory").

Definition pwd_session : SecureFTPClient.Session :=
  SecureFTPClient.mkSession logged_in_client (world_of [AOk; ABytes pwd_reply] [] []).

(** An upload with no scan agent listening; the operator answers [n]. *)
Definition unscanned_upload_session : SecureFTPClient.Session :=
  SecureFTPClient.mkSession logged_in_client
    (world_of [AFail "Connection refused"; AOk;
               ABytes "227 Entering Passive Mode (127,0,0,1,195,80)"; AOk;
               AOk; ABytes "150 Ok to send data"; AOk;
               ABytes "226 Transfer complete"] eicar_files ["n"]).

(** A configuration without sections, and one that has what
    [validate_config] asks for. *)
Definition empty_configuration : pyvalue := PyDict [].

Definition full_configuration : pyvalue :=
  PyDict [("ftp_server", PyDict [("host", PyStr "127.0.0.1"); ("port", PyInt 21);
                                 ("username", PyStr "testuser");
                                 ("password", PyStr "testpass")]);
          ("clamav_agent", PyDict [("host", PyStr "127.0.0.1"); ("port", PyInt 9999)]);
          ("client", PyDict [("passive_mode", PyBool true); ("timeout", PyInt 30);
                             ("buffer_size", PyInt 8192)])].

(** The configuration without sections after [set] of [client.timeout]. *)
Definition timeout_configuration : pyvalue :=
  PyDict [("client", PyDict [("timeout", PyInt 30)])].

(** A logged-in client and a server that accepts both halves of a
    renaming. *)
Definition rename_session : SecureFTPClient.Session :=
  SecureFTPClient.mkSession logged_in_client
    (world_of [AOk; ABytes "350 Ready for RNTO"; AOk; ABytes "250 Rename successful"] [] []).

(** An upload of the files that match a pattern; the operator answers [n]. *)
Definition mput_session : SecureFTPClient.Session :=
  SecureFTPClient.mkSession logged_in_client
    (world_of [ANames ["eicar.txt"]; AOk; AOk; ABytes "READY"] eicar_files ["n"]).

(** A run of sevens. *)
Fixpoint sevens (n : nat) : string :=
  match n with
  | O => EmptyString
  | S n' => String "7" (sevens n')
  end.

(** A sextuple whose first number has 4301 digits, and the reply that is
    this sextuple. *)
Definition long_sextuple : Regex.groups :=
  Regex.Groups (sevens 4301) "0" "0" "1" "4" "1".

Definition long_reply : string := sextuple_text long_sextuple.

(** A download into a directory that is missing, and one of twelve bytes
    that the peer ends by closing the connection. *)
Definition missing_directory_world : World :=
  world_of [AFail "No such file or directory"; ABytes "twelve bytes"] [] [].

Definition short_download_world : World :=
  world_of [AOk; ABytes "twelve bytes"; ABytes EmptyString] [("report.pdf", "old")] [].

(** The greeting [220 ready] with its code in Arabic-Indic digits (U+0662,
    U+0662, U+0660), as UTF-8 encodes it. *)
Definition arabic_220 : string :=
  String (ascii_of_nat 217) (String (ascii_of_nat 162)
    (String (ascii_of_nat 217) (String (ascii_of_nat 162)
      (String (ascii_of_nat 217) (String (ascii_of_nat 160) EmptyString))))).

Definition arabic_greeting : string := arabic_220 ++ " ready".

Definition arabic_text : Unicode.text :=
  [1634; 1634; 1632; 32; 114; 101; 97; 100; 121]%N.

(** A new client and a server that greets it with that text. *)
Definition arabic_session : SecureFTPClient.Session :=
  SecureFTPClient.mkSession (SecureFTPClient.__init__ client_config)
    (world_of [AOk; ABytes arabic_greeting] [] []).

(** * Properties *)

(** ** Facts about strings *)


Lemma decimal_is_digit c : PyStr.isdecimal_char c = true -> PyStr.isdigit_char c = true.
Proof. unfold PyStr.isdigit_char. intros ->. reflexivity. Qed.

Lemma decimal_cases c :
  PyStr.isdecimal_char c = true ->
  In c ["0"; "1"; "2"; "3"; "4"; "5"; "6"; "7"; "8"; "9"]%char.
Proof.
  destruct c as [[] [] [] [] [] [] [] []]; vm_compute; intros E;
    try discriminate E; tauto.
Qed.

Lemma decimal_not_space c : PyStr.isdecimal_char c = true -> PyStr.isspace_char c = false.
Proof.
  intros E. apply decimal_cases in E. simpl in E.
  repeat (destruct E as [<- | E]; [reflexivity |]). destruct E.
Qed.

Lemma decimal_not_newline c :
  PyStr.isdecimal_char c = true -> Ascii.eqb c FTPResponse.newline = false.
Proof.
  intros E. apply decimal_cases in E. simpl in E.
  repeat (destruct E as [<- | E]; [reflexivity |]). destruct E.
Qed.

Lemma rstrip_cons c s :
  PyStr.isspace_char c = false -> PyStr.rstrip (String c s) = String c (PyStr.rstrip s).
Proof. intros E. simpl. rewrite E. destruct (PyStr.rstrip s); reflexivity. Qed.

Lemma lstrip_cons c s :
  PyStr.isspace_char c = false -> PyStr.lstrip (String c s) = String c s.
Proof. intros E. simpl. rewrite E. reflexivity. Qed.

Lemma split_cons sep s : exists h t, PyStr.split sep s = h :: t.
Proof.
  induction s as [| c s IH]; simpl; [eauto |].
  destruct (Ascii.eqb c sep); [eauto |].
  destruct IH as (h & t & ->). eauto.
Qed.

Lemma split_cons_other sep c s h t :
  Ascii.eqb c sep = false -> PyStr.split sep s = h :: t ->
  PyStr.split sep (String c s) = String c h :: t.
Proof. intros E H. simpl. rewrite E, H. reflexivity. Qed.

(** What [rstrip] and the first piece of [split] return is a prefix of
    their argument. *)
Lemma rstrip_prefix s : exists t, s = PyStr.rstrip s ++ t.
Proof.
  induction s as [| c s [t IH]]; simpl; [exists EmptyString; reflexivity |].
  destruct (PyStr.rstrip s) eqn:E.
  - destruct (PyStr.isspace_char c).
    + exists (String c s). reflexivity.
    + exists t. simpl. f_equal. exact IH.
  - exists t. simpl. f_equal. exact IH.
Qed.

Lemma split_head_prefix sep s h tl :
  PyStr.split sep s = h :: tl -> exists t, s = h ++ t.
Proof.
  revert h tl. induction s as [| c s IH]; simpl; intros h tl H.
  - injection H as <- <-. exists EmptyString. reflexivity.
  - destruct (Ascii.eqb c sep).
    + injection H as <- <-. exists (String c s). reflexivity.
    + destruct (split_cons sep s) as (h' & t' & E). rewrite E in H.
      injection H as <- <-. destruct (IH _ _ E) as [t Ht].
      exists t. simpl. f_equal. exact Ht.
Qed.

Lemma take_app n p t :
  (n <= String.length p)%nat -> PyStr.take n (p ++ t) = PyStr.take n p.
Proof.
  revert p. induction n as [| n IH]; intros p Hn.
  - destruct p; destruct t; reflexivity.
  - destruct p as [| c p]; simpl in *; [lia |].
    f_equal. apply IH. lia.
Qed.

Lemma length_app_le (p t : string) : (String.length p <= String.length (p ++ t))%nat.
Proof. induction p; simpl; lia. Qed.


(** ** Reply classification *)

Import FTPResponse.

Lemma int_three_digits d1 d2 d3 :
  PyStr.isdecimal_char d1 = true -> PyStr.isdecimal_char d2 = true ->
  PyStr.isdecimal_char d3 = true ->
  PyStr.int (String d1 (String d2 (String d3 EmptyString)))
  = Some (code_of_digits d1 d2 d3).
Proof.
  intros H1 H2 H3.
  apply decimal_cases in H1, H2, H3. simpl in H1, H2, H3.
  repeat (destruct H1 as [<- | H1]); try (destruct H1);
    repeat (destruct H2 as [<- | H2]); try (destruct H2);
      repeat (destruct H3 as [<- | H3]); try (destruct H3);
        vm_compute; reflexivity.
Qed.

Lemma init_leading_digits d1 d2 d3 rest :
  PyStr.isdecimal_char d1 = true -> PyStr.isdecimal_char d2 = true ->
  PyStr.isdecimal_char d3 = true ->
  exists r, __init__ (String d1 (String d2 (String d3 rest))) = Ok r
            /\ code r = Some (code_of_digits d1 d2 d3).
Proof.
  intros H1 H2 H3. unfold __init__, PyStr.strip.
  rewrite lstrip_cons by (apply decimal_not_space; assumption).
  rewrite !rstrip_cons by (apply decimal_not_space; assumption).
  destruct (split_cons newline (PyStr.rstrip rest)) as (h & t & E).
  rewrite (split_cons_other _ _ _ (String d2 (String d3 h)) t)
    by (first [apply decimal_not_newline; assumption
              | repeat (apply split_cons_other; [apply decimal_not_newline; assumption|]);
                exact E]).
  cbn [String.length Nat.leb PyStr.take andb].
  unfold PyStr.isdigit. cbn [PyStr.nonempty PyStr.all_chars andb].
  rewrite !decimal_is_digit by assumption. cbn [andb].
  rewrite int_three_digits by assumption.
  eexists. split; reflexivity.
Qed.

Lemma classify_code r n :
  code r = Some n -> 100 <= n <= 599 -> count_true (classifications r) = 1%nat.
Proof.
  intros Hc Hn.
  unfold classifications, is_positive_preliminary, is_positive, is_positive_intermediate,
    is_error, code_in. rewrite Hc.
  destruct (Z.eqb_spec n 0); [lia |].
  destruct (Z.leb_spec 100 n), (Z.ltb_spec n 200), (Z.leb_spec 200 n), (Z.ltb_spec n 300),
    (Z.leb_spec 300 n), (Z.ltb_spec n 400), (Z.leb_spec 400 n);
    try lia; reflexivity.
Qed.

Lemma classify_by_hundreds r n :
  code r = Some n -> 100 <= n <= 599 ->
  classifications r
  = [n <? 200; (200 <=? n) && (n <? 300); (300 <=? n) && (n <? 400); 400 <=? n].
Proof.
  intros Hc Hn.
  unfold classifications, is_positive_preliminary, is_positive, is_positive_intermediate,
    is_error, code_in. rewrite Hc.
  destruct (Z.eqb_spec n 0); [lia |].
  destruct (Z.leb_spec 100 n); [| lia]. reflexivity.
Qed.

Lemma classify_absent r :
  code r = None -> classifications r = [false; false; false; false].
Proof.
  intros Hc. unfold classifications, is_positive_preliminary, is_positive,
    is_positive_intermediate, is_error, code_in. rewrite Hc. reflexivity.
Qed.

Lemma first_line_digits s first rest :
  PyStr.split newline (PyStr.rstrip s) = first :: rest ->
  begins_with_digits first = true -> begins_with_digits s = true.
Proof.
  intros Hs Hb.
  destruct (split_head_prefix _ _ _ _ Hs) as [t1 E1].
  destruct (rstrip_prefix s) as [t2 E2].
  unfold begins_with_digits in *.
  apply andb_true_iff in Hb as [Hlen Hd]. apply Nat.leb_le in Hlen.
  assert (Es : s = first ++ (t1 ++ t2)).
  { rewrite E2 at 1. rewrite E1. clear. induction first; simpl; [reflexivity | f_equal; assumption]. }
  rewrite Es. rewrite take_app by assumption. rewrite Hd.
  pose proof (length_app_le first (t1 ++ t2)).
  apply andb_true_iff. split; [apply Nat.leb_le; lia | reflexivity].
Qed.

Lemma init_without_digits line :
  begins_with_digits (PyStr.lstrip line) = false ->
  exists r, __init__ line = Ok r /\ code r = None.
Proof.
  intros Hb. unfold __init__, PyStr.strip.
  destruct (PyStr.split newline (PyStr.rstrip (PyStr.lstrip line))) as [| first rest] eqn:E.
  - eexists. split; reflexivity.
  - destruct ((3 <=? String.length first)%nat && PyStr.isdigit (PyStr.take 3 first)) eqn:Hd.
    + pose proof (first_line_digits _ _ _ E Hd) as Hc. congruence.
    + eexists. split; reflexivity.
Qed.


(** C4 (as amended).  A reply line that begins with three decimal digits
    spelling a code between 100 and 599 parses to that code, and exactly one
    of [is_positive_preliminary], [is_positive], [is_positive_intermediate]
    and [is_error] holds of it: the first for 1xx, the second for 2xx, the
    third for 3xx, the last for 4xx and 5xx.  A line that, once its leading
    white space is removed, does not begin with three digit characters parses
    to a response without a code, of which none of the four holds. *)
Theorem reply_classification :
  (forall d1 d2 d3 rest,
      PyStr.isdecimal_char d1 = true ->
      PyStr.isdecimal_char d2 = true ->
      PyStr.isdecimal_char d3 = true ->
      100 <= code_of_digits d1 d2 d3 <= 599 ->
      exists r,
        __init__ (String d1 (String d2 (String d3 rest))) = Ok r
        /\ code r = Some (code_of_digits d1 d2 d3)
        /\ count_true (classifications r) = 1%nat
        /\ classifications r
           = (let n := code_of_digits d1 d2 d3 in
              [n <? 200; (200 <=? n) && (n <? 300); (300 <=? n) && (n <? 400);
               400 <=? n]))
  /\ (forall line,
         begins_with_digits (PyStr.lstrip line) = false ->
         exists r,
           __init__ line = Ok r
           /\ code r = None
           /\ classifications r = [false; false; false; false]).
Proof.
  split.
  - intros d1 d2 d3 rest H1 H2 H3 Hn.
    destruct (init_leading_digits d1 d2 d3 rest H1 H2 H3) as (r & Er & Ec).
    exists r. split; [exact Er |]. split; [exact Ec |]. split.
    + exact (classify_code r _ Ec Hn).
    + exact (classify_by_hundreds r _ Ec Hn).
  - intros line Hb.
    destruct (init_without_digits line Hb) as (r & Er & Ec).
    exists r. repeat split; [exact Er | exact Ec |].
    exact (classify_absent r Ec).
Qed.

(** The theorem at the greeting [220 Service ready] and at a line of text. *)
Lemma reply_classification_witness :
  (exists r,
      __init__ "220 Service ready" = Ok r
      /\ code r = Some 220
      /\ count_true (classifications r) = 1%nat
      /\ classifications r = [false; true; false; false])
  /\ (exists r,
         __init__ "  hello" = Ok r
         /\ code r = None
         /\ classifications r = [false; false; false; false]).
Proof.
  split.
  - apply (proj1 reply_classification "2"%char "2"%char "0"%char " Service ready");
      vm_compute; first [reflexivity | split; discriminate].
  - apply (proj2 reply_classification "  hello"). reflexivity.
Defined.

(** The second half fails as first stated, for the first three characters of
    the line itself: [strip] removes the white space in front of a code. *)
Lemma reply_with_leading_space_has_a_code :
  ~ (forall line,
        has_leading_code line = false ->
        exists r,
          __init__ line = Ok r
          /\ code r = None
          /\ classifications r = [false; false; false; false]).
Proof.
  intros H. destruct (H " 220 ok" eq_refl) as (r & Er & Ec & _).
  vm_compute in Er. injection Er as <-. discriminate Ec.
Qed.

(** ** Decimal numerals *)

Lemma of_uint_acc_value d acc :
  Z.pos (Pos.of_uint_acc d acc) = decimal_acc (Z.pos acc) (NilEmpty.string_of_uint d).
Proof.
  revert acc. induction d; intros acc; simpl; [reflexivity | ..];
    rewrite IHd; f_equal; unfold digit_value; simpl; lia.
Qed.

Lemma of_uint_value d :
  Z.of_N (Pos.of_uint d) = decimal_value (NilEmpty.string_of_uint d).
Proof.
  unfold decimal_value. induction d; simpl; [reflexivity | exact IHd | ..];
    rewrite of_uint_acc_value; reflexivity.
Qed.

Lemma digits_parse ds :
  PyStr.all_chars PyStr.isdecimal_char ds = true ->
  exists d, NilEmpty.uint_of_string ds = Some d.
Proof.
  induction ds as [| c ds IH]; simpl; [eauto |].
  intros H. apply andb_true_iff in H as [Hc Hds].
  destruct (IH Hds) as [d ->].
  apply decimal_cases in Hc. simpl in Hc.
  repeat (destruct Hc as [<- | Hc]; [simpl; eauto |]). destruct Hc.
Qed.

Lemma digits_value_decimal ds :
  PyStr.all_chars PyStr.isdecimal_char ds = true ->
  PyStr.digits_value ds = Some (decimal_value ds).
Proof.
  intros H. destruct (digits_parse ds H) as [d E].
  unfold PyStr.digits_value. rewrite E. simpl.
  apply NilEmpty.sus in E. rewrite <- E.
  f_equal. apply of_uint_value.
Qed.

Lemma int_digits_decimal b ds :
  PyStr.all_chars PyStr.isdecimal_char ds = true ->
  PyStr.nonempty ds || b = true ->
  PyStr.int_digits b ds = Some ds.
Proof.
  revert b. induction ds as [| c ds IH]; simpl; intros b H Hb.
  - rewrite Hb. reflexivity.
  - apply andb_true_iff in H as [Hc Hds]. rewrite Hc.
    rewrite (IH true Hds) by (apply orb_true_r). reflexivity.
Qed.

Lemma rstrip_decimal ds :
  PyStr.all_chars PyStr.isdecimal_char ds = true -> PyStr.rstrip ds = ds.
Proof.
  induction ds as [| c ds IH]; [reflexivity |].
  cbn [PyStr.all_chars]. intros H. apply andb_true_iff in H as [Hc Hds].
  rewrite rstrip_cons by (apply decimal_not_space; exact Hc).
  rewrite IH by exact Hds. reflexivity.
Qed.

Lemma strip_decimal ds :
  PyStr.all_chars PyStr.isdecimal_char ds = true -> PyStr.strip ds = ds.
Proof.
  intros H. unfold PyStr.strip.
  destruct ds as [| c ds]; [reflexivity |].
  pose proof H as H'. cbn [PyStr.all_chars] in H'. apply andb_true_iff in H' as [Hc _].
  rewrite lstrip_cons by (apply decimal_not_space; exact Hc).
  apply rstrip_decimal. exact H.
Qed.

Lemma decimal_not_int_space c :
  PyStr.isdecimal_char c = true -> PyStr.int_space_char c = false.
Proof.
  intros E. unfold PyStr.int_space_char. cbv zeta.
  rewrite (decimal_not_space c E). reflexivity.
Qed.

Lemma int_rstrip_cons c s :
  PyStr.int_space_char c = false ->
  PyStr.int_rstrip (String c s) = String c (PyStr.int_rstrip s).
Proof. intros E. simpl. rewrite E. destruct (PyStr.int_rstrip s); reflexivity. Qed.

Lemma int_rstrip_decimal ds :
  PyStr.all_chars PyStr.isdecimal_char ds = true -> PyStr.int_rstrip ds = ds.
Proof.
  induction ds as [| c ds IH]; [reflexivity |].
  cbn [PyStr.all_chars]. intros H. apply andb_true_iff in H as [Hc Hds].
  rewrite int_rstrip_cons by (apply decimal_not_int_space; exact Hc).
  rewrite IH by exact Hds. reflexivity.
Qed.

Lemma int_strip_decimal ds :
  PyStr.all_chars PyStr.isdecimal_char ds = true ->
  PyStr.int_rstrip (PyStr.int_lstrip ds) = ds.
Proof.
  intros H. destruct ds as [| c ds]; [reflexivity |].
  pose proof H as H'. cbn [PyStr.all_chars] in H'. apply andb_true_iff in H' as [Hc _].
  cbn [PyStr.int_lstrip]. rewrite (decimal_not_int_space c Hc).
  apply int_rstrip_decimal. exact H.
Qed.

(** [int] of a run of decimal digits: the number the digits spell, unless
    the run is longer than the interpreter converts. *)
Lemma int_of_digits_cases ds :
  is_digits ds = true ->
  PyStr.int ds
  = if PyStr.max_str_digits <? Z.of_nat (String.length ds) then None
    else Some (decimal_value ds).
Proof.
  unfold is_digits. intros H. apply andb_true_iff in H as [Hne Hall].
  unfold PyStr.int. rewrite int_strip_decimal by exact Hall.
  destruct ds as [| c ds]; [discriminate |].
  assert (Hsign : (let '(negative, body) :=
                     match String c ds with
                     | String "-" r => (true, r)
                     | String "+" r => (false, r)
                     | _ => (false, String c ds)
                     end in
                   match PyStr.int_digits false body with
                   | Some ds0 =>
                       if PyStr.max_str_digits <? Z.of_nat (String.length ds0) then None
                       else
                         option_map (fun v => if negative then - v else v)
                           (PyStr.digits_value ds0)
                   | None => None
                   end)
                  = match PyStr.int_digits false (String c ds) with
                    | Some ds0 =>
                        if PyStr.max_str_digits <? Z.of_nat (String.length ds0) then None
                        else option_map (fun v => v) (PyStr.digits_value ds0)
                    | None => None
                    end).
  { pose proof Hall as Hc. cbn [PyStr.all_chars] in Hc. apply andb_true_iff in Hc as [Hc _].
    apply decimal_cases in Hc. simpl in Hc.
    repeat (destruct Hc as [<- | Hc]; [reflexivity |]). destruct Hc. }
  rewrite Hsign. rewrite int_digits_decimal by (first [exact Hall | reflexivity]).
  rewrite digits_value_decimal by exact Hall.
  destruct (PyStr.max_str_digits <? Z.of_nat (String.length (String c ds))); reflexivity.
Qed.

Lemma int_of_digits ds :
  is_digits ds = true ->
  Z.of_nat (String.length ds) <= PyStr.max_str_digits ->
  PyStr.int ds = Some (decimal_value ds).
Proof.
  intros Hd Hl. rewrite (int_of_digits_cases ds Hd).
  destruct (Z.ltb_spec PyStr.max_str_digits (Z.of_nat (String.length ds))); [lia | reflexivity].
Qed.

Lemma int_of_long_digits ds :
  is_digits ds = true ->
  PyStr.max_str_digits < Z.of_nat (String.length ds) ->
  PyStr.int ds = None.
Proof.
  intros Hd Hl. rewrite (int_of_digits_cases ds Hd).
  destruct (Z.ltb_spec PyStr.max_str_digits (Z.of_nat (String.length ds))); [reflexivity | lia].
Qed.

Lemma string_of_uint_decimal d :
  PyStr.all_chars PyStr.isdecimal_char (NilEmpty.string_of_uint d) = true.
Proof. induction d; simpl; [reflexivity | ..]; exact IHd. Qed.

Lemma string_of_uint_nonempty d :
  d <> Decimal.Nil -> PyStr.nonempty (NilEmpty.string_of_uint d) = true.
Proof. destruct d; simpl; congruence. Qed.

(** [str(z)] of a natural number is a run of digits that spells [z]. *)
Lemma of_int_digits z : 0 <= z -> is_digits (PyStr.of_int z) = true.
Proof.
  intros Hz. unfold is_digits, PyStr.of_int.
  destruct z as [| p | p]; [reflexivity | | lia].
  simpl. rewrite string_of_uint_decimal.
  rewrite string_of_uint_nonempty by apply DecimalPos.Unsigned.to_uint_nonnil.
  reflexivity.
Qed.

Lemma of_int_value z : 0 <= z -> decimal_value (PyStr.of_int z) = z.
Proof.
  intros Hz. unfold PyStr.of_int.
  destruct z as [| p | p]; [reflexivity | | lia].
  simpl. rewrite <- of_uint_value.
  rewrite DecimalPos.Unsigned.of_to. reflexivity.
Qed.

(** *** How many digits *)

Lemma string_of_uint_length d :
  String.length (NilEmpty.string_of_uint d) = Decimal.nb_digits d.
Proof. induction d; simpl; [reflexivity | ..]; rewrite IHd; reflexivity. Qed.

Lemma of_int_of_N n :
  PyStr.of_int (Z.of_N n) = NilEmpty.string_of_uint (N.to_uint n).
Proof. destruct n; reflexivity. Qed.

(** Writing the number that a run of digits spells takes no more digits
    than the run has. *)
Lemma of_int_value_length ds :
  is_digits ds = true ->
  (String.length (PyStr.of_int (decimal_value ds)) <= String.length ds)%nat.
Proof.
  unfold is_digits. intros H. apply andb_true_iff in H as [Hne Hall].
  destruct (digits_parse ds Hall) as [d E].
  pose proof (NilEmpty.sus _ _ E) as Es. rewrite <- Es.
  rewrite <- of_uint_value, of_int_of_N, DecimalPos.Unsigned.to_of.
  rewrite !string_of_uint_length.
  apply DecimalFacts.nb_digits_unorm.
  intros ->. rewrite <- Es in Hne. discriminate Hne.
Qed.

Lemma digits_nonneg z : 0 <= z -> PyStr.digits z = Z.of_nat (String.length (PyStr.of_int z)).
Proof. intros Hz. unfold PyStr.digits. rewrite Z.abs_eq by exact Hz. reflexivity. Qed.

Lemma str_within_limit z :
  PyStr.digits z <= PyStr.max_str_digits -> PyStr.str z = Some (PyStr.of_int z).
Proof.
  intros Hl. unfold PyStr.str.
  destruct (Z.ltb_spec PyStr.max_str_digits (PyStr.digits z)); [lia | reflexivity].
Qed.

Lemma str_beyond_limit z :
  PyStr.max_str_digits < PyStr.digits z -> PyStr.str z = None.
Proof.
  intros Hl. unfold PyStr.str.
  destruct (Z.ltb_spec PyStr.max_str_digits (PyStr.digits z)); [reflexivity | lia].
Qed.

(** A number below 256 has at most three digits. *)
Lemma digits_below_256 z : 0 <= z < 256 -> PyStr.digits z <= 3.
Proof.
  intros Hz.
  assert (Hall : forallb (fun n => PyStr.digits (Z.of_nat n) <=? 3) (seq 0 256) = true)
    by (vm_compute; reflexivity).
  rewrite forallb_forall in Hall.
  specialize (Hall (Z.to_nat z)). rewrite Z2Nat.id in Hall by lia.
  apply Z.leb_le, Hall, in_seq. lia.
Qed.

(** ** The search for a sextuple *)

Lemma append_assoc (a b c : string) : (a ++ b) ++ c = a ++ b ++ c.
Proof. induction a; simpl; [reflexivity | f_equal; assumption]. Qed.

Lemma append_length (a b : string) :
  String.length (a ++ b) = (String.length a + String.length b)%nat.
Proof. induction a; simpl; [reflexivity | f_equal; assumption]. Qed.

Lemma append_same_length_inv (a a' b b' : string) :
  a ++ b = a' ++ b' -> String.length a = String.length a' -> a = a' /\ b = b'.
Proof.
  revert a'. induction a as [| c a IH]; intros [| c' a'] E L; simpl in *;
    try discriminate L.
  - split; [reflexivity | exact E].
  - injection E as -> E. injection L as L.
    destruct (IH _ E L) as [-> ->]. split; reflexivity.
Qed.

Lemma span_digits_spec s d r :
  Regex.span_digits s = (d, r) ->
  s = d ++ r /\ PyStr.all_chars PyStr.isdecimal_char d = true.
Proof.
  revert d r. induction s as [| c s IH]; simpl; intros d r E.
  - injection E as <- <-. split; reflexivity.
  - destruct (PyStr.isdecimal_char c) eqn:Hc.
    + destruct (Regex.span_digits s) as [d' r'].
      injection E as <- <-. destruct (IH _ _ eq_refl) as [-> Hd].
      split; [reflexivity | simpl; rewrite Hc; exact Hd].
    + injection E as <- <-. split; reflexivity.
Qed.

Lemma span_digits_app d c r :
  PyStr.all_chars PyStr.isdecimal_char d = true ->
  PyStr.isdecimal_char c = false ->
  Regex.span_digits (d ++ String c r) = (d, String c r).
Proof.
  intros Hd Hc. induction d as [| x d IH]; simpl.
  - rewrite Hc. reflexivity.
  - simpl in Hd. apply andb_true_iff in Hd as [Hx Hd].
    rewrite Hx, (IH Hd). reflexivity.
Qed.

Lemma digits_then_app stop d r :
  is_digits d = true -> PyStr.isdecimal_char stop = false ->
  Regex.digits_then stop (d ++ String stop r) = Some (d, r).
Proof.
  unfold is_digits. intros H Hs. apply andb_true_iff in H as [Hne Hd].
  unfold Regex.digits_then. rewrite span_digits_app by assumption.
  destruct d; [discriminate |]. rewrite Ascii.eqb_refl. reflexivity.
Qed.

Lemma digits_then_spec stop s d r :
  Regex.digits_then stop s = Some (d, r) ->
  is_digits d = true /\ s = d ++ String stop r.
Proof.
  unfold Regex.digits_then. intros E.
  destruct (Regex.span_digits s) as [d' r'] eqn:Es.
  apply span_digits_spec in Es as [-> Hd].
  destruct d' as [| c d']; [discriminate |].
  destruct r' as [| c' r']; [discriminate |].
  destruct (Ascii.eqb_spec c' stop) as [-> |]; [| discriminate].
  injection E as <- <-. unfold is_digits. rewrite Hd. split; reflexivity.
Qed.

(** The pattern matches a sextuple at the head of the text, with the six
    runs of digits as its groups. *)
Lemma match_here_sextuple g post :
  all_digits g = true -> Regex.match_here (sextuple_text g ++ post) = Some g.
Proof.
  destruct g as [d1 d2 d3 d4 d5 d6]. unfold all_digits, sextuple_text.
  cbn [Regex.g1 Regex.g2 Regex.g3 Regex.g4 Regex.g5 Regex.g6].
  intros H. do 5 (apply andb_true_iff in H as [H ?]).
  repeat (progress (rewrite ?append_assoc; cbn [String.append])).
  cbn [Regex.match_here].
  repeat (rewrite digits_then_app by (first [assumption | reflexivity])).
  reflexivity.
Qed.

(** What the pattern matches at the head of a text is a sextuple. *)
Lemma match_here_spec s g :
  Regex.match_here s = Some g ->
  all_digits g = true /\ exists post, s = sextuple_text g ++ post.
Proof.
  unfold Regex.match_here. intros E.
  destruct s as [| c s]; [discriminate |].
  destruct (Ascii.eqb_spec c "(") as [-> | Hc];
    [| destruct c as [[] [] [] [] [] [] [] []]; first [discriminate | congruence]].
  destruct (Regex.digits_then "," s) as [[d1 s1] |] eqn:E1; [| discriminate].
  destruct (Regex.digits_then "," s1) as [[d2 s2] |] eqn:E2; [| discriminate].
  destruct (Regex.digits_then "," s2) as [[d3 s3] |] eqn:E3; [| discriminate].
  destruct (Regex.digits_then "," s3) as [[d4 s4] |] eqn:E4; [| discriminate].
  destruct (Regex.digits_then "," s4) as [[d5 s5] |] eqn:E5; [| discriminate].
  destruct (Regex.digits_then ")" s5) as [[d6 s6] |] eqn:E6; [| discriminate].
  injection E as <-.
  apply digits_then_spec in E1 as [H1 ->], E2 as [H2 ->], E3 as [H3 ->],
    E4 as [H4 ->], E5 as [H5 ->], E6 as [H6 ->].
  unfold all_digits, sextuple_text.
  cbn [Regex.g1 Regex.g2 Regex.g3 Regex.g4 Regex.g5 Regex.g6].
  rewrite H1, H2, H3, H4, H5, H6. split; [reflexivity |].
  exists s6. cbn [String.append]. f_equal.
  repeat (rewrite append_assoc; cbn [String.append]). reflexivity.
Qed.

Lemma group_at_head g s :
  group_at EmptyString g s -> Regex.match_here s = Some g.
Proof. intros [Hd [post ->]]. apply match_here_sextuple. exact Hd. Qed.

Lemma group_at_tail c pre g s :
  group_at (String c pre) g (String c s) <-> group_at pre g s.
Proof.
  unfold group_at. split; intros [Hd [post E]]; (split; [exact Hd |]); exists post.
  - cbn [String.append] in E. injection E as E. exact E.
  - cbn [String.append]. f_equal. exact E.
Qed.

Lemma group_at_char c c' pre g s :
  group_at (String c' pre) g (String c s) -> c' = c.
Proof. intros [_ [post E]]. cbn [String.append] in E. injection E as E _. congruence. Qed.

Lemma search_none s :
  Regex.search s = None -> forall pre g, ~ group_at pre g s.
Proof.
  induction s as [| c s IH]; cbn [Regex.search]; intros E pre g G.
  - destruct (Regex.match_here EmptyString) eqn:Em; [discriminate |].
    destruct pre as [| c' pre].
    + apply group_at_head in G. congruence.
    + destruct G as [_ [post Ep]]. discriminate Ep.
  - destruct (Regex.match_here (String c s)) eqn:Em; [discriminate |].
    destruct pre as [| c' pre].
    + apply group_at_head in G. congruence.
    + pose proof (group_at_char _ _ _ _ _ G) as ->.
      apply (proj1 (group_at_tail _ _ _ _)) in G. exact (IH E _ _ G).
Qed.

Lemma search_first s g :
  Regex.search s = Some g -> exists pre, first_group_at pre g s.
Proof.
  induction s as [| c s IH]; cbn [Regex.search]; intros E.
  - destruct (Regex.match_here EmptyString) eqn:Em; [| discriminate].
    injection E as ->. exists EmptyString. split.
    + apply match_here_spec in Em as [Hd [post Ep]]. split; [exact Hd | eauto].
    + intros. simpl. lia.
  - destruct (Regex.match_here (String c s)) eqn:Em.
    + injection E as ->. exists EmptyString. split.
      * apply match_here_spec in Em as [Hd [post Ep]]. split; [exact Hd | eauto].
      * intros. simpl. lia.
    + destruct (IH E) as [pre [G Hmin]]. exists (String c pre). split.
      * apply (proj2 (group_at_tail _ _ _ _)). exact G.
      * intros pre' g' G'. destruct pre' as [| c' pre'].
        -- apply group_at_head in G'. congruence.
        -- pose proof (group_at_char _ _ _ _ _ G') as ->.
           apply (proj1 (group_at_tail _ _ _ _)) in G'. specialize (Hmin _ _ G'). simpl. lia.
Qed.

(** [search] finds the first sextuple of the text. *)
Lemma search_of_first pre g s :
  first_group_at pre g s -> Regex.search s = Some g.
Proof.
  intros [G Hmin].
  destruct (Regex.search s) as [g' |] eqn:E.
  - destruct (search_first _ _ E) as [pre' [G' Hmin']].
    pose proof (Hmin _ _ G') as L1. pose proof (Hmin' _ _ G) as L2.
    destruct G as [Hd [post Ep]], G' as [Hd' [post' Ep']].
    assert (Hpre : pre = pre' /\ sextuple_text g ++ post = sextuple_text g' ++ post').
    { apply append_same_length_inv; [congruence | lia]. }
    destruct Hpre as [_ Ht].
    pose proof (match_here_sextuple g post Hd) as M.
    rewrite Ht, (match_here_sextuple g' post' Hd') in M. congruence.
  - exfalso. exact (search_none _ E _ _ G).
Qed.

Lemma within_limit_spec g :
  within_limit g = true
  <-> Z.of_nat (String.length (Regex.g1 g)) <= PyStr.max_str_digits
      /\ Z.of_nat (String.length (Regex.g2 g)) <= PyStr.max_str_digits
      /\ Z.of_nat (String.length (Regex.g3 g)) <= PyStr.max_str_digits
      /\ Z.of_nat (String.length (Regex.g4 g)) <= PyStr.max_str_digits
      /\ Z.of_nat (String.length (Regex.g5 g)) <= PyStr.max_str_digits
      /\ Z.of_nat (String.length (Regex.g6 g)) <= PyStr.max_str_digits.
Proof.
  unfold within_limit. cbn [forallb]. rewrite !andb_true_iff, !Z.leb_le. tauto.
Qed.

Lemma parse_of_search s g :
  Regex.search s = Some g -> all_digits g = true -> within_limit g = true ->
  NetworkUtils.parse_pasv_response s = Some (address_of g).
Proof.
  intros E Hd Hl. unfold NetworkUtils.parse_pasv_response. rewrite E.
  unfold all_digits in Hd. do 5 (apply andb_true_iff in Hd as [Hd ?]).
  apply within_limit_spec in Hl as (L1 & L2 & L3 & L4 & L5 & L6).
  rewrite !int_of_digits by assumption. reflexivity.
Qed.

(** With a number that is too long in the group the conversion raises, and
    the function returns [None]. *)
Lemma parse_of_long_search s g :
  Regex.search s = Some g -> all_digits g = true -> within_limit g = false ->
  NetworkUtils.parse_pasv_response s = None.
Proof.
  intros E Hd Hl. unfold NetworkUtils.parse_pasv_response. rewrite E.
  unfold all_digits in Hd. do 5 (apply andb_true_iff in Hd as [Hd ?]).
  rewrite !int_of_digits_cases by assumption.
  unfold within_limit in Hl. cbn [forallb] in Hl.
  repeat match goal with
         | |- context [PyStr.max_str_digits <? ?n] =>
             destruct (Z.ltb_spec PyStr.max_str_digits n); [reflexivity |]
         end.
  exfalso. rewrite !andb_false_iff, !Z.leb_gt in Hl. cbn in Hl. lia.
Qed.

Lemma search_of_match s g : Regex.match_here s = Some g -> Regex.search s = Some g.
Proof. intros E. destruct s; cbn [Regex.search]; rewrite E; reflexivity. Qed.

Lemma search_skip pre t :
  PyStr.all_chars (fun c => negb (Ascii.eqb c "(")) pre = true ->
  Regex.search (pre ++ t) = Regex.search t.
Proof.
  induction pre as [| c pre IH]; [reflexivity |].
  cbn [PyStr.all_chars String.append Regex.search]. intros H.
  apply andb_true_iff in H as [Hc Hpre]. rewrite (IH Hpre).
  destruct (Ascii.eqb_spec c "(") as [-> | Hne]; [discriminate |].
  destruct c as [[] [] [] [] [] [] [] []]; first [reflexivity | congruence].
Qed.

Lemma split_digits_dot p r :
  PyStr.all_chars PyStr.isdecimal_char p = true ->
  PyStr.split "." (p ++ String "." r) = p :: PyStr.split "." r.
Proof.
  induction p as [| c p IH]; [reflexivity |].
  cbn [PyStr.all_chars String.append]. intros H. apply andb_true_iff in H as [Hc Hp].
  apply split_cons_other; [| exact (IH Hp)].
  apply decimal_cases in Hc. simpl in Hc.
  repeat (destruct Hc as [<- | Hc]; [reflexivity |]). destruct Hc.
Qed.

Lemma split_digits_last p :
  PyStr.all_chars PyStr.isdecimal_char p = true -> PyStr.split "." p = [p].
Proof.
  induction p as [| c p IH]; [reflexivity |].
  cbn [PyStr.all_chars]. intros H. apply andb_true_iff in H as [Hc Hp].
  apply split_cons_other; [| exact (IH Hp)].
  apply decimal_cases in Hc. simpl in Hc.
  repeat (destruct Hc as [<- | Hc]; [reflexivity |]). destruct Hc.
Qed.

Lemma is_digits_all d : is_digits d = true -> PyStr.all_chars PyStr.isdecimal_char d = true.
Proof. unfold is_digits. intros H. apply andb_true_iff in H as [_ H]. exact H. Qed.

Lemma str_mod_256 port : PyStr.str (port mod 256) = Some (PyStr.of_int (port mod 256)).
Proof.
  apply str_within_limit.
  pose proof (digits_below_256 (port mod 256) (Z.mod_pos_bound port 256 eq_refl)).
  unfold PyStr.max_str_digits. lia.
Qed.

Lemma create_port_command_dotted a b c d port :
  0 <= a -> 0 <= b -> 0 <= c -> 0 <= d ->
  PyStr.digits (port / 256) <= PyStr.max_str_digits ->
  NetworkUtils.create_port_command (NetworkUtils.dotted a b c d) port
  = Ok ("PORT " ++ sextuple_of a b c d port).
Proof.
  intros Ha Hb Hc Hd Hl. unfold NetworkUtils.create_port_command, NetworkUtils.dotted.
  cbn [String.append].
  rewrite !split_digits_dot by (apply is_digits_all, of_int_digits; assumption).
  rewrite split_digits_last by (apply is_digits_all, of_int_digits; assumption).
  cbn [length Nat.eqb negb PyStr.join]. unfold sextuple_of.
  rewrite (str_within_limit _ Hl), str_mod_256.
  repeat (progress (rewrite ?append_assoc; cbn [String.append])). reflexivity.
Qed.

Lemma parse_written_sextuple pre a b c d port :
  PyStr.all_chars (fun c => negb (Ascii.eqb c "(")) pre = true ->
  0 <= a -> 0 <= b -> 0 <= c -> 0 <= d -> 0 <= port ->
  within_limit (groups_of a b c d port) = true ->
  NetworkUtils.parse_pasv_response (pre ++ "(" ++ sextuple_of a b c d port ++ ")")
  = Some (NetworkUtils.dotted a b c d, port).
Proof.
  intros Hpre Ha Hb Hc Hd Hp Hl.
  assert (H1 : 0 <= port / 256) by (apply Z.div_pos; lia).
  assert (H2 : 0 <= port mod 256) by (apply Z.mod_pos_bound; lia).
  assert (Hg : all_digits (groups_of a b c d port) = true).
  { unfold all_digits, groups_of.
    cbn [Regex.g1 Regex.g2 Regex.g3 Regex.g4 Regex.g5 Regex.g6].
    rewrite !of_int_digits by assumption. reflexivity. }
  assert (Et : "(" ++ sextuple_of a b c d port ++ ")"
               = sextuple_text (groups_of a b c d port) ++ EmptyString).
  { unfold sextuple_of, sextuple_text, groups_of.
    cbn [Regex.g1 Regex.g2 Regex.g3 Regex.g4 Regex.g5 Regex.g6].
    repeat (progress (rewrite ?append_assoc; cbn [String.append])). reflexivity. }
  rewrite (parse_of_search _ (groups_of a b c d port)).
  - unfold address_of, groups_of.
    cbn [Regex.g1 Regex.g2 Regex.g3 Regex.g4 Regex.g5 Regex.g6].
    rewrite !of_int_value by assumption.
    do 2 f_equal. rewrite Z.mul_comm. symmetry. apply Z.div_mod. lia.
  - rewrite search_skip by exact Hpre. rewrite Et.
    apply search_of_match, match_here_sextuple. exact Hg.
  - exact Hg.
  - exact Hl.
Qed.

Lemma within_limit_groups_of a b c d port :
  0 <= a -> 0 <= b -> 0 <= c -> 0 <= d -> 0 <= port ->
  PyStr.digits a <= PyStr.max_str_digits -> PyStr.digits b <= PyStr.max_str_digits ->
  PyStr.digits c <= PyStr.max_str_digits -> PyStr.digits d <= PyStr.max_str_digits ->
  PyStr.digits (port / 256) <= PyStr.max_str_digits ->
  within_limit (groups_of a b c d port) = true.
Proof.
  intros Ha Hb Hc Hd Hp La Lb Lc Ld Lp.
  assert (H1 : 0 <= port / 256) by (apply Z.div_pos; lia).
  assert (H2 : 0 <= port mod 256 < 256) by (apply Z.mod_pos_bound; lia).
  pose proof (digits_below_256 _ H2) as L2.
  rewrite digits_nonneg in La, Lb, Lc, Ld, Lp, L2 by lia.
  apply within_limit_spec. unfold groups_of.
  cbn [Regex.g1 Regex.g2 Regex.g3 Regex.g4 Regex.g5 Regex.g6].
  unfold PyStr.max_str_digits in *. lia.
Qed.

Lemma digits_octet z : 0 <= z <= 255 -> PyStr.digits z <= PyStr.max_str_digits.
Proof.
  intros Hz. pose proof (digits_below_256 z ltac:(lia)). unfold PyStr.max_str_digits. lia.
Qed.

(** C8.  For an IPv4 address [a.b.c.d] and a port between 0 and 65535,
    [create_port_command] writes the sextuple [a,b,c,d,port/256,port%256],
    and [parse_pasv_response] reads that sextuple in parentheses, alone or at
    the end of a [227] reply, back into the address and the port.  Address
    192.168.1.100 with port 5141 is the sextuple 192,168,1,100,20,21. *)
Theorem port_command_round_trip :
  (forall a b c d port,
      octet a -> octet b -> octet c -> octet d -> 0 <= port <= 65535 ->
      let ip := NetworkUtils.dotted a b c d in
      let sextuple := sextuple_of a b c d port in
      NetworkUtils.create_port_command ip port = Ok ("PORT " ++ sextuple)
      /\ NetworkUtils.parse_pasv_response ("(" ++ sextuple ++ ")") = Some (ip, port)
      /\ NetworkUtils.parse_pasv_response
           ("227 Entering Passive Mode (" ++ sextuple ++ ")") = Some (ip, port))
  /\ NetworkUtils.dotted 192 168 1 100 = "192.168.1.100"
  /\ sextuple_of 192 168 1 100 5141 = "192,168,1,100,20,21".
Proof.
  split; [| split; reflexivity].
  unfold octet. intros a b c d port Ha Hb Hc Hd Hp. cbv zeta.
  assert (Lp : PyStr.digits (port / 256) <= PyStr.max_str_digits).
  { apply digits_octet. split; [apply Z.div_pos; lia |].
    apply Z.lt_succ_r, Z.div_lt_upper_bound; lia. }
  assert (Hl : within_limit (groups_of a b c d port) = true)
    by (apply within_limit_groups_of; first [lia | apply digits_octet; lia | exact Lp]).
  split; [| split].
  - apply create_port_command_dotted; first [lia | exact Lp].
  - apply (parse_written_sextuple EmptyString); first [reflexivity | lia | exact Hl].
  - apply (parse_written_sextuple "227 Entering Passive Mode ");
      first [reflexivity | lia | exact Hl].
Qed.

(** The round trip at 192.168.1.100, port 5141. *)
Lemma port_command_round_trip_witness :
  NetworkUtils.create_port_command "192.168.1.100" 5141 = Ok "PORT 192,168,1,100,20,21"
  /\ NetworkUtils.parse_pasv_response "(192,168,1,100,20,21)" = Some ("192.168.1.100", 5141)
  /\ NetworkUtils.parse_pasv_response "227 Entering Passive Mode (192,168,1,100,20,21)"
     = Some ("192.168.1.100", 5141).
Proof.
  apply (proj1 port_command_round_trip 192 168 1 100 5141); unfold octet; lia.
Defined.

(** C10.  [parse_pasv_response] returns a value on every text and never
    raises.  It returns [None] exactly when the text holds no parenthesized
    group of six integers, or when a number of the first such group has more
    digits than [int] converts (4300 by default), where [int] raises and the
    [except] swallows it.  Otherwise it returns the address and the port of
    the first group, whatever the six numbers are: an octet of 999 and a
    port above 65535 come back as they are. *)
Theorem parse_pasv_response_total :
  (forall s,
      NetworkUtils.parse_pasv_response s = None
      <-> (forall pre g, ~ group_at pre g s)
          \/ (exists pre g, first_group_at pre g s /\ within_limit g = false))
  /\ (forall s pre g,
         first_group_at pre g s -> within_limit g = true ->
         NetworkUtils.parse_pasv_response s = Some (address_of g))
  /\ NetworkUtils.parse_pasv_response "227 Entering Passive Mode (999,300,1,2,255,255)"
     = Some ("999.300.1.2", 65535)
  /\ NetworkUtils.parse_pasv_response "(10,0,0,1,256,0) (10,0,0,1,1,1)"
     = Some ("10.0.0.1", 65536)
  /\ NetworkUtils.parse_pasv_response "(1,2,3,4,999,999)" = Some ("1.2.3.4", 256743).
Proof.
  split; [| split; [| repeat split; reflexivity]].
  - intros s. split.
    + intros E. destruct (Regex.search s) as [g |] eqn:Es.
      * destruct (search_first _ _ Es) as [pre F]. right. exists pre, g.
        split; [exact F |].
        destruct (within_limit g) eqn:Hl; [| reflexivity].
        destruct F as [[Hd _] _].
        rewrite (parse_of_search _ _ Es Hd Hl) in E. discriminate E.
      * left. apply search_none. exact Es.
    + intros [Hno | (pre & g & F & Hl)].
      * destruct (Regex.search s) as [g |] eqn:Es.
        -- destruct (search_first _ _ Es) as [pre [G _]]. destruct (Hno _ _ G).
        -- unfold NetworkUtils.parse_pasv_response. rewrite Es. reflexivity.
      * apply (parse_of_long_search _ g); [exact (search_of_first _ _ _ F) | | exact Hl].
        destruct F as [[Hd _] _]. exact Hd.
  - intros s pre g F Hl. apply parse_of_search.
    + exact (search_of_first _ _ _ F).
    + destruct F as [[Hd _] _]. exact Hd.
    + exact Hl.
Qed.

(** The theorem at a reply without a sextuple and at one that holds two. *)
Lemma parse_pasv_response_total_witness :
  NetworkUtils.parse_pasv_response "200 PORT 10,0,0,1,4,1 ok" = None
  /\ NetworkUtils.parse_pasv_response "227 (1,2) then (300,0,0,1,4,1) and (9,9,9,9,9,9)"
     = Some ("300.0.0.1", 1025).
Proof.
  split.
  - apply (proj1 parse_pasv_response_total). left.
    apply search_none. reflexivity.
  - destruct (search_first "227 (1,2) then (300,0,0,1,4,1) and (9,9,9,9,9,9)"
                (Regex.Groups "300" "0" "0" "1" "4" "1") eq_refl) as [pre F].
    exact (proj1 (proj2 parse_pasv_response_total) _ pre _ F eq_refl).
Defined.

(** A group of six integers is present, the first of them written with
    4301 digits: [int] refuses it and the function returns [None], where the
    first match has an address and a port. *)
Lemma long_number_is_refused :
  first_group_at EmptyString long_sextuple long_reply
  /\ NetworkUtils.parse_pasv_response long_reply = None.
Proof.
  split; [split; [split |] |].
  - vm_compute. reflexivity.
  - exists EmptyString. vm_compute. reflexivity.
  - intros pre' g' _. apply Nat.le_0_l.
  - vm_compute. reflexivity.
Qed.

(** ** The scanner's verdict *)

(** C5 (as amended).  When the scanner exits, [scan_file] returns OK for the
    exit code 0 and INFECTED for the exit code 1, with the captured standard
    output, stripped, as details, and ERROR for any other exit code, with the
    captured standard error, stripped, as details.  When the scanner is killed
    at the timeout, [scan_file] returns ERROR with the fixed details [Scan
    took too long], whatever was captured. *)
Theorem scan_file_outcome :
  forall cfg file_path w rest,
    (forall returncode stdout stderr,
        tape w = AExit returncode stdout stderr :: rest ->
        fst (ClamAVAgent.scan_file cfg file_path w)
        = Ok (if returncode =? 0 then
                Py.scan_dict "OK" "File is clean" (PyStr.strip stdout)
              else if returncode =? 1 then
                Py.scan_dict "INFECTED" "Virus detected" (PyStr.strip stdout)
              else
                Py.scan_dict "ERROR" "Scan failed" (PyStr.strip stderr)))
    /\ (forall stdout stderr,
           tape w = AExpired stdout stderr :: rest ->
           fst (ClamAVAgent.scan_file cfg file_path w)
           = Ok (Py.scan_dict "ERROR" "Scan timeout" "Scan took too long")).
Proof.
  intros cfg file_path w rest. split.
  - intros rc out err E.
    unfold ClamAVAgent.scan_file, try_except, bind, Env.run, Env.next.
    cbn [tape log]. rewrite E.
    destruct (rc =? 0); [reflexivity |]. destruct (rc =? 1); reflexivity.
  - intros out err E.
    unfold ClamAVAgent.scan_file, try_except, bind, Env.run, Env.next.
    cbn [tape log]. rewrite E. reflexivity.
Qed.

(** The theorem at a scanner that finds a signature and at one that is
    killed at the timeout. *)
Lemma scan_file_outcome_witness :
  fst (ClamAVAgent.scan_file agent_config "eicar.txt" scanner_found_world)
  = Ok (Py.scan_dict "INFECTED" "Virus detected" "eicar.txt: Eicar-Signature FOUND")
  /\ fst (ClamAVAgent.scan_file agent_config "big.iso" scanner_expired_world)
     = Ok (Py.scan_dict "ERROR" "Scan timeout" "Scan took too long").
Proof.
  split.
  - apply (proj1 (scan_file_outcome agent_config "eicar.txt" scanner_found_world [])
             1 "eicar.txt: Eicar-Signature FOUND " EmptyString).
    reflexivity.
  - apply (proj2 (scan_file_outcome agent_config "big.iso" scanner_expired_world [])
             EmptyString "LibClamAV Warning: database is older than 7 days").
    reflexivity.
Defined.

(** After a timeout the details are not the captured text, stripped or
    not, of either stream. *)
Lemma scan_timeout_details_are_fixed :
  ~ (forall cfg file_path w stdout stderr rest,
        tape w = AExpired stdout stderr :: rest ->
        exists r,
          fst (ClamAVAgent.scan_file cfg file_path w) = Ok r
          /\ Py.has_status r "ERROR" = true
          /\ (Py.getitem r "details" = Ok (PyStr (PyStr.strip stderr))
              \/ Py.getitem r "details" = Ok (PyStr (PyStr.strip stdout))
              \/ Py.getitem r "details" = Ok (PyStr stderr)
              \/ Py.getitem r "details" = Ok (PyStr stdout))).
Proof.
  intros H.
  destruct (H agent_config "big.iso" scanner_expired_world _ _ [] eq_refl)
    as (r & Er & _ & [Ed | [Ed | [Ed | Ed]]]);
    vm_compute in Er; injection Er as <-; vm_compute in Ed; discriminate Ed.
Qed.

(** ** The temporary file of the scan handler *)

(** C3, at its failing inputs.  When the peer resets the connection in the
    middle of the payload, or is gone when the result is sent, the handler
    ends, closes the connection and leaves the temporary file on disk.  After
    a scan that was answered, clean or failed, the file is gone. *)
Theorem handle_client_leaves_temp_file :
  let run w := ClamAVAgent.handle_client (H := AsciiCodecs.codecs) agent_config w in
  (fst (run payload_reset_world) = Ok tt
   /\ List.last (trace (snd (run payload_reset_world))) (EvClose Control) = EvClose Peer
   /\ fs (snd (run payload_reset_world)) !! temp_of_a_txt = Some "hello")
  /\ (fst (run result_send_fails_world) = Ok tt
      /\ List.last (trace (snd (run result_send_fails_world))) (EvClose Control)
         = EvClose Peer
      /\ fs (snd (run result_send_fails_world)) !! temp_of_a_txt = Some "hello")
  /\ fs (snd (run clean_scan_world)) !! temp_of_a_txt = None
  /\ fs (snd (run failed_scan_world)) !! temp_of_a_txt = None.
Proof. vm_compute. repeat split. Qed.

(** ** The partial file of a download *)

(** C9, at its failing input.  When the data connection breaks after some
    bytes were written and the completion reply then fails to arrive,
    [cmd_get] ends and the partial file stays.  When a reply does arrive and
    is not positive, the partial file is removed. *)
Theorem cmd_get_leaves_partial_file :
  let run w :=
    FTPCommands.cmd_get (H := AsciiCodecs.codecs) ["report.pdf"]
      (SecureFTPClient.mkSession logged_in_client w) in
  (fst (run download_then_timeout_world) = Ok tt
   /\ fs (SecureFTPClient.world (snd (run download_then_timeout_world))) !! "report.pdf"
      = Some "partial cont")
  /\ fs (SecureFTPClient.world (snd (run download_then_426_world))) !! "report.pdf" = None.
Proof. vm_compute. repeat split. Qed.

(** ** Reasoning about runs *)

Local Open Scope list_scope.

Lemma bind_ok_inv {S A B} (m : M S A) (k : A -> M S B) s b s' :
  bind m k s = (Ok b, s') ->
  exists a s1, m s = (Ok a, s1) /\ k a s1 = (Ok b, s').
Proof.
  unfold bind. destruct (m s) as [[a | e] s1]; intros E; [eauto | discriminate E].
Qed.

Lemma new_events_app w w' evs : trace w' = trace w ++ evs -> new_events w w' = evs.
Proof.
  unfold new_events. intros ->. induction (trace w) as [| e t IH]; [reflexivity | exact IH].
Qed.

Lemma emits_nothing {A} P (m : M World A) :
  (forall w, trace (snd (m w)) = trace w) -> emits P m.
Proof.
  intros E w. exists []. rewrite E, app_nil_r. split; [reflexivity | constructor].
Qed.

Lemma emits_ret {A} P (a : A) : emits P (ret a).
Proof. apply emits_nothing. reflexivity. Qed.

Lemma emits_raise {A} P e : emits P (@raise World A e).
Proof. apply emits_nothing. reflexivity. Qed.

Lemma emits_bind {A B} P (m : M World A) (k : A -> M World B) :
  emits P m -> (forall a, emits P (k a)) -> emits P (bind m k).
Proof.
  intros Hm Hk w. unfold bind. destruct (Hm w) as (e1 & E1 & F1).
  destruct (m w) as [[a | e] w1]; cbn [snd] in *.
  - destruct (Hk a w1) as (e2 & E2 & F2). exists (e1 ++ e2).
    rewrite E2, E1, app_assoc. split; [reflexivity | apply Forall_app; split; assumption].
  - exists e1. split; assumption.
Qed.

Lemma emits_try_except {A} P (body : M World A) handler :
  emits P body -> (forall e, emits P (handler e)) -> emits P (try_except body handler).
Proof.
  intros Hm Hk w. unfold try_except. destruct (Hm w) as (e1 & E1 & F1).
  destruct (body w) as [[a | e] w1]; cbn [snd] in *.
  - exists e1. split; assumption.
  - destruct (Hk e w1) as (e2 & E2 & F2). exists (e1 ++ e2).
    rewrite E2, E1, app_assoc. split; [reflexivity | apply Forall_app; split; assumption].
Qed.

Lemma emits_one {A} P (m : M World A) :
  (forall w, exists e, trace (snd (m w)) = trace w ++ [e] /\ P e) -> emits P m.
Proof.
  intros H w. destruct (H w) as (e & E & Pe). exists [e].
  split; [exact E | constructor; [exact Pe | constructor]].
Qed.

(** The calls on a socket leave events of that socket, whatever they answer. *)
Lemma emits_socket c : emits (fun e => chan_of e = Some c) (Env.socket c).
Proof. apply emits_one. intros w. eexists. split; reflexivity. Qed.

Lemma emits_close c : emits (fun e => chan_of e = Some c) (Env.close c).
Proof. apply emits_one. intros w. eexists. split; reflexivity. Qed.

Lemma emits_connect c host port :
  emits (fun e => chan_of e = Some c) (Env.connect c host port).
Proof.
  apply emits_one. intros w. unfold Env.connect, Env.next, Env.failure.
  destruct (tape w) as [| [] t]; eexists; split; reflexivity.
Qed.

Lemma emits_send c data : emits (fun e => chan_of e = Some c) (Env.send c data).
Proof.
  apply emits_one. intros w. unfold Env.send, Env.next, Env.failure.
  destruct (tape w) as [| [] t]; eexists; split; reflexivity.
Qed.

Lemma emits_recv c bufsize : emits (fun e => chan_of e = Some c) (Env.recv c bufsize).
Proof.
  apply emits_one. intros w. unfold Env.recv, Env.next, Env.failure.
  destruct (tape w) as [| [] t]; try (eexists; split; reflexivity).
  destruct (Z.of_nat (String.length data) <=? bufsize); eexists; split; reflexivity.
Qed.

Lemma emits_send_chunks fuel c unread sent size :
  emits (fun e => chan_of e = Some c) (NetworkUtils.send_chunks fuel c unread sent size).
Proof.
  revert unread sent. induction fuel as [| fuel IH]; intros unread sent;
    cbn [NetworkUtils.send_chunks]; [apply emits_ret |].
  destruct (sent <? size); [| apply emits_ret].
  destruct (PyStr.nonempty _); [| apply emits_ret].
  apply emits_bind; [apply emits_send | intros _; apply IH].
Qed.

(** What a call that returned left in the trace. *)
Lemma connect_ok c host port w u w' :
  Env.connect c host port w = (Ok u, w') -> trace w' = trace w ++ [EvConnect c host port].
Proof.
  unfold Env.connect, Env.next, Env.failure.
  destruct (tape w) as [| [] t]; intros E; try discriminate E.
  injection E as _ <-. reflexivity.
Qed.

Lemma send_ok c data w u w' :
  Env.send c data w = (Ok u, w') -> trace w' = trace w ++ [EvSend c data].
Proof.
  unfold Env.send, Env.next, Env.failure.
  destruct (tape w) as [| [] t]; intros E; try discriminate E.
  injection E as _ <-. reflexivity.
Qed.

Lemma recv_ok c bufsize w data w' :
  Env.recv c bufsize w = (Ok data, w') -> trace w' = trace w ++ [EvRecv c data].
Proof.
  unfold Env.recv, Env.next, Env.failure.
  destruct (tape w) as [| [] t]; intros E; try discriminate E.
  destruct (Z.of_nat (String.length data0) <=? bufsize);
    injection E as <- <-; reflexivity.
Qed.

Lemma stat_size_ok path w n w' : Env.stat_size path w = (Ok n, w') -> w' = w.
Proof. unfold Env.stat_size. destruct (fs w !! path); intros E; congruence. Qed.

Lemma read_all_ok path w content w' : Env.read_all path w = (Ok content, w') -> w' = w.
Proof. unfold Env.read_all. destruct (fs w !! path); intros E; congruence. Qed.

Lemma send_chunks_ok fuel c unread sent size w u w' :
  NetworkUtils.send_chunks fuel c unread sent size w = (Ok u, w') ->
  exists evs, trace w' = trace w ++ evs /\ Forall (fun e => is_send e = true) evs.
Proof.
  revert unread sent w. induction fuel as [| fuel IH]; intros unread sent w;
    cbn [NetworkUtils.send_chunks].
  - intros E. injection E as _ <-. exists []. rewrite app_nil_r. split; [reflexivity | constructor].
  - destruct (sent <? size);
      [| intros E; injection E as _ <-; exists []; rewrite app_nil_r;
         split; [reflexivity | constructor]].
    destruct (PyStr.nonempty _);
      [| intros E; injection E as _ <-; exists []; rewrite app_nil_r;
         split; [reflexivity | constructor]].
    intros E. apply bind_ok_inv in E as (a & w1 & E1 & E2).
    apply send_ok in E1. apply IH in E2 as (evs & E2 & F).
    eexists (_ :: evs). rewrite E2, E1, <- app_assoc. split; [reflexivity |].
    constructor; [reflexivity | exact F].
Qed.

Lemma received_on_app c evs evs' :
  received_on c (evs ++ evs') = received_on c evs ++ received_on c evs'.
Proof.
  induction evs as [| e evs IH]; [reflexivity |].
  destruct e; cbn [received_on app]; try exact IH.
  destruct (on_chan c _); cbn [app]; [f_equal |]; exact IH.
Qed.

Lemma received_on_sends c evs :
  Forall (fun e => is_send e = true) evs -> received_on c evs = [].
Proof.
  induction 1 as [| e evs He _ IH]; [reflexivity |].
  destruct e; try discriminate He. exact IH.
Qed.

Lemma existsb_raised_sends evs :
  Forall (fun e => is_send e = true) evs -> existsb is_raised evs = false.
Proof.
  induction 1 as [| e evs He _ IH]; [reflexivity |].
  destruct e; try discriminate He. exact IH.
Qed.

(** ** The scan gateway *)

(** An error result has the status ERROR, not OK and not INFECTED. *)
Lemma error_result_status r :
  is_error_result r ->
  Py.has_status r "ERROR" = true
  /\ Py.has_status r "OK" = false
  /\ Py.has_status r "INFECTED" = false.
Proof. intros (message & details & ->). repeat split. Qed.

Section Gateway.
Context `{Codecs}.

(** An exchange that returned went through both handshakes and ended with a
    reply that is the JSON text of the result. *)
Lemma scan_exchange_ok file_path host port w r w' :
  NetworkUtils.scan_exchange file_path host port w = (Ok r, w') ->
  exists name_msg size_msg sends reply text,
    new_events w w'
    = [EvSocket Agent; EvConnect Agent host port; EvSend Agent name_msg;
       EvRecv Agent "READY"; EvSend Agent size_msg; EvRecv Agent "READY"]
        ++ sends ++ [EvRecv Agent reply; EvClose Agent]
    /\ Forall (fun e => is_send e = true) sends
    /\ utf8_decode reply = Some text
    /\ json_loads text = Some r.
Proof.
  unfold NetworkUtils.scan_exchange. intros E.
  apply bind_ok_inv in E as (u0 & w0 & E0 & E). injection E0 as _ <-.
  apply bind_ok_inv in E as (u1 & w1 & E1 & E). apply connect_ok in E1.
  apply bind_ok_inv in E as (size & w2 & E2 & E). apply stat_size_ok in E2 as ->.
  apply bind_ok_inv in E as (u3 & w3 & E3 & E). apply send_ok in E3.
  apply bind_ok_inv in E as (resp & w4 & E4 & E). apply recv_ok in E4.
  destruct (String.eqb_spec resp "READY") as [-> |]; [| discriminate E]. cbn [negb] in E.
  apply bind_ok_inv in E as (u5 & w5 & E5 & E). apply send_ok in E5.
  apply bind_ok_inv in E as (resp' & w6 & E6 & E). apply recv_ok in E6.
  destruct (String.eqb_spec resp' "READY") as [-> |]; [| discriminate E]. cbn [negb] in E.
  apply bind_ok_inv in E as (content & w7 & E7 & E). apply read_all_ok in E7 as ->.
  apply bind_ok_inv in E as (u8 & w8 & E8 & E).
  apply send_chunks_ok in E8 as (sends & E8 & Fs).
  apply bind_ok_inv in E as (reply & w9 & E9 & E). apply recv_ok in E9.
  apply bind_ok_inv in E as (text & w10 & E10 & E).
  unfold NetworkUtils.decode in E10.
  destruct (utf8_decode reply) as [text' |] eqn:Ed; [| discriminate E10].
  injection E10 as -> <-.
  apply bind_ok_inv in E as (res & w11 & E11 & E).
  unfold NetworkUtils.loads in E11.
  destruct (json_loads text) as [v |] eqn:El; [| discriminate E11].
  injection E11 as -> <-.
  apply bind_ok_inv in E as (u12 & w12 & E12 & E). injection E12 as _ <-.
  injection E as <- <-.
  eexists _, _, sends, reply, text. repeat split; [| exact Fs | exact Ed | exact El].
  apply new_events_app. cbn [log trace].
  rewrite E9, E8, E6, E5, E4, E3, E1. cbn [log trace].
  repeat (rewrite <- app_assoc; cbn [app]). reflexivity.
Qed.

Lemma emits_scan_exchange file_path host port :
  emits (fun e => chan_of e = Some Agent) (NetworkUtils.scan_exchange file_path host port).
Proof.
  unfold NetworkUtils.scan_exchange.
  apply emits_bind; [apply emits_socket | intros _].
  apply emits_bind; [apply emits_connect | intros _].
  apply emits_bind;
    [apply emits_nothing; intros w; unfold Env.stat_size; destruct (fs w !! file_path);
     reflexivity | intros file_size].
  apply emits_bind; [apply emits_send | intros _].
  apply emits_bind; [apply emits_recv | intros response].
  destruct (negb (String.eqb response "READY")); [apply emits_raise |].
  apply emits_bind; [apply emits_send | intros _].
  apply emits_bind; [apply emits_recv | intros response'].
  destruct (negb (String.eqb response' "READY")); [apply emits_raise |].
  apply emits_bind;
    [apply emits_nothing; intros w; unfold Env.read_all; destruct (fs w !! file_path);
     reflexivity | intros content].
  apply emits_bind; [apply emits_send_chunks | intros _].
  apply emits_bind; [apply emits_recv | intros result_data].
  apply emits_bind;
    [unfold NetworkUtils.decode; destruct (utf8_decode result_data);
     [apply emits_ret | apply emits_raise] | intros text].
  apply emits_bind;
    [unfold NetworkUtils.loads; destruct (json_loads text);
     [apply emits_ret | apply emits_raise] | intros result].
  apply emits_bind; [apply emits_close | intros _]. apply emits_ret.
Qed.

(** The scan talks to the agent and to nobody else. *)
Lemma emits_send_file_to_clamav file_path host port :
  emits (fun e => chan_of e = Some Agent)
    (NetworkUtils.send_file_to_clamav file_path host port).
Proof.
  unfold NetworkUtils.send_file_to_clamav.
  apply emits_bind; [apply emits_nothing; reflexivity | intros found].
  destruct (negb found); [apply emits_ret |].
  apply emits_try_except; [apply emits_scan_exchange | intros e; apply emits_ret].
Qed.

Lemma send_file_to_clamav_cases file_path host port w :
  (exists message details,
      fst (NetworkUtils.send_file_to_clamav file_path host port w)
      = Ok (Py.scan_dict "ERROR" message details))
  \/ (exists r w',
         NetworkUtils.scan_exchange file_path host port w = (Ok r, w')
         /\ NetworkUtils.send_file_to_clamav file_path host port w = (Ok r, w')).
Proof.
  unfold NetworkUtils.send_file_to_clamav, bind, Env.exists_, try_except.
  destruct (fs w !! file_path); cbn [negb]; [| left; eexists _, _; reflexivity].
  destruct (NetworkUtils.scan_exchange file_path host port w) as [[r | e] w'].
  - right. eexists _, _. split; reflexivity.
  - left. eexists _, _. reflexivity.
Qed.

(** C2.  [send_file_to_clamav] always returns a result.  The result has
    status INFECTED only if both handshakes were answered [READY] and the
    agent's last reply is the JSON text of that very result.  A reply other
    than [READY] to the FILENAME or the SIZE message, a call on the socket
    that raised, and a last reply that does not decode or does not parse each
    give a result with status ERROR. *)
Theorem scan_gateway_verdict file_path host port w :
  let run := NetworkUtils.send_file_to_clamav file_path host port w in
  let evs := new_events w (snd run) in
  exists r,
    fst run = Ok r
    /\ (Py.has_status r "INFECTED" = true ->
        exists reply text,
          received_on Agent evs = ["READY"; "READY"; reply]
          /\ utf8_decode reply = Some text
          /\ json_loads text = Some r)
    /\ (forall answer,
           nth_error (received_on Agent evs) 0 = Some answer
           \/ nth_error (received_on Agent evs) 1 = Some answer ->
           answer <> "READY" -> is_error_result r)
    /\ (existsb is_raised evs = true -> is_error_result r)
    /\ (forall reply,
           nth_error (received_on Agent evs) 2 = Some reply ->
           unparseable reply -> is_error_result r).
Proof.
  cbv zeta.
  destruct (send_file_to_clamav_cases file_path host port w)
    as [(m & d & E) | (r & w' & Ex & E)].
  - exists (Py.scan_dict "ERROR" m d). split; [exact E |].
    assert (Herr : is_error_result (Py.scan_dict "ERROR" m d)) by (eexists _, _; reflexivity).
    split; [intros Hi; discriminate Hi |]. repeat split; intros; exact Herr.
  - rewrite E. cbn [fst snd]. exists r. split; [reflexivity |].
    destruct (scan_exchange_ok _ _ _ _ _ _ Ex)
      as (name_msg & size_msg & sends & reply & text & Ev & Fs & Ed & El).
    assert (Hrecv : received_on Agent (new_events w w') = ["READY"; "READY"; reply]).
    { rewrite Ev, !received_on_app, (received_on_sends _ _ Fs). reflexivity. }
    assert (Hraised : existsb is_raised (new_events w w') = false).
    { rewrite Ev, !existsb_app, (existsb_raised_sends _ Fs). reflexivity. }
    rewrite Hrecv, Hraised. split; [| split; [| split]].
    + intros _. exists reply, text. repeat split; assumption.
    + intros answer [Ea | Ea] Hne; injection Ea as <-; congruence.
    + intros Hr. discriminate Hr.
    + intros reply' Er Hu. injection Er as <-.
      unfold unparseable in Hu. rewrite Ed in Hu. congruence.
Qed.

End Gateway.

(** The theorem at four exchanges: a reported infection, a handshake that
    is refused, an agent that is not there, a reply that is not JSON. *)
Lemma scan_gateway_verdict_witness :
  let scan w :=
    NetworkUtils.send_file_to_clamav (H := AsciiCodecs.codecs) "eicar.txt" "127.0.0.1" 9999 w in
  (fst (scan infected_scan_world) = Ok infected_result
   /\ exists reply text,
       received_on Agent (new_events infected_scan_world (snd (scan infected_scan_world)))
       = ["READY"; "READY"; reply]
       /\ AsciiCodecs.decode reply = Some text
       /\ AsciiCodecs.loads text = Some infected_result)
  /\ (exists r, fst (scan busy_agent_world) = Ok r /\ is_error_result r)
  /\ (exists r, fst (scan no_agent_world) = Ok r /\ is_error_result r)
  /\ (exists r, fst (scan garbled_reply_world) = Ok r /\ is_error_result r).
Proof.
  cbv zeta. split; [| split; [| split]].
  - destruct (scan_gateway_verdict (H := AsciiCodecs.codecs) "eicar.txt" "127.0.0.1" 9999
                infected_scan_world) as (r & Er & Hinfected & _).
    vm_compute in Er. injection Er as <-. split; [reflexivity |].
    apply Hinfected. reflexivity.
  - destruct (scan_gateway_verdict (H := AsciiCodecs.codecs) "eicar.txt" "127.0.0.1" 9999
                busy_agent_world) as (r & Er & _ & Hready & _).
    exists r. split; [exact Er |].
    apply (Hready "BUSY"); [left; reflexivity | discriminate].
  - destruct (scan_gateway_verdict (H := AsciiCodecs.codecs) "eicar.txt" "127.0.0.1" 9999
                no_agent_world) as (r & Er & _ & _ & Hraised & _).
    exists r. split; [exact Er |]. apply Hraised. reflexivity.
  - destruct (scan_gateway_verdict (H := AsciiCodecs.codecs) "eicar.txt" "127.0.0.1" 9999
                garbled_reply_world) as (r & Er & _ & _ & _ & Hparse).
    exists r. split; [exact Er |].
    apply (Hparse "<html>502 Bad Gateway</html>"); reflexivity.
Defined.

(** ** Uploads *)

Section Upload.
Context `{Codecs}.
Import SecureFTPClient.

Lemma has_status_getitem r s :
  Py.has_status r s = true ->
  exists x, Py.getitem r "status" = Ok x /\ Py.eq_str x s = true.
Proof.
  unfold Py.has_status. destruct (Py.getitem r "status") as [x | e]; [eauto | discriminate].
Qed.

(** After a scan that reports an infection [cmd_put] does nothing more. *)
Lemma cmd_put_infected s local_file more scan_result w1 :
  NetworkUtils.send_file_to_clamav local_file (clamav_host (cfg (client s)))
    (clamav_port (cfg (client s))) (world s) = (Ok scan_result, w1) ->
  Py.has_status scan_result "INFECTED" = true ->
  FTPCommands.cmd_put (local_file :: more) s = (Ok tt, s)
  \/ FTPCommands.cmd_put (local_file :: more) s = (Ok tt, mkSession (client s) w1).
Proof.
  intros Hscan Hinf. destruct s as [c w]. cbn [client world] in *.
  apply has_status_getitem in Hinf as (x & Hx & Hi).
  unfold FTPCommands.cmd_put, FTPCommands._check_connection, scan_file_for_virus,
    bind, self, ret, env, try_except, of_result, Env.exists_.
  cbv beta iota zeta delta [client world negb].
  destruct (connected c); cbv beta iota zeta delta [client world negb];
    [| left; reflexivity].
  destruct (logged_in c); cbv beta iota zeta delta [client world negb];
    [| left; reflexivity].
  destruct (fs w !! local_file); cbv beta iota zeta delta [client world negb];
    [| left; reflexivity].
  right. rewrite Hscan. cbv beta iota zeta delta [client world negb]. rewrite Hx, Hi.
  destruct (Py.getitem scan_result "message"); [| reflexivity].
  destruct (Py.getitem scan_result "details"); reflexivity.
Qed.

(** C1.  When the scan gateway returns a result with status INFECTED for
    the file of an upload, [cmd_put] returns with the client unchanged, and
    every call it made is a call on the connection to the scan agent: no data
    socket is created, connected or bound, and nothing is sent or received on
    the control connection.  The environment is left as the scan left it. *)
Theorem infected_upload_is_blocked s local_file more scan_result w1 :
  NetworkUtils.send_file_to_clamav local_file (clamav_host (cfg (client s)))
    (clamav_port (cfg (client s))) (world s) = (Ok scan_result, w1) ->
  Py.has_status scan_result "INFECTED" = true ->
  let run := FTPCommands.cmd_put (local_file :: more) s in
  let evs := new_events (world s) (world (snd run)) in
  fst run = Ok tt
  /\ client (snd run) = client s
  /\ (world (snd run) = world s \/ world (snd run) = w1)
  /\ only_on Agent evs
  /\ (forall e, In e evs -> chan_of e <> Some Data /\ chan_of e <> Some Control).
Proof.
  intros Hscan Hinf. cbv zeta.
  assert (Hev : only_on Agent
                  (new_events (world s)
                     (world (snd (FTPCommands.cmd_put (local_file :: more) s))))).
  { destruct (cmd_put_infected s local_file more scan_result w1 Hscan Hinf) as [-> | ->];
      cbn [snd world].
    - rewrite (new_events_app _ _ []) by (rewrite app_nil_r; reflexivity). constructor.
    - destruct (emits_send_file_to_clamav local_file (clamav_host (cfg (client s)))
                  (clamav_port (cfg (client s))) (world s)) as (evs & E & F).
      rewrite Hscan in E. cbn [snd] in E.
      rewrite (new_events_app _ _ _ E). exact F. }
  split; [| split; [| split; [| split]]].
  - destruct (cmd_put_infected s local_file more scan_result w1 Hscan Hinf) as [-> | ->];
      reflexivity.
  - destruct (cmd_put_infected s local_file more scan_result w1 Hscan Hinf) as [-> | ->];
      reflexivity.
  - destruct (cmd_put_infected s local_file more scan_result w1 Hscan Hinf) as [-> | ->];
      [left | right]; reflexivity.
  - exact Hev.
  - intros e He. unfold only_on in Hev. rewrite Forall_forall in Hev.
    specialize (Hev e). rewrite Hev; [split; discriminate |].
    apply list_elem_of_In. exact He.
Qed.

End Upload.

(** The theorem at the upload of a file that holds the test signature, with
    a server that would have accepted it. *)
Lemma infected_upload_is_blocked_witness :
  let run :=
    FTPCommands.cmd_put (H := AsciiCodecs.codecs) ["eicar.txt"] infected_upload_session in
  fst run = Ok tt
  /\ SecureFTPClient.client (snd run) = logged_in_client
  /\ only_on Agent
       (new_events (SecureFTPClient.world infected_upload_session)
          (SecureFTPClient.world (snd run))).
Proof.
  cbv zeta.
  destruct (NetworkUtils.send_file_to_clamav (H := AsciiCodecs.codecs) "eicar.txt"
              "127.0.0.1" 9999 (SecureFTPClient.world infected_upload_session))
    as [scan_result w1] eqn:Hscan.
  assert (Hres : scan_result = Ok infected_result).
  { pose proof (f_equal fst Hscan) as Hf. vm_compute in Hf. symmetry. exact Hf. }
  subst scan_result.
  destruct (infected_upload_is_blocked (H := AsciiCodecs.codecs) infected_upload_session
              "eicar.txt" [] infected_result w1 Hscan eq_refl) as (Hr & Hc & _ & Hev & _).
  split; [exact Hr |]. split; [exact Hc | exact Hev].
Defined.

(** ** The greeting *)

Lemma isdigit_cases c :
  PyStr.isdigit_char c = true ->
  In c ["0"; "1"; "2"; "3"; "4"; "5"; "6"; "7"; "8"; "9";
        ascii_of_nat 178; ascii_of_nat 179; ascii_of_nat 185]%char.
Proof.
  destruct c as [[] [] [] [] [] [] [] []]; intros E; vm_compute in E;
    try discriminate E; cbn [In]; repeat (first [left; reflexivity | right]).
Qed.

(** *** Text of every code point *)

Lemma text_lstrip_cons c s :
  Unicode.isspace_char c = false -> Unicode.lstrip (c :: s) = c :: s.
Proof. intros E. cbn [Unicode.lstrip]. rewrite E. reflexivity. Qed.

Lemma text_rstrip_cons c s :
  Unicode.isspace_char c = false -> Unicode.rstrip (c :: s) = c :: Unicode.rstrip s.
Proof. intros E. cbn [Unicode.rstrip]. rewrite E. destruct (Unicode.rstrip s); reflexivity. Qed.

Lemma text_split_cons sep c s :
  (c =? sep)%N = false ->
  exists h t, Unicode.split sep s = h :: t /\ Unicode.split sep (c :: s) = (c :: h) :: t.
Proof.
  intros E. cbn [Unicode.split]. rewrite E.
  assert (Hs : exists h t, Unicode.split sep s = h :: t).
  { destruct s as [| d s]; cbn [Unicode.split]; [eauto |].
    destruct (d =? sep)%N; [eauto |]. destruct (Unicode.split sep s); eauto. }
  destruct Hs as (h & t & ->). eauto.
Qed.

Lemma text_prefix_220 s :
  Unicode.startswith (Unicode.of_string "220") s = true ->
  exists rest, s = (50 :: 50 :: 48 :: rest)%N.
Proof.
  change (Unicode.of_string "220") with [50; 50; 48]%N.
  destruct s as [| c1 [| c2 [| c3 s]]]; cbn [Unicode.startswith]; intros E;
    try discriminate E;
    try (apply andb_true_iff in E as [_ E]; try discriminate E;
         apply andb_true_iff in E as [_ E]; discriminate E).
  apply andb_true_iff in E as [E1 E]. apply andb_true_iff in E as [E2 E].
  apply andb_true_iff in E as [E3 _].
  apply N.eqb_eq in E1, E2, E3. subst. eauto.
Qed.

(** A text that begins with [220] makes a positive reply with code 220. *)
Lemma text_init_220 rest :
  exists r,
    Unicode.FTPResponse.__init__ (50 :: 50 :: 48 :: rest)%N = Ok r
    /\ Unicode.FTPResponse.code r = Some 220
    /\ Unicode.FTPResponse.is_positive r = true.
Proof.
  unfold Unicode.FTPResponse.__init__, Unicode.strip.
  rewrite text_lstrip_cons by reflexivity.
  rewrite !text_rstrip_cons by reflexivity.
  destruct (text_split_cons 10 48 (Unicode.rstrip rest) eq_refl) as (h0 & t0 & E0 & E1).
  destruct (text_split_cons 10 50 (48 :: Unicode.rstrip rest)%N eq_refl)
    as (h1 & t1 & E2 & E3).
  rewrite E1 in E2. injection E2 as <- <-.
  destruct (text_split_cons 10 50 (50 :: 48 :: Unicode.rstrip rest)%N eq_refl)
    as (h2 & t2 & E4 & E5).
  rewrite E3 in E4. injection E4 as <- <-.
  rewrite E5. cbn [length firstn Nat.leb andb].
  change (Unicode.isdigit [50; 50; 48]%N) with true.
  change (Unicode.int [50; 50; 48]%N) with (Some 220).
  cbv iota. eexists. split; [reflexivity |]. split; reflexivity.
Qed.

(** On the code points below U+0100 the functions on text are those on
    strings. *)
Lemma text_isspace_char c :
  Unicode.isspace_char (N_of_ascii c) = PyStr.isspace_char c.
Proof. destruct c as [[] [] [] [] [] [] [] []]; reflexivity. Qed.

Lemma text_lstrip s :
  Unicode.lstrip (Unicode.of_string s) = Unicode.of_string (PyStr.lstrip s).
Proof.
  induction s as [| c s IH]; [reflexivity |].
  change (Unicode.of_string (String c s)) with (N_of_ascii c :: Unicode.of_string s).
  cbn [Unicode.lstrip PyStr.lstrip]. rewrite text_isspace_char.
  destruct (PyStr.isspace_char c); [exact IH | reflexivity].
Qed.

Lemma text_rstrip s :
  Unicode.rstrip (Unicode.of_string s) = Unicode.of_string (PyStr.rstrip s).
Proof.
  induction s as [| c s IH]; [reflexivity |].
  change (Unicode.of_string (String c s)) with (N_of_ascii c :: Unicode.of_string s).
  cbn [Unicode.rstrip PyStr.rstrip]. rewrite IH, text_isspace_char.
  destruct (PyStr.rstrip s); [destruct (PyStr.isspace_char c) |]; reflexivity.
Qed.

Lemma text_strip s :
  Unicode.strip (Unicode.of_string s) = Unicode.of_string (PyStr.strip s).
Proof. unfold Unicode.strip, PyStr.strip. rewrite text_lstrip. apply text_rstrip. Qed.

Lemma text_startswith p s :
  Unicode.startswith (Unicode.of_string p) (Unicode.of_string s) = PyStr.startswith p s.
Proof.
  unfold PyStr.startswith. revert s.
  induction p as [| a p IH]; intros s; [destruct s; reflexivity |].
  destruct s as [| b s]; [reflexivity |].
  change (Unicode.of_string (String a p)) with (N_of_ascii a :: Unicode.of_string p).
  change (Unicode.of_string (String b s)) with (N_of_ascii b :: Unicode.of_string s).
  cbn [Unicode.startswith String.prefix]. rewrite IH.
  destruct (ascii_dec a b) as [-> | Hne].
  - rewrite N.eqb_refl. reflexivity.
  - destruct (N.eqb_spec (N_of_ascii a) (N_of_ascii b)) as [E | _]; [| reflexivity].
    exfalso. apply Hne. rewrite <- (ascii_N_embedding a), <- (ascii_N_embedding b), E.
    reflexivity.
Qed.

(** ASCII bytes decode to themselves. *)
Lemma text_decode_ascii data :
  PyStr.all_chars (fun c => (N_of_ascii c <? 128)%N) data = true ->
  Unicode.utf8_decode data = Some (Unicode.of_string data).
Proof.
  unfold Unicode.utf8_decode.
  induction data as [| c data IH]; [reflexivity |].
  change (Unicode.of_string (String c data)) with (N_of_ascii c :: Unicode.of_string data).
  cbn [PyStr.all_chars Unicode.decode_bytes]. intros E.
  apply andb_true_iff in E as [Ec E]. rewrite Ec, (IH E). reflexivity.
Qed.

(** ** [connect] *)

Lemma new_events_mk t f k n tr t' f' k' n' evs :
  new_events (mkWorld t f k n tr) (mkWorld t' f' k' n' (tr ++ evs)) = evs.
Proof. apply new_events_app. reflexivity. Qed.

Ltac run_step :=
  cbv beta iota zeta
    delta [SecureFTPClient.client SecureFTPClient.world log set_tape tape trace fs
           keyboard now fst snd is_kind exn_kind_of Env.exn_of_answer].

Ltac read_trace :=
  run_step; repeat rewrite <- app_assoc; cbn [app];
  rewrite ?new_events_mk; cbn [received_on on_chan chan_of].

Ltac close_run := solve [repeat split; reflexivity].

(** What [connect] reads and returns, by the answers of the environment:
    without a connection and bytes to read there is no greeting. *)
Lemma connect_run s host port :
  let run := Unicode.connect host port s in
  let evs := new_events (SecureFTPClient.world s) (SecureFTPClient.world (snd run)) in
  let unchanged :=
    fst run = Ok false
    /\ SecureFTPClient.connected (SecureFTPClient.client (snd run))
       = SecureFTPClient.connected (SecureFTPClient.client s) in
  match tape (SecureFTPClient.world s) with
  | AOk :: ABytes data :: _ =>
      let welcome_data :=
        if NetworkUtils.len data <=? 1024 then data else PyStr.take (Z.to_nat 1024) data in
      received_on Control evs = [welcome_data]
      /\ match Unicode.utf8_decode welcome_data with
         | Some text =>
             if Unicode.startswith (Unicode.of_string "220") (Unicode.strip text) then
               fst run = Ok true
               /\ SecureFTPClient.connected (SecureFTPClient.client (snd run)) = true
             else unchanged
         | None => unchanged
         end
  | _ => unchanged /\ received_on Control evs = []
  end.
Proof.
  destruct s as [c [tp files kb clock tr]]. cbv zeta.
  unfold Unicode.connect, bind, SecureFTPClient.self, SecureFTPClient.env,
    SecureFTPClient.update, try_except, try_except_if, ret, raise,
    Env.socket, Env.connect, Env.recv, Env.next, Env.failure, Unicode.decode,
    NetworkUtils.len.
  run_step.
  destruct tp as [| a1 tp]; [read_trace; close_run |].
  destruct a1; try (read_trace; close_run).
  run_step.
  destruct tp as [| a2 tp]; [read_trace; close_run |].
  destruct a2; try (read_trace; close_run).
  run_step.
  destruct (Z.of_nat (String.length data) <=? 1024); run_step.
  - destruct (Unicode.utf8_decode data) as [text |]; unfold ret, raise; run_step.
    + destruct (Unicode.startswith (Unicode.of_string "220") (Unicode.strip text));
        read_trace; close_run.
    + read_trace. close_run.
  - destruct (Unicode.utf8_decode (PyStr.take (Z.to_nat 1024) data)) as [text |];
      unfold ret, raise; run_step.
    + destruct (Unicode.startswith (Unicode.of_string "220") (Unicode.strip text));
        read_trace; close_run.
    + read_trace. close_run.
Qed.

Lemma connect_cases s host port :
  let run := Unicode.connect host port s in
  let evs := new_events (SecureFTPClient.world s) (SecureFTPClient.world (snd run)) in
  (fst run = Ok false
   /\ SecureFTPClient.connected (SecureFTPClient.client (snd run))
      = SecureFTPClient.connected (SecureFTPClient.client s)
   /\ ~ greeting_starts_220 evs)
  \/ (fst run = Ok true
      /\ SecureFTPClient.connected (SecureFTPClient.client (snd run)) = true
      /\ greeting_starts_220 evs).
Proof.
  cbv zeta. pose proof (connect_run s host port) as Hrun. cbv zeta in Hrun.
  set (run := Unicode.connect host port s) in *.
  set (evs := new_events (SecureFTPClient.world s) (SecureFTPClient.world (snd run))) in *.
  assert (Hnone : received_on Control evs = [] -> ~ greeting_starts_220 evs).
  { intros E (text & (data & Hd & _) & _). rewrite E in Hd. discriminate Hd. }
  destruct (tape (SecureFTPClient.world s)) as [| a1 tp];
    [destruct Hrun as [[Hr Hc] He]; left; auto |].
  destruct a1; try (destruct Hrun as [[Hr Hc] He]; left; auto; fail).
  destruct tp as [| a2 tp]; [destruct Hrun as [[Hr Hc] He]; left; auto |].
  destruct a2; try (destruct Hrun as [[Hr Hc] He]; left; auto; fail).
  destruct Hrun as [He Hrun].
  set (welcome_data :=
         if NetworkUtils.len data <=? 1024 then data else PyStr.take (Z.to_nat 1024) data)
    in *.
  destruct (Unicode.utf8_decode welcome_data) as [text |] eqn:Ed.
  - destruct (Unicode.startswith (Unicode.of_string "220") (Unicode.strip text)) eqn:Es.
    + right. destruct Hrun as [Hr Hc]. repeat split; try assumption.
      exists text. split; [exists welcome_data; auto | exact Es].
    + left. destruct Hrun as [Hr Hc]. repeat split; try assumption.
      intros (text' & (data' & Hd & Ed') & Es').
      rewrite He in Hd. injection Hd as <-. rewrite Ed in Ed'. injection Ed' as <-.
      congruence.
  - left. destruct Hrun as [Hr Hc]. repeat split; try assumption.
    intros (text' & (data' & Hd & Ed') & _).
    rewrite He in Hd. injection Hd as <-. congruence.
Qed.

(** A greeting that begins with [220] is a positive reply with code 220. *)
Lemma greeting_starts_220_code evs : greeting_starts_220 evs -> greeting_220 evs.
Proof.
  intros (text & Hg & Hs). apply text_prefix_220 in Hs as [rest Hs].
  destruct (text_init_220 rest) as (r & Er & Ec & Hp).
  exists text, r. rewrite Hs. auto.
Qed.

(** [SecureFTPClient.connect] is [Unicode.connect] when the greeting decodes
    to text of code points below U+0100. *)
Lemma connect_below_256 `{Codecs} s host port :
  (forall data,
      received_on Control
        (new_events (SecureFTPClient.world s)
           (SecureFTPClient.world (snd (Unicode.connect host port s)))) = [data] ->
      Unicode.utf8_decode data = option_map Unicode.of_string (utf8_decode data)) ->
  SecureFTPClient.connect host port s = Unicode.connect host port s.
Proof.
  intros Hdecode. pose proof (connect_run s host port) as Hrun. cbv zeta in Hrun.
  revert Hdecode Hrun. destruct s as [c [tp files kb clock tr]].
  unfold SecureFTPClient.connect, Unicode.connect, bind, SecureFTPClient.self,
    SecureFTPClient.env, SecureFTPClient.update, try_except, try_except_if, ret, raise,
    Env.socket, Env.connect, Env.recv, Env.next, Env.failure, Unicode.decode,
    NetworkUtils.decode, NetworkUtils.len.
  run_step.
  destruct tp as [| a1 tp]; [reflexivity |].
  destruct a1; try reflexivity.
  run_step.
  destruct tp as [| a2 tp]; [reflexivity |].
  destruct a2; try reflexivity.
  run_step.
  destruct (Z.of_nat (String.length data) <=? 1024); run_step;
    intros Hdecode [Hrecv _]; rewrite (Hdecode _ Hrecv);
    match goal with
    | |- context [utf8_decode ?d] => destruct (utf8_decode d) as [text |]
    end; cbn [option_map]; unfold ret, raise; run_step;
    rewrite ?text_strip, ?text_startswith; reflexivity.
Qed.

(** C6.  [connect] returns true, with [connected] true, exactly when the
    greeting was read, decodes, and begins, without the white space around
    it, with the three characters [220].  Such a greeting is a positive reply
    with code 220; a reply can have the code 220 without beginning with
    these characters.  In every other case, another greeting, a read that
    times out, a connection that fails, [connect] returns false and leaves
    [connected] as it was: a flag that was false remains false.  The
    greeting is what the server sends, at most 1024 bytes of it, once the
    connection to a port of TCP is accepted; without a connection and bytes
    to read there is no greeting. *)
Theorem connect_iff_greeting_starts_220 s host port :
  let run := Unicode.connect host port s in
  let evs := new_events (SecureFTPClient.world s) (SecureFTPClient.world (snd run)) in
  let connected s := SecureFTPClient.connected (SecureFTPClient.client s) in
  (fst run = Ok true /\ connected (snd run) = true <-> greeting_starts_220 evs)
  /\ (greeting_starts_220 evs -> greeting_220 evs)
  /\ (~ greeting_starts_220 evs ->
      fst run = Ok false /\ connected (snd run) = connected s)
  /\ (~ greeting_starts_220 evs -> connected s = false ->
      fst run = Ok false /\ connected (snd run) = false)
  /\ (forall data rest,
        tape (SecureFTPClient.world s) = AOk :: ABytes data :: rest ->
        NetworkUtils.len data <= 1024 ->
        0 <= default (SecureFTPClient.ftp_port (SecureFTPClient.cfg (SecureFTPClient.client s)))
               port <= 65535 ->
        received_on Control evs = [data])
  /\ ((forall data rest, tape (SecureFTPClient.world s) <> AOk :: ABytes data :: rest) ->
      received_on Control evs = []).
Proof.
  cbv zeta. pose proof (connect_run s host port) as Hrun. cbv zeta in Hrun.
  destruct (connect_cases s host port) as [(Hr & Hc & Hg) | (Hr & Hc & Hg)];
    (split; [| split; [exact (greeting_starts_220_code _) | split; [| split; [| split]]]]).
  - split; [intros [Ht _]; congruence | intros Hs; destruct (Hg Hs)].
  - intros _. split; assumption.
  - intros _ Hf. split; [assumption | congruence].
  - intros data rest Et Hlen _. rewrite Et in Hrun. destruct Hrun as [He _].
    apply Z.leb_le in Hlen. rewrite Hlen in He. exact He.
  - intros Hno.
    destruct (tape (SecureFTPClient.world s)) as [| a1 tp]; [apply Hrun |].
    destruct a1; try apply Hrun.
    destruct tp as [| a2 tp]; [apply Hrun |].
    destruct a2; try apply Hrun.
    destruct (Hno data tp eq_refl).
  - split; [intros _; exact Hg | intros _; split; assumption].
  - intros Hn. destruct (Hn Hg).
  - intros Hn. destruct (Hn Hg).
  - intros data rest Et Hlen _. rewrite Et in Hrun. destruct Hrun as [He _].
    apply Z.leb_le in Hlen. rewrite Hlen in He. exact He.
  - intros Hno.
    destruct (tape (SecureFTPClient.world s)) as [| a1 tp]; [apply Hrun |].
    destruct a1; try apply Hrun.
    destruct tp as [| a2 tp]; [apply Hrun |].
    destruct a2; try apply Hrun.
    destruct (Hno data tp eq_refl).
Qed.

(** ** The session flags *)

Section Stable.
Import SecureFTPClient.
Context (P : t -> Prop).

Lemma stable_ret {A} (a : A) : stable P (ret a).
Proof. intros s Hs. exact Hs. Qed.

Lemma stable_raise {A} e : stable P (@raise Session A e).
Proof. intros s Hs. exact Hs. Qed.

Lemma stable_of_result {A} (r : result A) : stable P (of_result r).
Proof. intros s Hs. exact Hs. Qed.

Lemma stable_self : stable P self.
Proof. intros s Hs. exact Hs. Qed.

Lemma stable_env {A} (m : M World A) : stable P (env m).
Proof. intros s Hs. unfold env. destruct (m (world s)). exact Hs. Qed.

Lemma stable_update f : (forall c, P c -> P (f c)) -> stable P (update f).
Proof. intros Hf s Hs. apply Hf. exact Hs. Qed.

Lemma stable_bind {A B} (m : M Session A) (k : A -> M Session B) :
  stable P m -> (forall a, stable P (k a)) -> stable P (bind m k).
Proof.
  intros Hm Hk s Hs. unfold bind. specialize (Hm s Hs).
  destruct (m s) as [[a | e] s1]; [apply Hk |]; exact Hm.
Qed.

Lemma stable_try_except {A} (body : M Session A) handler :
  stable P body -> (forall e, stable P (handler e)) -> stable P (try_except body handler).
Proof.
  intros Hm Hk s Hs. unfold try_except. specialize (Hm s Hs).
  destruct (body s) as [[a | e] s1]; [| apply Hk]; exact Hm.
Qed.

Lemma stable_try_except_if {A} catches (body : M Session A) handler :
  stable P body -> (forall e, stable P (handler e)) ->
  stable P (try_except_if catches body handler).
Proof.
  intros Hm Hk s Hs. unfold try_except_if. specialize (Hm s Hs).
  destruct (body s) as [[a | e] s1]; [exact Hm |].
  destruct (catches e); [apply Hk |]; exact Hm.
Qed.

Lemma stable_try_finally {A} (body : M Session A) final :
  stable P body -> stable P final -> stable P (try_finally body final).
Proof.
  intros Hm Hf s Hs. unfold try_finally. specialize (Hm s Hs).
  destruct (body s) as [r s1]. specialize (Hf s1 Hm).
  destruct (final s1) as [[u | e] s2]; exact Hf.
Qed.

Lemma stable_swallow (body : M Session unit) : stable P body -> stable P (swallow body).
Proof. intros Hm. apply stable_try_except; [exact Hm | intros e; apply stable_ret]. Qed.

End Stable.

(** Takes a run apart along its binds, handlers and branches. *)
Ltac stable_step :=
  first
    [ apply stable_ret | apply stable_raise | apply stable_of_result
    | apply stable_self | apply stable_env
    | apply stable_swallow
    | apply stable_bind; [| intros ?]
    | apply stable_try_except_if; [| intros ?]
    | apply stable_try_except; [| intros ?]
    | apply stable_try_finally
    | progress cbv zeta
    | match goal with
      | |- stable _ (if ?b then _ else _) => destruct b
      | |- stable _ (match ?x with _ => _ end) => destruct x
      | |- stable _ (let '(_, _) := ?x in _) => destruct x
      end ].

Section Flags.
Context `{Codecs}.
Import SecureFTPClient.

Lemma stable_send_command P command : stable P (send_command command).
Proof. unfold send_command. repeat stable_step. Qed.

Lemma stable_receive_response P : stable P receive_response.
Proof. unfold receive_response, NetworkUtils.decode. repeat stable_step. Qed.

Ltac stable_run :=
  first [ apply stable_send_command | apply stable_receive_response | stable_step ].

Lemma stable_open_data_connection P : stable P open_data_connection.
Proof.
  unfold open_data_connection, _open_passive_data_connection, _open_active_data_connection.
  repeat stable_run.
Qed.

Lemma stable_scan_file_for_virus P file_path : stable P (scan_file_for_virus file_path).
Proof. unfold scan_file_for_virus. repeat stable_run. Qed.

Lemma stable_cmd_get P args : stable P (FTPCommands.cmd_get args).
Proof.
  unfold FTPCommands.cmd_get, FTPCommands._check_connection.
  repeat first [ apply stable_open_data_connection | stable_run ].
Qed.

Lemma stable_cmd_put P args : stable P (FTPCommands.cmd_put args).
Proof.
  unfold FTPCommands.cmd_put, FTPCommands._check_connection.
  repeat first [ apply stable_open_data_connection | apply stable_scan_file_for_virus
               | stable_run ].
Qed.

Lemma invariant_set_connected c :
  session_invariant c -> session_invariant (set_connected true c).
Proof. intros _ _. reflexivity. Qed.

Lemma invariant_set_control_socket b c :
  session_invariant c -> session_invariant (set_control_socket b c).
Proof. intros Hc. exact Hc. Qed.

Lemma invariant_set_transfer m c :
  session_invariant c -> session_invariant (set_transfer m c).
Proof. intros Hc. exact Hc. Qed.

Lemma invariant_set_passive_mode b c :
  session_invariant c -> session_invariant (set_passive_mode b c).
Proof. intros Hc. exact Hc. Qed.

Lemma stable_set_transfer_mode mode : stable session_invariant (set_transfer_mode mode).
Proof.
  unfold set_transfer_mode.
  repeat first [ apply stable_update; apply invariant_set_transfer | stable_run ].
Qed.

Lemma stable_toggle_passive_mode : stable session_invariant toggle_passive_mode.
Proof.
  unfold toggle_passive_mode.
  repeat first [ apply stable_update; apply invariant_set_passive_mode | stable_run ].
Qed.

Lemma stable_connect host port : stable session_invariant (connect host port).
Proof.
  unfold connect, NetworkUtils.decode.
  repeat first [ apply stable_update; apply invariant_set_control_socket
               | apply stable_update; apply invariant_set_connected
               | stable_run ].
Qed.

(** [login] on a client that is not connected does nothing. *)
Lemma login_not_connected user pass s :
  connected (client s) = false -> login user pass s = (Ok false, s).
Proof. intros Hc. unfold login, bind, self, ret. rewrite Hc. reflexivity. Qed.

(** [login] leaves a connected client connected. *)
Lemma stable_login_connected user pass :
  stable (fun c => connected c = true) (login user pass).
Proof.
  unfold login.
  repeat first [ apply stable_update; intros c Hc; exact Hc | stable_run ].
Qed.

Lemma stable_login user pass : stable session_invariant (login user pass).
Proof.
  intros s Hs. destruct (connected (client s)) eqn:Hc.
  - intros _. exact (stable_login_connected user pass s Hc).
  - rewrite login_not_connected by exact Hc. exact Hs.
Qed.

Lemma disconnect_run s :
  connected (client s) = true ->
  exists r s1,
    disconnect s
    = (r, mkSession
            (set_control_socket false (set_logged_in false (set_connected false (client s1))))
            (world s1)).
Proof.
  intros Hc. unfold disconnect. unfold bind at 1. unfold self at 1. rewrite Hc.
  unfold try_finally, update.
  match goal with |- context [swallow ?m s] => destruct (swallow m s) as [r s1] end.
  eexists _, _. reflexivity.
Qed.

(** [disconnect] on a connected client resets the three attributes. *)
Lemma disconnect_connected s :
  connected (client s) = true ->
  connected (client (snd (disconnect s))) = false
  /\ logged_in (client (snd (disconnect s))) = false
  /\ control_socket (client (snd (disconnect s))) = false.
Proof.
  intros Hc. destruct (disconnect_run s Hc) as (r & s1 & ->). repeat split; reflexivity.
Qed.

Lemma disconnect_not_connected s :
  connected (client s) = false -> disconnect s = (Ok tt, s).
Proof. intros Hc. unfold disconnect, bind, self, ret. rewrite Hc. reflexivity. Qed.

Lemma stable_disconnect : stable session_invariant disconnect.
Proof.
  intros s Hs. destruct (connected (client s)) eqn:Hc.
  - destruct (disconnect_connected s Hc) as (_ & Hl & _).
    intros Hl'. congruence.
  - rewrite disconnect_not_connected by exact Hc. exact Hs.
Qed.

Lemma stable_cmd_open args : stable session_invariant (FTPCommands.cmd_open args).
Proof.
  unfold FTPCommands.cmd_open.
  repeat first [ apply stable_connect | apply stable_login | stable_run ].
Qed.

Lemma stable_cmd_ls P args : stable P (FTPCommands.cmd_ls args).
Proof.
  unfold FTPCommands.cmd_ls, FTPCommands._check_connection, FTPCommands.int_of_group,
    NetworkUtils.decode.
  repeat stable_run.
Qed.

Lemma invariant_set_current_dir d c :
  session_invariant c -> session_invariant (set_current_dir d c).
Proof. intros Hc. exact Hc. Qed.

Lemma invariant_set_prompt_mode b c :
  session_invariant c -> session_invariant (set_prompt_mode b c).
Proof. intros Hc. exact Hc. Qed.

Lemma stable_cmd_cd args : stable session_invariant (FTPCommands.cmd_cd args).
Proof.
  unfold FTPCommands.cmd_cd, FTPCommands._check_connection.
  repeat first [ apply stable_update; apply invariant_set_current_dir | stable_run ].
Qed.

Lemma stable_cmd_pwd args : stable session_invariant (FTPCommands.cmd_pwd args).
Proof.
  unfold FTPCommands.cmd_pwd, FTPCommands._check_connection.
  repeat first [ apply stable_update; apply invariant_set_current_dir | stable_run ].
Qed.

Lemma stable_one_argument_command P verb args :
  stable P (FTPCommands.one_argument_command verb args).
Proof.
  unfold FTPCommands.one_argument_command, FTPCommands._check_connection.
  repeat stable_run.
Qed.

Lemma stable_cmd_rename P args : stable P (FTPCommands.cmd_rename args).
Proof.
  unfold FTPCommands.cmd_rename, FTPCommands._check_connection.
  repeat stable_run.
Qed.

Lemma stable_mget_each P patterns : stable P (FTPCommands.mget_each patterns).
Proof.
  induction patterns as [| pattern rest IH]; cbn [FTPCommands.mget_each];
    [apply stable_ret |].
  apply stable_bind; [| intros _; exact IH].
  destruct (FTPCommands.has_star pattern); [apply stable_ret | apply stable_cmd_get].
Qed.

Lemma stable_cmd_mget P args : stable P (FTPCommands.cmd_mget args).
Proof.
  unfold FTPCommands.cmd_mget, FTPCommands._check_connection.
  repeat first [ apply stable_mget_each | apply stable_cmd_ls | stable_run ].
Qed.

Lemma stable_mput_each P files : stable P (FTPCommands.mput_each files).
Proof.
  induction files as [| file_path rest IH]; cbn [FTPCommands.mput_each];
    [apply stable_ret |].
  apply stable_bind; [apply stable_env | intros is_file].
  apply stable_bind; [| intros _; exact IH].
  repeat first [ apply stable_cmd_put | stable_run ].
Qed.

Lemma stable_mput_patterns P patterns : stable P (FTPCommands.mput_patterns patterns).
Proof.
  induction patterns as [| pattern rest IH]; cbn [FTPCommands.mput_patterns];
    [apply stable_ret |].
  apply stable_bind; [| intros _; exact IH].
  repeat first [ apply stable_mput_each | stable_run ].
Qed.

Lemma stable_cmd_mput P args : stable P (FTPCommands.cmd_mput args).
Proof.
  unfold FTPCommands.cmd_mput, FTPCommands._check_connection.
  repeat first [ apply stable_mput_patterns | stable_run ].
Qed.

Lemma stable_cmd_prompt args : stable session_invariant (FTPCommands.cmd_prompt args).
Proof.
  unfold FTPCommands.cmd_prompt.
  repeat first [ apply stable_update; apply invariant_set_prompt_mode | stable_run ].
Qed.

Lemma lookup_command_in {A} command (table : list (string * A)) handler :
  FTPCommands.lookup_command command table = Some handler ->
  exists name, In (name, handler) table.
Proof.
  induction table as [| [name h] rest IH]; cbn [FTPCommands.lookup_command];
    [discriminate |].
  destruct (String.eqb name command).
  - intros E. injection E as <-. exists name. left. reflexivity.
  - intros E. destruct (IH E) as [name' Hin]. exists name'. right. exact Hin.
Qed.

(** Every command of the shell keeps the invariant. *)
Lemma stable_execute_command command args :
  stable session_invariant (FTPCommands.execute_command command args).
Proof.
  unfold FTPCommands.execute_command.
  destruct (FTPCommands.lookup_command command FTPCommands.command_map) as [handler |] eqn:E;
    [| apply stable_ret].
  apply stable_try_except; [| intros e; apply stable_ret].
  apply lookup_command_in in E as [name Hin].
  unfold FTPCommands.command_map in Hin. cbn [In] in Hin.
  repeat (destruct Hin as [Hin | Hin]; [injection Hin as _ Hh; subst handler |]);
    try (destruct Hin).
  - apply stable_cmd_ls.
  - apply stable_cmd_ls.
  - apply stable_cmd_cd.
  - apply stable_cmd_cd.
  - apply stable_cmd_pwd.
  - apply stable_one_argument_command.
  - apply stable_one_argument_command.
  - apply stable_one_argument_command.
  - apply stable_one_argument_command.
  - apply stable_cmd_rename.
  - apply stable_cmd_get.
  - apply stable_cmd_get.
  - apply stable_cmd_put.
  - apply stable_cmd_put.
  - apply stable_cmd_mget.
  - apply stable_cmd_mput.
  - apply stable_cmd_open.
  - apply stable_disconnect.
  - apply stable_set_transfer_mode.
  - apply stable_set_transfer_mode.
  - apply stable_toggle_passive_mode.
  - apply stable_ret.
  - apply stable_cmd_prompt.
  - apply stable_ret.
  - apply stable_ret.
Qed.

Lemma perform_invariant op s :
  session_invariant (client s) -> session_invariant (client (perform op s)).
Proof.
  destruct op; cbn [perform].
  - apply stable_connect.
  - apply stable_login.
  - apply stable_disconnect.
  - apply stable_send_command.
  - apply stable_receive_response.
  - apply stable_open_data_connection.
  - apply stable_scan_file_for_virus.
  - apply stable_set_transfer_mode.
  - apply stable_toggle_passive_mode.
  - apply stable_execute_command.
Qed.

(** C7.  Every operation of the client, a method of the session or a
    command of the shell, keeps the invariant that [logged_in] implies
    [connected], so the invariant holds after any sequence of operations on a
    new client.  [login] turns [logged_in] on
    only on a client that is connected, and leaves it connected.
    [disconnect] leaves [connected] and [logged_in] both false. *)
Theorem session_invariant_preserved :
  (forall op s,
      session_invariant (client s) -> session_invariant (client (perform op s)))
  /\ (forall config w ops,
         session_invariant (client (perform_all ops (mkSession (__init__ config) w))))
  /\ (forall user pass s,
         logged_in (client s) = false ->
         logged_in (client (snd (login user pass s))) = true ->
         connected (client s) = true
         /\ connected (client (snd (login user pass s))) = true)
  /\ (forall s,
         session_invariant (client s) ->
         connected (client (snd (disconnect s))) = false
         /\ logged_in (client (snd (disconnect s))) = false).
Proof.
  split; [exact perform_invariant | split; [| split]].
  - intros config w ops.
    assert (Hall : forall s, session_invariant (client s) ->
                             session_invariant (client (perform_all ops s))).
    { induction ops as [| op ops IH]; intros s Hs; [exact Hs |].
      cbn [perform_all]. apply IH, perform_invariant. exact Hs. }
    apply Hall. intros Hl. discriminate Hl.
  - intros user pass s Hl Hl'. destruct (connected (client s)) eqn:Hc.
    + split; [reflexivity |]. exact (stable_login_connected user pass s Hc).
    + rewrite login_not_connected in Hl' by exact Hc. cbn [snd] in Hl'. congruence.
  - intros s Hs. destruct (connected (client s)) eqn:Hc.
    + destruct (disconnect_connected s Hc) as (Hc' & Hl' & _). split; assumption.
    + rewrite disconnect_not_connected by exact Hc. cbn [snd]. split; [exact Hc |].
      destruct (logged_in (client s)) eqn:Hl; [| reflexivity].
      specialize (Hs Hl). congruence.
Qed.

End Flags.

(** ** The loops never use up their fuel *)

Lemma drop_shorter n s :
  (0 < n)%nat -> PyStr.nonempty s = true ->
  (String.length (PyStr.drop n s) < String.length s)%nat.
Proof.
  intros Hn Hs. destruct n as [| n]; [lia |]. destruct s as [| c s]; [discriminate |].
  cbn [PyStr.drop String.length]. clear. revert s.
  induction n as [| n IH]; intros s; [destruct s; simpl; lia |].
  destruct s as [| c' s]; simpl; [lia |]. specialize (IH s). lia.
Qed.

Lemma take_nonempty n s : PyStr.nonempty (PyStr.take n s) = true -> PyStr.nonempty s = true.
Proof. destruct n, s; simpl; congruence. Qed.

Lemma take_nonempty_pos n s : PyStr.nonempty (PyStr.take n s) = true -> (0 < n)%nat.
Proof. destruct n; [destruct s; discriminate | lia]. Qed.

(** The loop of [send_file] gives the same run with any fuel above the
    number of bytes left to read. *)
Lemma send_chunks_fuel fuel fuel' c unread sent size w :
  (String.length unread < fuel)%nat -> (String.length unread < fuel')%nat ->
  NetworkUtils.send_chunks fuel c unread sent size w
  = NetworkUtils.send_chunks fuel' c unread sent size w.
Proof.
  revert fuel' unread sent w.
  induction fuel as [| fuel IH]; intros fuel' unread sent w Hf Hf'; [lia |].
  destruct fuel' as [| fuel']; [lia |].
  cbn [NetworkUtils.send_chunks].
  destruct (sent <? size); [| reflexivity].
  destruct (PyStr.nonempty (PyStr.take (Z.to_nat NetworkUtils.chunk_size) unread)) eqn:Hc;
    [| reflexivity].
  unfold bind. destruct (Env.send c _ w) as [[u | e] w1]; [| reflexivity].
  pose proof (drop_shorter _ _ (take_nonempty_pos _ _ Hc) (take_nonempty _ _ Hc)).
  apply IH; lia.
Qed.

(** A [recv] that returned data used up some of what the tape can deliver. *)
Lemma recv_uses_tape c bufsize w data w' :
  Env.recv c bufsize w = (Ok data, w') -> PyStr.nonempty data = true ->
  (NetworkUtils.tape_weight (tape w') < NetworkUtils.tape_weight (tape w))%nat.
Proof.
  unfold Env.recv, Env.next, Env.failure.
  destruct (tape w) as [| [] t] eqn:Et; intros E Hd; try discriminate E.
  destruct (Z.of_nat (String.length data0) <=? bufsize).
  - injection E as <- <-. cbn [log set_tape tape NetworkUtils.tape_weight]. lia.
  - injection E as <- <-. cbn [log set_tape tape NetworkUtils.tape_weight].
    pose proof (drop_shorter _ _ (take_nonempty_pos _ _ Hd) (take_nonempty _ _ Hd)). lia.
Qed.

Lemma write_keeps_tape path chunk w :
  tape (snd (Env.write path chunk w)) = tape w.
Proof. reflexivity. Qed.

(** The loop of [receive_file_via_socket] gives the same run with any fuel
    above what the tape can deliver. *)
Lemma recv_chunks_fuel fuel fuel' sock path w :
  (NetworkUtils.tape_weight (tape w) < fuel)%nat ->
  (NetworkUtils.tape_weight (tape w) < fuel')%nat ->
  NetworkUtils.recv_chunks fuel sock path w = NetworkUtils.recv_chunks fuel' sock path w.
Proof.
  revert fuel' w. induction fuel as [| fuel IH]; intros fuel' w Hf Hf'; [lia |].
  destruct fuel' as [| fuel']; [lia |].
  cbn [NetworkUtils.recv_chunks]. unfold bind at 1 3.
  destruct (Env.recv sock NetworkUtils.chunk_size w) as [[chunk | e] w1] eqn:Er;
    [| reflexivity].
  destruct (PyStr.nonempty chunk) eqn:Hc; [| reflexivity].
  pose proof (recv_uses_tape _ _ _ _ _ Er Hc).
  unfold bind. cbn [Env.write]. apply IH; cbn [set_fs tape]; lia.
Qed.

(** And so does the loop of [handle_client]. *)
Lemma recv_payload_fuel fuel fuel' path received size w :
  (NetworkUtils.tape_weight (tape w) < fuel)%nat ->
  (NetworkUtils.tape_weight (tape w) < fuel')%nat ->
  ClamAVAgent.recv_payload fuel path received size w
  = ClamAVAgent.recv_payload fuel' path received size w.
Proof.
  revert fuel' received w. induction fuel as [| fuel IH]; intros fuel' received w Hf Hf';
    [lia |].
  destruct fuel' as [| fuel']; [lia |].
  cbn [ClamAVAgent.recv_payload].
  destruct (received <? size); [| reflexivity].
  unfold bind at 1 3.
  destruct (Env.recv Peer _ w) as [[chunk | e] w1] eqn:Er; [| reflexivity].
  destruct (PyStr.nonempty chunk) eqn:Hc; [| reflexivity].
  pose proof (recv_uses_tape _ _ _ _ _ Er Hc).
  unfold bind. cbn [Env.write]. apply IH; cbn [set_fs tape]; lia.
Qed.

(** The theorem at a greeting 220 and at a greeting 421. *)
Lemma connect_iff_greeting_starts_220_witness :
  (fst (Unicode.connect None None greeted_session) = Ok true
   /\ SecureFTPClient.connected
        (SecureFTPClient.client (snd (Unicode.connect None None greeted_session))) = true)
  /\ (fst (Unicode.connect None None refused_session) = Ok false
      /\ SecureFTPClient.connected
           (SecureFTPClient.client (snd (Unicode.connect None None refused_session)))
         = false).
Proof.
  assert (Hgreeting :
            greeting_starts_220
              (new_events (SecureFTPClient.world greeted_session)
                 (SecureFTPClient.world (snd (Unicode.connect None None greeted_session))))).
  { exists (Unicode.of_string "220 FTP server ready").
    split; [exists "220 FTP server ready" |]; vm_compute; auto. }
  assert (Hrefused :
            ~ greeting_starts_220
                (new_events (SecureFTPClient.world refused_session)
                   (SecureFTPClient.world
                      (snd (Unicode.connect None None refused_session))))).
  { intros (text & (data & Hd & Ht) & Hs).
    vm_compute in Hd. injection Hd as <-.
    vm_compute in Ht. injection Ht as <-.
    vm_compute in Hs. discriminate Hs. }
  split.
  - exact (proj2 (proj1 (connect_iff_greeting_starts_220 greeted_session None None))
             Hgreeting).
  - exact (proj1 (proj2 (proj2 (proj2
             (connect_iff_greeting_starts_220 refused_session None None))))
             Hrefused eq_refl).
Defined.

(** The claim as it stands fails on a greeting whose code 220 is written
    in other decimal digits: the greeting is read and is a positive reply
    with code 220, and [connect] returns false and leaves [connected]
    false. *)
Lemma greeting_in_other_digits_is_refused :
  greeting_220
    (new_events (SecureFTPClient.world arabic_session)
       (SecureFTPClient.world (snd (Unicode.connect None None arabic_session))))
  /\ fst (Unicode.connect None None arabic_session) = Ok false
  /\ SecureFTPClient.connected
       (SecureFTPClient.client (snd (Unicode.connect None None arabic_session))) = false.
Proof.
  split; [| split; reflexivity].
  exists arabic_text. eexists.
  split; [exists arabic_greeting; split; reflexivity |].
  split; [vm_compute; reflexivity |]. split; reflexivity.
Qed.

(** The theorem at a login that succeeds and at the disconnection that
    follows. *)
Lemma session_invariant_preserved_witness :
  session_invariant
    (SecureFTPClient.client
       (perform (H := AsciiCodecs.codecs) (OpLogin None None) login_session))
  /\ (SecureFTPClient.connected (SecureFTPClient.client login_session) = true
      /\ SecureFTPClient.connected
           (SecureFTPClient.client
              (snd (SecureFTPClient.login (H := AsciiCodecs.codecs) None None login_session)))
         = true)
  /\ (SecureFTPClient.connected
        (SecureFTPClient.client
           (snd (SecureFTPClient.disconnect (H := AsciiCodecs.codecs) quit_session))) = false
      /\ SecureFTPClient.logged_in
           (SecureFTPClient.client
              (snd (SecureFTPClient.disconnect (H := AsciiCodecs.codecs) quit_session)))
         = false).
Proof.
  destruct (session_invariant_preserved (H := AsciiCodecs.codecs))
    as (Hop & _ & Hlogin & Hdisconnect).
  split; [| split].
  - apply Hop. intros Hl. discriminate Hl.
  - apply Hlogin; [reflexivity | vm_compute; reflexivity].
  - apply Hdisconnect. intros _. reflexivity.
Defined.

(** * Further properties *)

(** ** The PORT command *)

Lemma split_length sep s : length (PyStr.split sep s) = S (count_char sep s).
Proof.
  induction s as [| c s IH]; [reflexivity |].
  cbn [PyStr.split count_char]. destruct (Ascii.eqb c sep).
  - cbn [length]. rewrite IH. reflexivity.
  - destruct (PyStr.split sep s) as [| h t]; [discriminate IH |].
    cbn [length] in *. exact IH.
Qed.

Lemma join_cons c sep h t :
  PyStr.join sep (String c h :: t) = String c (PyStr.join sep (h :: t)).
Proof. destruct t; reflexivity. Qed.

Lemma join_split_replace sep new s :
  PyStr.join (String new EmptyString) (PyStr.split sep s) = replace_char sep new s.
Proof.
  induction s as [| c s IH]; [reflexivity |].
  cbn [PyStr.split replace_char]. destruct (Ascii.eqb c sep).
  - destruct (split_cons sep s) as (h & t & E). rewrite E in *.
    cbn [PyStr.join String.append]. f_equal. exact IH.
  - destruct (split_cons sep s) as (h & t & E). rewrite E in *.
    rewrite join_cons. f_equal. exact IH.
Qed.

(** X1.  [create_port_command] accepts a host exactly when it holds three
    dots, whatever stands between them, and every port whose quotient by 256
    the interpreter can write, that is with at most 4300 digits: the command
    is the host with its dots turned into commas, followed by [port // 256]
    and [port % 256].  A quotient with more digits makes it raise
    [ValueError], and so does every other host. *)
Theorem create_port_command_three_dots host port :
  (count_char "." host = 3%nat ->
   PyStr.digits (port / 256) <= PyStr.max_str_digits ->
   NetworkUtils.create_port_command host port
   = Ok ("PORT " ++ replace_char "." "," host ++ "," ++ PyStr.of_int (port / 256)
           ++ "," ++ PyStr.of_int (port mod 256))%string)
  /\ (count_char "." host = 3%nat ->
      PyStr.max_str_digits < PyStr.digits (port / 256) ->
      exists message,
        NetworkUtils.create_port_command host port = Raise (Exn ValueError message))
  /\ (count_char "." host <> 3%nat ->
      NetworkUtils.create_port_command host port
      = Raise (Exn ValueError "Failed to create PORT command: Invalid IP address")).
Proof.
  unfold NetworkUtils.create_port_command. rewrite split_length.
  split; [| split].
  - intros Hn Hl. rewrite Hn. cbn [Nat.eqb negb]. rewrite join_split_replace.
    rewrite (str_within_limit _ Hl), str_mod_256. reflexivity.
  - intros Hn Hl. rewrite Hn. cbn [Nat.eqb negb].
    rewrite (str_beyond_limit _ Hl). eexists. reflexivity.
  - intros Hn. destruct (Nat.eqb_spec (S (count_char "." host)) 4) as [E | _]; [| reflexivity].
    injection E as E. contradiction.
Qed.

(** The theorem at a host that is no address, with a port below zero, and
    at a host name without dots. *)
Lemma create_port_command_three_dots_witness :
  NetworkUtils.create_port_command "ftp.example.co.uk" (-1) = Ok "PORT ftp,example,co,uk,-1,255"
  /\ NetworkUtils.create_port_command "localhost" 5141
     = Raise (Exn ValueError "Failed to create PORT command: Invalid IP address").
Proof.
  split.
  - apply (proj1 (create_port_command_three_dots "ftp.example.co.uk" (-1)));
      [reflexivity | vm_compute; discriminate].
  - apply (proj2 (proj2 (create_port_command_three_dots "localhost" 5141))).
    vm_compute. discriminate.
Defined.

(** ** From a parsed address back to a command *)

Lemma decimal_acc_nonneg s acc :
  PyStr.all_chars PyStr.isdecimal_char s = true -> 0 <= acc -> 0 <= decimal_acc acc s.
Proof.
  revert acc. induction s as [| c s IH]; intros acc Hs Hacc; [exact Hacc |].
  cbn [PyStr.all_chars] in Hs. apply andb_true_iff in Hs as [Hc Hs].
  cbn [decimal_acc]. apply IH; [exact Hs |].
  assert (0 <= digit_value c).
  { apply decimal_cases in Hc. simpl in Hc.
    repeat (destruct Hc as [<- | Hc]; [vm_compute; discriminate |]). destruct Hc. }
  lia.
Qed.

Lemma decimal_value_nonneg s : is_digits s = true -> 0 <= decimal_value s.
Proof.
  intros H. apply decimal_acc_nonneg; [apply is_digits_all; exact H | lia].
Qed.

(** X2.  Whatever address and port [parse_pasv_response] reads out of a
    reply, [create_port_command] accepts them when the interpreter can write
    [port // 256], that is with at most 4300 digits, and the sextuple it
    writes, put in parentheses, parses back to the same address and port:
    parsing, writing and parsing again changes nothing, also for the numbers
    no address or port can hold. *)
Theorem parsed_address_round_trip s ip port :
  NetworkUtils.parse_pasv_response s = Some (ip, port) ->
  PyStr.digits (port / 256) <= PyStr.max_str_digits ->
  exists sextuple,
    NetworkUtils.create_port_command ip port = Ok ("PORT " ++ sextuple)%string
    /\ NetworkUtils.parse_pasv_response ("(" ++ sextuple ++ ")")%string = Some (ip, port)
    /\ 0 <= port.
Proof.
  intros E Lp.
  destruct (Regex.search s) as [g |] eqn:Es;
    [| unfold NetworkUtils.parse_pasv_response in E; rewrite Es in E; discriminate E].
  destruct (search_first _ _ Es) as [pre [[Hd _] _]].
  destruct (within_limit g) eqn:Hl;
    [| rewrite (parse_of_long_search _ _ Es Hd Hl) in E; discriminate E].
  rewrite (parse_of_search _ _ Es Hd Hl) in E.
  pose proof Hd as Hd'. unfold all_digits in Hd'.
  apply andb_true_iff in Hd' as [Hd' D6]. apply andb_true_iff in Hd' as [Hd' D5].
  apply andb_true_iff in Hd' as [Hd' D4]. apply andb_true_iff in Hd' as [Hd' D3].
  apply andb_true_iff in Hd' as [D1 D2].
  apply within_limit_spec in Hl as (L1 & L2 & L3 & L4 & _ & _).
  pose proof (of_int_value_length _ D1) as W1. pose proof (of_int_value_length _ D2) as W2.
  pose proof (of_int_value_length _ D3) as W3. pose proof (of_int_value_length _ D4) as W4.
  apply decimal_value_nonneg in D1, D2, D3, D4, D5, D6.
  unfold address_of in E. injection E as <- <-.
  eexists. split; [apply create_port_command_dotted; assumption |].
  split; [| lia].
  apply (parse_written_sextuple EmptyString); first [reflexivity | assumption | lia | idtac].
  apply within_limit_groups_of; first [assumption | lia | idtac];
    rewrite digits_nonneg by assumption; lia.
Qed.

(** The theorem at a reply whose numbers are out of range. *)
Lemma parsed_address_round_trip_witness :
  exists sextuple,
    NetworkUtils.create_port_command "999.0.0.1" 77000 = Ok ("PORT " ++ sextuple)%string
    /\ NetworkUtils.parse_pasv_response ("(" ++ sextuple ++ ")")%string
       = Some ("999.0.0.1", 77000)
    /\ 0 <= 77000.
Proof.
  apply (parsed_address_round_trip "227 ok (999,0,0,1,300,200)");
    [reflexivity | vm_compute; discriminate].
Defined.

(** ** Replies that cannot be read *)

Lemma int_of_three_digit_characters c1 c2 c3 :
  PyStr.isdigit_char c1 = true -> PyStr.isdigit_char c2 = true ->
  PyStr.isdigit_char c3 = true ->
  match PyStr.int (String c1 (String c2 (String c3 EmptyString))) with
  | Some _ => true
  | None => false
  end
  = PyStr.all_chars PyStr.isdecimal_char (String c1 (String c2 (String c3 EmptyString))).
Proof.
  intros H1 H2 H3.
  apply isdigit_cases in H1, H2, H3. cbn [In] in H1, H2, H3.
  repeat (destruct H1 as [<- | H1]); try (destruct H1);
    repeat (destruct H2 as [<- | H2]); try (destruct H2);
      repeat (destruct H3 as [<- | H3]); try (destruct H3);
        vm_compute; reflexivity.
Qed.

Lemma take_3_length s :
  (3 <= String.length s)%nat ->
  exists c1 c2 c3, PyStr.take 3 s = String c1 (String c2 (String c3 EmptyString)).
Proof.
  destruct s as [| c1 [| c2 [| c3 s]]]; cbn [String.length]; intros L; try lia.
  eexists _, _, _. reflexivity.
Qed.

(** X3.  [FTPResponse] cannot be built from every text: the constructor
    raises, and what it raises is [ValueError], exactly when the first line
    begins with three characters that [str.isdigit] accepts and [int] does
    not, the superscript digits.  On every other text it returns. *)
Theorem reply_with_superscript_digits_raises text :
  ((exists e, FTPResponse.__init__ text = Raise e)
   <-> begins_with_digits (first_line text) = true
       /\ has_leading_code (first_line text) = false)
  /\ (forall e, FTPResponse.__init__ text = Raise e -> exn_kind_of e = ValueError).
Proof.
  unfold FTPResponse.__init__, first_line.
  destruct (split_cons FTPResponse.newline (PyStr.strip text)) as (first & rest & E).
  rewrite E. cbn [hd]. unfold begins_with_digits, has_leading_code.
  destruct ((3 <=? String.length first)%nat) eqn:Hlen; cbn [andb].
  - apply Nat.leb_le in Hlen. destruct (take_3_length _ Hlen) as (c1 & c2 & c3 & Et).
    rewrite Et. destruct (PyStr.isdigit _) eqn:Hd.
    + unfold PyStr.isdigit in Hd. cbn [PyStr.nonempty PyStr.all_chars andb] in Hd.
      apply andb_true_iff in Hd as [H1 Hd]. apply andb_true_iff in Hd as [H2 Hd].
      apply andb_true_iff in Hd as [H3 _].
      pose proof (int_of_three_digit_characters c1 c2 c3 H1 H2 H3) as Hi.
      destruct (PyStr.int _) as [n |]; rewrite <- Hi.
      * split; [| intros e Ee; discriminate Ee].
        split; [intros [e Ee]; discriminate Ee | intros [_ Hf]; discriminate Hf].
      * split; [| intros e Ee; injection Ee as <-; reflexivity].
        split; [intros _; split; reflexivity | intros _; eexists; reflexivity].
    + split; [| intros e Ee; discriminate Ee].
      split; [intros [e Ee]; discriminate Ee | intros [Hf _]; discriminate Hf].
  - split; [| intros e Ee; discriminate Ee].
    split; [intros [e Ee]; discriminate Ee | intros [Hf _]; discriminate Hf].
Qed.

(** ** What a call to the environment leaves behind *)

Lemma recv_run c bufsize w :
  match Env.recv c bufsize w with
  | (Ok data, w') =>
      trace w' = trace w ++ [EvRecv c data] /\ fs w' = fs w
      /\ keyboard w' = keyboard w /\ now w' = now w
  | (Raise e, w') =>
      trace w' = trace w ++ [EvRaised c e] /\ fs w' = fs w
      /\ keyboard w' = keyboard w /\ now w' = now w
  end.
Proof.
  unfold Env.recv, Env.next, Env.failure.
  destruct (tape w) as [| [] t]; try (repeat split; reflexivity).
  destruct (Z.of_nat (String.length data) <=? bufsize); repeat split; reflexivity.
Qed.

Lemma send_run c data w :
  match Env.send c data w with
  | (Ok _, w') =>
      trace w' = trace w ++ [EvSend c data] /\ fs w' = fs w
      /\ keyboard w' = keyboard w /\ now w' = now w
  | (Raise e, w') =>
      trace w' = trace w ++ [EvRaised c e] /\ fs w' = fs w
      /\ keyboard w' = keyboard w /\ now w' = now w
  end.
Proof.
  unfold Env.send, Env.next, Env.failure.
  destruct (tape w) as [| [] t]; repeat split; reflexivity.
Qed.

Lemma on_chan_refl c e : chan_of e = Some c -> on_chan c e = true.
Proof. unfold on_chan. intros ->. destruct c; reflexivity. Qed.

Lemma received_on_recv c data evs :
  received_on c (EvRecv c data :: evs) = data :: received_on c evs.
Proof. cbn [received_on]. rewrite on_chan_refl by reflexivity. reflexivity. Qed.

Lemma received_on_raised c c' e evs :
  received_on c (EvRaised c' e :: evs) = received_on c evs.
Proof. reflexivity. Qed.

Lemma concat_all_cons x l : concat_all (x :: l) = (x ++ concat_all l)%string.
Proof. reflexivity. Qed.

(** ** Sending a file *)

Lemma chunks_fuel fuel fuel' s :
  (String.length s <= fuel)%nat -> (String.length s <= fuel')%nat ->
  chunks fuel s = chunks fuel' s.
Proof.
  revert fuel' s. induction fuel as [| fuel IH]; intros fuel' s Hf Hf'.
  - destruct s; [| cbn [String.length] in Hf; lia]. destruct fuel'; reflexivity.
  - destruct fuel' as [| fuel'].
    + destruct s; [reflexivity | cbn [String.length] in Hf'; lia].
    + cbn [chunks]. destruct (PyStr.nonempty s) eqn:Hs; [| reflexivity].
      f_equal. 
      assert (String.length (PyStr.drop (Z.to_nat NetworkUtils.chunk_size) s)
              < String.length s)%nat.
      { apply drop_shorter; [vm_compute; lia | exact Hs]. }
      apply IH; lia.
Qed.

Lemma take_drop n s : (PyStr.take n s ++ PyStr.drop n s)%string = s.
Proof.
  revert s. induction n as [| n IH]; intros s; [destruct s; reflexivity |].
  destruct s as [| c s]; [reflexivity |]. cbn [PyStr.take PyStr.drop String.append].
  f_equal. apply IH.
Qed.

Lemma take_length n s : (String.length (PyStr.take n s) <= n)%nat.
Proof.
  revert s. induction n as [| n IH]; intros s; [destruct s; simpl; lia |].
  destruct s as [| c s]; simpl; [lia |]. specialize (IH s). lia.
Qed.

Lemma chunks_concat fuel s : (String.length s <= fuel)%nat -> concat_all (chunks fuel s) = s.
Proof.
  revert s. induction fuel as [| fuel IH]; intros s Hf.
  - destruct s; [reflexivity | cbn [String.length] in Hf; lia].
  - cbn [chunks]. destruct (PyStr.nonempty s) eqn:Hs; [| destruct s; [reflexivity | discriminate]].
    cbn [concat_all fold_right]. fold (concat_all (chunks fuel (PyStr.drop (Z.to_nat NetworkUtils.chunk_size) s))).
    rewrite IH; [apply take_drop |].
    assert (String.length (PyStr.drop (Z.to_nat NetworkUtils.chunk_size) s)
            < String.length s)%nat.
    { apply drop_shorter; [vm_compute; lia | exact Hs]. }
    lia.
Qed.

Lemma chunks_sizes fuel s :
  Forall (fun piece => PyStr.nonempty piece = true
                       /\ NetworkUtils.len piece <= NetworkUtils.chunk_size)
    (chunks fuel s).
Proof.
  revert s. induction fuel as [| fuel IH]; intros s; [constructor |].
  cbn [chunks]. destruct (PyStr.nonempty s) eqn:Hs; [| constructor].
  constructor; [| apply IH]. split.
  - destruct s; [discriminate | reflexivity].
  - unfold NetworkUtils.len.
    pose proof (take_length (Z.to_nat NetworkUtils.chunk_size) s).
    assert (Z.of_nat (Z.to_nat NetworkUtils.chunk_size) = NetworkUtils.chunk_size)
      by reflexivity.
    lia.
Qed.

Lemma chunks_unfold s :
  PyStr.nonempty s = true ->
  chunks (String.length s) s
  = PyStr.take (Z.to_nat NetworkUtils.chunk_size) s
      :: chunks (String.length (PyStr.drop (Z.to_nat NetworkUtils.chunk_size) s))
           (PyStr.drop (Z.to_nat NetworkUtils.chunk_size) s).
Proof.
  intros Hne.
  pose proof (drop_shorter (Z.to_nat NetworkUtils.chunk_size) s ltac:(vm_compute; lia) Hne)
    as Hd.
  destruct s as [| c s]; [discriminate |].
  remember (PyStr.drop (Z.to_nat NetworkUtils.chunk_size) (String c s)) as rest.
  cbn [String.length chunks PyStr.nonempty] in *. rewrite <- Heqrest. f_equal.
  apply chunks_fuel; lia.
Qed.

(** The loop of [send_file] on what is left of the file: it sends the
    pieces in order and stops at the first [send] that raises. *)
Lemma send_chunks_run fuel sock unread sent size w :
  (String.length unread < fuel)%nat ->
  size - sent = NetworkUtils.len unread ->
  let run := NetworkUtils.send_chunks fuel sock unread sent size w in
  let pieces := chunks (String.length unread) unread in
  fs (snd run) = fs w
  /\ ((fst run = Ok tt /\ trace (snd run) = trace w ++ sends_on sock pieces)
      \/ (exists k e,
             fst run = Raise e /\ (k < length pieces)%nat
             /\ trace (snd run)
                = trace w ++ sends_on sock (firstn k pieces) ++ [EvRaised sock e])).
Proof.
  revert unread sent w. induction fuel as [| fuel IH]; intros unread sent w Hf Hs; [lia |].
  cbv zeta. cbn [NetworkUtils.send_chunks].
  destruct (PyStr.nonempty unread) eqn:Hne.
  - assert (E : (sent <? size) = true).
    { apply Z.ltb_lt. unfold NetworkUtils.len in Hs.
      destruct unread; [discriminate |]. cbn [String.length] in Hs. lia. }
    rewrite E.
    assert (Hc : PyStr.nonempty (PyStr.take (Z.to_nat NetworkUtils.chunk_size) unread) = true)
      by (destruct unread; [discriminate | reflexivity]).
    rewrite Hc.
    pose proof (drop_shorter (Z.to_nat NetworkUtils.chunk_size) unread
                  ltac:(vm_compute; lia) Hne) as Hd.
    rewrite (chunks_unfold _ Hne). unfold bind.
    pose proof (send_run sock (PyStr.take (Z.to_nat NetworkUtils.chunk_size) unread) w)
      as Hsend.
    destruct (Env.send sock _ w) as [[u | e] w1].
    + destruct Hsend as (Ht & Hfs & _).
      assert (Hs' : size - (sent + NetworkUtils.len
                                     (PyStr.take (Z.to_nat NetworkUtils.chunk_size) unread))
                    = NetworkUtils.len (PyStr.drop (Z.to_nat NetworkUtils.chunk_size) unread)).
      { unfold NetworkUtils.len in *.
        rewrite <- (take_drop (Z.to_nat NetworkUtils.chunk_size) unread) in Hs at 1.
        rewrite append_length in Hs. lia. }
      destruct (IH (PyStr.drop (Z.to_nat NetworkUtils.chunk_size) unread) _ w1
                  ltac:(lia) Hs') as (Hfs' & Hrun).
      split; [congruence |].
      destruct Hrun as [(Er & Et) | (k & e & Er & Hk & Et)].
      * left. split; [exact Er |]. rewrite Et, Ht, <- app_assoc. reflexivity.
      * right. exists (S k), e. split; [exact Er |]. split; [cbn [length]; lia |].
        rewrite Et, Ht, <- app_assoc. reflexivity.
    + destruct Hsend as (Ht & Hfs & _). cbn [fst snd]. split; [exact Hfs |].
      right. exists 0%nat, e. split; [reflexivity |]. split; [cbn [length]; lia |].
      exact Ht.
  - destruct unread; [| discriminate].
    assert (E : (sent <? size) = false).
    { apply Z.ltb_ge. unfold NetworkUtils.len in Hs. cbn [String.length] in Hs. lia. }
    rewrite E. cbn [ret fst snd String.length chunks sends_on map].
    split; [reflexivity |]. left. rewrite app_nil_r. split; reflexivity.
Qed.

(** X4.  [send_file_via_socket] never raises.  On a file that is missing
    it returns [False] and does nothing.  On a file that is there it sends the
    contents in pieces of at most 8192 bytes, in order, and returns [True]
    when every piece went out: the pieces, put together, are the file.  It
    returns [False] at the first [send] that raises, after a proper part of the
    pieces.  It writes to no file (the log, which is not modelled, apart). *)
Theorem send_file_via_socket_sends_the_file sock path w :
  let run := NetworkUtils.send_file_via_socket sock path w in
  let evs := new_events w (snd run) in
  match fs w !! path with
  | None => run = (Ok false, w)
  | Some content =>
      let pieces := chunks_of content in
      fs (snd run) = fs w
      /\ concat_all pieces = content
      /\ Forall (fun piece => PyStr.nonempty piece = true
                              /\ NetworkUtils.len piece <= NetworkUtils.chunk_size) pieces
      /\ ((fst run = Ok true /\ evs = sends_on sock pieces)
          \/ (fst run = Ok false
              /\ exists k e,
                   (k < length pieces)%nat
                   /\ evs = sends_on sock (firstn k pieces) ++ [EvRaised sock e]))
  end.
Proof.
  cbv zeta. unfold NetworkUtils.send_file_via_socket, NetworkUtils.send_file, try_except,
    bind, Env.stat_size, Env.read_all.
  destruct (fs w !! path) as [content |] eqn:Ef; [| reflexivity].
  cbv beta iota. rewrite Ef. cbv beta iota.
  assert (Hs : Z.of_nat (String.length content) - 0 = NetworkUtils.len content)
    by (unfold NetworkUtils.len; lia).
  destruct (send_chunks_run (S (String.length content)) sock content 0
              (Z.of_nat (String.length content)) w ltac:(lia) Hs) as (Hfs & Hrun).
  fold (chunks_of content) in Hrun.
  destruct (NetworkUtils.send_chunks _ sock content 0 _ w) as [[u | e] w1];
    cbn [fst snd ret] in *.
  - split; [exact Hfs |]. split; [apply chunks_concat; lia |].
    split; [apply chunks_sizes |].
    destruct Hrun as [(_ & Et) | (k & e & Er & _)]; [| discriminate Er].
    left. split; [reflexivity |]. apply new_events_app. exact Et.
  - split; [exact Hfs |]. split; [apply chunks_concat; lia |].
    split; [apply chunks_sizes |].
    destruct Hrun as [(Er & _) | (k & e' & Er & Hk & Et)]; [discriminate Er |].
    right. split; [reflexivity |]. exists k, e'. split; [exact Hk |].
    apply new_events_app. rewrite Et. reflexivity.
Qed.

(** ** Receiving a file *)

Lemma append_nil_r (s : string) : (s ++ EmptyString)%string = s.
Proof. induction s; simpl; [reflexivity | f_equal; assumption]. Qed.

Lemma existsb_raised_last evs e :
  existsb is_raised (evs ++ [e]) = existsb is_raised evs || is_raised e.
Proof. rewrite existsb_app. cbn [existsb]. rewrite orb_false_r. reflexivity. Qed.

(** The loop of [receive_file_via_socket] on a file that holds [acc]: what
    arrives is appended, until the peer closes or a [recv] raises. *)
Lemma recv_chunks_run fuel sock path w acc :
  (NetworkUtils.tape_weight (tape w) < fuel)%nat ->
  fs w !! path = Some acc ->
  let run := NetworkUtils.recv_chunks fuel sock path w in
  exists evs,
    trace (snd run) = trace w ++ evs
    /\ fs (snd run) = <[path := (acc ++ concat_all (received_on sock evs))%string]> (fs w)
    /\ ((fst run = Ok tt /\ existsb is_raised evs = false
         /\ exists evs0, evs = evs0 ++ [EvRecv sock EmptyString])
        \/ (exists e evs0,
               fst run = Raise e /\ evs = evs0 ++ [EvRaised sock e]
               /\ existsb is_raised evs0 = false)).
Proof.
  revert w acc. induction fuel as [| fuel IH]; intros w acc Hf Hacc; [lia |].
  cbv zeta. cbn [NetworkUtils.recv_chunks]. unfold bind, Env.write.
  pose proof (recv_run sock NetworkUtils.chunk_size w) as Hrecv.
  destruct (Env.recv sock NetworkUtils.chunk_size w) as [[chunk | e] w1] eqn:Er.
  - destruct Hrecv as (Ht & Hfs & _).
    destruct (PyStr.nonempty chunk) eqn:Hc.
    + pose proof (recv_uses_tape _ _ _ _ _ Er Hc) as Hw.
      set (w2 := set_fs _ w1).
      assert (Hacc2 : fs w2 !! path = Some (acc ++ chunk)%string).
      { unfold w2. cbn [set_fs fs]. rewrite lookup_insert_eq, Hfs, Hacc. reflexivity. }
      destruct (IH w2 (acc ++ chunk)%string ltac:(unfold w2; cbn [set_fs tape]; lia) Hacc2)
        as (evs & Et & Ef & Hend).
      exists (EvRecv sock chunk :: evs). split; [| split].
      * rewrite Et. unfold w2. cbn [set_fs trace]. rewrite Ht, <- app_assoc. reflexivity.
      * rewrite Ef. unfold w2 at 1. cbn [set_fs fs]. rewrite Hfs, Hacc. cbn [default].
        rewrite insert_insert_eq, received_on_recv. cbn [concat_all fold_right].
        rewrite append_assoc. reflexivity.
      * destruct Hend as [(Er' & Hr & evs0 & E0) | (e & evs0 & Er' & E0 & Hr)].
        -- left. split; [exact Er' |]. split; [exact Hr |].
           exists (EvRecv sock chunk :: evs0). rewrite E0. reflexivity.
        -- right. exists e, (EvRecv sock chunk :: evs0). split; [exact Er' |].
           split; [rewrite E0; reflexivity | exact Hr].
    + destruct chunk; [| discriminate Hc]. cbn [ret fst snd].
      exists [EvRecv sock EmptyString]. split; [exact Ht |]. split.
      * rewrite received_on_recv. cbn [concat_all fold_right received_on].
        rewrite !append_nil_r, Hfs. symmetry. apply insert_id. exact Hacc.
      * left. split; [reflexivity |]. split; [reflexivity |]. exists []. reflexivity.
  - destruct Hrecv as (Ht & Hfs & _). cbn [fst snd].
    exists [EvRaised sock e]. split; [exact Ht |]. split.
    + cbn [received_on concat_all fold_right]. rewrite append_nil_r, Hfs.
      symmetry. apply insert_id. exact Hacc.
    + right. exists e, []. repeat split.
Qed.

(** X5.  [receive_file_via_socket] never raises.  When the file cannot be
    opened it returns [False] without a call on the socket, and no file is
    changed.  When it is opened, then whatever the file held before, it
    holds afterwards exactly what arrived on the socket during the call, in
    order; the result is [True] when the peer closed the connection and no
    call raised, and [False] when a [recv] raised, which ends the transfer:
    the bytes that arrived before stay in the file. *)
Theorem receive_file_via_socket_stores_what_arrives sock path w :
  let run := NetworkUtils.receive_file_via_socket sock path w in
  let evs := new_events w (snd run) in
  (hd_error (tape w) <> Some AOk ->
   fst run = Ok false /\ evs = [] /\ fs (snd run) = fs w)
  /\ (hd_error (tape w) = Some AOk ->
      fs (snd run) = <[path := concat_all (received_on sock evs)]> (fs w)
      /\ ((fst run = Ok true /\ existsb is_raised evs = false
           /\ exists evs0, evs = evs0 ++ [EvRecv sock EmptyString])
          \/ (fst run = Ok false
              /\ exists e evs0,
                   evs = evs0 ++ [EvRaised sock e] /\ existsb is_raised evs0 = false))).
Proof.
  cbv zeta.
  unfold NetworkUtils.receive_file_via_socket, try_except, bind, Env.open_wb_or_fail, Env.next.
  split.
  - intros Hhead. destruct (tape w) as [| a rest] eqn:Et.
    + cbn [fst snd ret]. repeat split. apply new_events_app. rewrite app_nil_r. reflexivity.
    + destruct a; try (exfalso; apply Hhead; reflexivity);
        (cbn [fst snd ret]; repeat split; apply new_events_app; rewrite app_nil_r;
         reflexivity).
  - intros Hhead. destruct (tape w) as [| a rest] eqn:Et; [discriminate Hhead |].
    cbn [hd_error] in Hhead. injection Hhead as ->. unfold Env.open_wb.
    set (w0 := set_fs (<[path := EmptyString]> (fs (set_tape rest w))) (set_tape rest w)).
    assert (Hacc : fs w0 !! path = Some EmptyString)
      by (unfold w0; cbn [set_fs fs]; apply lookup_insert_eq).
    destruct (recv_chunks_run (S (NetworkUtils.tape_weight (tape w0))) sock path w0
                EmptyString ltac:(lia) Hacc) as (evs & Etr & Ef & Hend).
    destruct (NetworkUtils.recv_chunks _ sock path w0) as [[u | e] w1];
      cbn [fst snd ret] in *.
    + assert (En : new_events w w1 = evs) by (apply new_events_app; exact Etr).
      rewrite En. split.
      * rewrite Ef. unfold w0. cbn [set_fs set_tape fs String.append]. apply insert_insert_eq.
      * destruct Hend as [(_ & Hr & evs0 & E0) | (e & evs0 & Er & _)]; [| discriminate Er].
        left. repeat split; [exact Hr | exists evs0; exact E0].
    + assert (En : new_events w w1 = evs) by (apply new_events_app; exact Etr).
      rewrite En. split.
      * rewrite Ef. unfold w0. cbn [set_fs set_tape fs String.append]. apply insert_insert_eq.
      * destruct Hend as [(Er & _) | (e' & evs0 & Er & E0 & Hr)]; [discriminate Er |].
        right. split; [reflexivity |]. exists e', evs0. split; assumption.
Qed.

(** ** Receiving until the end-of-data marker *)



(** ** The scan handler *)

Lemma recv_length c bufsize w data w' :
  0 <= bufsize -> Env.recv c bufsize w = (Ok data, w') -> NetworkUtils.len data <= bufsize.
Proof.
  unfold Env.recv, Env.next, Env.failure, NetworkUtils.len. intros Hb.
  destruct (tape w) as [| [] t]; intros E; try discriminate E.
  destruct (Z.of_nat (String.length data0) <=? bufsize) eqn:Hl.
  - injection E as <- _. apply Z.leb_le. exact Hl.
  - injection E as <- _. pose proof (take_length (Z.to_nat bufsize) data0). lia.
Qed.

(** The loop of [handle_client] on a temporary file that holds [acc]. *)
Lemma recv_payload_run fuel path received size w acc r w' :
  (NetworkUtils.tape_weight (tape w) < fuel)%nat ->
  fs w !! path = Some acc -> received = NetworkUtils.len acc ->
  ClamAVAgent.recv_payload fuel path received size w = (r, w') ->
  exists evs,
    let content := (acc ++ concat_all (received_on Peer evs))%string in
    trace w' = trace w ++ evs
    /\ Forall (fun e => chan_of e = Some Peer) evs
    /\ fs w' = <[path := content]> (fs w)
    /\ NetworkUtils.len content <= Z.max (NetworkUtils.len acc) size
    /\ ((r = Ok (NetworkUtils.len content) /\ existsb is_raised evs = false
         /\ (size <= NetworkUtils.len content
             \/ exists evs0, evs = evs0 ++ [EvRecv Peer EmptyString]))
        \/ (exists e, r = Raise e /\ existsb is_raised evs = true)).
Proof.
  revert received w acc. induction fuel as [| fuel IH]; intros received w acc Hw Hacc Hr;
    [lia |].
  cbn [ClamAVAgent.recv_payload].
  destruct (received <? size) eqn:Hlt.
  - apply Z.ltb_lt in Hlt. unfold bind, Env.write.
    pose proof (recv_run Peer (Z.min NetworkUtils.chunk_size (size - received)) w)
      as Hrecv.
    destruct (Env.recv Peer _ w) as [[chunk | e] w1] eqn:Er.
    + destruct Hrecv as (Ht & Hfs & _).
      assert (Hlen : NetworkUtils.len chunk <= size - received).
      { assert (Hb : 0 <= Z.min NetworkUtils.chunk_size (size - received))
          by (unfold NetworkUtils.chunk_size; lia).
        pose proof (recv_length _ _ _ _ _ Hb Er). lia. }
      destruct (PyStr.nonempty chunk) eqn:Hc.
      * pose proof (recv_uses_tape _ _ _ _ _ Er Hc) as Hw1.
        set (w2 := set_fs _ w1).
        assert (Hacc2 : fs w2 !! path = Some (acc ++ chunk)%string).
        { unfold w2. cbn [set_fs fs]. rewrite lookup_insert_eq, Hfs, Hacc. reflexivity. }
        assert (Hr2 : received + NetworkUtils.len chunk
                      = NetworkUtils.len (acc ++ chunk)%string).
        { unfold NetworkUtils.len in *. rewrite append_length. lia. }
        assert (Hw2 : (NetworkUtils.tape_weight (tape w2) < fuel)%nat)
          by (unfold w2; cbn [set_fs tape]; lia).
        intros E. destruct (IH _ w2 _ Hw2 Hacc2 Hr2 E) as (evs & Et & Fp & Ef & Hb & Hend).
        exists (EvRecv Peer chunk :: evs). cbv zeta in *.
        rewrite received_on_recv, concat_all_cons, <- append_assoc.
        split; [rewrite Et; unfold w2; cbn [set_fs trace];
                rewrite Ht, <- app_assoc; reflexivity |].
        split; [constructor; [reflexivity | exact Fp] |].
        split; [rewrite Ef; unfold w2; cbn [set_fs fs]; rewrite Hfs;
                apply insert_insert_eq |].
        split; [rewrite <- Hr2 in Hb; lia |].
        cbn [existsb is_raised orb].
        destruct Hend as [(Er' & Hn & Hstop) | Hraise]; [left | right; exact Hraise].
        split; [exact Er' |]. split; [exact Hn |].
        destruct Hstop as [Hs | (evs0 & ->)]; [left; exact Hs |].
        right. exists (EvRecv Peer chunk :: evs0). reflexivity.
      * destruct chunk; [| discriminate Hc].
        intros E. injection E as <- <-. exists [EvRecv Peer EmptyString]. cbv zeta.
        rewrite received_on_recv. cbn [received_on concat_all fold_right].
        rewrite !append_nil_r.
        split; [exact Ht |]. split; [repeat constructor |].
        split; [rewrite Hfs; symmetry; apply insert_id; exact Hacc |].
        split; [lia |]. left. split; [congruence |]. split; [reflexivity |].
        right. exists []. reflexivity.
    + destruct Hrecv as (Ht & Hfs & _).
      intros E. injection E as <- <-. exists [EvRaised Peer e]. cbv zeta.
      cbn [received_on concat_all fold_right]. rewrite !append_nil_r.
      split; [exact Ht |]. split; [repeat constructor |].
      split; [rewrite Hfs; symmetry; apply insert_id; exact Hacc |].
      split; [lia |]. right. exists e. split; reflexivity.
  - apply Z.ltb_ge in Hlt.
    intros E. injection E as <- <-. exists []. cbv zeta.
    cbn [received_on concat_all fold_right]. rewrite !append_nil_r, app_nil_r.
    split; [reflexivity |]. split; [constructor |].
    split; [symmetry; apply insert_id; exact Hacc |]. split; [lia |].
    left. split; [congruence |]. split; [reflexivity |]. left. lia.
Qed.

(** [scan_file] always returns a dictionary with a status, after one run of
    the scanner, and leaves the files alone. *)
Lemma scan_file_run cfg file_path w :
  exists r w' cmd status,
    ClamAVAgent.scan_file cfg file_path w = (Ok r, w')
    /\ trace w' = trace w ++ [EvRun cmd]
    /\ fs w' = fs w
    /\ Py.getitem r "status" = Ok (PyStr status)
    /\ In status ["OK"; "INFECTED"; "ERROR"]%string.
Proof.
  unfold ClamAVAgent.scan_file, try_except, bind, Env.run, Env.next.
  cbn [tape log]. destruct (tape w) as [| a t]; cbn [is_kind exn_kind_of].
  - eexists _, _, _, _. repeat split. cbn [In]. tauto.
  - destruct a; cbn [is_kind exn_kind_of];
      try (eexists _, _, _, _; repeat split; cbn [In]; tauto).
    destruct (returncode =? 0); [eexists _, _, _, _; repeat split; cbn [In]; tauto |].
    destruct (returncode =? 1); eexists _, _, _, _; repeat split; cbn [In]; tauto.
Qed.

(** Stepping through a run: [Hacc] holds the trace so far, [Hfs] the files. *)
Ltac note_step Ht Hf Hacc Hfs :=
  rewrite Hacc in Ht; rewrite <- app_assoc in Ht; clear Hacc; rename Ht into Hacc;
  rewrite Hfs in Hf; clear Hfs; rename Hf into Hfs.

Ltac step_recv Hacc Hfs :=
  match goal with
  | |- context [Env.recv ?c ?n ?wk] =>
      let H := fresh "H" in
      let Ht := fresh "Ht" in
      let Hf := fresh "Hf" in
      pose proof (recv_run c n wk) as H;
      destruct (Env.recv c n wk) as [[? | ?] ?];
      destruct H as (Ht & Hf & _); note_step Ht Hf Hacc Hfs; cbv beta iota
  end.

Ltac step_send Hacc Hfs :=
  match goal with
  | |- context [Env.send ?c ?x ?wk] =>
      let H := fresh "H" in
      let Ht := fresh "Ht" in
      let Hf := fresh "Hf" in
      pose proof (send_run c x wk) as H;
      destruct (Env.send c x wk) as [[? | ?] ?];
      destruct H as (Ht & Hf & _); note_step Ht Hf Hacc Hfs; cbv beta iota
  end.

Ltac raised_somewhere :=
  rewrite ?existsb_app;
  repeat match goal with
         | Hr : existsb is_raised _ = true |- _ => rewrite Hr
         end;
  cbn [existsb is_raised orb]; rewrite ?orb_true_r; reflexivity.

Ltac all_peer_or_scanner :=
  repeat match goal with
         | |- Forall _ (_ ++ _) => apply Forall_app; split
         | |- Forall _ [] => constructor
         | |- Forall _ (_ :: _) => constructor
         | |- peer_or_scanner _ => first [left; reflexivity | right; reflexivity]
         | |- Forall _ _ => assumption
         end.

Ltac finish_run Hacc Hfs tac :=
  let E := fresh "E" in
  intros E; injection E as <- <-; split; [try reflexivity |];
  eexists; split; [cbn [log set_fs trace]; rewrite Hacc, <- app_assoc; reflexivity |];
  split; [all_peer_or_scanner | cbn [log set_fs fs]; rewrite ?Hfs; tac].

(** The handler of a failed exchange: one [send], whose failure is
    swallowed, and the run is over. *)
Ltac fail_out Hacc Hfs tac :=
  cbv beta iota; step_send Hacc Hfs;
  [ match goal with u : unit |- _ => destruct u end; finish_run Hacc Hfs tac
  | finish_run Hacc Hfs tac ].

Section Handler.
Context `{Codecs}.

Lemma peer_events evs :
  Forall (fun e => chan_of e = Some Peer) evs -> Forall peer_or_scanner evs.
Proof. induction 1 as [| e evs He _ IH]; constructor; [left; exact He | exact IH]. Qed.

(** The ways [handle_client] can run. *)
Lemma handle_client_cases cfg w r wf :
  ClamAVAgent.handle_client cfg w = (r, wf) ->
  r = Ok tt
  /\ exists evs,
       trace wf = trace w ++ evs ++ [EvClose Peer]
       /\ Forall peer_or_scanner evs
       /\ (fs wf = fs w
           \/ (exists path content,
                  fs wf = <[path := content]> (fs w) /\ existsb is_raised evs = true)
           \/ (exists path, fs wf = delete path (fs w))).
Proof.
  assert (Hacc : trace w = trace w ++ []) by (rewrite app_nil_r; reflexivity).
  assert (Hfs : fs w = fs w) by reflexivity.
  revert Hacc Hfs. generalize w at 1 3 5 as w0. intros w0 Hacc Hfs.
  unfold ClamAVAgent.handle_client, try_finally, swallow, try_except, bind, of_result,
    NetworkUtils.decode, Env.close, Env.time, Env.open_wb, ret, raise.
  step_recv Hacc Hfs; [| fail_out Hacc Hfs ltac:(left; reflexivity)].
  destruct (utf8_decode _) as [filename_msg |];
    [| fail_out Hacc Hfs ltac:(left; reflexivity)].
  cbv beta iota.
  destruct (PyStr.startswith "FILENAME:" filename_msg); cbn [negb];
    [| fail_out Hacc Hfs ltac:(left; reflexivity)].
  cbv beta iota.
  step_send Hacc Hfs; [| fail_out Hacc Hfs ltac:(left; reflexivity)].
  step_recv Hacc Hfs; [| fail_out Hacc Hfs ltac:(left; reflexivity)].
  destruct (utf8_decode _) as [size_msg |];
    [| fail_out Hacc Hfs ltac:(left; reflexivity)].
  cbv beta iota.
  destruct (PyStr.startswith "SIZE:" size_msg); cbn [negb];
    [| fail_out Hacc Hfs ltac:(left; reflexivity)].
  destruct (PyStr.int _) as [file_size |];
    [| fail_out Hacc Hfs ltac:(left; reflexivity)].
  cbv beta iota.
  step_send Hacc Hfs; [| fail_out Hacc Hfs ltac:(left; reflexivity)].
  set (path := ClamAVAgent.temp_path cfg (now w4) (PyStr.drop 9 filename_msg)).
  set (w5 := set_fs (<[path := EmptyString]> (fs w4)) w4).
  assert (Hempty : fs w5 !! path = Some EmptyString)
    by (unfold w5; cbn [set_fs fs]; apply lookup_insert_eq).
  destruct (ClamAVAgent.recv_payload _ path 0 file_size w5) as [r6 w6] eqn:El.
  destruct (recv_payload_run _ _ _ _ _ _ _ _ ltac:(apply Nat.lt_succ_diag_r) Hempty
              eq_refl El) as (evs & Ht & Fp & Hf & _ & Hend).
  cbv zeta in Hf. cbn [String.append] in Hf.
  unfold w5 in Ht, Hf. cbn [set_fs trace fs] in Ht, Hf.
  rewrite insert_insert_eq in Hf. apply peer_events in Fp.
  note_step Ht Hf Hacc Hfs.
  destruct Hend as [(-> & _ & _) | (e & -> & Hraised)];
    [| fail_out Hacc Hfs
         ltac:(right; left; eexists _, _; split; [reflexivity | raised_somewhere])].
  cbv beta iota.
  destruct (scan_file_run cfg path w6) as (sr & w7 & cmd & status & Es & Ht & Hf & Hst & _).
  rewrite Es. note_step Ht Hf Hacc Hfs. cbv beta iota.
  step_send Hacc Hfs;
    [| fail_out Hacc Hfs
         ltac:(right; left; eexists _, _; split; [reflexivity | raised_somewhere])].
  rewrite Hst. cbv beta iota. unfold Env.remove.
  rewrite Hfs, lookup_insert_eq.
  finish_run Hacc Hfs ltac:(right; right; exists path; apply delete_insert_eq).
Qed.

(** X7.  [handle_client] never raises, whatever the peer sends and
    whatever fails: it returns after closing the connection, which is the last
    thing it does, and until then it only calls the accepted connection and
    runs the scanner. *)
Theorem handle_client_always_closes cfg w :
  let run := ClamAVAgent.handle_client cfg w in
  fst run = Ok tt
  /\ exists evs,
       new_events w (snd run) = evs ++ [EvClose Peer]
       /\ Forall peer_or_scanner evs.
Proof.
  cbv zeta. destruct (ClamAVAgent.handle_client cfg w) as [r wf] eqn:E.
  destruct (handle_client_cases _ _ _ _ E) as (-> & evs & Et & Fp & _).
  split; [reflexivity |]. exists evs. split; [| exact Fp].
  apply new_events_app. exact Et.
Qed.

(** X8.  [handle_client] changes at most one path of the file system,
    and when no call on the connection raised it leaves no file behind: every
    file there is afterwards was there before, with the same contents.  (The
    log file is not modelled.) *)
Theorem handle_client_leaves_no_file cfg w :
  let run := ClamAVAgent.handle_client cfg w in
  (exists path, same_files_but path w (snd run))
  /\ (existsb is_raised (new_events w (snd run)) = false -> no_new_file w (snd run)).
Proof.
  cbv zeta. destruct (ClamAVAgent.handle_client cfg w) as [r wf] eqn:E.
  destruct (handle_client_cases _ _ _ _ E) as (_ & evs & Et & _ & Hfs).
  cbn [snd]. rewrite (new_events_app _ _ _ Et).
  unfold same_files_but, no_new_file.
  destruct Hfs as [Hfs | [(path & content & Hfs & Hr) | (path & Hfs)]]; rewrite Hfs.
  - split; [exists EmptyString; reflexivity | intros _ p c Hp; exact Hp].
  - split; [exists path; intros q Hq; apply lookup_insert_ne; congruence |].
    rewrite existsb_app, Hr. discriminate.
  - split; [exists path; intros q Hq; apply lookup_delete_ne; congruence |].
    intros _ p c Hp. apply lookup_delete_Some in Hp as [_ Hp]. exact Hp.
Qed.

(** X9.  A peer that does not follow the protocol gets the error reply and
    nothing else happens: when the first message is no [FILENAME:] message,
    or the second no [SIZE:] message with a number, the handler writes no
    file and does not run the scanner; it tries to send the error reply,
    and closes the connection. *)
Theorem handle_client_rejects_other_protocols cfg w :
  (forall data rest msg,
      tape w = ABytes data :: rest ->
      NetworkUtils.len data <= 1024 ->
      utf8_decode data = Some msg ->
      PyStr.startswith "FILENAME:" msg = false ->
      let run := ClamAVAgent.handle_client cfg w in
      fst run = Ok tt
      /\ fs (snd run) = fs w
      /\ exists reply,
           new_events w (snd run) = [EvRecv Peer data; reply; EvClose Peer]
           /\ (reply = EvSend Peer (server_error "Invalid protocol: expected FILENAME")
               \/ exists e, reply = EvRaised Peer e))
  /\ (forall name_data size_data rest name_msg size_msg,
         tape w = ABytes name_data :: AOk :: ABytes size_data :: rest ->
         NetworkUtils.len name_data <= 1024 ->
         NetworkUtils.len size_data <= 1024 ->
         utf8_decode name_data = Some name_msg ->
         PyStr.startswith "FILENAME:" name_msg = true ->
         utf8_decode size_data = Some size_msg ->
         PyStr.startswith "SIZE:" size_msg = false
         \/ PyStr.int (PyStr.drop 5 size_msg) = None ->
         let run := ClamAVAgent.handle_client cfg w in
         fst run = Ok tt
         /\ fs (snd run) = fs w
         /\ exists reply,
              new_events w (snd run)
              = [EvRecv Peer name_data; EvSend Peer "READY"; EvRecv Peer size_data;
                 reply; EvClose Peer]
              /\ ((exists details, reply = EvSend Peer (server_error details))
                  \/ exists e, reply = EvRaised Peer e)).
Proof.
  destruct w as [tp files kb clock tr]. cbn [tape]. split.
  - intros data rest msg -> Hlen Hdec Hstart. cbv zeta.
    unfold ClamAVAgent.handle_client, try_finally, swallow, try_except, bind, of_result,
      NetworkUtils.decode, Env.close, Env.recv, Env.send, Env.next, Env.failure, ret, raise.
    run_step. unfold NetworkUtils.len in Hlen. apply Z.leb_le in Hlen. rewrite Hlen.
    run_step. rewrite Hdec. run_step. rewrite Hstart. cbn [negb]. run_step.
    destruct rest as [| a rest]; [| destruct a]; run_step;
      (split; [reflexivity |]); (split; [reflexivity |]);
      eexists; (split; [read_trace; reflexivity |]);
      first [left; reflexivity | right; eexists; reflexivity].
  - intros name_data size_data rest name_msg size_msg -> Hl1 Hl2 Hd1 Hs1 Hd2 Hbad.
    cbv zeta.
    unfold ClamAVAgent.handle_client, try_finally, swallow, try_except, bind, of_result,
      NetworkUtils.decode, Env.close, Env.recv, Env.send, Env.next, Env.failure, ret, raise.
    run_step. unfold NetworkUtils.len in Hl1, Hl2.
    apply Z.leb_le in Hl1, Hl2. rewrite Hl1.
    run_step. rewrite Hd1. run_step. rewrite Hs1. cbn [negb]. run_step.
    rewrite Hl2. run_step. rewrite Hd2. run_step.
    destruct (PyStr.startswith "SIZE:" size_msg) eqn:Hs2; cbn [negb]; run_step.
    + destruct Hbad as [Hbad | Hbad]; [discriminate Hbad |]. rewrite Hbad. run_step.
      destruct rest as [| a rest]; [| destruct a]; run_step;
        (split; [reflexivity |]); (split; [reflexivity |]);
        eexists; (split; [read_trace; reflexivity |]);
        first [left; eexists; reflexivity | right; eexists; reflexivity].
    + destruct rest as [| a rest]; [| destruct a]; run_step;
        (split; [reflexivity |]); (split; [reflexivity |]);
        eexists; (split; [read_trace; reflexivity |]);
        first [left; eexists; reflexivity | right; eexists; reflexivity].
Qed.

(** X10.  The temporary file never holds more than the announced size.
    After the file is opened and the payload loop has run, the file holds
    what arrived on the connection, which is at most [file_size] bytes, or
    nothing for a size of zero or below; the loop ends with the count of
    these bytes when the size is reached or the peer closed the connection,
    and otherwise with the exception of the [recv] that failed. *)
Theorem payload_stays_within_announced_size path file_size w :
  let run :=
    (Env.open_wb path ;;
     (fun w' =>
        ClamAVAgent.recv_payload (S (NetworkUtils.tape_weight (tape w'))) path 0
          file_size w')) w in
  let evs := new_events w (snd run) in
  let content := concat_all (received_on Peer evs) in
  fs (snd run) !! path = Some content
  /\ NetworkUtils.len content <= Z.max 0 file_size
  /\ ((fst run = Ok (NetworkUtils.len content)
       /\ (file_size <= NetworkUtils.len content
           \/ exists evs0, evs = evs0 ++ [EvRecv Peer EmptyString]))
      \/ (exists e, fst run = Raise e /\ existsb is_raised evs = true)).
Proof.
  cbv zeta. unfold bind, Env.open_wb.
  set (w0 := set_fs (<[path := EmptyString]> (fs w)) w).
  assert (Hempty : fs w0 !! path = Some EmptyString)
    by (unfold w0; cbn [set_fs fs]; apply lookup_insert_eq).
  destruct (ClamAVAgent.recv_payload _ path 0 file_size w0) as [r w1] eqn:El.
  destruct (recv_payload_run _ _ _ _ _ _ _ _ ltac:(apply Nat.lt_succ_diag_r) Hempty
              eq_refl El) as (evs & Ht & _ & Hf & Hb & Hend).
  cbv zeta in *. cbn [String.append] in *. cbn [fst snd].
  assert (En : new_events w w1 = evs) by (apply new_events_app; exact Ht).
  rewrite En. split; [rewrite Hf; apply lookup_insert_eq |].
  split; [exact Hb |].
  destruct Hend as [(-> & _ & Hstop) | (e & -> & Hr)].
  - left. split; [reflexivity | exact Hstop].
  - right. exists e. split; [reflexivity | exact Hr].
Qed.

End Handler.


(** ** The test of the scanner *)

Lemma split_ws_nil s :
  PyStr.split_ws s = [] <-> PyStr.all_chars PyStr.isspace_char s = true.
Proof.
  induction s as [| c s IH]; [split; reflexivity |].
  cbn [PyStr.split_ws PyStr.all_chars].
  destruct (PyStr.isspace_char c); cbn [andb]; [exact IH |].
  split; [| discriminate]. destruct (PyStr.split_ws s); [discriminate |].
  destruct (match s with String c' _ => _ | EmptyString => _ end); discriminate.
Qed.

Lemma lstrip_blank s :
  PyStr.all_chars PyStr.isspace_char s = true -> PyStr.lstrip s = EmptyString.
Proof.
  induction s as [| c s IH]; [reflexivity |]. cbn [PyStr.all_chars PyStr.lstrip].
  destruct (PyStr.isspace_char c); [exact IH | discriminate].
Qed.

Lemma lstrip_not_blank s :
  PyStr.all_chars PyStr.isspace_char s = false ->
  exists c t, PyStr.lstrip s = String c t /\ PyStr.isspace_char c = false.
Proof.
  induction s as [| c s IH]; [discriminate |]. cbn [PyStr.all_chars PyStr.lstrip].
  destruct (PyStr.isspace_char c) eqn:Hc; [exact IH |]. intros _. eauto.
Qed.

Lemma strip_blank s :
  PyStr.all_chars PyStr.isspace_char (PyStr.strip s)
  = PyStr.all_chars PyStr.isspace_char s.
Proof.
  destruct (PyStr.all_chars PyStr.isspace_char s) eqn:Hs.
  - unfold PyStr.strip. rewrite (lstrip_blank _ Hs). reflexivity.
  - destruct (lstrip_not_blank _ Hs) as (c & t & E & Hc).
    unfold PyStr.strip. rewrite E, rstrip_cons by exact Hc.
    cbn [PyStr.all_chars]. rewrite Hc. reflexivity.
Qed.

(** X11.  [test_clamav] never raises, and it reports a working scanner
    exactly when the scanner exits with the code 0 after printing at least
    one word: an exit code 0 with an empty or blank output counts as a
    failure, like a timeout or a scanner that cannot be run. *)
Theorem test_clamav_needs_a_version cfg w :
  exists works,
    fst (ClamAVAgent.test_clamav cfg w) = Ok works
    /\ (works = true
        <-> exists stdout stderr rest,
              tape w = AExit 0 stdout stderr :: rest
              /\ PyStr.all_chars PyStr.isspace_char stdout = false).
Proof.
  unfold ClamAVAgent.test_clamav, try_except, bind, Env.run, Env.next.
  cbn [tape log].
  destruct (tape w) as [| a t].
  - exists false. split; [reflexivity |]. split; [discriminate |].
    intros (out & err & rest & E & _). discriminate E.
  - destruct a;
      try (exists false; split; [reflexivity |]; split; [discriminate |];
           intros (out & err & rest & E & _); discriminate E).
    destruct (Z.eqb_spec returncode 0) as [-> | Hrc].
    + destruct (PyStr.split_ws (PyStr.strip stdout)) as [| version more] eqn:Ev.
      * exists false. split; [reflexivity |]. split; [discriminate |].
        intros (out & err & rest & E & Hout). injection E as <- _ _.
        apply split_ws_nil in Ev. rewrite strip_blank in Ev. congruence.
      * exists true. split; [reflexivity |]. split; [| reflexivity].
        intros _. exists stdout, stderr, t. split; [reflexivity |].
        destruct (PyStr.all_chars PyStr.isspace_char stdout) eqn:Hout; [| reflexivity].
        rewrite <- strip_blank in Hout. apply split_ws_nil in Hout. congruence.
    + exists false. split; [reflexivity |]. split; [discriminate |].
      intros (out & err & rest & E & _). injection E as E _ _. contradiction.
Qed.

(** ** Commands and the session *)

Section Shell.
Context `{Codecs}.
Import SecureFTPClient.

Lemma check_connection_run s :
  FTPCommands._check_connection s = (Ok (ready (client s)), s).
Proof.
  unfold FTPCommands._check_connection, bind, self, ret, ready.
  destruct (connected (client s)); [destruct (logged_in (client s)) |]; reflexivity.
Qed.

Ltac not_ready_run :=
  intros Hr; unfold bind; rewrite check_connection_run, Hr; reflexivity.

Lemma cmd_ls_not_ready args s :
  ready (client s) = false -> FTPCommands.cmd_ls args s = (Ok tt, s).
Proof. unfold FTPCommands.cmd_ls. not_ready_run. Qed.

Lemma cmd_cd_not_ready args s :
  ready (client s) = false -> FTPCommands.cmd_cd args s = (Ok tt, s).
Proof. unfold FTPCommands.cmd_cd. not_ready_run. Qed.

Lemma cmd_pwd_not_ready args s :
  ready (client s) = false -> FTPCommands.cmd_pwd args s = (Ok tt, s).
Proof. unfold FTPCommands.cmd_pwd. not_ready_run. Qed.

Lemma one_argument_command_not_ready verb args s :
  ready (client s) = false -> FTPCommands.one_argument_command verb args s = (Ok tt, s).
Proof. unfold FTPCommands.one_argument_command. not_ready_run. Qed.

Lemma cmd_rename_not_ready args s :
  ready (client s) = false -> FTPCommands.cmd_rename args s = (Ok tt, s).
Proof. unfold FTPCommands.cmd_rename. not_ready_run. Qed.

Lemma cmd_get_not_ready args s :
  ready (client s) = false -> FTPCommands.cmd_get args s = (Ok tt, s).
Proof. unfold FTPCommands.cmd_get. not_ready_run. Qed.

Lemma cmd_put_not_ready args s :
  ready (client s) = false -> FTPCommands.cmd_put args s = (Ok tt, s).
Proof. unfold FTPCommands.cmd_put. not_ready_run. Qed.

Lemma cmd_mget_not_ready args s :
  ready (client s) = false -> FTPCommands.cmd_mget args s = (Ok tt, s).
Proof. unfold FTPCommands.cmd_mget. not_ready_run. Qed.

Lemma cmd_mput_not_ready args s :
  ready (client s) = false -> FTPCommands.cmd_mput args s = (Ok tt, s).
Proof. unfold FTPCommands.cmd_mput. not_ready_run. Qed.

Ltac dispatch :=
  unfold FTPCommands.execute_command;
  cbv beta iota delta [FTPCommands.lookup_command FTPCommands.command_map String.eqb
                       Ascii.eqb Bool.eqb];
  unfold try_except.

Lemma session_command_not_ready command args s :
  In command session_commands ->
  ready (client s) = false ->
  FTPCommands.execute_command command args s = (Ok tt, s).
Proof.
  intros Hin Hr.
  unfold session_commands in Hin. cbn [In] in Hin.
  repeat (destruct Hin as [<- | Hin]); try (destruct Hin); dispatch.
  - rewrite cmd_ls_not_ready by exact Hr. reflexivity.
  - rewrite cmd_ls_not_ready by exact Hr. reflexivity.
  - rewrite cmd_cd_not_ready by exact Hr. reflexivity.
  - rewrite cmd_cd_not_ready by exact Hr. reflexivity.
  - rewrite cmd_pwd_not_ready by exact Hr. reflexivity.
  - unfold FTPCommands.cmd_mkdir. rewrite one_argument_command_not_ready by exact Hr.
    reflexivity.
  - unfold FTPCommands.cmd_rmdir. rewrite one_argument_command_not_ready by exact Hr.
    reflexivity.
  - unfold FTPCommands.cmd_delete. rewrite one_argument_command_not_ready by exact Hr.
    reflexivity.
  - unfold FTPCommands.cmd_delete. rewrite one_argument_command_not_ready by exact Hr.
    reflexivity.
  - rewrite cmd_rename_not_ready by exact Hr. reflexivity.
  - rewrite cmd_get_not_ready by exact Hr. reflexivity.
  - rewrite cmd_get_not_ready by exact Hr. reflexivity.
  - rewrite cmd_put_not_ready by exact Hr. reflexivity.
  - rewrite cmd_put_not_ready by exact Hr. reflexivity.
  - rewrite cmd_mget_not_ready by exact Hr. reflexivity.
  - rewrite cmd_mput_not_ready by exact Hr. reflexivity.
Qed.

Lemma cmd_ls_active args s :
  passive_mode (client s) = false -> FTPCommands.cmd_ls args s = (Ok tt, s).
Proof.
  intros Hp. unfold FTPCommands.cmd_ls, bind. rewrite check_connection_run.
  destruct (ready (client s)); cbn [negb]; [| reflexivity].
  unfold try_except, self. rewrite Hp. reflexivity.
Qed.

(** X12.  Until the client is connected and logged in, the commands that
    work on the server do nothing at all: they return without a call to the
    environment and leave the client as it is.  [put] does not even look for
    the file or ask for a scan.  And [ls] does nothing in active mode, logged
    in or not: it never sends [LIST] without a passive data connection. *)
Theorem commands_need_a_session command args s :
  (In command session_commands ->
   connected (client s) = false \/ logged_in (client s) = false ->
   FTPCommands.execute_command command args s = (Ok tt, s))
  /\ (passive_mode (client s) = false ->
      FTPCommands.execute_command "ls" args s = (Ok tt, s)
      /\ FTPCommands.execute_command "dir" args s = (Ok tt, s)).
Proof.
  split.
  - intros Hin Hflag. apply session_command_not_ready; [exact Hin |].
    unfold ready. destruct Hflag as [-> | ->]; [reflexivity | apply andb_false_r].
  - intros Hp. split; dispatch; rewrite cmd_ls_active by exact Hp; reflexivity.
Qed.

Lemma lookup_command_none {A} command (table : list (string * A)) :
  ~ In command (map fst table) -> FTPCommands.lookup_command command table = None.
Proof.
  induction table as [| [name h] rest IH]; [reflexivity |].
  cbn [map fst In FTPCommands.lookup_command]. intros Hn.
  destruct (String.eqb_spec name command) as [-> | _]; [tauto |].
  apply IH. tauto.
Qed.

Lemma execute_command_returns command args s :
  fst (FTPCommands.execute_command command args s) = Ok tt.
Proof.
  unfold FTPCommands.execute_command.
  destruct (FTPCommands.lookup_command command FTPCommands.command_map) as [handler |];
    [| reflexivity].
  unfold try_except. destruct (handler args s) as [[[] | e] s1]; reflexivity.
Qed.

Lemma send_command_not_connected command s :
  connected (client s) = false ->
  send_command command s = (Raise (Exn PlainException "Not connected to server"), s).
Proof. intros Hc. unfold send_command, bind, self, raise. rewrite Hc. reflexivity. Qed.

(** X13.  No command ends the shell: [execute_command] returns whatever
    the command is and whatever its handler raises.  A name it does not know
    changes nothing.  On a client that is not connected [set_transfer_mode]
    raises before it touches the transfer mode, so the commands [ascii] and
    [binary] change nothing either. *)
Theorem execute_command_never_raises command args s :
  fst (FTPCommands.execute_command command args s) = Ok tt
  /\ (~ In command known_commands ->
      FTPCommands.execute_command command args s = (Ok tt, s))
  /\ (connected (client s) = false ->
      (exists e, fst (set_transfer_mode command s) = Raise e)
      /\ FTPCommands.execute_command "ascii" args s = (Ok tt, s)
      /\ FTPCommands.execute_command "binary" args s = (Ok tt, s)).
Proof.
  split; [apply execute_command_returns | split].
  - intros Hn. unfold FTPCommands.execute_command.
    rewrite lookup_command_none; [reflexivity | exact Hn].
  - intros Hc. split; [| split].
    + unfold set_transfer_mode, bind.
      destruct (lower_is_ascii command); rewrite send_command_not_connected by exact Hc;
        eexists; reflexivity.
    + dispatch. unfold FTPCommands.cmd_ascii, set_transfer_mode, bind.
      cbn [lower_is_ascii Ascii.eqb Bool.eqb orb andb].
      rewrite send_command_not_connected by exact Hc. reflexivity.
    + dispatch. unfold FTPCommands.cmd_binary, set_transfer_mode, bind.
      cbn [lower_is_ascii Ascii.eqb Bool.eqb orb andb].
      rewrite send_command_not_connected by exact Hc. reflexivity.
Qed.

(** *** One request, one reply *)

Lemma send_command_run command s rest :
  connected (client s) = true -> control_socket (client s) = true ->
  tape (world s) = AOk :: rest ->
  send_command command s
  = (Ok tt,
     mkSession (client s)
       (log (EvSend Control (utf8_encode (command ++ crlf))) (set_tape rest (world s)))).
Proof.
  intros Hc Hs Ht. unfold send_command, bind, self.
  cbv beta iota. rewrite Hc, Hs. cbn [negb].
  unfold env, Env.send, Env.next. rewrite Ht. reflexivity.
Qed.

Lemma receive_response_run s data rest text r :
  control_socket (client s) = true ->
  tape (world s) = ABytes data :: rest ->
  NetworkUtils.len data <= 1024 ->
  utf8_decode data = Some text ->
  FTPResponse.__init__ (PyStr.strip text) = Ok r ->
  receive_response s
  = (Ok r, mkSession (client s) (log (EvRecv Control data) (set_tape rest (world s)))).
Proof.
  intros Hs Ht Hl Hd Hi. unfold NetworkUtils.len in Hl. apply Z.leb_le in Hl.
  unfold receive_response, try_except, bind, self.
  cbv beta iota. rewrite Hs. cbn [negb].
  unfold env, Env.recv, Env.next. rewrite Ht. cbv beta iota. rewrite Hl.
  cbv beta iota. unfold NetworkUtils.decode. rewrite Hd.
  unfold ret, of_result. cbv beta iota. rewrite Hi. reflexivity.
Qed.

Lemma unchanged_of_stable {A} (m : M Session A) s :
  (forall P, stable P m) -> client (snd (m s)) = client s.
Proof. intros Hst. apply (Hst (fun c => c = client s)). reflexivity. Qed.

(** X14.  [set_transfer_mode] changes the transfer mode of the client as
    soon as the [TYPE] command went out, before the reply is read: the mode
    is [ascii] for the word [ascii] in any case and [binary] for every other
    word, whatever the server answers and even when no answer comes. *)
Theorem transfer_mode_changes_before_the_reply mode s rest :
  connected (client s) = true -> control_socket (client s) = true ->
  tape (world s) = AOk :: rest ->
  transfer_mode (client (snd (set_transfer_mode mode s)))
  = (if lower_is_ascii mode then "ascii" else "binary")%string.
Proof.
  intros Hc Hs Ht. unfold set_transfer_mode.
  destruct (lower_is_ascii mode); unfold bind at 1 2;
    rewrite (send_command_run _ _ _ Hc Hs Ht); cbv beta iota; unfold update at 1;
    cbv beta iota;
    match goal with
    | |- context [bind receive_response ?k ?s1] =>
        apply (stable_bind (fun c => transfer_mode c = transfer_mode (client s1))
                 receive_response k (stable_receive_response _)
                 (fun _ => stable_ret _ _) s1 eq_refl)
    end.
Qed.

End Shell.

(** ** The session methods, step by step *)

Section Session.
Context `{Codecs}.
Import SecureFTPClient.

Ltac stable_run :=
  first [ apply stable_send_command | apply stable_receive_response | stable_step ].

(** How [send_command] can run. *)
Lemma send_command_cases command s :
  exists r w1,
    send_command command s = (r, mkSession (client s) w1)
    /\ fs w1 = fs (world s) /\ keyboard w1 = keyboard (world s)
    /\ ((r = Ok tt
         /\ trace w1 = trace (world s) ++ [EvSend Control (utf8_encode (command ++ crlf))])
        \/ (exists e tail,
               r = Raise e /\ trace w1 = trace (world s) ++ tail /\ sends_nothing tail)).
Proof.
  destruct s as [c w]. unfold send_command, bind, self, raise. cbv beta iota.
  cbn [client world].
  destruct (connected c); cbn [negb];
    [| eexists _, _; split; [reflexivity |]; split; [reflexivity |];
       split; [reflexivity |]; right; eexists; exists []; rewrite app_nil_r;
       repeat split; constructor].
  destruct (control_socket c); cbn [negb];
    [| eexists _, _; split; [reflexivity |]; split; [reflexivity |];
       split; [reflexivity |]; right; eexists; exists []; rewrite app_nil_r;
       repeat split; constructor].
  unfold env. cbn [world client].
  pose proof (send_run Control (utf8_encode (command ++ crlf)) w) as Hs.
  destruct (Env.send Control _ w) as [[[] | e] w1]; destruct Hs as (Ht & Hf & Hk & _);
    eexists _, _; (split; [reflexivity |]); (split; [exact Hf |]); (split; [exact Hk |]).
  - left. split; [reflexivity | exact Ht].
  - right. exists e, [EvRaised Control e]. repeat split; [exact Ht |].
    repeat constructor.
Qed.

(** How [receive_response] can run. *)
Lemma receive_response_cases s :
  exists r w1,
    receive_response s = (r, mkSession (client s) w1)
    /\ fs w1 = fs (world s) /\ keyboard w1 = keyboard (world s)
    /\ ((exists resp data text,
            r = Ok resp
            /\ trace w1 = trace (world s) ++ [EvRecv Control data]
            /\ utf8_decode data = Some text
            /\ FTPResponse.__init__ (PyStr.strip text) = Ok resp)
        \/ (exists e tail,
               r = Raise e /\ trace w1 = trace (world s) ++ tail /\ sends_nothing tail)).
Proof.
  destruct s as [c w]. unfold receive_response, try_except, bind, self, raise.
  cbv beta iota. cbn [client world].
  destruct (control_socket c); cbn [negb];
    [| eexists _, _; split; [reflexivity |]; split; [reflexivity |];
       split; [reflexivity |]; right; eexists; exists []; rewrite app_nil_r;
       repeat split; constructor].
  unfold env. cbn [world client].
  pose proof (recv_run Control 1024 w) as Hr.
  destruct (Env.recv Control 1024 w) as [[data | e] w1]; destruct Hr as (Ht & Hf & Hk & _).
  - unfold NetworkUtils.decode. destruct (utf8_decode data) as [text |] eqn:Hd;
      unfold ret, of_result; cbv beta iota.
    + destruct (FTPResponse.__init__ (PyStr.strip text)) as [resp | e] eqn:Hi;
        eexists _, _; (split; [reflexivity |]); (split; [exact Hf |]);
        (split; [exact Hk |]).
      * left. exists resp, data, text. repeat split; assumption.
      * right. eexists. exists [EvRecv Control data]. repeat split; [exact Ht |].
        repeat constructor.
    + eexists _, _; (split; [reflexivity |]); (split; [exact Hf |]);
        (split; [exact Hk |]).
      right. eexists. exists [EvRecv Control data]. repeat split; [exact Ht |].
      repeat constructor.
  - eexists _, _; (split; [reflexivity |]); (split; [exact Hf |]); (split; [exact Hk |]).
    right. eexists. exists [EvRaised Control e]. repeat split; [exact Ht |]. repeat constructor.
Qed.

(** *** [login] *)

Lemma bind_same {A B} (m : M Session A) (k : A -> M Session B)
    (Q : result B -> t -> Prop) c0 s :
  client s = c0 -> (forall P, stable P m) -> (forall e, Q (Raise e) c0) ->
  (forall a s1, client s1 = c0 -> Q (fst (k a s1)) (client (snd (k a s1)))) ->
  Q (fst (bind m k s)) (client (snd (bind m k s))).
Proof.
  intros Hc Hst Hr Hk. unfold bind.
  pose proof (unchanged_of_stable m s Hst) as Hu.
  destruct (m s) as [[a | e] s1]; cbn [fst snd] in *.
  - apply Hk. congruence.
  - rewrite Hu, Hc. apply Hr.
Qed.

Lemma login_outcome_raise c0 e : login_outcome c0 (Raise e) c0.
Proof. right. right. exists e. split; reflexivity. Qed.

Lemma login_run user pass s r s' :
  connected (client s) = true ->
  login user pass s = (r, s') ->
  (r = Ok true /\ client s' = set_logged_in true (client s))
  \/ (r = Ok false /\ client s' = client s).
Proof.
  intros Hc. unfold login. unfold bind at 1. unfold self at 1. cbv beta iota.
  rewrite Hc. cbn [negb]. unfold try_except.
  match goal with
  | |- context [match ?body s with _ => _ end] =>
      assert (Hb : login_outcome (client s) (fst (body s)) (client (snd (body s))));
      [| destruct (body s) as [[b | e] s1]; cbn [fst snd ret] in *;
         destruct Hb as [(E & Ec) | [(E & Ec) | (e' & E & Ec)]];
         first [discriminate E | idtac]; intros Er; injection Er as <- <- ]
  end.
  - apply (bind_same _ _ _ (client s)); [reflexivity | intros P; repeat stable_run
                     | apply login_outcome_raise | intros _ s1 H1].
    apply (bind_same _ _ _ (client s)); [exact H1 | intros P; repeat stable_run
                     | apply login_outcome_raise | intros _ s2 H2].
    apply (bind_same _ _ _ (client s)); [exact H2 | intros P; repeat stable_run
                     | apply login_outcome_raise | intros response s3 H3].
    apply (bind_same _ _ _ (client s)); [exact H3 | intros P; repeat stable_run
                     | apply login_outcome_raise | intros response' s4 H4].
    destruct (FTPResponse.is_positive response').
    + left. unfold bind, update, ret. cbn [fst snd client]. rewrite H4.
      split; reflexivity.
    + right. left. unfold ret. cbn [fst snd]. split; [reflexivity | exact H4].
  - left. split; [exact E | exact Ec].
  - right. split; [exact E | exact Ec].
  - right. split; [reflexivity | exact Ec].
Qed.

(** X15.  [login] never raises.  On a client that is not connected it
    returns [False] without a call to the environment.  When it returns
    [True] it has set [logged_in] and changed nothing else of the client;
    when it returns [False] the client is as it was, so a login that fails
    on a client that is logged in leaves it logged in. *)
Theorem login_sets_the_flag_or_nothing user pass s :
  let run := login user pass s in
  (connected (client s) = false -> run = (Ok false, s))
  /\ ((fst run = Ok true
       /\ client (snd run) = set_logged_in true (client s)
       /\ connected (client s) = true)
      \/ (fst run = Ok false /\ client (snd run) = client s)).
Proof.
  cbv zeta. split; [apply login_not_connected |].
  destruct (connected (client s)) eqn:Hc.
  - destruct (login user pass s) as [r s'] eqn:E.
    destruct (login_run user pass s r s' Hc E) as [(-> & Ec) | (-> & Ec)];
      [left | right]; repeat split; assumption.
  - rewrite login_not_connected by exact Hc. right. split; reflexivity.
Qed.

(** *** [disconnect] *)

Lemma disconnect_returns s : fst (disconnect s) = Ok tt.
Proof.
  unfold disconnect. unfold bind at 1. unfold self at 1. cbv beta iota.
  destruct (connected (client s)); [| reflexivity].
  unfold try_finally, swallow, try_except, update.
  match goal with
  | |- context [match ?body s with _ => _ end] => destruct (body s) as [[[] | e] s1]
  end; reflexivity.
Qed.

Lemma disconnect_disconnects s : connected (client (snd (disconnect s))) = false.
Proof.
  destruct (connected (client s)) eqn:Hc.
  - apply disconnect_connected. exact Hc.
  - rewrite disconnect_not_connected by exact Hc. exact Hc.
Qed.

Lemma disconnect_quiet s :
  logged_in (client s) = false ->
  sends_nothing (new_events (world s) (world (snd (disconnect s)))).
Proof.
  intros Hl. destruct s as [c w]. cbn [client world] in *.
  unfold disconnect, bind, self, try_finally, swallow, try_except, update, ret, raise, env,
    Env.close.
  cbv beta iota. cbn [client world]. rewrite Hl.
  destruct (connected c); cbv beta iota; cbn [client world snd].
  - destruct (control_socket c); cbv beta iota; cbn [client world snd].
    + rewrite (new_events_app _ _ [EvClose Control]) by reflexivity. repeat constructor.
    + rewrite (new_events_app _ _ []) by (rewrite app_nil_r; reflexivity). constructor.
  - rewrite (new_events_app _ _ []) by (rewrite app_nil_r; reflexivity). constructor.
Qed.

(** X16.  [disconnect] never raises; on a client that is not connected it
    does nothing, and on a client that is not logged in it sends nothing, so
    [QUIT] goes out only from a session that is logged in.  After it, every
    method that needs the connection refuses: [send_command] raises without
    a call to the socket, [login] returns [False], and the commands of the
    shell that work on the server do nothing. *)
Theorem disconnect_ends_the_session s :
  let after := snd (disconnect s) in
  fst (disconnect s) = Ok tt
  /\ (connected (client s) = false -> disconnect s = (Ok tt, s))
  /\ (logged_in (client s) = false ->
      sends_nothing (new_events (world s) (world after)))
  /\ (forall command,
         send_command command after
         = (Raise (Exn PlainException "Not connected to server"), after))
  /\ (forall user pass, login user pass after = (Ok false, after))
  /\ (forall command args,
         In command session_commands ->
         FTPCommands.execute_command command args after = (Ok tt, after)).
Proof.
  cbv zeta. split; [apply disconnect_returns |].
  split; [apply disconnect_not_connected |].
  split; [apply disconnect_quiet |].
  pose proof (disconnect_disconnects s) as Hc.
  split; [intros command; apply send_command_not_connected; exact Hc |].
  split; [intros user pass; apply login_not_connected; exact Hc |].
  intros command args Hin. apply session_command_not_ready; [exact Hin |].
  unfold ready. rewrite Hc. reflexivity.
Qed.

End Session.

(** ** Data connections *)

Section DataConnection.
Context `{Codecs}.
Import SecureFTPClient.

Lemma send_command_ok command s u s' :
  send_command command s = (Ok u, s') ->
  client s' = client s
  /\ trace (world s') = trace (world s) ++ [EvSend Control (utf8_encode (command ++ crlf))].
Proof.
  intros E.
  destruct (send_command_cases command s)
    as (r & w1 & E1 & _ & _ & [(-> & Ht) | (e & tail & -> & _)]);
    rewrite E1 in E; [| discriminate E].
  injection E as _ <-. split; [reflexivity | exact Ht].
Qed.

Lemma receive_response_ok s resp s' :
  receive_response s = (Ok resp, s') ->
  exists data text,
    client s' = client s
    /\ trace (world s') = trace (world s) ++ [EvRecv Control data]
    /\ utf8_decode data = Some text
    /\ FTPResponse.__init__ (PyStr.strip text) = Ok resp.
Proof.
  intros E.
  destruct (receive_response_cases s)
    as (r & w1 & E1 & _ & _ & [(resp' & data & text & -> & Ht & Hd & Hi)
                                | (e & tail & -> & _)]);
    rewrite E1 in E; [| discriminate E].
  injection E as <- <-. exists data, text. repeat split; assumption.
Qed.

Lemma getsockname_ok c w host port w' :
  Env.getsockname c w = (Ok (host, port), w') ->
  tape w = AAddr host port :: tape w' /\ trace w' = trace w.
Proof.
  unfold Env.getsockname, Env.next, Env.failure.
  destruct (tape w) as [| [] t] eqn:Et; intros E; try discriminate E.
  injection E as <- <- <-. split; reflexivity.
Qed.

Lemma env_ok {A} (m : M World A) s a s' :
  env m s = (Ok a, s') ->
  exists w', m (world s) = (Ok a, w') /\ s' = mkSession (client s) w'.
Proof.
  unfold env. destruct (m (world s)) as [[a' | e] w']; intros E; [| discriminate E].
  injection E as <- <-. exists w'. split; reflexivity.
Qed.

(** X17.  When [open_data_connection] returns, the data connection is
    what the server's reply made it.  In passive mode the client sent [PASV],
    read a positive reply and connected the data socket to the address and
    the port that [parse_pasv_response] found in it, and to no other.  In
    active mode it bound and listened, sent the [PORT] command written by
    [create_port_command] from the host of the control socket and the port
    of the data socket, and read a positive reply.  The client object is not
    changed. *)
Theorem data_connection_follows_the_reply s s' :
  open_data_connection s = (Ok tt, s') ->
  client s' = client s
  /\ exists data text r,
       utf8_decode data = Some text
       /\ FTPResponse.__init__ (PyStr.strip text) = Ok r
       /\ FTPResponse.is_positive r = true
       /\ if passive_mode (client s) then
            exists host port,
              NetworkUtils.parse_pasv_response (FTPResponse.message r) = Some (host, port)
              /\ new_events (world s) (world s')
                 = [EvSend Control (utf8_encode ("PASV" ++ crlf)); EvRecv Control data;
                    EvSocket Data; EvConnect Data host port]
          else
            exists bound_host port local_host local_port command rest,
              tape (world s)
              = AAddr bound_host port :: AAddr local_host local_port :: rest
              /\ NetworkUtils.create_port_command local_host port = Ok command
              /\ new_events (world s) (world s')
                 = [EvSocket Data; EvBind Data; EvListen Data;
                    EvSend Control (utf8_encode (command ++ crlf)); EvRecv Control data].
Proof.
  unfold open_data_connection. unfold bind at 1. unfold self at 1. cbv beta iota.
  destruct (passive_mode (client s)).
  - unfold _open_passive_data_connection. intros E.
    apply bind_ok_inv in E as (u1 & s1 & E1 & E).
    apply send_command_ok in E1 as (C1 & T1).
    apply bind_ok_inv in E as (r & s2 & E2 & E).
    apply receive_response_ok in E2 as (data & text & C2 & T2 & Hd & Hi).
    destruct (FTPResponse.is_positive r) eqn:Hp; cbn [negb] in E; [| discriminate E].
    destruct (NetworkUtils.parse_pasv_response (FTPResponse.message r))
      as [[host port] |] eqn:Ep; [| discriminate E].
    apply bind_ok_inv in E as (u3 & s3 & E3 & E).
    apply env_ok in E3 as (w3 & E3 & ->). injection E3 as _ <-.
    apply env_ok in E as (w4 & E4 & ->). cbn [world client] in E4.
    apply connect_ok in E4. cbn [log trace] in E4.
    cbn [client world]. split; [congruence |].
    exists data, text, r. repeat split; try assumption.
    exists host, port. split; [exact Ep |].
    apply new_events_app. rewrite E4, T2, T1, <- !app_assoc. reflexivity.
  - unfold _open_active_data_connection. intros E.
    apply bind_ok_inv in E as (u1 & s1 & E1 & E).
    apply env_ok in E1 as (w1 & E1 & ->). injection E1 as _ <-.
    apply bind_ok_inv in E as (u2 & s2 & E2 & E).
    apply env_ok in E2 as (w2 & E2 & ->). injection E2 as _ <-.
    apply bind_ok_inv in E as (u3 & s3 & E3 & E).
    apply env_ok in E3 as (w3 & E3 & ->). injection E3 as _ <-.
    apply bind_ok_inv in E as ([bound_host port] & s4 & E4 & E).
    apply env_ok in E4 as (w4 & E4 & ->). cbn [world client] in E4.
    apply getsockname_ok in E4 as (Tp4 & T4). cbn [log tape trace] in Tp4, T4.
    unfold bind at 1 in E. unfold self at 1 in E. cbv beta iota in E.
    cbn [snd client world] in E.
    apply bind_ok_inv in E as (u5 & s5 & E5 & E).
    destruct (control_socket (client s)); [| discriminate E5]. injection E5 as _ <-.
    apply bind_ok_inv in E as ([local_host local_port] & s6 & E6 & E).
    apply env_ok in E6 as (w6 & E6 & ->). cbn [world client] in E6.
    apply getsockname_ok in E6 as (Tp6 & T6).
    apply bind_ok_inv in E as (command & s7 & E7 & E).
    unfold of_result in E7. cbn [fst] in E7. injection E7 as E7 <-.
    apply bind_ok_inv in E as (u8 & s8 & E8 & E).
    apply send_command_ok in E8 as (C8 & T8).
    apply bind_ok_inv in E as (r & s9 & E9 & E).
    apply receive_response_ok in E9 as (data & text & C9 & T9 & Hd & Hi).
    destruct (FTPResponse.is_positive r) eqn:Hp; cbn [negb] in E.
    + injection E as <-. cbn [client world] in *. split; [congruence |].
      exists data, text, r. repeat split; try assumption.
      exists bound_host, port, local_host, local_port, command, (tape w6).
      split; [rewrite Tp4, Tp6; reflexivity |]. split; [exact E7 |].
      apply new_events_app. rewrite T9, T8, T6, T4, <- !app_assoc. reflexivity.
    + apply bind_ok_inv in E as (u & s10 & _ & E). discriminate E.
Qed.

End DataConnection.

(** ** The current directory *)

Lemma replace_other c r :
  c <> "/"%char ->
  FTPCommands.replace_double_slash (String c r)
  = String c (FTPCommands.replace_double_slash r).
Proof.
  intros Hc. destruct c as [[] [] [] [] [] [] [] []]; first [reflexivity | congruence].
Qed.

Lemma replace_slash_other c r :
  c <> "/"%char ->
  FTPCommands.replace_double_slash (String "/" (String c r))
  = String "/" (FTPCommands.replace_double_slash (String c r)).
Proof.
  intros Hc. destruct c as [[] [] [] [] [] [] [] []]; first [reflexivity | congruence].
Qed.

Lemma count_char_cons c sep s :
  count_char sep (String c s) = 0%nat -> c <> sep /\ count_char sep s = 0%nat.
Proof.
  cbn [count_char]. destruct (Ascii.eqb_spec c sep) as [-> | Hne]; [discriminate |].
  intros E. split; [exact Hne | exact E].
Qed.

Lemma replace_no_slash a t :
  count_char "/" a = 0%nat ->
  FTPCommands.replace_double_slash (a ++ t) = (a ++ FTPCommands.replace_double_slash t)%string.
Proof.
  induction a as [| c a IH]; [reflexivity |]. intros Hn.
  apply count_char_cons in Hn as [Hc Hn]. cbn [String.append].
  rewrite replace_other by exact Hc. f_equal. exact (IH Hn).
Qed.

Lemma replace_simple_names names :
  Forall simple_name names -> names <> [] ->
  FTPCommands.replace_double_slash (dir_of names) = dir_of names.
Proof.
  unfold dir_of. induction 1 as [| a rest [Ha Hs] Hrest IH]; [congruence |]. intros _.
  destruct a as [| c a]; [discriminate Ha |].
  apply count_char_cons in Hs as [Hc Hs].
  destruct rest as [| b rest].
  - cbn [PyStr.join String.append]. rewrite replace_slash_other by exact Hc.
    rewrite replace_other by exact Hc. do 2 f_equal.
    rewrite <- (append_nil_r a) at 1. rewrite replace_no_slash by exact Hs.
    apply append_nil_r.
  - cbn [PyStr.join String.append] in *. rewrite replace_slash_other by exact Hc.
    rewrite replace_other by exact Hc. do 2 f_equal.
    rewrite replace_no_slash by exact Hs. f_equal. apply IH. discriminate.
Qed.

Lemma join_app_one sep names name :
  names <> [] ->
  PyStr.join sep (names ++ [name]) = (PyStr.join sep names ++ sep ++ name)%string.
Proof.
  induction names as [| a rest IH]; [congruence |]. intros _.
  destruct rest as [| b rest]; [reflexivity |].
  cbn [app PyStr.join] in *. rewrite IH by discriminate.
  rewrite !append_assoc. reflexivity.
Qed.

Lemma dir_of_cd names name :
  Forall simple_name names -> simple_name name ->
  FTPCommands.replace_double_slash (dir_of names ++ "/" ++ name)%string
  = dir_of (names ++ [name]).
Proof.
  intros Hn Hname. destruct names as [| a rest].
  - destruct Hname as [Hne Hs]. unfold dir_of. cbn [PyStr.join app String.append].
    destruct name as [| c name]; [discriminate Hne |].
    apply count_char_cons in Hs as [Hc Hs].
    change (FTPCommands.replace_double_slash (String "/" (String "/" (String c name))))
      with (String "/" (FTPCommands.replace_double_slash (String c name))).
    f_equal. rewrite replace_other by exact Hc. f_equal.
    rewrite <- (append_nil_r name) at 1. rewrite replace_no_slash by exact Hs.
    apply append_nil_r.
  - assert (E : (dir_of (a :: rest) ++ "/" ++ name)%string = dir_of ((a :: rest) ++ [name])).
    { unfold dir_of. rewrite join_app_one by discriminate.
      rewrite !append_assoc. reflexivity. }
    rewrite E. apply replace_simple_names; [| destruct rest; discriminate].
    apply Forall_app. split; [exact Hn | constructor; [exact Hname | constructor]].
Qed.

Lemma split_no_sep sep p :
  count_char sep p = 0%nat -> PyStr.split sep p = [p].
Proof.
  induction p as [| c p IH]; [reflexivity |]. intros Hn.
  apply count_char_cons in Hn as [Hc Hn].
  apply split_cons_other; [apply Ascii.eqb_neq; exact Hc | exact (IH Hn)].
Qed.

Lemma split_at_sep sep p r :
  count_char sep p = 0%nat ->
  PyStr.split sep (p ++ String sep r) = p :: PyStr.split sep r.
Proof.
  induction p as [| c p IH].
  - intros _. cbn [String.append PyStr.split]. rewrite Ascii.eqb_refl. reflexivity.
  - intros Hn. apply count_char_cons in Hn as [Hc Hn]. cbn [String.append].
    apply split_cons_other; [apply Ascii.eqb_neq; exact Hc | exact (IH Hn)].
Qed.

Lemma split_join_names names :
  Forall simple_name names -> names <> [] ->
  PyStr.split "/" (PyStr.join "/" names) = names.
Proof.
  induction 1 as [| a rest [_ Hs] Hrest IH]; [congruence |]. intros _.
  destruct rest as [| b rest].
  - cbn [PyStr.join]. apply split_no_sep. exact Hs.
  - cbn [PyStr.join String.append] in *. rewrite split_at_sep by exact Hs.
    f_equal. apply IH. discriminate.
Qed.

Lemma removelast_one {A} (l : list A) x : removelast (l ++ [x]) = l.
Proof.
  induction l as [| a l IH]; [reflexivity |].
  cbn [app removelast]. destruct (l ++ [x]) eqn:E; [destruct l; discriminate E |].
  f_equal. exact IH.
Qed.

Lemma dir_of_parent names name :
  Forall simple_name names -> simple_name name ->
  FTPCommands.parent_dir (dir_of (names ++ [name])) = dir_of names.
Proof.
  intros Hn Hname. unfold FTPCommands.parent_dir, dir_of.
  cbn [String.append PyStr.split]. cbn [Ascii.eqb Bool.eqb].
  rewrite split_join_names;
    [| apply Forall_app; split; [exact Hn | constructor; [exact Hname | constructor]]
     | destruct names; discriminate].
  change (EmptyString :: names ++ [name]) with ((EmptyString :: names) ++ [name]).
  rewrite removelast_one. destruct names as [| a rest]; reflexivity.
Qed.

Section Directory.
Context `{Codecs}.
Import SecureFTPClient.

Lemma ready_flags c : ready c = true -> connected c = true /\ logged_in c = true.
Proof. unfold ready. intros E. apply andb_true_iff in E. exact E. Qed.

(** One [cmd_cd] with a reply that can be read. *)
Lemma cmd_cd_run directory more s data rest text r :
  ready (client s) = true -> control_socket (client s) = true ->
  tape (world s) = AOk :: ABytes data :: rest ->
  NetworkUtils.len data <= 1024 ->
  utf8_decode data = Some text ->
  FTPResponse.__init__ (PyStr.strip text) = Ok r ->
  exists w',
    tape w' = rest
    /\ FTPCommands.cmd_cd (directory :: more) s
       = (Ok tt,
          mkSession
            (if FTPResponse.is_positive r then
               set_current_dir (directory_after_cd directory (current_dir (client s)))
                 (client s)
             else client s)
            w').
Proof.
  intros Hr Hs Ht Hl Hd Hi. destruct (ready_flags _ Hr) as [Hc _].
  unfold FTPCommands.cmd_cd. unfold bind at 1. rewrite check_connection_run, Hr.
  cbn [negb]. unfold try_except. unfold bind at 1.
  rewrite (send_command_run _ _ _ Hc Hs Ht). cbv beta iota. unfold bind at 1.
  erewrite receive_response_run; [| exact Hs | reflexivity | exact Hl | exact Hd | exact Hi].
  cbv beta iota. unfold directory_after_cd.
  destruct (FTPResponse.is_positive r);
    [| eexists; split; [| reflexivity]; reflexivity].
  unfold bind, self, update. cbv beta iota. cbn [client world].
  destruct (String.eqb directory "..");
    [eexists; split; [| reflexivity]; reflexivity |].
  destruct (PyStr.startswith "/" directory);
    eexists; (split; [| reflexivity]); reflexivity.
Qed.

Lemma simple_name_not_absolute name :
  simple_name name -> PyStr.startswith "/" name = false.
Proof.
  intros [Hne Hs]. destruct name as [| c name]; [discriminate Hne |].
  apply count_char_cons in Hs as [Hc _]. unfold PyStr.startswith. cbn [String.prefix].
  destruct (ascii_dec "/" c) as [E | _]; [congruence | reflexivity].
Qed.

(** X18.  The directory the client keeps track of follows [cd] there and
    back.  From a directory [/a/../b] made of names without slashes, after
    [cd name] with a positive reply the client records [/a/../b/name], and
    after [cd ..] with a positive reply it records the directory it started
    from, the root included.  With a reply that is not positive the recorded
    directory stays. *)
Theorem cd_there_and_back names name s data1 data2 rest text1 text2 r1 r2 :
  ready (client s) = true -> control_socket (client s) = true ->
  current_dir (client s) = dir_of names ->
  Forall simple_name names -> simple_name name -> name <> ".."%string ->
  tape (world s) = AOk :: ABytes data1 :: AOk :: ABytes data2 :: rest ->
  NetworkUtils.len data1 <= 1024 -> NetworkUtils.len data2 <= 1024 ->
  utf8_decode data1 = Some text1 -> FTPResponse.__init__ (PyStr.strip text1) = Ok r1 ->
  utf8_decode data2 = Some text2 -> FTPResponse.__init__ (PyStr.strip text2) = Ok r2 ->
  let there := snd (FTPCommands.cmd_cd [name] s) in
  let back := snd (FTPCommands.cmd_cd [".."%string] there) in
  (FTPResponse.is_positive r1 = true ->
   current_dir (client there) = dir_of (names ++ [name])
   /\ (FTPResponse.is_positive r2 = true ->
       current_dir (client back) = current_dir (client s)))
  /\ (FTPResponse.is_positive r1 = false ->
      current_dir (client there) = current_dir (client s)).
Proof.
  intros Hr Hs Hcur Hnames Hname Hdots Ht Hl1 Hl2 Hd1 Hi1 Hd2 Hi2. cbv zeta.
  destruct (cmd_cd_run name [] s data1 _ text1 r1 Hr Hs Ht Hl1 Hd1 Hi1) as (w1 & Ht1 & E1).
  rewrite E1. cbn [snd]. split.
  - intros Hp1. rewrite Hp1 in *.
    assert (Ethere : directory_after_cd name (current_dir (client s))
                     = dir_of (names ++ [name])).
    { unfold directory_after_cd.
      destruct (String.eqb_spec name "..") as [E | _]; [contradiction |].
      rewrite (simple_name_not_absolute _ Hname), Hcur.
      apply dir_of_cd; assumption. }
    split; [exact Ethere |]. intros Hp2.
    match goal with
    | |- context [FTPCommands.cmd_cd _ ?s1] =>
        destruct (cmd_cd_run ".." [] s1 data2 rest text2 r2) as (w2 & _ & E2);
        [exact Hr | exact Hs | exact Ht1 | exact Hl2 | exact Hd2 | exact Hi2 |]
    end.
    rewrite E2, Hp2. cbn [snd client current_dir set_current_dir].
    rewrite Ethere, Hcur. unfold directory_after_cd. cbn [String.eqb Ascii.eqb Bool.eqb].
    apply dir_of_parent; assumption.
  - intros Hp1. rewrite Hp1. reflexivity.
Qed.

(** One [cmd_pwd] with a positive reply. *)
Lemma cmd_pwd_run args s data rest text r :
  ready (client s) = true -> control_socket (client s) = true ->
  tape (world s) = AOk :: ABytes data :: rest ->
  NetworkUtils.len data <= 1024 ->
  utf8_decode data = Some text ->
  FTPResponse.__init__ (PyStr.strip text) = Ok r ->
  FTPResponse.is_positive r = true ->
  current_dir (client (snd (FTPCommands.cmd_pwd args s)))
  = match PyStr.split FTPCommands.double_quote (FTPResponse.message r) with
    | _ :: quoted :: _ :: _ => quoted
    | _ => current_dir (client s)
    end.
Proof.
  intros Hr Hs Ht Hl Hd Hi Hp. destruct (ready_flags _ Hr) as [Hc _].
  unfold FTPCommands.cmd_pwd. unfold bind at 1. rewrite check_connection_run, Hr.
  cbn [negb]. unfold try_except. unfold bind at 1.
  rewrite (send_command_run _ _ _ Hc Hs Ht). cbv beta iota. unfold bind at 1.
  erewrite receive_response_run; [| exact Hs | reflexivity | exact Hl | exact Hd | exact Hi].
  cbv beta iota. rewrite Hp.
  destruct (PyStr.split FTPCommands.double_quote (FTPResponse.message r))
    as [| a [| quoted [| b more]]]; reflexivity.
Qed.

(** X19.  After [pwd] with a positive reply the client records the text
    between the first two double quotes of the reply as the current
    directory; a reply with fewer than two double quotes leaves the recorded
    directory as it was. *)
Theorem pwd_reads_the_quoted_directory args s data rest text r :
  ready (client s) = true -> control_socket (client s) = true ->
  tape (world s) = AOk :: ABytes data :: rest ->
  NetworkUtils.len data <= 1024 ->
  utf8_decode data = Some text ->
  FTPResponse.__init__ (PyStr.strip text) = Ok r ->
  FTPResponse.is_positive r = true ->
  let recorded := current_dir (client (snd (FTPCommands.cmd_pwd args s))) in
  (forall before directory after,
      FTPResponse.message r
      = (before ++ String FTPCommands.double_quote
                     (directory ++ String FTPCommands.double_quote after))%string ->
      count_char FTPCommands.double_quote before = 0%nat ->
      count_char FTPCommands.double_quote directory = 0%nat ->
      recorded = directory)
  /\ ((count_char FTPCommands.double_quote (FTPResponse.message r) < 2)%nat ->
      recorded = current_dir (client s)).
Proof.
  intros Hr Hs Ht Hl Hd Hi Hp. cbv zeta.
  rewrite (cmd_pwd_run args s data rest text r Hr Hs Ht Hl Hd Hi Hp). split.
  - intros before directory after Em Hb Hdir. rewrite Em.
    rewrite split_at_sep by exact Hb. rewrite split_at_sep by exact Hdir.
    destruct (split_cons FTPCommands.double_quote after) as (h & t & ->). reflexivity.
  - intros Hq. pose proof (split_length FTPCommands.double_quote (FTPResponse.message r)) as Hlen.
    destruct (PyStr.split FTPCommands.double_quote (FTPResponse.message r))
      as [| a [| quoted [| b more]]]; try reflexivity.
    cbn [length] in Hlen. lia.
Qed.

End Directory.

(** ** Files and input across a run *)

Section Frame.
Context `{Codecs}.
Import SecureFTPClient.

Variable R : World -> World -> Prop.
Variable W : string -> Prop.
Hypothesis R_trans : forall a b c, R a b -> R b c -> R a c.
Hypothesis R_quiet : forall w w', fs w' = fs w -> keyboard w' = keyboard w -> R w w'.
Hypothesis R_input : forall prompt w, R w (snd (Env.input prompt w)).
Hypothesis W_writable : forall path, W path -> writable R path.

Lemma R_refl w : R w w.
Proof. apply R_quiet; reflexivity. Qed.

(** *** Runs in the environment *)

Lemma relates_ret {A} (a : A) : relates R (ret a).
Proof. intros w. apply R_refl. Qed.

Lemma relates_raise {A} e : relates R (@raise World A e).
Proof. intros w. apply R_refl. Qed.

Lemma relates_of_result {A} (r : result A) : relates R (of_result r).
Proof. intros w. apply R_refl. Qed.

Lemma relates_bind {A B} (m : M World A) (k : A -> M World B) :
  relates R m -> (forall a, relates R (k a)) -> relates R (bind m k).
Proof.
  intros Hm Hk w. unfold bind. specialize (Hm w).
  destruct (m w) as [[a | e] w1]; [| exact Hm].
  exact (R_trans _ _ _ Hm (Hk a w1)).
Qed.

Lemma relates_try_except {A} (body : M World A) handler :
  relates R body -> (forall e, relates R (handler e)) -> relates R (try_except body handler).
Proof.
  intros Hm Hk w. unfold try_except. specialize (Hm w).
  destruct (body w) as [[a | e] w1]; [exact Hm |].
  exact (R_trans _ _ _ Hm (Hk e w1)).
Qed.

Lemma relates_socket c : relates R (Env.socket c).
Proof. intros w. apply R_quiet; reflexivity. Qed.

Lemma relates_bind_any c : relates R (Env.bind_any c).
Proof. intros w. apply R_quiet; reflexivity. Qed.

Lemma relates_listen c : relates R (Env.listen c).
Proof. intros w. apply R_quiet; reflexivity. Qed.

Lemma relates_close c : relates R (Env.close c).
Proof. intros w. apply R_quiet; reflexivity. Qed.

Lemma relates_time : relates R Env.time.
Proof. intros w. apply R_refl. Qed.

Lemma relates_exists path : relates R (Env.exists_ path).
Proof. intros w. apply R_refl. Qed.

Lemma relates_read_all path : relates R (Env.read_all path).
Proof. intros w. unfold Env.read_all. destruct (fs w !! path); apply R_refl. Qed.

Lemma relates_stat_size path : relates R (Env.stat_size path).
Proof. intros w. unfold Env.stat_size. destruct (fs w !! path); apply R_refl. Qed.

Lemma relates_connect c host port : relates R (Env.connect c host port).
Proof.
  intros w. unfold Env.connect, Env.next, Env.failure.
  destruct (tape w) as [| [] t]; apply R_quiet; reflexivity.
Qed.

Lemma relates_getsockname c : relates R (Env.getsockname c).
Proof.
  intros w. unfold Env.getsockname, Env.next, Env.failure.
  destruct (tape w) as [| [] t]; apply R_quiet; reflexivity.
Qed.

Lemma relates_accept c : relates R (Env.accept c).
Proof.
  intros w. unfold Env.accept, Env.next, Env.failure.
  destruct (tape w) as [| [] t]; apply R_quiet; reflexivity.
Qed.

Lemma relates_send c data : relates R (Env.send c data).
Proof.
  intros w. pose proof (send_run c data w) as Hs.
  destruct (Env.send c data w) as [[u | e] w1]; destruct Hs as (_ & Hf & Hk & _);
    apply R_quiet; assumption.
Qed.

Lemma relates_recv c bufsize : relates R (Env.recv c bufsize).
Proof.
  intros w. pose proof (recv_run c bufsize w) as Hs.
  destruct (Env.recv c bufsize w) as [[u | e] w1]; destruct Hs as (_ & Hf & Hk & _);
    apply R_quiet; assumption.
Qed.

Lemma relates_run cmd : relates R (Env.run cmd).
Proof.
  intros w. unfold Env.run, Env.next. cbn [tape log].
  destruct (tape w) as [| [] t]; apply R_quiet; reflexivity.
Qed.

Lemma relates_glob pattern : relates R (Env.glob pattern).
Proof.
  intros w. unfold Env.glob, Env.next. cbn [tape log].
  destruct (tape w) as [| [] t]; apply R_quiet; reflexivity.
Qed.

Lemma relates_input prompt : relates R (Env.input prompt).
Proof. intros w. apply R_input. Qed.

Lemma relates_open_wb path : W path -> relates R (Env.open_wb path).
Proof. intros Hw w. apply (W_writable _ Hw). Qed.

Lemma relates_open_wb_or_fail path : W path -> relates R (Env.open_wb_or_fail path).
Proof.
  intros Hw w. unfold Env.open_wb_or_fail, Env.next.
  destruct (tape w) as [| a rest]; [apply R_refl |].
  destruct a; try (apply R_quiet; reflexivity).
  apply (R_trans _ (set_tape rest w)); [apply R_quiet; reflexivity |].
  apply (W_writable _ Hw).
Qed.

Lemma relates_write path chunk : W path -> relates R (Env.write path chunk).
Proof. intros Hw w. apply (W_writable _ Hw). Qed.

Lemma relates_remove path : W path -> relates R (Env.remove path).
Proof. intros Hw w. apply (W_writable _ Hw). Qed.

Ltac world_step :=
  first
    [ apply relates_ret | apply relates_raise | apply relates_of_result
    | apply relates_socket | apply relates_bind_any | apply relates_listen
    | apply relates_close | apply relates_time | apply relates_exists
    | apply relates_read_all | apply relates_stat_size | apply relates_connect
    | apply relates_getsockname | apply relates_accept | apply relates_send
    | apply relates_recv | apply relates_run | apply relates_glob | apply relates_input
    | apply relates_bind; [| intros ?]
    | apply relates_try_except; [| intros ?]
    | progress cbv zeta
    | match goal with
      | |- relates _ (if ?b then _ else _) => destruct b
      | |- relates _ (match ?x with _ => _ end) => destruct x
      end ].

Lemma relates_send_chunks fuel c unread sent size :
  relates R (NetworkUtils.send_chunks fuel c unread sent size).
Proof.
  revert unread sent. induction fuel as [| fuel IH]; intros unread sent;
    cbn [NetworkUtils.send_chunks]; [apply relates_ret |].
  destruct (sent <? size); [| apply relates_ret].
  destruct (PyStr.nonempty _); [| apply relates_ret].
  apply relates_bind; [apply relates_send | intros _; apply IH].
Qed.

Lemma relates_send_file_to_clamav file_path host port :
  relates R (NetworkUtils.send_file_to_clamav file_path host port).
Proof.
  unfold NetworkUtils.send_file_to_clamav, NetworkUtils.scan_exchange,
    NetworkUtils.send_file, NetworkUtils.decode, NetworkUtils.loads.
  repeat first [apply relates_send_chunks | world_step].
Qed.

Lemma relates_send_file_via_socket sock file_path :
  relates R (NetworkUtils.send_file_via_socket sock file_path).
Proof.
  unfold NetworkUtils.send_file_via_socket, NetworkUtils.send_file.
  repeat first [apply relates_send_chunks | world_step].
Qed.

Lemma relates_recv_chunks fuel sock file_path :
  W file_path -> relates R (NetworkUtils.recv_chunks fuel sock file_path).
Proof.
  intros Hw. induction fuel as [| fuel IH]; cbn [NetworkUtils.recv_chunks];
    [apply relates_ret |].
  apply relates_bind; [apply relates_recv | intros chunk].
  destruct (PyStr.nonempty chunk); [| apply relates_ret].
  apply relates_bind; [apply relates_write; exact Hw | intros _; exact IH].
Qed.

Lemma relates_receive_file_via_socket sock file_path :
  W file_path -> relates R (NetworkUtils.receive_file_via_socket sock file_path).
Proof.
  intros Hw. unfold NetworkUtils.receive_file_via_socket.
  apply relates_try_except; [| intros e; apply relates_ret].
  apply relates_bind; [apply relates_open_wb_or_fail; exact Hw | intros _].
  apply relates_bind; [| intros _; apply relates_ret].
  intros w. apply relates_recv_chunks. exact Hw.
Qed.

Lemma relates_recv_listing fuel data : relates R (FTPCommands.recv_listing fuel data).
Proof.
  revert data. induction fuel as [| fuel IH]; intros data; cbn [FTPCommands.recv_listing];
    [apply relates_ret |].
  apply relates_bind; [repeat world_step | intros received].
  destruct received as [chunk |]; [| apply relates_ret].
  destruct (PyStr.nonempty chunk); [apply IH | apply relates_ret].
Qed.

(** *** Runs of the client *)

Lemma rs_ret {A} (a : A) : relates_session R (ret a).
Proof. intros s. apply R_refl. Qed.

Lemma rs_raise {A} e : relates_session R (@raise Session A e).
Proof. intros s. apply R_refl. Qed.

Lemma rs_of_result {A} (r : result A) : relates_session R (of_result r).
Proof. intros s. apply R_refl. Qed.

Lemma rs_self : relates_session R self.
Proof. intros s. apply R_refl. Qed.

Lemma rs_update f : relates_session R (update f).
Proof. intros s. apply R_refl. Qed.

Lemma rs_env {A} (m : M World A) : relates R m -> relates_session R (env m).
Proof. intros Hm s. unfold env. specialize (Hm (world s)). destruct (m (world s)). exact Hm. Qed.

Lemma rs_bind {A B} (m : M Session A) (k : A -> M Session B) :
  relates_session R m -> (forall a, relates_session R (k a)) -> relates_session R (bind m k).
Proof.
  intros Hm Hk s. unfold bind. specialize (Hm s).
  destruct (m s) as [[a | e] s1]; [| exact Hm].
  exact (R_trans _ _ _ Hm (Hk a s1)).
Qed.

Lemma rs_try_except {A} (body : M Session A) handler :
  relates_session R body -> (forall e, relates_session R (handler e)) ->
  relates_session R (try_except body handler).
Proof.
  intros Hm Hk s. unfold try_except. specialize (Hm s).
  destruct (body s) as [[a | e] s1]; [exact Hm |].
  exact (R_trans _ _ _ Hm (Hk e s1)).
Qed.

Lemma rs_try_except_if {A} catches (body : M Session A) handler :
  relates_session R body -> (forall e, relates_session R (handler e)) ->
  relates_session R (try_except_if catches body handler).
Proof.
  intros Hm Hk s. unfold try_except_if. specialize (Hm s).
  destruct (body s) as [[a | e] s1]; [exact Hm |].
  destruct (catches e); [| exact Hm].
  exact (R_trans _ _ _ Hm (Hk e s1)).
Qed.

Lemma rs_try_finally {A} (body : M Session A) final :
  relates_session R body -> relates_session R final ->
  relates_session R (try_finally body final).
Proof.
  intros Hm Hf s. unfold try_finally. specialize (Hm s).
  destruct (body s) as [r s1]. specialize (Hf s1).
  destruct (final s1) as [[u | e] s2]; exact (R_trans _ _ _ Hm Hf).
Qed.

Lemma rs_swallow (body : M Session unit) :
  relates_session R body -> relates_session R (swallow body).
Proof. intros Hm. apply rs_try_except; [exact Hm | intros e; apply rs_ret]. Qed.

Ltac session_step :=
  first
    [ apply rs_ret | apply rs_raise | apply rs_of_result | apply rs_self | apply rs_update
    | apply rs_env; first [ apply relates_send_file_to_clamav
                          | apply relates_send_file_via_socket
                          | repeat world_step ]
    | apply rs_swallow
    | apply rs_bind; [| intros ?]
    | apply rs_try_except_if; [| intros ?]
    | apply rs_try_except; [| intros ?]
    | apply rs_try_finally
    | progress cbv zeta
    | match goal with
      | |- relates_session _ (if ?b then _ else _) => destruct b
      | |- relates_session _ (match ?x with _ => _ end) => destruct x
      | |- relates_session _ (let '(_, _) := ?x in _) => destruct x
      end ].

Lemma rs_send_command command : relates_session R (send_command command).
Proof. unfold send_command. repeat session_step. Qed.

Lemma rs_receive_response : relates_session R receive_response.
Proof. unfold receive_response, NetworkUtils.decode. repeat session_step. Qed.

Ltac session_run :=
  first [ apply rs_send_command | apply rs_receive_response | session_step ].

Lemma rs_connect host port : relates_session R (connect host port).
Proof. unfold connect, NetworkUtils.decode. repeat session_run. Qed.

Lemma rs_login user pass : relates_session R (login user pass).
Proof. unfold login. repeat session_run. Qed.

Lemma rs_disconnect : relates_session R disconnect.
Proof. unfold disconnect. repeat session_run. Qed.

Lemma rs_open_data_connection : relates_session R open_data_connection.
Proof.
  unfold open_data_connection, _open_passive_data_connection, _open_active_data_connection.
  repeat session_run.
Qed.

Lemma rs_scan_file_for_virus file_path : relates_session R (scan_file_for_virus file_path).
Proof. unfold scan_file_for_virus. repeat session_run. Qed.

Lemma rs_set_transfer_mode mode : relates_session R (set_transfer_mode mode).
Proof. unfold set_transfer_mode. repeat session_run. Qed.

Lemma rs_toggle_passive_mode : relates_session R toggle_passive_mode.
Proof. unfold toggle_passive_mode. repeat session_run. Qed.

Lemma rs_cmd_get remote more :
  W (local_file_of remote more) -> relates_session R (FTPCommands.cmd_get (remote :: more)).
Proof.
  intros Hw. unfold FTPCommands.cmd_get, FTPCommands._check_connection.
  fold (local_file_of remote more).
  repeat first [ apply rs_open_data_connection
               | apply rs_env; apply relates_receive_file_via_socket; exact Hw
               | apply rs_env; apply relates_remove; exact Hw
               | session_run ].
Qed.

Lemma rs_cmd_get_none : relates_session R (FTPCommands.cmd_get []).
Proof. unfold FTPCommands.cmd_get, FTPCommands._check_connection. repeat session_run. Qed.

Lemma rs_cmd_put args : relates_session R (FTPCommands.cmd_put args).
Proof.
  unfold FTPCommands.cmd_put, FTPCommands._check_connection.
  repeat first [ apply rs_open_data_connection | apply rs_scan_file_for_virus | session_run ].
Qed.

Lemma rs_cmd_open args : relates_session R (FTPCommands.cmd_open args).
Proof.
  unfold FTPCommands.cmd_open. repeat first [ apply rs_connect | apply rs_login | session_run ].
Qed.

Lemma rs_cmd_ls args : relates_session R (FTPCommands.cmd_ls args).
Proof.
  unfold FTPCommands.cmd_ls, FTPCommands._check_connection, FTPCommands.int_of_group,
    NetworkUtils.decode.
  repeat first [ apply rs_env; intros w; apply relates_recv_listing | session_run ].
Qed.

Lemma rs_cmd_cd args : relates_session R (FTPCommands.cmd_cd args).
Proof. unfold FTPCommands.cmd_cd, FTPCommands._check_connection. repeat session_run. Qed.

Lemma rs_cmd_pwd args : relates_session R (FTPCommands.cmd_pwd args).
Proof. unfold FTPCommands.cmd_pwd, FTPCommands._check_connection. repeat session_run. Qed.

Lemma rs_one_argument_command verb args :
  relates_session R (FTPCommands.one_argument_command verb args).
Proof.
  unfold FTPCommands.one_argument_command, FTPCommands._check_connection.
  repeat session_run.
Qed.

Lemma rs_cmd_rename args : relates_session R (FTPCommands.cmd_rename args).
Proof. unfold FTPCommands.cmd_rename, FTPCommands._check_connection. repeat session_run. Qed.

Lemma rs_mget_each patterns :
  (forall pattern, In pattern patterns -> FTPCommands.has_star pattern = false -> W pattern) ->
  relates_session R (FTPCommands.mget_each patterns).
Proof.
  intros Hw. induction patterns as [| pattern rest IH]; cbn [FTPCommands.mget_each];
    [apply rs_ret |].
  apply rs_bind; [| intros _; apply IH; intros p Hin; apply Hw; right; exact Hin].
  destruct (FTPCommands.has_star pattern) eqn:Estar; [apply rs_ret |].
  apply rs_cmd_get. apply Hw; [left; reflexivity | exact Estar].
Qed.

Lemma rs_cmd_mget args :
  (forall pattern, In pattern args -> FTPCommands.has_star pattern = false -> W pattern) ->
  relates_session R (FTPCommands.cmd_mget args).
Proof.
  intros Hw. unfold FTPCommands.cmd_mget, FTPCommands._check_connection.
  repeat first [ apply rs_mget_each; exact Hw | apply rs_cmd_ls | session_run ].
Qed.

Lemma rs_mput_each files : relates_session R (FTPCommands.mput_each files).
Proof.
  induction files as [| file_path rest IH]; cbn [FTPCommands.mput_each]; [apply rs_ret |].
  apply rs_bind; [repeat session_run | intros is_file].
  apply rs_bind; [| intros _; exact IH].
  repeat first [ apply rs_cmd_put | session_run ].
Qed.

Lemma rs_mput_patterns patterns : relates_session R (FTPCommands.mput_patterns patterns).
Proof.
  induction patterns as [| pattern rest IH]; cbn [FTPCommands.mput_patterns];
    [apply rs_ret |].
  apply rs_bind; [| intros _; exact IH].
  repeat first [ apply rs_mput_each | session_run ].
Qed.

Lemma rs_cmd_mput args : relates_session R (FTPCommands.cmd_mput args).
Proof.
  unfold FTPCommands.cmd_mput, FTPCommands._check_connection.
  repeat first [ apply rs_mput_patterns | session_run ].
Qed.

Lemma rs_cmd_prompt args : relates_session R (FTPCommands.cmd_prompt args).
Proof. unfold FTPCommands.cmd_prompt. repeat session_run. Qed.

(** Every command keeps [R], the commands that download when every path
    may be written. *)
Lemma rs_execute_command command args :
  (forall path, W path) \/ ~ In command download_commands ->
  relates_session R (FTPCommands.execute_command command args).
Proof.
  intros Hw. unfold FTPCommands.execute_command.
  destruct (FTPCommands.lookup_command command FTPCommands.command_map) as [handler |] eqn:E;
    [| apply rs_ret].
  apply rs_try_except; [| intros e; apply rs_ret].
  revert E. unfold FTPCommands.command_map. cbn [FTPCommands.lookup_command].
  repeat match goal with
         | |- (if String.eqb ?name command then _ else _) = _ -> _ =>
             destruct (String.eqb_spec name command) as [<- | _];
             [intros E; injection E as <- |]
         end;
    try (intros E; discriminate E);
    try (first [ apply rs_cmd_ls | apply rs_cmd_cd | apply rs_cmd_pwd
               | apply rs_one_argument_command | apply rs_cmd_rename | apply rs_cmd_put
               | apply rs_cmd_mput | apply rs_cmd_open | apply rs_disconnect
               | apply rs_set_transfer_mode | apply rs_toggle_passive_mode
               | apply rs_cmd_prompt | apply rs_ret ]).
  - destruct Hw as [Hw | Hn]; [| exfalso; apply Hn; cbn; tauto].
    destruct args as [| remote more]; [apply rs_cmd_get_none | apply rs_cmd_get; apply Hw].
  - destruct Hw as [Hw | Hn]; [| exfalso; apply Hn; cbn; tauto].
    destruct args as [| remote more]; [apply rs_cmd_get_none | apply rs_cmd_get; apply Hw].
  - destruct Hw as [Hw | Hn]; [| exfalso; apply Hn; cbn; tauto].
    apply rs_cmd_mget. intros pattern _ _. apply Hw.
Qed.

End Frame.

(** ** Which commands write files, and how the shell ends *)

Section Files.
Context `{Codecs}.
Import SecureFTPClient.

Lemma same_files_trans a b c : same_files a b -> same_files b c -> same_files a c.
Proof. unfold same_files. congruence. Qed.

Lemma same_files_input prompt w : same_files w (snd (Env.input prompt w)).
Proof. unfold same_files, Env.input. destruct (keyboard w); reflexivity. Qed.

Lemma same_files_but_trans path a b c :
  same_files_but path a b -> same_files_but path b c -> same_files_but path a c.
Proof. intros Hab Hbc other Hn. rewrite (Hbc other Hn). apply Hab. exact Hn. Qed.

Lemma same_files_but_quiet path w w' :
  fs w' = fs w -> keyboard w' = keyboard w -> same_files_but path w w'.
Proof. intros Hf _ other _. rewrite Hf. reflexivity. Qed.

Lemma same_files_but_writable path p : p = path -> writable (same_files_but path) p.
Proof.
  intros ->. repeat split.
  - intros w other Hn. cbn. apply lookup_insert_ne. congruence.
  - intros chunk w other Hn. cbn. apply lookup_insert_ne. congruence.
  - intros w other Hn. unfold Env.remove. destruct (fs w !! path); [| reflexivity].
    cbn. apply lookup_delete_ne. congruence.
Qed.

Lemma no_more_input_trans a b c :
  no_more_input a b -> no_more_input b c -> no_more_input a c.
Proof. unfold no_more_input. lia. Qed.

Lemma no_more_input_quiet w w' :
  fs w' = fs w -> keyboard w' = keyboard w -> no_more_input w w'.
Proof. unfold no_more_input. intros _ ->. lia. Qed.

Lemma no_more_input_input prompt w : no_more_input w (snd (Env.input prompt w)).
Proof.
  unfold no_more_input, Env.input. destruct (keyboard w) as [| line rest] eqn:Ek; cbn.
  - rewrite Ek. cbn. lia.
  - lia.
Qed.

Lemma no_more_input_writable p : True -> writable no_more_input p.
Proof.
  intros _. repeat split.
  - intros w. unfold no_more_input. cbn. lia.
  - intros chunk w. unfold no_more_input. cbn. lia.
  - intros w. unfold no_more_input, Env.remove. destruct (fs w !! p); cbn; lia.
Qed.

Lemma execute_get args :
  FTPCommands.execute_command "get" args
  = try_except (FTPCommands.cmd_get args) (fun _ => ret tt).
Proof. reflexivity. Qed.

Lemma execute_recv args :
  FTPCommands.execute_command "recv" args
  = try_except (FTPCommands.cmd_get args) (fun _ => ret tt).
Proof. reflexivity. Qed.

(** X20.  Only the commands that download write files: whatever else the
    shell is asked, [put] and [mput] with their scans among it, an unknown
    word too, the local files are after the command what they were before
    it, however the command ends.  (The log file is not modelled.) *)
Theorem other_commands_leave_the_files command args s :
  ~ In command download_commands ->
  fs (world (snd (FTPCommands.execute_command command args s))) = fs (world s).
Proof.
  intros Hn.
  apply (rs_execute_command same_files (fun _ => False) same_files_trans
           (fun w w' Hf _ => Hf) same_files_input (fun path F => False_ind _ F)
           command args (or_intror Hn)).
Qed.

(** X21.  [get remote local] writes one file: every file but [local], or
    but the one named like the remote file when no local name is given, is
    after the command what it was before it, also when the download breaks
    and the partial file is removed. *)
Theorem get_writes_one_file remote more s :
  same_files_but (local_file_of remote more) (world s)
    (world (snd (FTPCommands.execute_command "get" (remote :: more) s)))
  /\ same_files_but (local_file_of remote more) (world s)
       (world (snd (FTPCommands.execute_command "recv" (remote :: more) s))).
Proof.
  pose proof (rs_cmd_get (same_files_but (local_file_of remote more))
                (fun p => p = local_file_of remote more)
                (same_files_but_trans _) (same_files_but_quiet _)
                (same_files_but_writable _)
                remote more eq_refl) as Hget.
  assert (Hrun : relates_session (same_files_but (local_file_of remote more))
                   (try_except (FTPCommands.cmd_get (remote :: more)) (fun _ => ret tt))).
  { intros s0. unfold try_except. specialize (Hget s0).
    destruct (FTPCommands.cmd_get (remote :: more) s0) as [[u | e] s1]; exact Hget. }
  split; [rewrite execute_get | rewrite execute_recv]; apply Hrun.
Qed.

Lemma execute_mget args :
  FTPCommands.execute_command "mget" args
  = try_except (FTPCommands.cmd_mget args) (fun _ => ret tt).
Proof. reflexivity. Qed.

(** X22.  [mget] writes the files it is asked for and no other: a file
    whose name is not among the arguments without a star is after the
    command what it was before it.  With nothing but wildcard patterns [mget]
    writes no file at all. *)
Theorem mget_writes_the_named_files args other s :
  (forall pattern, In pattern args -> FTPCommands.has_star pattern = false -> pattern <> other) ->
  fs (world (snd (FTPCommands.execute_command "mget" args s))) !! other
  = fs (world s) !! other.
Proof.
  intros Hnamed.
  pose proof (rs_cmd_mget (fun w w' => fs w' !! other = fs w !! other)
                (fun p => p <> other)) as Hmget.
  rewrite execute_mget. unfold try_except.
  assert (Hrun : fs (world (snd (FTPCommands.cmd_mget args s))) !! other
                 = fs (world s) !! other).
  { apply Hmget.
    - intros a b c Hab Hbc. congruence.
    - intros w w' Hf _. rewrite Hf. reflexivity.
    - intros path Hp. repeat split.
      + intros w. cbn. apply lookup_insert_ne. exact Hp.
      + intros chunk w. cbn. apply lookup_insert_ne. exact Hp.
      + intros w. unfold Env.remove. destruct (fs w !! path); [| reflexivity].
        cbn. apply lookup_delete_ne. exact Hp.
    - exact Hnamed. }
  destruct (FTPCommands.cmd_mget args s) as [[u | e] s1]; exact Hrun.
Qed.

(** *** The loop of the shell *)

Lemma connect_returns host port s : exists ok, fst (connect host port s) = Ok ok.
Proof.
  unfold connect. unfold bind at 1. unfold self at 1. cbv beta iota zeta.
  unfold try_except.
  match goal with
  | |- context [match ?body s with _ => _ end] => destruct (body s) as [[ok | e] s1]
  end; eexists; reflexivity.
Qed.

Lemma login_returns user pass s : exists ok, fst (login user pass s) = Ok ok.
Proof.
  unfold login. unfold bind at 1. unfold self at 1. cbv beta iota zeta.
  destruct (negb (connected (client s))); [eexists; reflexivity |].
  unfold try_except.
  match goal with
  | |- context [match ?body s with _ => _ end] => destruct (body s) as [[ok | e] s1]
  end; eexists; reflexivity.
Qed.

Lemma execute_command_no_more_input command args s :
  (length (keyboard (world (snd (FTPCommands.execute_command command args s))))
   <= length (keyboard (world s)))%nat.
Proof.
  apply (rs_execute_command no_more_input (fun _ => True) no_more_input_trans
           no_more_input_quiet no_more_input_input no_more_input_writable
           command args (or_introl (fun _ => I))).
Qed.

(** A turn that breaks the loop met the end of the input or a line that
    quits; a turn after which the loop goes on has read a line. *)
Lemma interactive_turn_run s :
  exists go_on s', interactive_turn s = (Ok go_on, s')
    /\ (go_on = true ->
        (length (keyboard (world s')) < length (keyboard (world s)))%nat)
    /\ (go_on = false ->
        keyboard (world s) = []
        \/ exists line rest, keyboard (world s) = line :: rest
             /\ keyboard (world s') = rest /\ quits line = true).
Proof.
  unfold interactive_turn, try_except. unfold bind at 1. unfold env, Env.input.
  destruct s as [c w]. cbn [client world].
  destruct (keyboard w) as [| line rest] eqn:Ek; cbv beta iota.
  - cbn [is_eof exn_kind_of]. unfold ret. do 2 eexists. split; [reflexivity |].
    split; [discriminate | intros _; left; reflexivity].
  - destruct (PyStr.nonempty (PyStr.strip line)); cbn [negb].
    + destruct (PyStr.split_ws (PyStr.strip line)) as [| first args] eqn:Ews.
      * unfold ret. do 2 eexists. split; [reflexivity |]. cbn [world log set_keyboard keyboard].
        split; [intros _; cbn; lia | discriminate].
      * destruct (is_quit (PyStr.lower first)) eqn:Eq.
        -- unfold ret. do 2 eexists. split; [reflexivity |]. split; [discriminate |].
           intros _. right. exists line, rest. split; [reflexivity |].
           split; [reflexivity |]. unfold quits. rewrite Ews. exact Eq.
        -- unfold bind.
           pose proof (execute_command_returns (PyStr.lower first) args
                         (mkSession c (log (EvInput EmptyString) (set_keyboard rest w)))) as Hr.
           pose proof (execute_command_no_more_input (PyStr.lower first) args
                         (mkSession c (log (EvInput EmptyString) (set_keyboard rest w)))) as Hk.
           destruct (FTPCommands.execute_command (PyStr.lower first) args _) as [r s1].
           cbn [fst snd] in Hr, Hk. subst r. unfold ret. do 2 eexists.
           split; [reflexivity |]. split; [| discriminate].
           intros _. cbn [world log set_keyboard keyboard] in Hk. cbn [length]. lia.
    + unfold ret. do 2 eexists. split; [reflexivity |]. cbn [world log set_keyboard keyboard].
      split; [intros _; cbn; lia | discriminate].
Qed.

(** With more turns allowed than there are lines to read, the loop ends in
    a turn that breaks it. *)
Lemma interactive_loop_run fuel s :
  (length (keyboard (world s)) < fuel)%nat ->
  exists t t', interactive_turn t = (Ok false, t')
    /\ interactive_loop fuel s = (Ok tt, t')
    /\ (keyboard (world t) = []
        \/ exists line rest, keyboard (world t) = line :: rest
             /\ keyboard (world t') = rest /\ quits line = true).
Proof.
  revert s. induction fuel as [| fuel IH]; intros s Hlt; [lia |].
  cbn [interactive_loop]. unfold bind.
  destruct (interactive_turn_run s) as (go_on & s1 & Erun & Hon & Hoff).
  rewrite Erun. destruct go_on.
  - destruct (IH s1) as (t & t' & Et & El & Hq); [specialize (Hon eq_refl); lia |].
    exists t, t'. auto.
  - exists s, s1. unfold ret. auto.
Qed.

(** No bound on the turns changes the run: one more turn than there are
    lines to read is as good as any larger number. *)
Lemma interactive_loop_fuel fuel s :
  (length (keyboard (world s)) < fuel)%nat ->
  interactive_loop (S fuel) s = interactive_loop fuel s.
Proof.
  revert s. induction fuel as [| fuel IH]; intros s Hlt; [lia |].
  change (interactive_loop (S (S fuel)) s)
    with (bind interactive_turn
            (fun go_on => if go_on then interactive_loop (S fuel) else ret tt) s).
  cbn [interactive_loop]. unfold bind.
  destruct (interactive_turn_run s) as (go_on & s1 & Erun & Hon & _).
  rewrite Erun. destruct go_on; [| reflexivity].
  apply IH. specialize (Hon eq_refl). lia.
Qed.

Lemma interactive_mode_run s :
  exists t t',
    interactive_turn t = (Ok false, t')
    /\ interactive_mode s = (Ok tt, snd (disconnect t'))
    /\ (keyboard (world t) = []
        \/ exists line rest, keyboard (world t) = line :: rest
             /\ keyboard (world t') = rest /\ quits line = true).
Proof.
  unfold interactive_mode. unfold bind at 1. unfold self at 1. cbv beta iota.
  unfold bind at 1.
  match goal with
  | |- context [match ?auto s with _ => _ end] =>
      assert (Hauto : exists s0, auto s = (Ok tt, s0))
  end.
  { destruct (PyStr.nonempty (ftp_host (cfg (client s)))); [| eexists; reflexivity].
    unfold bind at 1. destruct (connect_returns None None s) as (ok & Eok).
    destruct (connect None None s) as [r s1]. cbn [fst] in Eok. subst r.
    destruct ok; [| eexists; reflexivity].
    unfold bind. destruct (login_returns None None s1) as (ok & Eok).
    destruct (login None None s1) as [r s2]. cbn [fst] in Eok. subst r.
    eexists; reflexivity. }
  destruct Hauto as (s0 & ->). unfold try_finally.
  destruct (interactive_loop_run (S (length (keyboard (world s0)))) s0) as (t & t' & Et & El & Hq);
    [lia |].
  rewrite El.
  pose proof (disconnect_returns t') as Hd.
  destruct (disconnect t') as [r s2] eqn:Ed. cbn [fst snd] in Hd. subst r.
  exists t, t'. rewrite Ed. split; [exact Et | split; [reflexivity | exact Hq]].
Qed.

(** X23.  The shell ends in one way only.  [interactive_mode] does not
    raise; its loop stops in a turn that met the end of the input or read a
    line whose first word is [quit], [bye] or [exit] in any case, and leaves
    the lines typed after it unread; then it disconnects, so the client it
    leaves is not connected.  A line without a word, a command that fails
    and a word that is no command do not end it. *)
Theorem interactive_mode_ends_at_quit_or_end_of_input s :
  fst (interactive_mode s) = Ok tt
  /\ connected (client (snd (interactive_mode s))) = false
  /\ exists t t',
       interactive_turn t = (Ok false, t')
       /\ snd (interactive_mode s) = snd (disconnect t')
       /\ (keyboard (world t) = []
           \/ exists line rest, keyboard (world t) = line :: rest
                /\ keyboard (world t') = rest /\ quits line = true).
Proof.
  destruct (interactive_mode_run s) as (t & t' & Et & Erun & Hq). rewrite Erun. cbn [fst snd].
  split; [reflexivity | split; [apply disconnect_disconnects |]].
  exists t, t'. split; [exact Et | split; [reflexivity | exact Hq]].
Qed.

End Files.

(** ** The configuration *)

Section Configuration.
Import ConfigManager.

Lemma assoc_set_same key value items : Py.assoc key (assoc_set key value items) = Some value.
Proof.
  induction items as [| [k x] rest IH]; cbn [assoc_set Py.assoc].
  - rewrite String.eqb_refl. reflexivity.
  - destruct (String.eqb k key) eqn:E; cbn [Py.assoc]; rewrite E; [reflexivity | exact IH].
Qed.

Lemma assoc_set_other key other value items :
  other <> key -> Py.assoc other (assoc_set key value items) = Py.assoc other items.
Proof.
  intros Hn. induction items as [| [k x] rest IH]; cbn [assoc_set Py.assoc].
  - destruct (String.eqb_spec key other) as [-> | _]; [contradiction | reflexivity].
  - destruct (String.eqb_spec k key) as [-> | Hk]; cbn [Py.assoc].
    + destruct (String.eqb_spec key other) as [-> | _]; [contradiction | reflexivity].
    + rewrite IH. reflexivity.
Qed.

Lemma setitem_ok v key value v' :
  setitem v key value = Ok v' ->
  exists items, v = PyDict items /\ v' = PyDict (assoc_set key value items).
Proof.
  destruct v; cbn [setitem]; intros E; try discriminate E.
  injection E as <-. eexists; split; reflexivity.
Qed.

Lemma get_keys_raises keys v e :
  get_keys keys v = Raise e -> is_key_or_type_error e = true.
Proof.
  revert v. induction keys as [| key rest IH]; intros v; cbn [get_keys]; [discriminate |].
  destruct (Py.getitem v key) as [x | e'] eqn:Eg.
  - apply IH.
  - intros E. injection E as <-. unfold Py.getitem in Eg.
    destruct v; try (injection Eg as <-; reflexivity).
    destruct (Py.assoc key items); [discriminate Eg | injection Eg as <-; reflexivity].
Qed.

Lemma get_run key_path default c :
  get key_path default c
  = (Ok (match get_keys (PyStr.split "." key_path) c with
         | Ok v => v
         | Raise _ => default
         end), c).
Proof.
  unfold get, bind, config, try_except_if, of_result, ret.
  destruct (get_keys (PyStr.split "." key_path) c) as [v | e] eqn:Eg; [reflexivity |].
  rewrite (get_keys_raises _ _ _ Eg). reflexivity.
Qed.

Lemma set_keys_get parents last value c c' :
  set_keys parents last value c = Ok c' ->
  get_keys (parents ++ [last]) c' = Ok value.
Proof.
  revert c c'. induction parents as [| key rest IH]; intros c c'; cbn [set_keys app get_keys].
  - intros E. apply setitem_ok in E as (items & -> & ->).
    cbn [Py.getitem]. rewrite assoc_set_same. reflexivity.
  - destruct (contains c key) as [present | e]; [| discriminate].
    destruct (if present then Ok c else setitem c key (PyDict [])) as [c1 | e]; [| discriminate].
    destruct (Py.getitem c1 key) as [child | e]; [| discriminate].
    destruct (set_keys rest last value child) as [child' | e] eqn:Es; [| discriminate].
    intros E. apply setitem_ok in E as (items & -> & ->).
    cbn [Py.getitem]. rewrite assoc_set_same. apply (IH _ _ Es).
Qed.

(** A [set] that succeeds worked on a dictionary, and changed the entry of
    the first key of its path only. *)
Lemma set_keys_frame parents last value c c' :
  set_keys parents last value c = Ok c' ->
  exists items items',
    c = PyDict items /\ c' = PyDict items'
    /\ forall other, other <> hd last parents -> Py.assoc other items' = Py.assoc other items.
Proof.
  destruct parents as [| key rest]; cbn [set_keys hd].
  - intros E. apply setitem_ok in E as (items & -> & ->).
    do 2 eexists. split; [reflexivity | split; [reflexivity |]].
    intros other Hn. apply assoc_set_other. exact Hn.
  - destruct (contains c key) as [present | e]; [| discriminate].
    destruct (if present then Ok c else setitem c key (PyDict [])) as [c1 | e] eqn:E1;
      [| discriminate].
    destruct (Py.getitem c1 key) as [child | e]; [| discriminate].
    destruct (set_keys rest last value child) as [child' | e]; [| discriminate].
    intros E. apply setitem_ok in E as (items1 & -> & ->).
    destruct present.
    + injection E1 as ->. do 2 eexists. split; [reflexivity | split; [reflexivity |]].
      intros other Hn. apply assoc_set_other. exact Hn.
    + apply setitem_ok in E1 as (items & -> & E1). injection E1 as ->.
      do 2 eexists. split; [reflexivity | split; [reflexivity |]].
      intros other Hn. rewrite !assoc_set_other by exact Hn. reflexivity.
Qed.

Lemma split_not_nil sep s : PyStr.split sep s <> [].
Proof.
  destruct s as [| c s']; cbn [PyStr.split]; [discriminate |].
  destruct (Ascii.eqb c sep); [discriminate |].
  destruct (PyStr.split sep s'); discriminate.
Qed.

Lemma hd_removelast (keys : list string) d :
  keys <> [] -> hd (List.last keys d) (removelast keys) = hd d keys.
Proof.
  destruct keys as [| k [| k' rest]]; [contradiction | reflexivity | reflexivity].
Qed.

(** X24.  What [set] stores, [get] finds: after a [set] that returns, [get]
    with the same path gives the value that was set, whatever default it is
    given, and the dictionaries the path needed have been created.  A path
    that starts with another key reads what it read before. *)
Theorem set_then_get key_path value c c' :
  set key_path value c = (Ok tt, c') ->
  (forall default, get key_path default c' = (Ok value, c'))
  /\ (forall other default,
         hd EmptyString (PyStr.split "." other) <> hd EmptyString (PyStr.split "." key_path) ->
         fst (get other default c') = fst (get other default c)).
Proof.
  unfold set.
  destruct (set_keys (removelast (PyStr.split "." key_path))
              (List.last (PyStr.split "." key_path) EmptyString) value c) as [c1 | e] eqn:Es;
    [| discriminate].
  intros E. injection E as ->. split.
  - intros default. rewrite get_run.
    rewrite (app_removelast_last EmptyString (split_not_nil "." key_path)).
    rewrite (set_keys_get _ _ _ _ _ Es). reflexivity.
  - intros other default Hn. rewrite !get_run. cbn [fst].
    apply set_keys_frame in Es as (items & items' & -> & -> & Hframe).
    rewrite hd_removelast in Hframe by apply split_not_nil.
    pose proof (split_not_nil "." other) as Hne.
    destruct (PyStr.split "." other) as [| k ks]; [contradiction |].
    cbn [hd] in Hn. cbn [get_keys Py.getitem]. rewrite (Hframe k Hn). reflexivity.
Qed.

(** X25.  [get] never raises and never changes the configuration.  It
    gives the default whenever the path does not lead to a value: a key that
    is missing at any depth, or a path that runs through a number, a string,
    a list or [None]. *)
Theorem get_gives_the_default key_path default c :
  snd (get key_path default c) = c
  /\ (forall v, get_keys (PyStr.split "." key_path) c = Ok v ->
        fst (get key_path default c) = Ok v)
  /\ (forall e, get_keys (PyStr.split "." key_path) c = Raise e ->
        fst (get key_path default c) = Ok default).
Proof.
  rewrite get_run. cbn [fst snd]. split; [reflexivity |].
  split; intros x ->; reflexivity.
Qed.

(** *** [validate_config] *)

Lemma check_bind (m k : M pyvalue unit) c :
  m c = (Ok tt, c) \/ (exists e, m c = (Raise e, c)) ->
  (fst (bind m (fun _ => k) c) = Ok tt <-> fst (m c) = Ok tt /\ fst (k c) = Ok tt).
Proof.
  intros Hm. unfold bind. destruct Hm as [-> | (e & ->)]; cbn [fst].
  - tauto.
  - split; [discriminate | intros [E _]; discriminate E].
Qed.

Lemma check_type_run section key isinstance message c :
  (check_type section key isinstance message c = (Ok tt, c)
   \/ exists e, check_type section key isinstance message c = (Raise e, c))
  /\ (fst (check_type section key isinstance message c) = Ok tt
      <-> exists v, get_keys [section; key] c = Ok v /\ isinstance v = true).
Proof.
  unfold check_type, bind, config, of_result, raise, ret. cbn [get_keys].
  destruct (Py.getitem c section) as [entries | e].
  - destruct (Py.getitem entries key) as [v | e].
    + destruct (isinstance v) eqn:Ei; cbn [negb fst].
      * split; [left; reflexivity |]. split; [intros _; exists v; auto | reflexivity].
      * split; [right; eexists; reflexivity |].
        split; [discriminate | intros (v' & E & Hv); congruence].
    + split; [right; eexists; reflexivity |].
      split; [discriminate | intros (v' & E & _); discriminate E].
  - split; [right; eexists; reflexivity |].
    split; [discriminate | intros (v' & E & _); discriminate E].
Qed.

Lemma check_keys_run section keys c :
  (check_keys section keys c = (Ok tt, c)
   \/ exists e, check_keys section keys c = (Raise e, c))
  /\ (fst (check_keys section keys c) = Ok tt
      <-> forall key, In key keys ->
            exists entries, Py.getitem c section = Ok entries
                            /\ contains entries key = Ok true).
Proof.
  induction keys as [| key rest [IHrun IHok]]; cbn [check_keys In].
  - split; [left; reflexivity |]. split; [intros _ key [] | reflexivity].
  - unfold bind, config, of_result, raise.
    destruct (Py.getitem c section) as [entries | e].
    + destruct (contains entries key) as [[] | e] eqn:Ec; cbn [negb].
      * split; [exact IHrun |]. rewrite IHok. split.
        -- intros Hall k [<- | Hin]; [exists entries; auto | apply Hall; exact Hin].
        -- intros Hall k Hin. apply Hall. right. exact Hin.
      * split; [right; eexists; reflexivity |]. cbn [fst].
        split; [discriminate |]. intros Hall.
        destruct (Hall key (or_introl eq_refl)) as (entries' & E & Hc). congruence.
      * split; [right; eexists; reflexivity |]. cbn [fst].
        split; [discriminate |]. intros Hall.
        destruct (Hall key (or_introl eq_refl)) as (entries' & E & Hc). congruence.
    + split; [right; eexists; reflexivity |]. cbn [fst].
      split; [discriminate |]. intros Hall.
      destruct (Hall key (or_introl eq_refl)) as (entries' & E & Hc). discriminate E.
Qed.

Lemma check_sections_run sections c :
  (check_sections sections c = (Ok tt, c)
   \/ exists e, check_sections sections c = (Raise e, c))
  /\ (fst (check_sections sections c) = Ok tt
      <-> forall section keys, In (section, keys) sections ->
            contains c section = Ok true
            /\ forall key, In key keys ->
                 exists entries, Py.getitem c section = Ok entries
                                 /\ contains entries key = Ok true).
Proof.
  induction sections as [| [section keys] rest [IHrun IHok]]; cbn [check_sections In].
  - split; [left; reflexivity |]. split; [intros _ s k [] | reflexivity].
  - unfold bind, config, of_result, raise.
    destruct (contains c section) as [[] | e] eqn:Ec; cbn [negb].
    + destruct (check_keys_run section keys c) as [Hrun Hok].
      destruct Hrun as [Ek | (e & Ek)]; rewrite Ek in Hok |- *; cbn [fst] in Hok.
      * split; [exact IHrun |]. rewrite IHok. split.
        -- intros Hall s k [E | Hin]; [| apply Hall; exact Hin].
           injection E as <- <-. split; [exact Ec | apply Hok; reflexivity].
        -- intros Hall s k Hin. apply Hall. right. exact Hin.
      * split; [right; eexists; reflexivity |]. cbn [fst].
        split; [discriminate |]. intros Hall.
        destruct (Hall section keys (or_introl eq_refl)) as [_ Hk].
        apply Hok in Hk. discriminate Hk.
    + split; [right; eexists; reflexivity |]. cbn [fst].
      split; [discriminate |]. intros Hall.
      destruct (Hall section keys (or_introl eq_refl)) as [E _]. congruence.
    + split; [right; eexists; reflexivity |]. cbn [fst].
      split; [discriminate |]. intros Hall.
      destruct (Hall section keys (or_introl eq_refl)) as [E _]. congruence.
Qed.

(** An entry that can be read is seen by [in]. *)
Lemma get_keys_contains section key c v :
  get_keys [section; key] c = Ok v ->
  contains c section = Ok true
  /\ exists entries, Py.getitem c section = Ok entries /\ contains entries key = Ok true.
Proof.
  cbn [get_keys].
  destruct c as [| | | | | | items]; try discriminate.
  cbn [contains Py.getitem].
  destruct (Py.assoc section items) as [entries |]; [| discriminate].
  intros E. split; [reflexivity |]. exists entries. split; [reflexivity |].
  destruct entries as [| | | | | | items']; try discriminate E.
  cbn [contains Py.getitem] in E |- *.
  destruct (Py.assoc key items'); [reflexivity | discriminate E].
Qed.

(** In a section of which one entry can be read, [in] sees the entries that
    can be read only. *)
Lemma contains_get_keys section key key0 c v0 entries :
  get_keys [section; key0] c = Ok v0 ->
  Py.getitem c section = Ok entries ->
  contains entries key = Ok true ->
  exists v, get_keys [section; key] c = Ok v.
Proof.
  cbn [get_keys]. intros E0 Es. rewrite Es in E0 |- *.
  destruct entries as [| | | | | | items]; try discriminate E0.
  cbn [contains Py.getitem].
  destruct (Py.assoc key items) as [v |]; [| discriminate].
  intros _. exists v. reflexivity.
Qed.

Lemma check_bind_run (m k : M pyvalue unit) c :
  m c = (Ok tt, c) \/ (exists e, m c = (Raise e, c)) ->
  k c = (Ok tt, c) \/ (exists e, k c = (Raise e, c)) ->
  bind m (fun _ => k) c = (Ok tt, c) \/ (exists e, bind m (fun _ => k) c = (Raise e, c)).
Proof.
  intros Hm Hk. unfold bind. destruct Hm as [-> | (e & ->)]; [exact Hk |].
  right. eexists; reflexivity.
Qed.

Lemma required_section_read section keys c :
  In (section, keys) required_sections ->
  (exists v, get_keys ["ftp_server"; "port"] c = Ok v /\ isinstance_int v = true) ->
  (exists v, get_keys ["clamav_agent"; "port"] c = Ok v /\ isinstance_int v = true) ->
  (exists v, get_keys ["client"; "passive_mode"] c = Ok v /\ isinstance_bool v = true) ->
  exists key0 v0, get_keys [section; key0] c = Ok v0.
Proof.
  intros Hin (v1 & E1 & _) (v2 & E2 & _) (v3 & E3 & _).
  unfold required_sections in Hin. cbn [In] in Hin.
  destruct Hin as [E | [E | [E | []]]]; injection E as <- <-; eauto.
Qed.

(** X26.  [validate_config] accepts a configuration exactly when every
    required entry of the three sections can be read as
    [config[section][key]], the two ports, the timeout and the buffer size
    are integers and [passive_mode] is a boolean.  For [isinstance] a boolean
    is an integer, so a port that is [true] or [false] is accepted.  The
    configuration is not changed. *)
Theorem validate_config_accepts c :
  snd (validate_config c) = c
  /\ (fst (validate_config c) = Ok tt <->
      (forall section keys key,
          In (section, keys) required_sections -> In key keys ->
          exists v, get_keys [section; key] c = Ok v)
      /\ (exists v, get_keys ["ftp_server"; "port"] c = Ok v /\ isinstance_int v = true)
      /\ (exists v, get_keys ["clamav_agent"; "port"] c = Ok v /\ isinstance_int v = true)
      /\ (exists v, get_keys ["client"; "passive_mode"] c = Ok v /\ isinstance_bool v = true)
      /\ (exists v, get_keys ["client"; "timeout"] c = Ok v /\ isinstance_int v = true)
      /\ (exists v, get_keys ["client"; "buffer_size"] c = Ok v /\ isinstance_int v = true)).
Proof.
  split.
  - assert (Hrun : validate_config c = (Ok tt, c)
                   \/ exists e, validate_config c = (Raise e, c)).
    { unfold validate_config.
      repeat (apply check_bind_run;
              [first [apply check_sections_run | apply check_type_run] |]).
      apply check_type_run. }
    destruct Hrun as [-> | (e & ->)]; reflexivity.
  - unfold validate_config.
    rewrite check_bind by apply check_sections_run.
    repeat (rewrite check_bind by apply check_type_run).
    rewrite !(fun s k i m => proj2 (check_type_run s k i m c)).
    rewrite (proj2 (check_sections_run required_sections c)).
    split.
    + intros (Hs & T1 & T2 & T3 & T4 & T5). split; [| tauto].
      intros section keys key Hin Hkey.
      destruct (required_section_read section keys c Hin T1 T2 T3) as (key0 & v0 & E0).
      destruct (Hs section keys Hin) as [_ Hk].
      destruct (Hk key Hkey) as (entries & Es & Hc).
      exact (contains_get_keys _ _ _ _ _ _ E0 Es Hc).
    + intros (Hs & T1 & T2 & T3 & T4 & T5). split; [| tauto].
      intros section keys Hin.
      destruct (required_section_read section keys c Hin T1 T2 T3) as (key0 & v0 & E0).
      split; [exact (proj1 (get_keys_contains _ _ _ _ E0)) |].
      intros key Hkey. destruct (Hs section keys key Hin Hkey) as (v & E).
      exact (proj2 (get_keys_contains _ _ _ _ E)).
Qed.

End Configuration.

(** ** Uploads without a scan *)

Section Consent.
Context `{Codecs}.
Import SecureFTPClient.

Lemma eq_str_error_not_infected x :
  Py.eq_str x "ERROR" = true -> Py.eq_str x "INFECTED" = false.
Proof.
  destruct x; cbn [Py.eq_str]; try discriminate.
  intros E. apply String.eqb_eq in E. subst s. reflexivity.
Qed.

Lemma scan_reads_no_input file_path host port w :
  keyboard (snd (NetworkUtils.send_file_to_clamav file_path host port w)) = keyboard w.
Proof.
  apply (relates_send_file_to_clamav (fun a b => keyboard b = keyboard a)).
  - intros a b c Hab Hbc. congruence.
  - intros a b _ Hk. exact Hk.
Qed.

(** After a scan whose result has no status, or the status ERROR without
    the operator's [y], [cmd_put] does nothing more than ask. *)
Lemma cmd_put_cancelled s local_file more scan_result w1 :
  NetworkUtils.send_file_to_clamav local_file (clamav_host (cfg (client s)))
    (clamav_port (cfg (client s))) (world s) = (Ok scan_result, w1) ->
  (exists e, Py.getitem scan_result "status" = Raise e)
  \/ (Py.has_status scan_result "ERROR" = true
      /\ forall confirm, hd_error (keyboard w1) = Some confirm ->
                         FTPCommands.lower_is_y confirm = false) ->
  exists w2,
    FTPCommands.cmd_put (local_file :: more) s = (Ok tt, mkSession (client s) w2)
    /\ (w2 = world s \/ exists prompts, trace w2 = trace w1 ++ map EvInput prompts).
Proof.
  intros Hscan Hstop. destruct s as [c w]. cbn [client world] in *.
  unfold FTPCommands.cmd_put, FTPCommands._check_connection, scan_file_for_virus,
    bind, self, ret, env, try_except, of_result, Env.exists_.
  cbv beta iota zeta delta [client world negb].
  destruct (connected c); cbv beta iota zeta delta [client world negb];
    [| eexists; split; [reflexivity | left; reflexivity]].
  destruct (logged_in c); cbv beta iota zeta delta [client world negb];
    [| eexists; split; [reflexivity | left; reflexivity]].
  destruct (fs w !! local_file); cbv beta iota zeta delta [client world negb];
    [| eexists; split; [reflexivity | left; reflexivity]].
  rewrite Hscan. cbv beta iota zeta delta [client world negb].
  destruct Hstop as [(e & He) | (Herr & Hno)].
  - rewrite He. eexists; split; [reflexivity |]. right. exists [].
    cbn [map]. rewrite app_nil_r. reflexivity.
  - apply has_status_getitem in Herr as (x & Hx & He). rewrite Hx.
    rewrite (eq_str_error_not_infected _ He), He.
    destruct (Py.getitem scan_result "message") as [message | e].
    + unfold Env.input. destruct (keyboard w1) as [| confirm rest] eqn:Ek.
      * cbv beta iota. eexists; split; [reflexivity |]. right. eexists [_]. reflexivity.
      * cbv beta iota. rewrite (Hno confirm eq_refl). cbv beta iota delta [negb].
        eexists; split; [reflexivity |]. right. eexists [_]. reflexivity.
    + eexists; split; [reflexivity |]. right. exists [].
      cbn [map]. rewrite app_nil_r. reflexivity.
Qed.

(** X27.  An upload that was not scanned needs the operator's consent.
    When the scan gateway returns a result with the status ERROR, [cmd_put]
    asks, and unless the answer is [y] or [Y] (no answer at all included) it
    returns with the client unchanged and without a call on the control or
    the data connection: nothing is uploaded.  The same holds of a result
    that has no status to read. *)
Theorem unscanned_upload_needs_consent s local_file more scan_result w1 :
  NetworkUtils.send_file_to_clamav local_file (clamav_host (cfg (client s)))
    (clamav_port (cfg (client s))) (world s) = (Ok scan_result, w1) ->
  (exists e, Py.getitem scan_result "status" = Raise e)
  \/ (Py.has_status scan_result "ERROR" = true
      /\ forall confirm, hd_error (keyboard (world s)) = Some confirm ->
                         FTPCommands.lower_is_y confirm = false) ->
  let run := FTPCommands.cmd_put (local_file :: more) s in
  let evs := new_events (world s) (world (snd run)) in
  fst run = Ok tt
  /\ client (snd run) = client s
  /\ (forall e, In e evs -> chan_of e <> Some Data /\ chan_of e <> Some Control).
Proof.
  intros Hscan Hstop. cbv zeta.
  assert (Hk : keyboard w1 = keyboard (world s)).
  { pose proof (scan_reads_no_input local_file (clamav_host (cfg (client s)))
                  (clamav_port (cfg (client s))) (world s)) as Hk.
    rewrite Hscan in Hk. exact Hk. }
  rewrite <- Hk in Hstop.
  destruct (cmd_put_cancelled s local_file more scan_result w1 Hscan Hstop)
    as (w2 & -> & Hw2).
  cbn [fst snd client world]. split; [reflexivity | split; [reflexivity |]].
  destruct (emits_send_file_to_clamav local_file (clamav_host (cfg (client s)))
              (clamav_port (cfg (client s))) (world s)) as (evs & E & F).
  rewrite Hscan in E. cbn [snd] in E.
  destruct Hw2 as [-> | (prompts & Ht)].
  - rewrite (new_events_app _ _ []) by (rewrite app_nil_r; reflexivity). intros e [].
  - rewrite (new_events_app _ _ (evs ++ map EvInput prompts))
      by (rewrite Ht, E, app_assoc; reflexivity).
    intros e He. apply in_app_or in He as [He | He].
    + rewrite Forall_forall in F. rewrite (F e); [split; discriminate |].
      apply list_elem_of_In. exact He.
    + apply in_map_iff in He as (p & <- & _). split; discriminate.
Qed.

End Consent.

(** ** The order of the requests *)

Section Order.
Context `{Codecs}.
Import SecureFTPClient.

Variable accepted : FTPResponse.t -> bool.
Variable command : string.
Variable t0 : list event.

Lemma only_after_nil : only_after accepted command [].
Proof. intros before after E. destruct before; discriminate E. Qed.

Lemma only_after_app evs tail :
  only_after accepted command evs ->
  Forall (fun e => e <> request command) tail ->
  only_after accepted command (evs ++ tail).
Proof.
  intros Hok Htail before after E.
  apply app_eq_app in E as (l & [(E1 & E2) | (E1 & E2)]).
  - destruct l as [| e l'].
    + cbn [app] in E2. subst tail. apply Forall_cons_1 in Htail as [Hn _]. contradiction.
    + cbn [app] in E2. injection E2 as <- _. apply (Hok before l'). exact E1.
  - subst tail. apply Forall_app in Htail as [_ Htail].
    apply Forall_cons_1 in Htail as [Hn _]. contradiction.
Qed.

Lemma only_after_request evs data r :
  only_after accepted command (evs ++ [EvRecv Control data]) ->
  reply_of data = Some r -> accepted r = true ->
  only_after accepted command ((evs ++ [EvRecv Control data]) ++ [request command]).
Proof.
  intros Hok Hr Ha before after E.
  apply app_eq_app in E as (l & [(E1 & E2) | (E1 & E2)]).
  - destruct l as [| e l'].
    + rewrite app_nil_r in E1. subst before. exists evs, data, r. auto.
    + cbn [app] in E2. injection E2 as <- _. apply (Hok before l'). exact E1.
  - destruct l as [| e l'].
    + rewrite app_nil_r in E1. subst before. exists evs, data, r. auto.
    + cbn [app] in E2. injection E2 as _ E2. destruct l'; discriminate E2.
Qed.

Lemma sends_nothing_no_request tail :
  sends_nothing tail -> Forall (fun e => e <> request command) tail.
Proof.
  unfold sends_nothing. intros Hs. induction Hs as [| e tail He _ IH]; constructor.
  - intros ->. discriminate He.
  - exact IH.
Qed.

Lemma just_replied_in_order r s :
  just_replied accepted command t0 r s -> in_order accepted command t0 s.
Proof. intros (evs & data & Ht & Hok & _). exists (evs ++ [EvRecv Control data]). auto. Qed.

(** *** The steps *)

Lemma keeps_ret {A} (a : A) P : keeps P P (ret a).
Proof. intros s Hs. exact Hs. Qed.

Lemma keeps_weaken {A} (P P' Q : Session -> Prop) (m : M Session A) :
  (forall s, P' s -> P s) -> keeps P Q m -> keeps P' Q m.
Proof. intros Hw Hm s Hs. apply Hm, Hw, Hs. Qed.

Lemma keeps_update f (P : Session -> Prop) :
  (forall s f, P s -> P (mkSession (f (client s)) (world s))) -> keeps P P (update f).
Proof. intros Hp s Hs. apply Hp. exact Hs. Qed.

(** A step that keeps the order, followed by what comes next. *)
Lemma keeps_bind {A B} (P I Q : Session -> Prop) (m : M Session A) (k : A -> M Session B) :
  keeps P I m -> (forall s, I s -> Q s) -> (forall a, keeps I Q (k a)) ->
  keeps P Q (bind m k).
Proof.
  intros Hm Hq Hk s Hs. unfold bind. specialize (Hm s Hs).
  destruct (m s) as [[a | e] s1]; cbn [snd] in *; [apply (Hk a), Hm | apply Hq, Hm].
Qed.

Lemma keeps_try_except {A} (P I Q : Session -> Prop) (body : M Session A) handler :
  keeps P I body -> (forall s, I s -> Q s) -> (forall e, keeps I Q (handler e)) ->
  keeps P Q (try_except body handler).
Proof.
  intros Hm Hq Hk s Hs. unfold try_except. specialize (Hm s Hs).
  destruct (body s) as [[a | e] s1]; cbn [snd] in *; [apply Hq, Hm | apply (Hk e), Hm].
Qed.

Lemma keeps_swallow (P I : Session -> Prop) (body : M Session unit) :
  keeps P I body -> keeps P I (swallow body).
Proof.
  intros Hm. unfold swallow.
  apply (keeps_try_except P I I); [exact Hm | auto | intros e; apply keeps_ret].
Qed.

(** Another request keeps the order. *)
Lemma keeps_send_command other :
  request other <> request command ->
  keeps (in_order accepted command t0) (in_order accepted command t0) (send_command other).
Proof.
  intros Hn s (evs & Ht & Hok).
  destruct (send_command_cases other s) as (r & w1 & -> & _ & _ & Hcase). cbn [snd].
  destruct Hcase as [(_ & Ht1) | (e & tail & _ & Ht1 & Hq)].
  - exists (evs ++ [request other]). cbn [world]. rewrite Ht1, Ht, app_assoc.
    split; [reflexivity |]. apply only_after_app; [exact Hok |].
    constructor; [exact Hn | constructor].
  - exists (evs ++ tail). cbn [world]. rewrite Ht1, Ht, app_assoc.
    split; [reflexivity |]. apply only_after_app; [exact Hok |].
    apply sends_nothing_no_request. exact Hq.
Qed.

(** The request itself keeps the order right after a reply that is
    accepted. *)
Lemma keeps_send_request r :
  accepted r = true ->
  keeps (just_replied accepted command t0 r) (in_order accepted command t0)
    (send_command command).
Proof.
  intros Ha s (evs & data & Ht & Hok & Hr).
  destruct (send_command_cases command s) as (res & w1 & -> & _ & _ & Hcase). cbn [snd].
  destruct Hcase as [(_ & Ht1) | (e & tail & _ & Ht1 & Hq)].
  - exists ((evs ++ [EvRecv Control data]) ++ [request command]). cbn [world].
    rewrite Ht1, Ht, !app_assoc. split; [reflexivity |].
    apply (only_after_request _ _ r); assumption.
  - exists ((evs ++ [EvRecv Control data]) ++ tail). cbn [world].
    rewrite Ht1, Ht, !app_assoc. split; [reflexivity |].
    apply only_after_app; [exact Hok |].
    apply sends_nothing_no_request. exact Hq.
Qed.

(** A reply that is read is the last event when what follows starts. *)
Lemma keeps_receive_response_bind {A} Q (k : FTPResponse.t -> M Session A) :
  (forall s, in_order accepted command t0 s -> Q s) ->
  (forall r, keeps (just_replied accepted command t0 r) Q (k r)) ->
  keeps (in_order accepted command t0) Q (bind receive_response k).
Proof.
  intros Hq Hk s (evs & Ht & Hok). unfold bind.
  destruct (receive_response_cases s) as (res & w1 & E & _ & _ & Hcase). rewrite E.
  destruct Hcase as [(resp & data & text & -> & Ht1 & Hd & Hi) | (e & tail & -> & Ht1 & Hq1)].
  - apply Hk. exists evs, data. cbn [world]. rewrite Ht1, Ht, app_assoc.
    split; [reflexivity |]. split.
    + apply only_after_app; [exact Hok |]. constructor; [discriminate | constructor].
    + unfold reply_of. rewrite Hd, Hi. reflexivity.
  - cbn [snd]. apply Hq. exists (evs ++ tail). cbn [world]. rewrite Ht1, Ht, app_assoc.
    split; [reflexivity |]. apply only_after_app; [exact Hok |].
    apply sends_nothing_no_request. exact Hq1.
Qed.

Lemma keeps_receive_response :
  keeps (in_order accepted command t0) (in_order accepted command t0) receive_response.
Proof.
  intros s Hs.
  pose proof (keeps_receive_response_bind (in_order accepted command t0)
                (fun r => ret r) (fun _ Hs => Hs)
                (fun r s1 H1 => just_replied_in_order r s1 H1) s Hs) as Hb.
  unfold bind, ret in Hb. destruct (receive_response s) as [[r | e] s1]; exact Hb.
Qed.

End Order.

Section Requests.
Context `{Codecs}.
Import SecureFTPClient.

Hypothesis utf8_encode_injective : forall a b, utf8_encode a = utf8_encode b -> a = b.

Lemma request_injective a b : request a = request b -> (a ++ crlf = b ++ crlf)%string.
Proof. unfold request. intros E. injection E as E. apply utf8_encode_injective. exact E. Qed.

Ltac differs :=
  let E := fresh "E" in
  intros E; apply request_injective in E; cbn in E; discriminate E.

Ltac forget_reply accepted command t0 :=
  lazymatch goal with
  | |- keeps (just_replied _ _ _ _) _ _ =>
      apply (keeps_weaken (in_order accepted command t0)); [apply just_replied_in_order |]
  | |- _ => idtac
  end.

Ltac order_step accepted command t0 :=
  lazymatch goal with
  | |- keeps _ _ (ret _) => forget_reply accepted command t0; apply keeps_ret
  | |- keeps _ _ (if ?b then _ else _) => destruct b eqn:?
  | |- keeps _ _ (bind (if ?b then _ else _) _) => destruct b eqn:?
  | |- keeps _ _ (bind receive_response _) =>
      forget_reply accepted command t0;
      apply keeps_receive_response_bind; [exact (fun _ Hs => Hs) | intros ?]
  | |- keeps _ _ (bind _ _) =>
      apply (keeps_bind _ (in_order accepted command t0));
      [ | exact (fun _ Hs => Hs) | intros ? ]
  | |- keeps (just_replied _ _ _ ?r) _ (send_command _) =>
      first [ apply (keeps_send_request accepted command t0 r); assumption
            | forget_reply accepted command t0; apply keeps_send_command; differs ]
  | |- keeps _ _ (send_command _) => apply keeps_send_command; differs
  | |- keeps _ _ receive_response =>
      forget_reply accepted command t0; apply keeps_receive_response
  | |- keeps _ _ (swallow _) => apply keeps_swallow
  | |- keeps _ _ (update _) =>
      forget_reply accepted command t0; apply keeps_update; intros ? ? Hs; exact Hs
  | |- keeps _ _ (try_except _ _) =>
      apply (keeps_try_except _ (in_order accepted command t0));
      [ | exact (fun _ Hs => Hs) | intros ?; apply keeps_ret ]
  end.

Lemma login_in_order user pass t0 s :
  let command := ("PASS " ++ default (password (cfg (client s))) pass)%string in
  in_order (fun r => code_is r 331) command t0 s ->
  in_order (fun r => code_is r 331) command t0 (snd (login user pass s)).
Proof.
  cbv zeta. intros Hs. unfold login. unfold bind at 1. unfold self at 1. cbv beta iota.
  set (c := client s) in *. clearbody c. revert s Hs.
  refine (_ : keeps (in_order (fun r => code_is r 331) _ t0)
                (in_order (fun r => code_is r 331) _ t0) _).
  repeat order_step (fun r => code_is r 331)
    ("PASS " ++ default (password (cfg c)) pass)%string t0.
Qed.

Lemma cmd_rename_in_order args new_name t0 s :
  nth_error args 1 = Some new_name ->
  in_order FTPResponse.is_positive_intermediate ("RNTO " ++ new_name) t0 s ->
  in_order FTPResponse.is_positive_intermediate ("RNTO " ++ new_name) t0
    (snd (FTPCommands.cmd_rename args s)).
Proof.
  intros Hnew Hs. unfold FTPCommands.cmd_rename. unfold bind at 1.
  rewrite check_connection_run. destruct (ready (client s)); cbn [negb]; [| exact Hs].
  destruct args as [| old_name [| new_name' [| third more]]]; try exact Hs.
  cbn [nth_error] in Hnew. injection Hnew as ->. revert s Hs.
  refine (_ : keeps (in_order FTPResponse.is_positive_intermediate _ t0)
                (in_order FTPResponse.is_positive_intermediate _ t0) _).
  repeat order_step FTPResponse.is_positive_intermediate ("RNTO " ++ new_name)%string t0.
Qed.

Lemma in_order_start accepted command s :
  in_order accepted command (trace (world s)) s.
Proof. exists []. rewrite app_nil_r. split; [reflexivity | apply only_after_nil]. Qed.

Lemma in_order_new_events accepted command s s' :
  in_order accepted command (trace (world s)) s' ->
  only_after accepted command (new_events (world s) (world s')).
Proof. intros (evs & Ht & Hok). rewrite (new_events_app _ _ _ Ht). exact Hok. Qed.

(** X28.  [login] sends the password only when the server asked for it:
    in a run of [login] the request [PASS] goes out on the control connection
    only right after a reply with the code 331 has been read, be it the
    reply to the first [USER] or to the second one that follows a reply 503.
    After any other reply, and after any failure, no password is sent.  The
    requests are told apart by their bytes, so the encoding is taken to send
    different texts to different bytes, as UTF-8 does. *)
Theorem password_goes_out_after_331 user pass s :
  only_after (fun r => code_is r 331)
    ("PASS " ++ default (password (cfg (client s))) pass)
    (new_events (world s) (world (snd (login user pass s)))).
Proof. apply in_order_new_events, login_in_order, in_order_start. Qed.

(** X29.  [rename] names the new file only when the server accepted the
    old one: the request [RNTO] goes out only right after a reply to [RNFR]
    with a code from 300 to 399 has been read.  The encoding is taken to
    send different texts to different bytes. *)
Theorem rename_goes_on_after_a_3xx_reply old_name new_name s :
  only_after FTPResponse.is_positive_intermediate ("RNTO " ++ new_name)
    (new_events (world s) (world (snd (FTPCommands.cmd_rename [old_name; new_name] s)))).
Proof.
  apply in_order_new_events, (cmd_rename_in_order _ new_name); [reflexivity |].
  apply in_order_start.
Qed.

End Requests.

(** ** Uploads of many files *)

Section Prompt.
Context `{Codecs}.
Import SecureFTPClient.

Lemma glob_run pattern w :
  exists r w1,
    Env.glob pattern w = (r, w1)
    /\ trace w1 = trace w ++ [EvGlob pattern] /\ keyboard w1 = keyboard w.
Proof.
  unfold Env.glob, Env.next. cbn [tape log].
  destruct (tape w) as [| [] rest]; eexists _, _; repeat split; reflexivity.
Qed.

(** With prompting on and no [y] among the answers, the loop over the files
    only asks. *)
Lemma mput_each_declined files s :
  prompt_mode (client s) = true ->
  Forall (fun line => FTPCommands.lower_is_y line = false) (keyboard (world s)) ->
  exists r w1 evs,
    FTPCommands.mput_each files s = (r, mkSession (client s) w1)
    /\ trace w1 = trace (world s) ++ evs
    /\ Forall (fun e => chan_of e = None) evs
    /\ Forall (fun line => FTPCommands.lower_is_y line = false) (keyboard w1).
Proof.
  intros Hp. revert s Hp.
  induction files as [| file_path rest IH]; intros [c w] Hp Hk; cbn [client world] in *.
  - exists (Ok tt), w, []. rewrite app_nil_r. repeat split; [constructor | exact Hk].
  - cbn [FTPCommands.mput_each]. unfold bind at 1. unfold bind at 1.
    unfold env at 1, Env.exists_. cbn [world client].
    destruct (fs w !! file_path) as [content |].
    + unfold bind at 1. unfold self at 1. cbn [client]. rewrite Hp.
      unfold bind at 1. unfold bind at 1. unfold env at 1, Env.input. cbn [world client].
      destruct (keyboard w) as [| line typed] eqn:Ek.
      * eexists _, _, [_]. repeat split; [repeat constructor | cbn; rewrite Ek; constructor].
      * apply Forall_cons_1 in Hk as [Hline Htyped].
        unfold ret at 1. rewrite Hline. unfold ret at 1.
        destruct (IH (mkSession c (log (EvInput ("Upload " ++ file_path ++ "? (y/n): "))
                                      (set_keyboard typed w))) Hp Htyped)
          as (r & w1 & evs & -> & Ht & Hev & Hk1).
        exists r, w1, (EvInput ("Upload " ++ file_path ++ "? (y/n): ") :: evs).
        repeat split; [| constructor; [reflexivity | exact Hev] | exact Hk1].
        rewrite Ht. cbn [world log set_keyboard trace]. rewrite <- app_assoc. reflexivity.
    + unfold ret at 1. apply (IH (mkSession c w) Hp Hk).
Qed.

Lemma mput_patterns_declined patterns s :
  prompt_mode (client s) = true ->
  Forall (fun line => FTPCommands.lower_is_y line = false) (keyboard (world s)) ->
  exists w1 evs,
    FTPCommands.mput_patterns patterns s = (Ok tt, mkSession (client s) w1)
    /\ trace w1 = trace (world s) ++ evs
    /\ Forall (fun e => chan_of e = None) evs.
Proof.
  intros Hp. revert s Hp.
  induction patterns as [| pattern rest IH]; intros [c w] Hp Hk; cbn [client world] in *.
  - exists w, []. rewrite app_nil_r. repeat split. constructor.
  - cbn [FTPCommands.mput_patterns]. unfold bind at 1. unfold try_except.
    unfold bind at 1. unfold env at 1. cbn [world client].
    destruct (glob_run pattern w) as (rg & wg & -> & Htg & Hkg).
    assert (Hturn : exists w1 evs,
               (let '(r, s1) :=
                  match rg with
                  | Ok files => FTPCommands.mput_each files (mkSession c wg)
                  | Raise e => (Raise e, mkSession c wg)
                  end in
                match r with
                | Ok a => (Ok a, s1)
                | Raise e => ret tt s1
                end) = (Ok tt, mkSession c w1)
               /\ trace w1 = trace w ++ evs
               /\ Forall (fun e => chan_of e = None) evs
               /\ Forall (fun line => FTPCommands.lower_is_y line = false) (keyboard w1)).
    { destruct rg as [files | e].
      - destruct (mput_each_declined files (mkSession c wg) Hp) as (r & w1 & evs & -> & Ht & Hev & Hk1).
        + cbn [world]. rewrite Hkg. exact Hk.
        + exists w1, (EvGlob pattern :: evs). cbn [world client] in *.
          split; [destruct r as [[] | e]; reflexivity |].
          split; [rewrite Ht, Htg, <- app_assoc; reflexivity |].
          split; [constructor; [reflexivity | exact Hev] | exact Hk1].
      - exists wg, [EvGlob pattern]. split; [reflexivity |]. split; [exact Htg |].
        split; [repeat constructor | rewrite Hkg; exact Hk]. }
    destruct Hturn as (w1 & evs & -> & Ht & Hev & Hk1).
    destruct (IH (mkSession c w1) Hp Hk1) as (w2 & evs2 & -> & Ht2 & Hev2).
    exists w2, (evs ++ evs2). cbn [world client] in *.
    split; [reflexivity |]. split; [rewrite Ht2, Ht, app_assoc; reflexivity |].
    apply Forall_app. split; assumption.
Qed.

(** X30.  With prompting on, [mput] uploads no file the operator did not
    agree to.  When none of the lines typed ahead is [y] or [Y], the command
    only expands the patterns and asks: it returns with the client unchanged
    and without a call on a socket, so no file is sent to the scan agent or
    to the server; the end of the input counts as a refusal. *)
Theorem mput_asks_before_it_uploads args s :
  prompt_mode (client s) = true ->
  Forall (fun line => FTPCommands.lower_is_y line = false) (keyboard (world s)) ->
  let run := FTPCommands.cmd_mput args s in
  fst run = Ok tt
  /\ client (snd run) = client s
  /\ (forall e, In e (new_events (world s) (world (snd run))) -> chan_of e = None).
Proof.
  intros Hp Hk. cbv zeta. unfold FTPCommands.cmd_mput. unfold bind at 1 2 3.
  rewrite check_connection_run. destruct (ready (client s)); cbn [negb].
  - destruct (mput_patterns_declined args s Hp Hk) as (w1 & evs & -> & Ht & Hev).
    cbn [fst snd client world]. split; [reflexivity | split; [reflexivity |]].
    rewrite (new_events_app _ _ _ Ht). intros e He.
    rewrite Forall_forall in Hev. apply Hev. apply list_elem_of_In. exact He.
  - cbn [fst snd ret]. split; [reflexivity | split; [reflexivity |]].
    rewrite (new_events_app _ _ []) by (rewrite app_nil_r; reflexivity). intros e [].
Qed.

End Prompt.

(** ** The theorems at examples *)

(** The constructor raises at a reply that begins with a superscript two. *)
Lemma reply_with_superscript_digits_raises_witness :
  exists e, FTPResponse.__init__ superscript_reply = Raise e.
Proof.
  apply (proj2 (proj1 (reply_with_superscript_digits_raises superscript_reply))).
  split; reflexivity.
Defined.


(** A download into a directory that is missing, and one that replaces
    what the file held. *)
Lemma receive_file_via_socket_stores_what_arrives_witness :
  (fst (NetworkUtils.receive_file_via_socket Data "missing/report.pdf"
          missing_directory_world) = Ok false
   /\ fs (snd (NetworkUtils.receive_file_via_socket Data "missing/report.pdf"
                 missing_directory_world)) = fs missing_directory_world)
  /\ fs (snd (NetworkUtils.receive_file_via_socket Data "report.pdf" short_download_world))
       !! "report.pdf" = Some "twelve bytes".
Proof.
  split.
  - destruct (proj1 (receive_file_via_socket_stores_what_arrives Data "missing/report.pdf"
                       missing_directory_world)) as (Hr & _ & Hf);
      [discriminate | split; [exact Hr | exact Hf]].
  - destruct (proj2 (receive_file_via_socket_stores_what_arrives Data "report.pdf"
                       short_download_world) eq_refl) as (Hf & _).
    rewrite Hf, lookup_insert_eq. vm_compute. reflexivity.
Defined.

(** After a scan that went well no file is left. *)
Lemma handle_client_leaves_no_file_witness :
  no_new_file clean_scan_world
    (snd (ClamAVAgent.handle_client (H := AsciiCodecs.codecs) agent_config clean_scan_world)).
Proof.
  apply (proj2 (handle_client_leaves_no_file (H := AsciiCodecs.codecs) agent_config
                  clean_scan_world)).
  vm_compute. reflexivity.
Defined.

(** A peer that speaks another protocol, and one that sends no size. *)
Lemma handle_client_rejects_other_protocols_witness :
  fs (snd (ClamAVAgent.handle_client (H := AsciiCodecs.codecs) agent_config
             other_protocol_world)) = fs other_protocol_world
  /\ fs (snd (ClamAVAgent.handle_client (H := AsciiCodecs.codecs) agent_config
                no_size_world)) = fs no_size_world.
Proof.
  split.
  - pose proof (proj1 (handle_client_rejects_other_protocols (H := AsciiCodecs.codecs)
                         agent_config other_protocol_world)
                  "HELO scanner" [AOk] "HELO scanner" eq_refl) as T.
    cbv zeta in T. apply T; [vm_compute; discriminate | reflexivity | reflexivity].
  - pose proof (proj2 (handle_client_rejects_other_protocols (H := AsciiCodecs.codecs)
                         agent_config no_size_world)
                  "FILENAME:a.txt" "LENGTH:5" [AOk] "FILENAME:a.txt" "LENGTH:5" eq_refl) as T.
    cbv zeta in T.
    apply T; [vm_compute; discriminate | vm_compute; discriminate | reflexivity
             | reflexivity | reflexivity | left; reflexivity].
Defined.

(** [put] on a client that is not connected. *)
Lemma commands_need_a_session_witness :
  FTPCommands.execute_command (H := AsciiCodecs.codecs) "put" ["eicar.txt"] greeted_session
  = (Ok tt, greeted_session).
Proof.
  apply (proj1 (commands_need_a_session (H := AsciiCodecs.codecs) "put" ["eicar.txt"]
                  greeted_session)).
  - unfold session_commands. cbn [In]. do 12 right. left. reflexivity.
  - left. reflexivity.
Defined.

(** A word that is no command, and [ascii] on a client that is not
    connected. *)
Lemma execute_command_never_raises_witness :
  FTPCommands.execute_command (H := AsciiCodecs.codecs) "frobnicate" [] greeted_session
  = (Ok tt, greeted_session)
  /\ FTPCommands.execute_command (H := AsciiCodecs.codecs) "ascii" [] greeted_session
     = (Ok tt, greeted_session).
Proof.
  destruct (execute_command_never_raises (H := AsciiCodecs.codecs) "frobnicate" []
              greeted_session) as (_ & Hunknown & Hoff).
  split.
  - apply Hunknown. unfold known_commands. cbn [In]. intros Hin.
    repeat (destruct Hin as [E | Hin]; [discriminate E |]). destruct Hin.
  - apply Hoff. reflexivity.
Defined.

(** The mode [ASCII] in capitals. *)
Lemma transfer_mode_changes_before_the_reply_witness :
  SecureFTPClient.transfer_mode
    (SecureFTPClient.client
       (snd (SecureFTPClient.set_transfer_mode (H := AsciiCodecs.codecs) "ASCII" type_session)))
  = "ascii".
Proof.
  exact (transfer_mode_changes_before_the_reply (H := AsciiCodecs.codecs) "ASCII" type_session
           [ABytes "200 Type set to A"] eq_refl eq_refl eq_refl).
Defined.

(** A login on a client that is not connected. *)
Lemma login_sets_the_flag_or_nothing_witness :
  SecureFTPClient.login (H := AsciiCodecs.codecs) None None greeted_session
  = (Ok false, greeted_session).
Proof.
  pose proof (login_sets_the_flag_or_nothing (H := AsciiCodecs.codecs) None None
                greeted_session) as T.
  cbv zeta in T. apply (proj1 T). reflexivity.
Defined.

(** Disconnecting a client that is not connected. *)
Lemma disconnect_ends_the_session_witness :
  SecureFTPClient.disconnect (H := AsciiCodecs.codecs) greeted_session
  = (Ok tt, greeted_session).
Proof.
  pose proof (disconnect_ends_the_session (H := AsciiCodecs.codecs) greeted_session) as T.
  cbv zeta in T. apply (proj1 (proj2 T)). reflexivity.
Defined.

(** A passive data connection to the port 50000 of the server. *)
Lemma data_connection_follows_the_reply_witness :
  SecureFTPClient.client
    (snd (SecureFTPClient.open_data_connection (H := AsciiCodecs.codecs) passive_session))
  = logged_in_client.
Proof.
  destruct (SecureFTPClient.open_data_connection (H := AsciiCodecs.codecs) passive_session)
    as [r s'] eqn:Erun.
  pose proof (f_equal fst Erun) as Hr. vm_compute in Hr.
  destruct r as [[] | e]; [| discriminate Hr].
  exact (proj1 (data_connection_follows_the_reply (H := AsciiCodecs.codecs) passive_session s'
                  Erun)).
Defined.

(** From the root to [/pub] and back. *)
Lemma cd_there_and_back_witness :
  SecureFTPClient.current_dir
    (SecureFTPClient.client
       (snd (FTPCommands.cmd_cd (H := AsciiCodecs.codecs) ["pub"] cd_session))) = "/pub"
  /\ SecureFTPClient.current_dir
       (SecureFTPClient.client
          (snd (FTPCommands.cmd_cd (H := AsciiCodecs.codecs) [".."]
                  (snd (FTPCommands.cmd_cd (H := AsciiCodecs.codecs) ["pub"] cd_session)))))
     = "/".
Proof.
  pose proof (cd_there_and_back (H := AsciiCodecs.codecs) [] "pub" cd_session
                "250 Directory changed" "250 Directory changed" []
                "250 Directory changed" "250 Directory changed") as T.
  edestruct T as [Hthere _];
    [ reflexivity | reflexivity | reflexivity | constructor | split; reflexivity
    | discriminate | reflexivity | vm_compute; discriminate | vm_compute; discriminate
    | reflexivity | vm_compute; reflexivity | reflexivity | vm_compute; reflexivity | ].
  destruct (Hthere eq_refl) as [H1 H2]. split; [exact H1 | exact (H2 eq_refl)].
Defined.

(** The directory [/pub] between the quotes. *)
Lemma pwd_reads_the_quoted_directory_witness :
  SecureFTPClient.current_dir
    (SecureFTPClient.client
       (snd (FTPCommands.cmd_pwd (H := AsciiCodecs.codecs) [] pwd_session))) = "/pub".
Proof.
  pose proof (pwd_reads_the_quoted_directory (H := AsciiCodecs.codecs) [] pwd_session
                pwd_reply [] pwd_reply) as T.
  edestruct T as [Hquoted _];
    [ reflexivity | reflexivity | reflexivity | vm_compute; discriminate | reflexivity
    | vm_compute; reflexivity | reflexivity | ].
  apply (Hquoted EmptyString "/pub" " is the current directory"); reflexivity.
Defined.

(** An upload that the scan blocks writes no file. *)
Lemma other_commands_leave_the_files_witness :
  fs (SecureFTPClient.world
        (snd (FTPCommands.execute_command (H := AsciiCodecs.codecs) "put" ["eicar.txt"]
                infected_upload_session)))
  = fs (SecureFTPClient.world infected_upload_session).
Proof.
  apply (other_commands_leave_the_files (H := AsciiCodecs.codecs) "put" ["eicar.txt"]
           infected_upload_session).
  intros [E | [E | [E | []]]]; discriminate E.
Defined.

(** [set] of [client.timeout] on a configuration without sections. *)
Lemma set_then_get_witness :
  ConfigManager.set "client.timeout" (PyInt 30) empty_configuration
  = (Ok tt, timeout_configuration)
  /\ ConfigManager.get "client.timeout" PyNone timeout_configuration
     = (Ok (PyInt 30), timeout_configuration).
Proof.
  split; [reflexivity |].
  apply (proj1 (set_then_get "client.timeout" (PyInt 30) empty_configuration
                  timeout_configuration eq_refl)).
Defined.

(** A path into a section that is missing. *)
Lemma get_gives_the_default_witness :
  fst (ConfigManager.get "ftp_server.host" (PyStr "localhost") empty_configuration)
  = Ok (PyStr "localhost").
Proof.
  eapply (proj2 (proj2 (get_gives_the_default "ftp_server.host" (PyStr "localhost")
                          empty_configuration))).
  reflexivity.
Defined.

(** The configuration that has every entry is accepted. *)
Lemma validate_config_accepts_witness :
  fst (ConfigManager.validate_config full_configuration) = Ok tt.
Proof.
  apply (proj2 (proj2 (validate_config_accepts full_configuration))).
  split; [| repeat split; eexists; split; reflexivity].
  intros section keys key Hin Hkey. unfold ConfigManager.required_sections in Hin.
  cbn [In] in Hin.
  destruct Hin as [E | [E | [E | []]]]; injection E as <- <-; cbn [In] in Hkey;
    repeat (destruct Hkey as [<- | Hkey]; [eexists; reflexivity |]); destruct Hkey.
Defined.

(** No scan agent listens and the operator answers [n]: nothing is
    uploaded. *)
Lemma unscanned_upload_needs_consent_witness :
  let run :=
    FTPCommands.cmd_put (H := AsciiCodecs.codecs) ["eicar.txt"] unscanned_upload_session in
  fst run = Ok tt /\ SecureFTPClient.client (snd run) = logged_in_client.
Proof.
  cbv zeta.
  destruct (NetworkUtils.send_file_to_clamav (H := AsciiCodecs.codecs) "eicar.txt"
              "127.0.0.1" 9999 (SecureFTPClient.world unscanned_upload_session))
    as [r w1] eqn:Hscan.
  pose proof (f_equal fst Hscan) as Hr. vm_compute in Hr.
  destruct r as [scan_result | e]; [| discriminate Hr].
  injection Hr as Hr. subst scan_result.
  destruct (unscanned_upload_needs_consent (H := AsciiCodecs.codecs)
              unscanned_upload_session "eicar.txt" [] _ w1 Hscan) as (Hrun & Hc & _).
  - right. split; [vm_compute; reflexivity |].
    intros confirm E. vm_compute in E. injection E as <-. reflexivity.
  - split; [exact Hrun | exact Hc].
Defined.

(** A login that is asked for the password. *)
Lemma password_goes_out_after_331_witness :
  exists earlier data r,
    [request (H := AsciiCodecs.codecs) "AUTH TLS"; EvRecv Control "234 AUTH TLS ok";
     request (H := AsciiCodecs.codecs) "USER testuser"; EvRecv Control "331 Password required"]
    = earlier ++ [EvRecv Control data]
    /\ reply_of (H := AsciiCodecs.codecs) data = Some r
    /\ SecureFTPClient.code_is r 331 = true.
Proof.
  apply (password_goes_out_after_331 (H := AsciiCodecs.codecs) (fun a b E => E) None None
           login_session _ [EvRecv Control "230 Logged in"]).
  vm_compute. reflexivity.
Defined.

(** A renaming that the server accepts. *)
Lemma rename_goes_on_after_a_3xx_reply_witness :
  exists earlier data r,
    [request (H := AsciiCodecs.codecs) "RNFR a.txt"; EvRecv Control "350 Ready for RNTO"]
    = earlier ++ [EvRecv Control data]
    /\ reply_of (H := AsciiCodecs.codecs) data = Some r
    /\ FTPResponse.is_positive_intermediate r = true.
Proof.
  apply (rename_goes_on_after_a_3xx_reply (H := AsciiCodecs.codecs) (fun a b E => E)
           "a.txt" "b.txt" rename_session _ [EvRecv Control "250 Rename successful"]).
  vm_compute. reflexivity.
Defined.

(** [mget] with a wildcard pattern writes no file. *)
Lemma mget_writes_the_named_files_witness :
  fs (SecureFTPClient.world
        (snd (FTPCommands.execute_command (H := AsciiCodecs.codecs) "mget" ["*.txt"]
                cd_session))) !! "notes.txt"
  = fs (SecureFTPClient.world cd_session) !! "notes.txt".
Proof.
  apply (mget_writes_the_named_files (H := AsciiCodecs.codecs) ["*.txt"] "notes.txt"
           cd_session).
  intros pattern [<- | []] Hstar. vm_compute in Hstar. discriminate Hstar.
Defined.

(** The operator refuses the one file that matches. *)
Lemma mput_asks_before_it_uploads_witness :
  let run := FTPCommands.cmd_mput (H := AsciiCodecs.codecs) ["*.txt"] mput_session in
  fst run = Ok tt /\ SecureFTPClient.client (snd run) = logged_in_client.
Proof.
  cbv zeta.
  destruct (mput_asks_before_it_uploads (H := AsciiCodecs.codecs) ["*.txt"] mput_session)
    as (Hr & Hc & _); [reflexivity | repeat constructor |].
  split; [exact Hr | exact Hc].
Defined.
